(** * A verification model of the CLI script generator

    The development embeds [scripts/generate_cli_script.py]: the parameter
    grammar ([parse_param_token], [parse_params]), the default coercion
    ([python_cast_value]), the two surface renderers
    ([generate_cli_content], [generate_script_content]), the file materializer
    ([write_file]) and the entry point ([main]).  It also embeds the
    extraction functions and the prompt generator of
    [scripts/scripts_index.py], the index that reads the generated scripts.

    Conventions of the embedding.
    - A Python [str] is a [string] holding its UTF-8 bytes.  The character
      classes used by the program ([str.strip], [str.lower], the regular
      expression classes [\w] and [\s], [repr]) are exact on ASCII text; a byte
      above 127 is never whitespace, is left alone by [lower] and [repr], and
      counts as a word character.
    - [int(val)] and [float(val)] and the texts [str] gives of their values
      are computed with exact integer arithmetic, a binary64 value being a
      mantissa and a binary exponent.
    - A raised exception is a value of [exn]; a function that may raise returns
      a [result].
    - The file system is a tree of directories and files rooted at the current
      working directory; a path is the list of its components.  A component
      is looked up as a name: [..] is not resolved and no path is absolute,
      so two paths name the same file only when they are equal, which is so
      for relative paths without [..].  The statements that tell files apart
      by their paths are made for such paths. *)

From Stdlib Require Import String Ascii List Bool Arith ZArith Lia.
Import ListNotations.
Open Scope string_scope.
Open Scope nat_scope.

(** ** Python string primitives *)

Module PyStr.

Definition code (c : ascii) : nat := nat_of_ascii c.

Definition in_range (lo hi : nat) (c : ascii) : bool :=
  (lo <=? code c) && (code c <=? hi).

Definition is_char (n : nat) (c : ascii) : bool := code c =? n.

(** [str.isspace] on one character: TAB..CR, FS..US and the space. *)
Definition is_space (c : ascii) : bool :=
  in_range 9 13 c || in_range 28 31 c || is_char 32 c.

Definition is_digit (c : ascii) : bool := in_range 48 57 c.
Definition is_upper (c : ascii) : bool := in_range 65 90 c.
Definition is_lower (c : ascii) : bool := in_range 97 122 c.
Definition is_alpha (c : ascii) : bool := is_upper c || is_lower c.

(** The class [\w] of [re]. *)
Definition is_word (c : ascii) : bool :=
  is_digit c || is_alpha c || is_char 95 c || (128 <=? code c).

(** The class [[A-Za-z0-9_]]. *)
Definition is_ident_char (c : ascii) : bool :=
  is_alpha c || is_digit c || is_char 95 c.

Definition lower_char (c : ascii) : ascii :=
  if is_upper c then ascii_of_nat (code c + 32) else c.

Fixpoint lower (s : string) : string :=
  match s with
  | EmptyString => EmptyString
  | String c r => String (lower_char c) (lower r)
  end.

Fixpoint filter (f : ascii -> bool) (s : string) : string :=
  match s with
  | EmptyString => EmptyString
  | String c r => if f c then String c (filter f r) else filter f r
  end.

Fixpoint forallb (f : ascii -> bool) (s : string) : bool :=
  match s with
  | EmptyString => true
  | String c r => f c && forallb f r
  end.

Fixpoint existsb (f : ascii -> bool) (s : string) : bool :=
  match s with
  | EmptyString => false
  | String c r => f c || existsb f r
  end.

Fixpoint lstrip_by (f : ascii -> bool) (s : string) : string :=
  match s with
  | EmptyString => EmptyString
  | String c r => if f c then lstrip_by f r else s
  end.

Fixpoint rstrip_by (f : ascii -> bool) (s : string) : string :=
  match s with
  | EmptyString => EmptyString
  | String c r =>
      match rstrip_by f r with
      | EmptyString => if f c then EmptyString else String c EmptyString
      | r' => String c r'
      end
  end.

Definition strip_by (f : ascii -> bool) (s : string) : string :=
  rstrip_by f (lstrip_by f s).

(** [s.strip()], [s.rstrip()] and [s.strip("_")]. *)
Definition strip (s : string) : string := strip_by is_space s.
Definition rstrip (s : string) : string := rstrip_by is_space s.
Definition strip_underscores (s : string) : string := strip_by (is_char 95) s.

(** [s.split(sep)] for a one-character separator. *)
Fixpoint split_on (sep : ascii) (s : string) : list string :=
  match s with
  | EmptyString => [EmptyString]
  | String c r =>
      if Ascii.eqb c sep then EmptyString :: split_on sep r
      else match split_on sep r with
           | h :: t => String c h :: t
           | [] => [String c EmptyString]
           end
  end.

(** [sep.join(parts)]. *)
Fixpoint join (sep : string) (parts : list string) : string :=
  match parts with
  | [] => EmptyString
  | [p] => p
  | p :: rest => p ++ sep ++ join sep rest
  end.

Fixpoint starts_with (p s : string) : bool :=
  match p, s with
  | EmptyString, _ => true
  | String a p', String b s' => Ascii.eqb a b && starts_with p' s'
  | String _ _, EmptyString => false
  end.

(** [sub in s]. *)
Fixpoint contains (sub s : string) : bool :=
  starts_with sub s ||
  match s with
  | EmptyString => false
  | String _ r => contains sub r
  end.

Fixpoint repeat_char (c : ascii) (n : nat) : string :=
  match n with
  | O => EmptyString
  | S k => String c (repeat_char c k)
  end.

Definition spaces (n : nat) : string := repeat_char " "%char n.

(** The double quote, the backslash and the line feed as one-character strings. *)
Definition dq : string := String (ascii_of_nat 34) EmptyString.
Definition bs : string := String (ascii_of_nat 92) EmptyString.
Definition nl : string := String (ascii_of_nat 10) EmptyString.

Definition hex_digit (n : nat) : ascii :=
  if n <? 10 then ascii_of_nat (48 + n) else ascii_of_nat (87 + n).

(** One character of [repr(s)], for the chosen quote. *)
Definition repr_char (quote : ascii) (c : ascii) : string :=
  if Ascii.eqb c quote || is_char 92 c then bs ++ String c EmptyString
  else if is_char 9 c then bs ++ "t"
  else if is_char 10 c then bs ++ "n"
  else if is_char 13 c then bs ++ "r"
  else if (code c <? 32) || is_char 127 c then
    bs ++ "x" ++ String (hex_digit (code c / 16))
                   (String (hex_digit (code c mod 16)) EmptyString)
  else String c EmptyString.

Fixpoint repr_body (quote : ascii) (s : string) : string :=
  match s with
  | EmptyString => EmptyString
  | String c r => repr_char quote c ++ repr_body quote r
  end.

(** [repr(s)] of a [str]: single quotes unless the text has a single quote and
    no double quote. *)
Definition repr (s : string) : string :=
  let quote :=
    if existsb (is_char 39) s && negb (existsb (is_char 34) s)
    then ascii_of_nat 34 else ascii_of_nat 39 in
  String quote (repr_body quote s ++ String quote EmptyString).

End PyStr.

(** ** Python number conversions *)

Module PyNum.
Import PyStr.

(** Digits with single underscores between them: [[0-9](_?[0-9])*]. *)
Fixpoint digits_tail (s : string) : bool :=
  match s with
  | EmptyString => true
  | String c r =>
      if is_digit c then digits_tail r
      else if is_char 95 c then
        match r with
        | String d r' => is_digit d && digits_tail r'
        | EmptyString => false
        end
      else false
  end.

Definition digits_ok (s : string) : bool :=
  match s with
  | String c r => is_digit c && digits_tail r
  | EmptyString => false
  end.

(** Splits an optional sign off; the flag tells a minus sign. *)
Definition split_sign (s : string) : bool * string :=
  match s with
  | String c r =>
      if is_char 45 c then (true, r)
      else if is_char 43 c then (false, r)
      else (false, s)
  | EmptyString => (false, s)
  end.

(** The whitespace [int] and [float] skip at either end of an ASCII text:
    TAB..CR and the space, but not FS..US, which [str.strip] removes. *)
Definition is_number_space (c : ascii) : bool :=
  in_range 9 13 c || is_char 32 c.

Definition strip_number (s : string) : string := strip_by is_number_space s.

(** [str(int(val))]; [None] when [int(val)] raises [ValueError], on ASCII
    text.  The interpreter's optional cap on the number of digits is not
    modelled. *)
Definition int_str (val : string) : option string :=
  let (neg, body) := split_sign (strip_number val) in
  if digits_ok body then
    match lstrip_by (is_char 48) (filter is_digit body) with
    | EmptyString => Some "0"
    | d => Some (if neg then "-" ++ d else d)
    end
  else None.

(** *** Floating point, by exact integer arithmetic

    A finite binary64 value is [mant * 2 ^ ex] with [mant < 2 ^ 53] and
    [-1074 <= ex <= 971]. *)

Open Scope Z_scope.

Inductive float : Type :=
| FNan
| FInf (neg : bool)
| FZero (neg : bool)
| FFin (neg : bool) (mant ex : Z).

Definition digit_val (c : ascii) : Z := Z.of_nat (code c) - 48.

Fixpoint digits_val (acc : Z) (s : string) : Z :=
  match s with
  | EmptyString => acc
  | String c r => digits_val (10 * acc + digit_val c) r
  end.

(** Quotient of [a] by [b] rounded to the nearest integer, ties to even. *)
Definition div_half_even (a b : Z) : Z :=
  let q := a / b in
  let r := a mod b in
  if 2 * r <? b then q
  else if b <? 2 * r then q + 1
  else if Z.even q then q else q + 1.

(** [floor (log2 (num / den))] for positive [num] and [den]. *)
Definition log2_ratio (num den : Z) : Z :=
  let l := Z.log2 num - Z.log2 den in
  let ge := if 0 <=? l then den * 2 ^ l <=? num else den <=? num * 2 ^ (- l) in
  if ge then l else l - 1.

(** The binary64 value nearest to [m * 10 ^ e10], for [0 <= m]. *)
Definition round_decimal (neg : bool) (m e10 : Z) : float :=
  if m =? 0 then FZero neg
  else
    let num := if 0 <=? e10 then m * 10 ^ e10 else m in
    let den := if 0 <=? e10 then 1 else 10 ^ (- e10) in
    let ex := Z.max (log2_ratio num den - 52) (-1074) in
    let mant :=
      if 0 <=? ex then div_half_even num (den * 2 ^ ex)
      else div_half_even (num * 2 ^ (- ex)) den in
    let '(mant, ex) := if mant =? 2 ^ 53 then (2 ^ 52, ex + 1) else (mant, ex) in
    if mant =? 0 then FZero neg
    else if 971 <? ex then FInf neg
    else FFin neg mant ex.

(** The check and removal of underscores done before the text is scanned: an
    underscore stands only between two digits. *)
Fixpoint strip_underscores_from (prev : ascii) (s : string) : option string :=
  match s with
  | EmptyString => if is_char 95 prev then None else Some EmptyString
  | String c r =>
      if is_char 95 c then
        if is_digit prev then strip_underscores_from c r else None
      else if is_char 95 prev && negb (is_digit c) then None
      else option_map (String c) (strip_underscores_from c r)
  end.

Fixpoint span_digits (s : string) : string * string :=
  match s with
  | String c r =>
      if is_digit c then let (d, rest) := span_digits r in (String c d, rest)
      else (EmptyString, s)
  | EmptyString => (EmptyString, EmptyString)
  end.

(** The exponent part [[eE][+-]?[0-9]+] closing the text, or no exponent. *)
Definition parse_exponent (s : string) : option Z :=
  match s with
  | EmptyString => Some 0
  | String c r =>
      if is_char 101 c || is_char 69 c then
        let (neg, body) := split_sign r in
        let (d, rest) := span_digits body in
        match d, rest with
        | String _ _, EmptyString =>
            Some (if neg then - digits_val 0 d else digits_val 0 d)
        | _, _ => None
        end
      else None
  end.

(** [float(val)]; [None] when it raises [ValueError]. *)
Definition parse_float (val : string) : option float :=
  match strip_underscores_from "a"%char (strip_number val) with
  | None => None
  | Some s =>
      let (neg, body) := split_sign s in
      let name := lower body in
      if String.eqb name "inf" || String.eqb name "infinity" then Some (FInf neg)
      else if String.eqb name "nan" then Some FNan
      else
        let (ip, rest) := span_digits body in
        let (fp, rest) :=
          match rest with
          | String c r => if is_char 46 c then span_digits r else (EmptyString, rest)
          | EmptyString => (EmptyString, rest)
          end in
        match (ip ++ fp)%string with
        | EmptyString => None
        | _ =>
            match parse_exponent rest with
            | None => None
            | Some e =>
                Some (round_decimal neg (digits_val 0 (ip ++ fp)%string)
                        (e - Z.of_nat (String.length fp)))
            end
        end
  end.

Definition digit_char (d : Z) : ascii := ascii_of_nat (48 + Z.to_nat d).

(** Decimal digits of a non-negative integer, most significant first. *)
Fixpoint digits_of_fuel (fuel : nat) (n : Z) (acc : string) : string :=
  match fuel with
  | O => acc
  | S k =>
      if n <? 10 then String (digit_char n) acc
      else digits_of_fuel k (n / 10) (String (digit_char (n mod 10)) acc)
  end.

Definition digits_of (n : Z) : string :=
  digits_of_fuel (S (Z.to_nat (Z.log2 n))) n EmptyString.

Definition num_digits (n : Z) : Z := Z.of_nat (String.length (digits_of n)).

Definition same_finite (f : float) (mant ex : Z) : bool :=
  match f with
  | FFin _ m e => (m =? mant) && (e =? ex)
  | _ => false
  end.

(** The shortest digit string that reads back as [mant * 2 ^ ex], searched
    over [n] significant digits for [n] from [17 - fuel] on, with its decimal
    point position: the value is [0.digits * 10 ^ decpt]. *)
Fixpoint shortest_from (fuel : nat) (n : Z) (mant ex xn xd k : Z)
  : string * Z :=
  let a := if 0 <=? n - k then xn * 10 ^ (n - k) else xn in
  let b := if 0 <=? n - k then xd else xd * 10 ^ (k - n) in
  let lo := a / b in
  let r := a mod b in
  let ok_lo := same_finite (round_decimal false lo (k - n)) mant ex in
  let ok_hi := same_finite (round_decimal false (lo + 1) (k - n)) mant ex in
  let lo_nearer := (2 * r <? b) || ((2 * r =? b) && Z.even lo) in
  let pick (d : Z) : string * Z :=
    let ds := digits_of d in
    (rstrip_by (is_char 48) ds, k + (Z.of_nat (String.length ds) - n)) in
  match fuel with
  | O => pick (if lo_nearer then lo else lo + 1)
  | S f =>
      if ok_lo && ok_hi then pick (if lo_nearer then lo else lo + 1)
      else if ok_lo then pick lo
      else if ok_hi then pick (lo + 1)
      else shortest_from f (n + 1) mant ex xn xd k
  end.

Definition shortest_digits (mant ex : Z) : string * Z :=
  let xn := if 0 <=? ex then mant * 2 ^ ex else mant in
  let xd := if 0 <=? ex then 1 else 2 ^ (- ex) in
  let j := num_digits xn - num_digits xd in
  let ge := if 0 <=? j then xd * 10 ^ j <=? xn else xd <=? xn * 10 ^ (- j) in
  let k := if ge then j + 1 else j in
  shortest_from 16 1 mant ex xn xd k.

Definition zeros (n : Z) : string := repeat_char "0"%char (Z.to_nat n).

(** [repr] of a float from its digits: exponent form when the decimal point
    position is beyond 16 or below -3. *)
Definition format_repr (ds : string) (decpt : Z) : string :=
  let n := Z.of_nat (String.length ds) in
  if (decpt <=? -4) || (16 <? decpt) then
    let e := decpt - 1 in
    let mantissa :=
      match ds with
      | String c EmptyString => ds
      | String c r => (String c "." ++ r)%string
      | EmptyString => ds
      end in
    let sign := if e <? 0 then "-"%string else "+"%string in
    let pad := if Z.abs e <? 10 then "0"%string else EmptyString in
    (mantissa ++ "e" ++ sign ++ pad ++ digits_of (Z.abs e))%string
  else if decpt <=? 0 then ("0." ++ zeros (- decpt) ++ ds)%string
  else if n <=? decpt then (ds ++ zeros (decpt - n) ++ ".0")%string
  else (substring 0 (Z.to_nat decpt) ds ++ "."
          ++ substring (Z.to_nat decpt) (Z.to_nat (n - decpt)) ds)%string.

Definition float_repr (f : float) : string :=
  match f with
  | FNan => "nan"
  | FInf neg => if neg then "-inf" else "inf"
  | FZero neg => if neg then "-0.0" else "0.0"
  | FFin neg mant ex =>
      let (ds, decpt) := shortest_digits mant ex in
      ((if neg then "-" else "") ++ format_repr ds decpt)%string
  end.

(** [str(float(val))]; [None] when [float(val)] raises [ValueError]. *)
Definition float_str (val : string) : option string :=
  option_map float_repr (parse_float val).

Close Scope Z_scope.

End PyNum.

(** ** Exceptions and results *)

Inductive exn : Type :=
| ValueError (msg : string)
| FileExistsError (msg : string)
| FileNotFoundError (msg : string)
| NotADirectoryError (msg : string)
| IsADirectoryError (msg : string).

(** [str(e)]. *)
Definition exn_str (e : exn) : string :=
  match e with
  | ValueError m | FileExistsError m | FileNotFoundError m
  | NotADirectoryError m | IsADirectoryError m => m
  end.

Inductive result (A : Type) : Type :=
| Ok (a : A)
| Raise (e : exn).

Arguments Ok {A} a.
Arguments Raise {A} e.

Definition bind {A B : Type} (r : result A) (k : A -> result B) : result B :=
  match r with
  | Ok a => k a
  | Raise e => Raise e
  end.

Notation "x <- r ;; k" := (bind r (fun x => k))
  (at level 61, r at next level, right associativity).

Fixpoint mapM {A B : Type} (f : A -> result B) (l : list A) : result (list B) :=
  match l with
  | [] => Ok []
  | a :: rest => b <- f a ;; bs <- mapM f rest ;; Ok (b :: bs)
  end.

(** ** Data model and utilities *)

Import PyStr.

Record ParamSpec : Type := mkParamSpec {
  name : string;
  type : string;
  required : bool;
  default : option string
}.

Definition mem (s : string) (l : list string) : bool :=
  List.existsb (String.eqb s) l.

Definition SUPPORTED_TYPES : list string := ["str"; "int"; "float"; "bool"].

Fixpoint insert_sorted (s : string) (l : list string) : list string :=
  match l with
  | [] => [s]
  | h :: t => if String.leb s h then s :: l else h :: insert_sorted s t
  end.

(** [sorted(l)] on strings. *)
Definition sorted (l : list string) : list string :=
  fold_right insert_sorted [] l.

(** [re.sub(r"[-\s]+", "_", s)]: every maximal run of hyphens and whitespace
    becomes one underscore. *)
Definition is_separator (c : ascii) : bool := is_char 45 c || is_space c.

Fixpoint collapse_separators (in_run : bool) (s : string) : string :=
  match s with
  | EmptyString => EmptyString
  | String c r =>
      if is_separator c then
        if in_run then collapse_separators true r
        else String "_" (collapse_separators true r)
      else String c (collapse_separators false r)
  end.

Definition snake (s : string) : string :=
  let s := filter (fun c => is_word c || is_space c || is_char 45 c) s in
  let s := strip_underscores (collapse_separators false s) in
  lower s.

(** The tail of [^[A-Za-z_][A-Za-z0-9_]*$]: [$] also matches just before a
    line feed that ends the text. *)
Fixpoint identifier_tail (s : string) : bool :=
  match s with
  | EmptyString => true
  | String c r =>
      if is_ident_char c then identifier_tail r
      else is_char 10 c && String.eqb r EmptyString
  end.

Definition valid_identifier (s : string) : bool :=
  match s with
  | EmptyString => false
  | String c r => (is_alpha c || is_char 95 c) && identifier_tail r
  end.

Definition parse_param_token (token : string) : result ParamSpec :=
  let parts := split_on ":" token in
  if (List.length parts <? 2) || (3 <? List.length parts) then
    Raise (ValueError ("Invalid --param format: '" ++ token
                         ++ "'. Expected 'name:type[:default]'"))
  else
    let name := strip (nth 0 parts EmptyString) in
    let typ := strip (nth 1 parts EmptyString) in
    let default :=
      if List.length parts =? 3 then Some (strip (nth 2 parts EmptyString))
      else None in
    if String.eqb name EmptyString || negb (valid_identifier (snake name)) then
      Raise (ValueError ("Invalid parameter name: '" ++ name ++ "'"))
    else if negb (mem typ SUPPORTED_TYPES) then
      Raise (ValueError ("Unsupported type '" ++ typ ++ "' in '" ++ token
                           ++ "'. Supported: "
                           ++ join ", " (sorted SUPPORTED_TYPES)))
    else
      let required := match default with None => true | Some _ => false end in
      Ok (mkParamSpec (snake name) typ required default).

(** The loop of [parse_params]: [seen] is the set of names met so far,
    [specs] the descriptors appended so far. *)
Fixpoint parse_params_loop (tokens : list string) (seen : list string)
    (specs : list ParamSpec) : result (list ParamSpec) :=
  match tokens with
  | [] => Ok specs
  | t :: rest =>
      spec <- parse_param_token t ;;
      if mem (name spec) seen then
        Raise (ValueError ("Duplicate parameter name: '" ++ name spec ++ "'"))
      else parse_params_loop rest (name spec :: seen) (specs ++ [spec])%list
  end.

Definition parse_params (tokens : list string) : result (list ParamSpec) :=
  parse_params_loop tokens [] [].

Definition click_type (typ : string) : string :=
  if String.eqb typ "str" then "str"
  else if String.eqb typ "int" then "int"
  else if String.eqb typ "float" then "float"
  else if String.eqb typ "bool" then "bool"
  else "str".

(** The messages of the two conversion errors show the value whole; the
    interpreter shortens a very long one. *)
Definition python_cast_value (typ val : string) : result string :=
  if String.eqb typ "str" then Ok (repr val)
  else if String.eqb typ "int" then
    match PyNum.int_str val with
    | Some s => Ok s
    | None =>
        Raise (ValueError ("invalid literal for int() with base 10: " ++ repr val))
    end
  else if String.eqb typ "float" then
    match PyNum.float_str val with
    | Some s => Ok s
    | None =>
        Raise (ValueError ("could not convert string to float: " ++ repr val))
    end
  else if String.eqb typ "bool" then
    if mem (lower val) ["1"; "true"; "yes"; "y"; "on"] then Ok "True"
    else if mem (lower val) ["0"; "false"; "no"; "n"; "off"] then Ok "False"
    else Raise (ValueError ("Invalid boolean default: " ++ val))
  else Ok (repr val).

(** ** [textwrap] and further string operations *)

Definition tq : string := dq ++ dq ++ dq.

(** The lines of a text, each closed by a line feed. *)
Definition unlines (lines : list string) : string :=
  String.concat EmptyString (map (fun l => l ++ nl) lines).

(** [s.replace("_", "-")]. *)
Fixpoint underscores_to_hyphens (s : string) : string :=
  match s with
  | EmptyString => EmptyString
  | String c r =>
      String (if is_char 95 c then "-"%char else c) (underscores_to_hyphens r)
  end.

Definition upper_char (c : ascii) : ascii :=
  if is_lower c then ascii_of_nat (code c - 32) else c.

(** [s.capitalize()]. *)
Definition capitalize (s : string) : string :=
  match s with
  | EmptyString => EmptyString
  | String c r => String (upper_char c) (lower r)
  end.

(** [s.splitlines(True)]: the line boundaries are LF, CR, CR LF, VT, FF, FS,
    GS and RS, and every line keeps its boundary. *)
Definition is_line_break (c : ascii) : bool :=
  in_range 10 13 c || in_range 28 30 c.

Fixpoint splitlines_keepends (s : string) : list string :=
  match s with
  | EmptyString => []
  | String c r =>
      if is_line_break c then
        match r with
        | String d r' =>
            if is_char 13 c && is_char 10 d
            then String c (String d EmptyString) :: splitlines_keepends r'
            else String c EmptyString :: splitlines_keepends r
        | EmptyString => [String c EmptyString]
        end
      else
        match splitlines_keepends r with
        | h :: t => String c h :: t
        | [] => [String c EmptyString]
        end
  end.

(** [textwrap.indent(text, prefix)]: the prefix goes before every line that is
    not whitespace only. *)
Definition indent (text prefix : string) : string :=
  String.concat EmptyString
    (map (fun line =>
            if existsb (fun c => negb (is_space c)) line then prefix ++ line
            else line)
       (splitlines_keepends text)).

Definition is_blank (c : ascii) : bool := is_char 32 c || is_char 9 c.

Fixpoint leading_blanks (s : string) : string :=
  match s with
  | EmptyString => EmptyString
  | String c r => if is_blank c then String c (leading_blanks r) else EmptyString
  end.

Fixpoint common_prefix (a b : string) : string :=
  match a, b with
  | String x a', String y b' =>
      if Ascii.eqb x y then String x (common_prefix a' b') else EmptyString
  | _, _ => EmptyString
  end.

Fixpoint drop (n : nat) (s : string) : string :=
  match n, s with
  | S k, String _ r => drop k r
  | _, _ => s
  end.

(** [textwrap.dedent(text)]: lines of blanks become empty, the margin is the
    longest run of blanks that starts every other non-empty line, and it is
    removed from the lines that start with it. *)
Definition dedent (text : string) : string :=
  let lines :=
    map (fun l => if forallb is_blank l then EmptyString else l)
      (split_on (ascii_of_nat 10) text) in
  let indents :=
    map leading_blanks
      (List.filter (fun l => negb (String.eqb l EmptyString)) lines) in
  let margin :=
    match indents with
    | [] => EmptyString
    | i :: rest => fold_left common_prefix rest i
    end in
  join nl
    (map (fun l =>
            if starts_with margin l then drop (String.length margin) l else l)
       lines).

(** ** Content generators

    Both generators describe a parameter by one of three option blocks, and
    carry the same three templates for them. *)

Inductive option_block : Type :=
| FlagOption (name default_expr : string)
| RequiredOption (name click_typ : string)
| DefaultOption (name click_typ default_expr show_default : string).

(** The text of a block: the f-string of the template, right-stripped and
    dedented. *)
Definition option_text (b : option_block) : string :=
  match b with
  | FlagOption name default_expr =>
      dedent (rstrip (nl ++ unlines [
        "                    @click.option(";
        "                        " ++ dq ++ "--" ++ name ++ dq ++ ",";
        "                        is_flag=True,";
        "                        default=" ++ default_expr ++ ",";
        "                        show_default=True,";
        "                        help=" ++ dq ++ "Boolean flag parameter: " ++ name ++ dq ++ ",";
        "                    )"
      ] ++ spaces 20))
  | RequiredOption name click_typ =>
      dedent (rstrip (nl ++ unlines [
        "                        @click.option(";
        "                            " ++ dq ++ "--" ++ name ++ dq ++ ",";
        "                            type=" ++ click_typ ++ ",";
        "                            required=True,";
        "                            help=" ++ dq ++ "Required parameter: " ++ name ++ dq ++ ",";
        "                        )"
      ] ++ spaces 24))
  | DefaultOption name click_typ default_expr show_default =>
      dedent (rstrip (nl ++ unlines [
        "                        @click.option(";
        "                            " ++ dq ++ "--" ++ name ++ dq ++ ",";
        "                            type=" ++ click_typ ++ ",";
        "                            default=" ++ default_expr ++ ",";
        "                            show_default=" ++ show_default ++ ",";
        "                            help=" ++ dq ++ "Optional parameter: " ++ name ++ dq ++ ",";
        "                        )"
      ] ++ spaces 24))
  end.

(** [p.default or "false"]. *)
Definition default_or_false (d : option string) : string :=
  match d with
  | Some (String c r) => String c r
  | _ => "false"
  end.

(** The block of a parameter in the subcommand surface. *)
Definition cli_option (p : ParamSpec) : result option_block :=
  if String.eqb (type p) "bool" then
    default_expr <-
      (if required p then Ok "False"
       else python_cast_value "bool" (default_or_false (default p))) ;;
    Ok (FlagOption (name p) default_expr)
  else
    let click_typ := click_type (type p) in
    if required p then Ok (RequiredOption (name p) click_typ)
    else
      default_expr <-
        match default p with
        | Some d => python_cast_value (type p) d
        | None => Ok "None"
        end ;;
      let show_default :=
        match default p with Some _ => "True" | None => "False" end in
      Ok (DefaultOption (name p) click_typ default_expr show_default).

(** The entry of a parameter in the signature of the subcommand function. *)
Definition cli_signature_entry (p : ParamSpec) : string :=
  if String.eqb (type p) "bool" then name p ++ ": bool"
  else name p ++ ": " ++ click_type (type p).

(** [[p.name for p in params]]. *)
Definition names (params : list ParamSpec) : list string := map name params.

(** The entry of a parameter in the human-readable summary line. *)
Definition human_param (p : ParamSpec) : string :=
  name p ++ "={{ " ++ name p ++ " }}".

(** The entry of a parameter in the query dictionary, in both surfaces. *)
Definition query_entry (p : ParamSpec) : string :=
  dq ++ name p ++ dq ++ ": " ++ name p.

Definition cli_json_option : string :=
  dedent (rstrip (nl ++ unlines [
    "            @click.option(";
    "                " ++ dq ++ "--json" ++ dq ++ ",";
    "                " ++ dq ++ "output_json" ++ dq ++ ",";
    "                is_flag=True,";
    "                help=" ++ dq ++ "Emit pure JSON on stdout (no logs). Human-readable output otherwise." ++ dq ++ ",";
    "            )"
  ] ++ spaces 12)).

(** [description.strip() if description else fallback]. *)
Definition description_line (description : option string) (fallback : string)
  : string :=
  match description with
  | Some (String c r) => strip (String c r)
  | _ => fallback
  end.

Definition generate_cli_content (name binary api_base_url endpoint : string)
    (params : list ParamSpec) (description : option string) : result string :=
  let func_name := snake name ++ "_cmd" in
  let subcommand := underscores_to_hyphens name in
  let user_agent := binary ++ "/1.0" in
  blocks <- mapM cli_option params ;;
  let option_lines := (map option_text blocks ++ [cli_json_option])%list in
  let param_names_for_signature := map cli_signature_entry params in
  let http_params := map query_entry params in
  let options_blob := join nl option_lines in
  let signature :=
    join ", " (param_names_for_signature ++ ["output_json: bool"])%list in
  let http_params_blob := join ("," ++ nl ++ spaces 16) http_params in
  let human_lines := [
    "f" ++ dq ++ "Command: " ++ subcommand ++ dq;
    "f" ++ dq ++ "Endpoint: " ++ endpoint ++ dq;
    match params with
    | [] => "f" ++ dq ++ "No parameters" ++ dq
    | _ =>
        "f" ++ dq ++ "Params: " ++ "{"
          ++ join ", "
               (map human_param params)
          ++ "}" ++ dq
    end ] in
  let human_blob :=
    join (nl ++ spaces 12)
      (map (fun line => "click.echo(" ++ line ++ ")") human_lines) in
  let desc_line := description_line description (name ++ " subcommand") in
  Ok (unlines [
    "#!/usr/bin/env python3";
    "import json";
    "import sys";
    "import typing as t";
    EmptyString;
    "import click";
    "import httpx";
    EmptyString;
    "DEFAULT_TIMEOUT = 30.0";
    "DEFAULT_USER_AGENT = " ++ repr user_agent;
    "DEFAULT_API_BASE_URL = " ++ repr api_base_url;
    EmptyString;
    "@click.group()";
    "def cli():";
    "    " ++ tq ++ binary ++ " root CLI group.";
    "    Add or import additional commands into this group.";
    "    " ++ tq;
    EmptyString;
    EmptyString;
    "@cli.command(" ++ repr subcommand ++ ")";
    indent options_blob EmptyString;
    "def " ++ func_name ++ "(" ++ signature ++ ") -> None:";
    "    " ++ tq ++ desc_line ++ ".";
    "    Conventions:";
    "    - --json → machine output (strict JSON on stdout)";
    "    - default → concise human-readable output";
    "    - exit(0) on success; exit(1) on failure";
    "    - stderr for human diagnostics in JSON mode";
    "    " ++ tq;
    "    try:";
    "        with httpx.Client(";
    "            base_url=DEFAULT_API_BASE_URL,";
    "            timeout=DEFAULT_TIMEOUT,";
    "            headers={" ++ dq ++ "User-Agent" ++ dq ++ ": DEFAULT_USER_AGENT},";
    "        ) as client:";
    "            # Replace with your real HTTP logic and response shaping";
    "            resp = client.get(";
    "                " ++ repr endpoint ++ ",";
    "                params={";
    "                " ++ indent http_params_blob (spaces 16);
    "                },";
    "            )";
    "            resp.raise_for_status()";
    "            data: t.Dict[str, t.Any] = resp.json()";
    EmptyString;
    "        if output_json:";
    "            click.echo(json.dumps({";
    "                " ++ dq ++ "endpoint" ++ dq ++ ": " ++ repr endpoint ++ ",";
    "                " ++ dq ++ "params" ++ dq ++ ": {";
    indent http_params_blob (spaces 20);
    "                },";
    "                " ++ dq ++ "data" ++ dq ++ ": data";
    "            }))";
    "        else:";
    "            " ++ human_blob;
    "            click.echo(f" ++ dq ++ "Items: {len(data) if isinstance(data, list) else 'N/A'}" ++ dq ++ ")";
    EmptyString;
    "        sys.exit(0)";
    EmptyString;
    "    except httpx.HTTPStatusError as e:";
    "        message = f" ++ dq ++ "HTTP error: {e.response.status_code} - {e.response.text}" ++ dq;
    "        if output_json:";
    "            click.echo(json.dumps({" ++ dq ++ "error" ++ dq ++ ": message}))";
    "        else:";
    "            click.echo(f" ++ dq ++ "Error: {message}" ++ dq ++ ", err=True)";
    "        sys.exit(1)";
    EmptyString;
    "    except httpx.RequestError as e:";
    "        message = f" ++ dq ++ "Network error: {str(e)}" ++ dq;
    "        if output_json:";
    "            click.echo(json.dumps({" ++ dq ++ "error" ++ dq ++ ": message}))";
    "        else:";
    "            click.echo(f" ++ dq ++ "Error: {message}" ++ dq ++ ", err=True)";
    "        sys.exit(1)";
    EmptyString;
    "    except Exception as e:";
    "        message = f" ++ dq ++ "Unexpected error: {str(e)}" ++ dq;
    "        if output_json:";
    "            click.echo(json.dumps({" ++ dq ++ "error" ++ dq ++ ": message}))";
    "        else:";
    "            click.echo(f" ++ dq ++ "Error: {message}" ++ dq ++ ", err=True)";
    "        sys.exit(1)";
    EmptyString;
    EmptyString;
    "if __name__ == " ++ dq ++ "__main__" ++ dq ++ ":";
    "    cli()"
  ]).

(** The block of a parameter in the script surface. *)
Definition script_option (p : ParamSpec) : result option_block :=
  if String.eqb (type p) "bool" then
    default_expr <-
      (if required p then Ok "False"
       else python_cast_value "bool" (default_or_false (default p))) ;;
    Ok (FlagOption (name p) default_expr)
  else
    let click_typ :=
      if mem (type p) ["int"; "float"]
      then "click." ++ capitalize (click_type (type p))
      else click_type (type p) in
    if required p then Ok (RequiredOption (name p) click_typ)
    else
      default_expr <-
        match default p with
        | Some d => python_cast_value (type p) d
        | None => Ok "None"
        end ;;
      let show_default :=
        match default p with Some _ => "True" | None => "False" end in
      Ok (DefaultOption (name p) click_typ default_expr show_default).

Definition script_signature_entry (p : ParamSpec) : string :=
  if String.eqb (type p) "bool" then name p ++ ": bool" else name p.

Definition script_json_option : string :=
  dedent (rstrip (nl ++ unlines [
    "            @click.option(";
    "                " ++ dq ++ "--json" ++ dq ++ ",";
    "                " ++ dq ++ "output_json" ++ dq ++ ",";
    "                is_flag=True,";
    "                help=" ++ dq ++ "Emit strict JSON on stdout (no logs). Human-readable output otherwise." ++ dq ++ ",";
    "            )"
  ] ++ spaces 12)).

Definition script_simulate_option : string :=
  dedent (rstrip (nl ++ unlines [
    "                @click.option(";
    "                    " ++ dq ++ "--simulate" ++ dq ++ ",";
    "                    is_flag=True,";
    "                    help=" ++ dq ++ "Return stub data instead of making a network call." ++ dq ++ ",";
    "                )"
  ] ++ spaces 16)).

Definition generate_script_content (name binary api_base_url endpoint : string)
    (params : list ParamSpec) (description : option string)
    (include_simulate : bool) : result string :=
  let func_suffix := snake name in
  let method_name := "fetch_" ++ func_suffix in
  let user_agent := binary ++ "-script/1.0" in
  blocks <- mapM script_option params ;;
  let option_lines :=
    (map option_text blocks ++ [script_json_option]
       ++ (if include_simulate then [script_simulate_option] else []))%list in
  let signature_names := map script_signature_entry params in
  let param_for_query := map query_entry params in
  let options_blob := join nl option_lines in
  let signature :=
    join ", "
      (signature_names ++ ["output_json"]
         ++ (if include_simulate then ["simulate"] else []))%list in
  let params_blob := join ("," ++ nl ++ spaces 20) param_for_query in
  let desc_line := description_line description (name ++ " script") in
  let simulate_stub :=
    if include_simulate then
      strip (dedent (nl ++ unlines [
        "            if simulate:";
        "                data = {";
        "                    " ++ dq ++ "endpoint" ++ dq ++ ": " ++ repr endpoint ++ ",";
        "                    " ++ dq ++ "params" ++ dq ++ ": {";
        indent params_blob (spaces 24);
        "                    },";
        "                    " ++ dq ++ "items" ++ dq ++ ": [{" ++ dq ++ "id" ++ dq ++ ": " ++ dq ++ "ex_1" ++ dq ++ "}, {" ++ dq ++ "id" ++ dq ++ ": " ++ dq ++ "ex_2" ++ dq ++ "}],";
        "                    " ++ dq ++ "_note" ++ dq ++ ": " ++ dq ++ "Simulated data. Wire up real HTTP logic and remove --simulate." ++ dq ++ ",";
        "                }";
        "            else:";
        "                with Client() as client:";
        "                    data = client." ++ method_name ++ "(" ++ join ", " (names params) ++ ")"
      ] ++ spaces 12))
    else
      "with Client() as client:" ++ nl ++ spaces 12 ++ "data = client."
        ++ method_name ++ "(" ++ join ", " (names params) ++ ")" in
  Ok (unlines [
    "#!/usr/bin/env python3";
    "# /// script";
    "# dependencies = [";
    "#     " ++ dq ++ "httpx" ++ dq ++ ",";
    "#     " ++ dq ++ "click" ++ dq ++ ",";
    "# ]";
    "# ///";
    EmptyString;
    tq ++ desc_line ++ ".";
    "Self-contained script with minimal HTTP client.";
    EmptyString;
    "Conventions:";
    "- `--help` shows options";
    "- `--json` prints strict JSON on stdout (no logs)";
    "- Exit 0 on success; exit 1 on failure";
    "- Keep code ~200–300 lines when possible to reduce context";
    tq;
    EmptyString;
    "import json";
    "import sys";
    "from typing import Any, Dict, Optional";
    EmptyString;
    "import click";
    "import httpx";
    EmptyString;
    "API_BASE_URL = " ++ repr api_base_url;
    "API_TIMEOUT = 30.0";
    "USER_AGENT = " ++ repr user_agent;
    "DEFAULT_HEADERS = {";
    "    " ++ dq ++ "User-Agent" ++ dq ++ ": USER_AGENT,";
    "    # Add auth headers here if needed; prefer env vars/secure stores.";
    "}";
    EmptyString;
    "class Client:";
    "    def __init__(self):";
    "        self.client = httpx.Client(base_url=API_BASE_URL, timeout=API_TIMEOUT, headers=DEFAULT_HEADERS)";
    EmptyString;
    "    def __enter__(self) -> " ++ dq ++ "Client" ++ dq ++ ":";
    "        return self";
    EmptyString;
    "    def __exit__(self, exc_type, exc, tb):";
    "        self.client.close()";
    EmptyString;
    "    def " ++ method_name ++ "(self, " ++ join ", " (names params) ++ ") -> Dict[str, Any]:";
    "        " ++ tq;
    "        Replace this implementation with your real logic.";
    "        Keep return shape consistent with your CLI and MCP surfaces.";
    "        " ++ tq;
    "        resp = self.client.get(";
    "            " ++ repr endpoint ++ ",";
    "            params={";
    indent params_blob (spaces 16);
    "            },";
    "        )";
    "        resp.raise_for_status()";
    "        return resp.json()";
    EmptyString;
    EmptyString;
    "def format_human(data: Dict[str, Any]) -> str:";
    "    lines = []";
    "    lines.append(" ++ dq ++ name ++ " Results" ++ dq ++ ")";
    "    lines.append(" ++ dq ++ "=" ++ dq ++ " * 40)";
    "    lines.append(f" ++ dq ++ "endpoint: " ++ endpoint ++ dq ++ ")";
    "    # For lists, show a count; adjust for your real schema";
    "    count = len(data) if isinstance(data, list) else (len(data.get(" ++ dq ++ "items" ++ dq ++ ", [])) if isinstance(data, dict) else " ++ dq ++ "N/A" ++ dq ++ ")";
    "    lines.append(f" ++ dq ++ "count:    {count}" ++ dq ++ ")";
    "    return " ++ dq ++ bs ++ "n" ++ dq ++ ".join(lines)";
    EmptyString;
    EmptyString;
    "@click.command()";
    options_blob;
    "def main(" ++ signature ++ "):";
    "    " ++ tq ++ desc_line ++ "." ++ tq;
    "    try:";
    "        " ++ simulate_stub;
    EmptyString;
    "        if output_json:";
    "            click.echo(json.dumps(data))";
    "        else:";
    "            click.echo(format_human(data))";
    "        sys.exit(0)";
    EmptyString;
    "    except httpx.HTTPStatusError as e:";
    "        msg = f" ++ dq ++ "HTTP error: {e.response.status_code} - {e.response.text}" ++ dq;
    "        if output_json:";
    "            click.echo(json.dumps({" ++ dq ++ "error" ++ dq ++ ": msg}))";
    "        else:";
    "            click.echo(f" ++ dq ++ "❌ Error: {msg}" ++ dq ++ ", err=True)";
    "        sys.exit(1)";
    EmptyString;
    "    except httpx.RequestError as e:";
    "        msg = f" ++ dq ++ "Network error: {str(e)}" ++ dq;
    "        if output_json:";
    "            click.echo(json.dumps({" ++ dq ++ "error" ++ dq ++ ": msg}))";
    "        else:";
    "            click.echo(f" ++ dq ++ "❌ Error: {msg}" ++ dq ++ ", err=True)";
    "        sys.exit(1)";
    EmptyString;
    "    except Exception as e:";
    "        msg = f" ++ dq ++ "Unexpected error: {str(e)}" ++ dq;
    "        if output_json:";
    "            click.echo(json.dumps({" ++ dq ++ "error" ++ dq ++ ": msg}))";
    "        else:";
    "            click.echo(f" ++ dq ++ "❌ Error: {msg}" ++ dq ++ ", err=True)";
    "        sys.exit(1)";
    EmptyString;
    EmptyString;
    "if __name__ == " ++ dq ++ "__main__" ++ dq ++ ":";
    "    main()"
  ]).

(** ** Documentation generators *)

Definition generate_test_plan_content (binary : string) : string :=
  dedent (unlines [
    "    # End-to-End Test and Validation Plan";
    EmptyString;
    "    Scope";
    "    - Validate parity, reliability, and ergonomics across four capability surfaces:";
    "      1) MCP Server (wrapping CLI via subprocess)";
    "      2) CLI (canonical API logic and JSON contracts)";
    "      3) File‑System Scripts (self‑contained, progressive disclosure)";
    "      4) Claude Skills (autonomous discovery; wraps scripts)";
    "    - Ensure behavior remains additive—MCP remains available.";
    EmptyString;
    "    Guiding Principles";
    "    - CLI is the canonical source for remote I/O and JSON.";
    "    - MCP wraps CLI via subprocess (no duplicate HTTP logic).";
    "    - Scripts remain self-contained (no shared project imports).";
    "    - Skills document triggers and default to --json for processing.";
    "    - Strict JSON in machine mode; no stdout noise.";
    EmptyString;
    "    Test Categories";
    "    1) Parity Checks";
    "       - For each capability/tool:";
    "         - Execute CLI subcommand with representative params; capture JSON.";
    "         - Execute corresponding script with same params; capture JSON.";
    "         - Execute MCP tool (which calls CLI); capture JSON.";
    "         - Compare golden outputs for structural and key field equivalence.";
    "       - Verify parameter semantics: required vs optional, defaults, ranges.";
    EmptyString;
    "    2) Error and Exit Codes";
    "       - CLI: simulate validation errors (missing required, invalid enum/range).";
    "         - Expect exit 1, JSON error envelope under --json.";
    "       - Scripts: same as CLI.";
    "       - MCP: Ensure subprocess non-zero translates to structured error.";
    "       - Verify no stdout noise in --json mode across CLI/scripts.";
    "       - Confirm consistent error messages (stable shape).";
    EmptyString;
    "    3) Pagination and Cursors";
    "       - For list endpoints, verify:";
    "         - Default limit applied";
    "         - Cursor propagation (next/prev) where applicable";
    "         - CLI and scripts return identical pagination behavior";
    "         - MCP surfaces identical fields via CLI";
    EmptyString;
    "    4) Caching (if applicable)";
    "       - If CLI implements caching:";
    "         - First call latency vs subsequent calls";
    "         - TTL respected; refresh behavior with --refresh flag (if implemented)";
    "         - No stale data after TTL expiration";
    "         - Scripts may opt for lightweight cache; document paths and sizes";
    EmptyString;
    "    5) Performance and Token Hygiene";
    "       - Measure payload sizes (CLI and scripts) with default vs --full modes (if available)";
    "       - Ensure human-readable output remains concise";
    "       - Confirm that skills default to --json and avoid reading code unless necessary";
    EmptyString;
    "    6) Security and Configuration";
    "       - Ensure no secrets are logged or printed in --json mode";
    "       - For authenticated endpoints (if any):";
    "         - Validate env var-based configuration";
    "         - Confirm minimal scopes; verify failure behavior with missing/invalid creds";
    EmptyString;
    "    7) Claude Skills: Trigger and Behavior";
    "       - Confirm SKILL.md triggers align with user phrasing";
    "       - Prompt Claude Code with domain-relevant phrases to ensure autonomous invocation";
    "       - Ensure scripts are invoked with --json";
    "       - Validate that skills do not read code unless strictly needed (progressive disclosure)";
    EmptyString;
    "    8) Documentation Consistency";
    "       - Check that --help for CLI and scripts shows accurate flags, defaults, examples";
    "       - Verify mapping sheets are up-to-date per tool";
    "       - Confirm README “Pick your path” links are discoverable and correct";
    EmptyString;
    "    9) CI Integration";
    "       - Add a job to run unit/integration tests for CLI and scripts";
    "       - Optional: Golden output checks (snapshot testing) for a subset of commands";
    "       - Linting and basic static checks (flake8/ruff, mypy optional)";
    "       - Ensure test suite fails on non-zero exit or malformed JSON";
    EmptyString;
    "    Sample Test Commands";
    "    - CLI:";
    "      - uv run " ++ binary ++ " example --json";
    "      - uv run " ++ binary ++ " example --param1 foo --limit 5 --json";
    "    - Scripts:";
    "      - uv run scripts/example.py --param1 foo --limit 5 --json";
    "    - MCP:";
    "      - Use MCP inspector/dev tooling to call the corresponding tool and compare output to CLI JSON";
    EmptyString;
    "    Exit Criteria";
    "    - 100% parity for the chosen capability set across CLI/scripts/MCP";
    "    - Error and exit code behavior validated and consistent";
    "    - Skill triggers verified via manual prompts";
    "    - Docs updated; mapping sheets exist for each tool";
    EmptyString;
    "    Ownership and Change Management";
    "    - Treat CLI as the single source of truth for API logic and JSON contracts";
    "    - Pin MCP to a compatible CLI version (if versioning introduced)";
    "    - Scripts mirror CLI semantics; keep self-contained";
    "    - Update mapping sheets, changelog, and --help epilogues on changes";
    EmptyString;
    "    Attribution";
    "    - This plan builds on patterns inspired by the beyond-mcp repository by IndyDevDan (additive approach)."
  ] ++ spaces 4).

Definition generate_generator_usage_content : string :=
  dedent (unlines [
    "    # CLI/Script Generator Usage";
    EmptyString;
    "    This generator scaffolds:";
    "    - A CLI subcommand (Click + httpx)";
    "    - A self-contained file-system script (Click + httpx)";
    "    - Optional documentation (test/validation plan, usage snippet)";
    EmptyString;
    "    Basic Usage";
    "    ```bash";
    "    python migration_guide/templates/generate_cli_script.py <name> " ++ bs;
    "      --target both " ++ bs;
    "      --binary yourcmd " ++ bs;
    "      --endpoint /v1/example " ++ bs;
    "      --api-base-url https://api.example.com " ++ bs;
    "      --param limit:int:10 " ++ bs;
    "      --param query:str " ++ bs;
    "      --out-cli ./apps/2_cli/<name>.py " ++ bs;
    "      --out-script ./apps/3_file_system_scripts/scripts/<name>.py " ++ bs;
    "      --emit-test-plan ./migration_guide/test_validation_plan.md     ```";
    EmptyString;
    "    Param Spec";
    "    - Format: name:type[:default]";
    "      - If default omitted, parameter is required";
    "      - Supported types: str, int, float, bool";
    "    - Examples:";
    "      - --param limit:int:10";
    "      - --param query:str";
    "      - --param exact:bool:true";
    EmptyString;
    "    Tips";
    "    - Keep parameter names and defaults consistent with MCP and Skills.";
    "    - Prefer clean JSON outputs and minimal stdout noise for automation.";
    "    - For Skills, default to --json and add clear “When to use” bullets."
  ] ++ spaces 4).

(** ** The file system and the process state *)

(** A path is the list of its components below the working directory; the
    empty list is the directory itself. *)
Definition Path : Type := list string.

#[local] Set Warnings "-register-all".

Inductive node : Type :=
| File (content : string)
| Dir (entries : list (string * node)).

Definition dir : Type := list (string * node).

Fixpoint find_entry (c : string) (es : dir) : option node :=
  match es with
  | [] => None
  | (k, n) :: rest => if String.eqb c k then Some n else find_entry c rest
  end.

(** Binds [c] to [n]: in place when [c] is bound, as a new entry otherwise. *)
Fixpoint set_entry (c : string) (n : node) (es : dir) : dir :=
  match es with
  | [] => [(c, n)]
  | (k, m) :: rest =>
      if String.eqb c k then (k, n) :: rest else (k, m) :: set_entry c n rest
  end.

Fixpoint lookup (es : dir) (p : Path) : option node :=
  match p with
  | [] => Some (Dir es)
  | c :: rest =>
      match find_entry c es with
      | None => None
      | Some (Dir sub) => lookup sub rest
      | Some (File s) => match rest with [] => Some (File s) | _ => None end
      end
  end.

Inductive errno : Type := EEXIST | ENOENT | ENOTDIR | EISDIR.

(** The system call [mkdir]. *)
Fixpoint sys_mkdir (es : dir) (p : Path) : errno + dir :=
  match p with
  | [] => inl EEXIST
  | c :: rest =>
      match rest with
      | [] =>
          match find_entry c es with
          | Some _ => inl EEXIST
          | None => inr (set_entry c (Dir []) es)
          end
      | _ :: _ =>
          match find_entry c es with
          | None => inl ENOENT
          | Some (File _) => inl ENOTDIR
          | Some (Dir sub) =>
              match sys_mkdir sub rest with
              | inr sub' => inr (set_entry c (Dir sub') es)
              | inl e => inl e
              end
          end
      end
  end.

(** Opening [p] for writing and writing [content]: the file is created or
    truncated. *)
Fixpoint sys_write (es : dir) (p : Path) (content : string) : errno + dir :=
  match p with
  | [] => inl EISDIR
  | c :: rest =>
      match rest with
      | [] =>
          match find_entry c es with
          | Some (Dir _) => inl EISDIR
          | _ => inr (set_entry c (File content) es)
          end
      | _ :: _ =>
          match find_entry c es with
          | None => inl ENOENT
          | Some (File _) => inl ENOTDIR
          | Some (Dir sub) =>
              match sys_write sub rest content with
              | inr sub' => inr (set_entry c (Dir sub') es)
              | inl e => inl e
              end
          end
      end
  end.

(** [str(path)]. *)
Definition path_str (p : Path) : string :=
  match p with
  | [] => "."
  | _ => join "/" p
  end.

(** [path.parent]; the parent of the working directory is itself. *)
Definition parent (p : Path) : Path := removelast p.

(** The exception an error number is raised as. *)
Definition os_error (e : errno) (p : Path) : exn :=
  match e with
  | EEXIST => FileExistsError ("[Errno 17] File exists: " ++ repr (path_str p))
  | ENOENT =>
      FileNotFoundError ("[Errno 2] No such file or directory: " ++ repr (path_str p))
  | ENOTDIR => NotADirectoryError ("[Errno 20] Not a directory: " ++ repr (path_str p))
  | EISDIR => IsADirectoryError ("[Errno 21] Is a directory: " ++ repr (path_str p))
  end.

Record World : Type := mkWorld {
  fs : dir;
  stdout : list string;
  stderr : list string
}.

(** Computations that read and change the world and may raise. *)
Definition M (A : Type) : Type := World -> result A * World.

Definition ret {A : Type} (a : A) : M A := fun w => (Ok a, w).

Definition raise {A : Type} (e : exn) : M A := fun w => (Raise e, w).

Definition lift {A : Type} (r : result A) : M A := fun w => (r, w).

Definition bindM {A B : Type} (m : M A) (k : A -> M B) : M B :=
  fun w =>
    match m w with
    | (Ok a, w') => k a w'
    | (Raise e, w') => (Raise e, w')
    end.

Notation "x <~ m ;; k" := (bindM m (fun x => k))
  (at level 61, m at next level, right associativity).
Notation "m ;;; k" := (bindM m (fun _ => k))
  (at level 61, right associativity).

Definition print (line : string) : M unit :=
  fun w => (Ok tt, mkWorld (fs w) (stdout w ++ [line]) (stderr w)).

Definition eprint (line : string) : M unit :=
  fun w => (Ok tt, mkWorld (fs w) (stdout w) (stderr w ++ [line])).

(** [path.exists()] and [path.is_dir()]. *)
Definition path_exists (es : dir) (p : Path) : bool :=
  match lookup es p with Some _ => true | None => false end.

Definition is_dir (es : dir) (p : Path) : bool :=
  match lookup es p with Some (Dir _) => true | _ => false end.

Definition os_mkdir (p : Path) : M unit :=
  fun w =>
    match sys_mkdir (fs w) p with
    | inr es => (Ok tt, mkWorld es (stdout w) (stderr w))
    | inl e => (Raise (os_error e p), w)
    end.

(** [path.write_text(content, encoding="utf-8")]. *)
Definition write_text (p : Path) (content : string) : M unit :=
  fun w =>
    match sys_write (fs w) p content with
    | inr es => (Ok tt, mkWorld es (stdout w) (stderr w))
    | inl e => (Raise (os_error e p), w)
    end.

(** [self.mkdir(parents=False, exist_ok=exist_ok)]. *)
Definition mkdir_single (self : Path) (exist_ok : bool) : M unit :=
  fun w =>
    match os_mkdir self w with
    | (Raise (FileNotFoundError m), w') => (Raise (FileNotFoundError m), w')
    | (Raise e, w') =>
        if exist_ok && is_dir (fs w') self then (Ok tt, w') else (Raise e, w')
    | r => r
    end.

(** [self.mkdir(parents=True, exist_ok=True)] for the path made of the first
    [n] components of [q]. *)
Fixpoint mkdir_parents (n : nat) (q : Path) : M unit :=
  fun w =>
    let self := firstn n q in
    match os_mkdir self w with
    | (Raise (FileNotFoundError m), w') =>
        match n with
        | O => (Raise (FileNotFoundError m), w')
        | S k => (mkdir_parents k q ;;; mkdir_single self true) w'
        end
    | (Raise e, w') =>
        if is_dir (fs w') self then (Ok tt, w') else (Raise e, w')
    | r => r
    end.

Definition ensure_parent (path : Path) : M unit :=
  mkdir_parents (List.length (parent path)) (parent path).

Definition write_file (path : Path) (content : string) (force dry_run : bool)
  : M unit :=
  fun w =>
    if path_exists (fs w) path && negb force then
      raise (FileExistsError ("File exists: " ++ path_str path
                                ++ " (use --force to overwrite)")) w
    else
      (ensure_parent path ;;;
       if dry_run then print ("[DRY RUN] Would write: " ++ path_str path)
       else write_text path content ;;; print ("Wrote " ++ path_str path)) w.

(** ** Entry point *)

Inductive Target : Type := TargetCli | TargetScript | TargetBoth.

(** The parsed command line.  An output path that was not given, or given as
    the empty text, is [None]. *)
Record Args : Type := mkArgs {
  arg_name : string;
  arg_target : Target;
  arg_binary : string;
  arg_endpoint : string;
  arg_api_base_url : string;
  arg_param : list string;
  arg_description : option string;
  arg_out_cli : option Path;
  arg_out_script : option Path;
  arg_no_simulate : bool;
  arg_emit_test_plan : option Path;
  arg_emit_doc_snippets : option Path;
  arg_force : bool;
  arg_dry_run : bool
}.

Definition wants_cli (t : Target) : bool :=
  match t with TargetCli | TargetBoth => true | TargetScript => false end.

Definition wants_script (t : Target) : bool :=
  match t with TargetScript | TargetBoth => true | TargetCli => false end.

Definition out_cli_path (args : Args) (cap_name : string) : Path :=
  match arg_out_cli args with
  | Some p => p
  | None => ["cli_" ++ cap_name ++ ".py"]
  end.

Definition out_script_path (args : Args) (cap_name : string) : Path :=
  match arg_out_script args with
  | Some p => p
  | None => ["scripts"; cap_name ++ ".py"]
  end.

(** The body of the [try] statement of [main] that renders and writes. *)
Definition generate (args : Args) (cap_name : string) (params : list ParamSpec)
  : M unit :=
  (if wants_cli (arg_target args) then
     cli_content <~ lift (generate_cli_content cap_name (arg_binary args)
                            (arg_api_base_url args) (arg_endpoint args) params
                            (arg_description args)) ;;
     write_file (out_cli_path args cap_name) cli_content
       (arg_force args) (arg_dry_run args)
   else ret tt) ;;;
  (if wants_script (arg_target args) then
     script_content <~ lift (generate_script_content cap_name (arg_binary args)
                               (arg_api_base_url args) (arg_endpoint args)
                               params (arg_description args)
                               (negb (arg_no_simulate args))) ;;
     write_file (out_script_path args cap_name) script_content
       (arg_force args) (arg_dry_run args)
   else ret tt) ;;;
  (match arg_emit_test_plan args with
   | Some test_plan_path =>
       write_file test_plan_path (generate_test_plan_content (arg_binary args))
         (arg_force args) (arg_dry_run args)
   | None => ret tt
   end) ;;;
  (match arg_emit_doc_snippets args with
   | Some doc_snippet_path =>
       write_file doc_snippet_path generate_generator_usage_content
         (arg_force args) (arg_dry_run args)
   | None => ret tt
   end) ;;;
  print "Done.".

(** [main]: the exit code and the world it leaves. *)
Definition main (args : Args) (w : World) : nat * World :=
  let cap_name := snake (arg_name args) in
  if negb (valid_identifier cap_name) then
    (2, snd (eprint ("Invalid name after normalization: '" ++ cap_name ++ "'") w))
  else
    match parse_params (arg_param args) with
    | Raise e => (2, snd (eprint (exn_str e) w))
    | Ok params =>
        match generate args cap_name params w with
        | (Ok _, w') => (0, w')
        | (Raise (FileExistsError m), w') => (3, snd (eprint m w'))
        | (Raise e, w') => (1, snd (eprint ("Failed: " ++ exn_str e) w'))
        end
    end.

(** ** The script index

    [scripts/scripts_index.py] reads the head of every script below the
    scripts directory and derives a description and usage examples from it.
    The extraction functions and the prompt generator are embedded here; the
    fingerprint, the time stamp and the directory walk are not.  A slice
    [s[:n]] counts bytes, which is exact on ASCII text, and so is the
    case-insensitive match of [Usage:]. *)

Module ScriptsIndex.

Definition DEFAULT_SCRIPTS_DIR_NAMES : list string :=
  ["scripts"; "tools"; "file_system_scripts"].

Definition MAX_DESCRIPTION_LINES : nat := 8.
Definition MAX_USAGE_LINES : nat := 3.

Record ScriptMeta : Type := mkScriptMeta {
  name : string;
  relative_path : string;
  size_bytes : nat;
  fingerprint : string;
  description : string;
  usage_examples : list string;
  modified_ts : string
}.

Definition to_prime_line (self : ScriptMeta) : string :=
  let usage_part :=
    match usage_examples self with
    | ex :: _ => " | Usage: " ++ ex
    | [] => EmptyString
    end in
  name self ++ ": " ++ description self ++ usage_part.

(** The loop of [find_scripts_root] over the directory names left to try. *)
Fixpoint first_scripts_dir (es : dir) (start : Path) (dnames : list string)
  : Path :=
  match dnames with
  | [] => start
  | dname :: rest =>
      let candidate := (start ++ [dname])%list in
      if is_dir es candidate then candidate
      else first_scripts_dir es start rest
  end.

Definition find_scripts_root (es : dir) (start : Path) : Path :=
  first_scripts_dir es start DEFAULT_SCRIPTS_DIR_NAMES.

(** Reading in text mode: CR LF and a lone CR are read as LF. *)
Fixpoint universal_newlines (s : string) : string :=
  match s with
  | EmptyString => EmptyString
  | String c r =>
      if is_char 13 c then
        match r with
        | String d r' =>
            if is_char 10 d then String d (universal_newlines r')
            else String (ascii_of_nat 10) (universal_newlines r)
        | EmptyString => String (ascii_of_nat 10) EmptyString
        end
      else String c (universal_newlines r)
  end.

(** [read_file_head(path, max_bytes)]: the empty text when the file cannot be
    opened. *)
Definition read_file_head (es : dir) (path : Path) (max_bytes : nat) : string :=
  match lookup es path with
  | Some (File content) => substring 0 max_bytes (universal_newlines content)
  | _ => EmptyString
  end.

(** [s.splitlines()]. *)
Definition splitlines (s : string) : list string :=
  map (rstrip_by is_line_break) (splitlines_keepends s).

(** [[ln.strip() for ln in text.splitlines() if ln.strip()]]. *)
Definition stripped_lines (text : string) : list string :=
  List.filter (fun l => negb (String.eqb l EmptyString))
    (map strip (splitlines text)).

(** The text before the first occurrence of [pat], and the text after it. *)
Fixpoint find_sub (pat s : string) : option (string * string) :=
  if starts_with pat s then Some (EmptyString, drop (String.length pat) s)
  else
    match s with
    | EmptyString => None
    | String c r =>
        match find_sub pat r with
        | Some (a, b) => Some (String c a, b)
        | None => None
        end
    end.

Definition tsq : string := "'''".

(** The match of [[ \t]*(Q)(.*?)(\1)] at the head of [s], where [Q] is three
    double quotes or three single quotes: its second group. *)
Definition docstring_at (s : string) : option string :=
  let t := lstrip_by is_blank s in
  if starts_with tq t then option_map fst (find_sub tq (drop 3 t))
  else if starts_with tsq t then option_map fst (find_sub tsq (drop 3 t))
  else None.

(** The search for that pattern behind [^], with [re.DOTALL] and
    [re.MULTILINE]: the leftmost line start where it matches. *)
Fixpoint docstring_search (at_line_start : bool) (s : string) : option string :=
  match (if at_line_start then docstring_at s else None) with
  | Some body => Some body
  | None =>
      match s with
      | EmptyString => None
      | String c r => docstring_search (is_char 10 c) r
      end
  end.

(** [re.sub] of [^#\s?] by the empty text: the hash sign and one whitespace
    character after it are removed. *)
Definition comment_text (stripped : string) : string :=
  match stripped with
  | String h r =>
      if is_char 35 h then
        match r with
        | String c r' => if is_space c then r' else r
        | EmptyString => EmptyString
        end
      else stripped
  | EmptyString => EmptyString
  end.

(** The loop over the lines that collects the comment lines at the top. *)
Fixpoint header_comments (lines : list string) : list string :=
  match lines with
  | [] => []
  | ln :: rest =>
      let stripped := strip ln in
      if starts_with "#" stripped then comment_text stripped :: header_comments rest
      else if String.eqb stripped EmptyString then header_comments rest
      else []
  end.

Definition extract_docstring_or_header (content : string) : string :=
  let lines :=
    match docstring_search true content with
    | Some body => stripped_lines (strip body)
    | None => header_comments (splitlines content)
    end in
  let cleaned := List.filter (fun l => negb (String.eqb l EmptyString)) lines in
  match cleaned with
  | [] => "No description available."
  | _ => join nl (firstn MAX_DESCRIPTION_LINES cleaned)
  end.

(** The text after the leftmost [Usage:], in any letter case. *)
Fixpoint after_usage (s : string) : option string :=
  if String.eqb (lower (substring 0 6 s)) "usage:" then Some (drop 6 s)
  else
    match s with
    | EmptyString => None
    | String _ r => after_usage r
    end.

(** [\s*\n] matches at the head of [s]. *)
Fixpoint blank_to_line_end (s : string) : bool :=
  match s with
  | EmptyString => false
  | String c r => is_space c && (is_char 10 c || blank_to_line_end r)
  end.

(** The first group of [(.*?)(\n\s*\n|\Z)]: the text up to the first blank
    line, or all of it. *)
Fixpoint usage_block (s : string) : string :=
  match s with
  | EmptyString => EmptyString
  | String c r =>
      if is_char 10 c && blank_to_line_end r then EmptyString
      else String c (usage_block r)
  end.

(** [\b] between the character [prev] and the head of [s]. *)
Definition word_boundary (prev : option ascii) (s : string) : bool :=
  xorb (match prev with Some c => is_word c | None => false end)
       (match s with String c _ => is_word c | EmptyString => false end).

(** [\b(uv run|python|./)\b] matches at the head of [s]; the dot of the third
    alternative stands for any character but a line feed. *)
Definition command_at (prev : option ascii) (s : string) : bool :=
  word_boundary prev s &&
  ((starts_with "uv run" s && word_boundary (Some "n"%char) (drop 6 s))
   || (starts_with "python" s && word_boundary (Some "n"%char) (drop 6 s))
   || match s with
      | String c (String d r) =>
          negb (is_char 10 c) && is_char 47 d && word_boundary (Some d) r
      | _ => false
      end).

(** [re.search] of [\b(uv run|python|./)\b] in [s]. *)
Fixpoint has_command (prev : option ascii) (s : string) : bool :=
  command_at prev s ||
  match s with
  | EmptyString => false
  | String c r => has_command (Some c) r
  end.

(** The text up to the first line feed. *)
Fixpoint until_line_feed (s : string) : string :=
  match s with
  | EmptyString => EmptyString
  | String c r => if is_char 10 c then EmptyString else String c (until_line_feed r)
  end.

(** [\b(uv run|python)\b.*\.py] matches at the head of [s]. *)
Definition script_command_at (prev : option ascii) (s : string) : bool :=
  word_boundary prev s &&
  (starts_with "uv run" s || starts_with "python" s) &&
  word_boundary (Some "n"%char) (drop 6 s) &&
  contains ".py" (until_line_feed (drop 6 s)).

(** [re.search] of [\b(uv run|python)\b.*\.py] in [s]. *)
Fixpoint has_script_command (prev : option ascii) (s : string) : bool :=
  script_command_at prev s ||
  match s with
  | EmptyString => false
  | String c r => has_script_command (Some c) r
  end.

(** The fallback loop over the lines of the content; it stops once
    [MAX_USAGE_LINES] examples are collected. *)
Fixpoint fallback_examples (lines : list string) (examples : list string)
  : list string :=
  match lines with
  | [] => examples
  | ln :: rest =>
      let s := strip ln in
      let examples :=
        if has_script_command None s then (examples ++ [s])%list else examples in
      if MAX_USAGE_LINES <=? List.length examples then examples
      else fallback_examples rest examples
  end.

Definition extract_usage_examples (content : string) : list string :=
  let examples :=
    match after_usage content with
    | Some rest =>
        List.filter (has_command None) (stripped_lines (usage_block rest))
    | None => []
    end in
  let examples :=
    match examples with
    | [] => fallback_examples (splitlines content) []
    | _ => examples
    end in
  firstn MAX_USAGE_LINES examples.

(** The state of the scan for [\s{2,}]: outside a run of whitespace, in a
    run of one character so far, or in a longer run. *)
Inductive run : Type := NoRun | OneSpace (c : ascii) | LongRun.

(** [re.sub] of [\s{2,}] by one space: a run of two or more whitespace
    characters becomes one space. *)
Fixpoint squeeze (st : run) (s : string) : string :=
  match s with
  | EmptyString =>
      match st with
      | OneSpace p => String p EmptyString
      | _ => EmptyString
      end
  | String c r =>
      if is_space c then
        match st with
        | NoRun => squeeze (OneSpace c) r
        | OneSpace _ => String " " (squeeze LongRun r)
        | LongRun => squeeze LongRun r
        end
      else
        match st with
        | OneSpace p => String p (String c (squeeze NoRun r))
        | _ => String c (squeeze NoRun r)
        end
  end.

Definition single_line (text : string) : string :=
  match stripped_lines text with
  | [] => EmptyString
  | lines => strip (substring 0 300 (squeeze NoRun (join " " lines)))
  end.

(** The lines of the prompt for one script. *)
Definition prompt_lines (extended : bool) (meta : ScriptMeta) : list string :=
  let basic := "- " ++ name meta ++ ": " ++ description meta in
  let example :=
    match usage_examples meta with
    | ex :: _ => ["  Example: " ++ ex]
    | [] => []
    end in
  let alternatives :=
    if extended && (1 <? List.length (usage_examples meta))
    then map (fun ex => "  Alt: " ++ ex) (tl (usage_examples meta))
    else [] in
  basic :: (example ++ alternatives)%list.

Definition generate_prime_prompt (metas : list ScriptMeta) (extended : bool)
  : string :=
  join nl
    (["You have access to the following capability scripts.";
      "Load only the script you need; each supports '--json' for structured output.";
      EmptyString]
     ++ flat_map (prompt_lines extended) metas
     ++ [EmptyString;
         "Strategy: Ask for the minimal script to accomplish the next step.";
         "If chaining operations, request '--json' output for downstream automation."])%list.

End ScriptsIndex.

(** ** Notions used in the statements *)

(** The token parses, and to this descriptor. *)
Definition parses_to (t : string) (s : ParamSpec) : Prop :=
  parse_param_token t = Ok s.

(** The error [parse_params] raises on a repeated name. *)
Definition duplicate_error (n : string) : exn :=
  ValueError ("Duplicate parameter name: '" ++ n ++ "'").

(** The text holds no colon, so it is one field of a token. *)
Definition no_colon (s : string) : Prop :=
  existsb (fun c => Ascii.eqb c ":") s = false.

(** The message of the error [write_file] raises on an existing path. *)
Definition conflict_message (path : Path) : string :=
  "File exists: " ++ path_str path ++ " (use --force to overwrite)".

(** The surface [main] renders and writes first, and where. *)
Definition first_render (args : Args) (cap_name : string)
    (params : list ParamSpec) : result string :=
  if wants_cli (arg_target args) then
    generate_cli_content cap_name (arg_binary args) (arg_api_base_url args)
      (arg_endpoint args) params (arg_description args)
  else
    generate_script_content cap_name (arg_binary args) (arg_api_base_url args)
      (arg_endpoint args) params (arg_description args)
      (negb (arg_no_simulate args)).

(** The path of the first artifact [main] writes. *)
Definition first_output (args : Args) (cap_name : string) : Path :=
  if wants_cli (arg_target args) then out_cli_path args cap_name
  else out_script_path args cap_name.

(** The truthy and the falsy vocabulary of [python_cast_value]. *)
Definition TRUE_TOKENS : list string := ["1"; "true"; "yes"; "y"; "on"].

Definition FALSE_TOKENS : list string := ["0"; "false"; "no"; "n"; "off"].

(** The request of the end-to-end scenario, with the defaults of the command
    line for everything else. *)
Definition orders_request (force dry_run : bool) : Args :=
  mkArgs "orders" TargetBoth "yourcmd" "/example" "https://example.com/api"
    ["status:str:open"; "limit:int:25"] None None None false None None
    force dry_run.

(** An empty working directory and nothing printed yet. *)
Definition empty_world : World := mkWorld [] [] [].

(** The grammar errors of one token, as [parse_param_token] tests them. *)
Definition malformed_token (t : string) : Prop :=
  List.length (split_on ":" t) < 2 \/ 3 < List.length (split_on ":" t).

(** The name field is empty or does not normalize to an identifier. *)
Definition invalid_name_token (t : string) : Prop :=
  strip (nth 0 (split_on ":" t) EmptyString) = EmptyString \/
  valid_identifier (snake (strip (nth 0 (split_on ":" t) EmptyString))) = false.

(** The type field is none of the supported types. *)
Definition unsupported_type_token (t : string) : Prop :=
  mem (strip (nth 1 (split_on ":" t) EmptyString)) SUPPORTED_TYPES = false.

(** One of the three grammar errors of a single token. *)
Definition token_error (t : string) : Prop :=
  malformed_token t \/ invalid_name_token t \/ unsupported_type_token t.

(** Two tokens of the list parse to the same name. *)
Definition duplicate_names (tokens : list string) : Prop :=
  exists i j t1 t2 s1 s2,
    i <> j /\ nth_error tokens i = Some t1 /\ nth_error tokens j = Some t2 /\
    parse_param_token t1 = Ok s1 /\ parse_param_token t2 = Ok s2 /\
    name s1 = name s2.

(** A token list the parser rejects: a token in error, or a repeated name. *)
Definition grammar_error (tokens : list string) : Prop :=
  Exists token_error tokens \/ duplicate_names tokens.

(** The error the renderers meet on the default of a parameter, if any. *)
Definition default_error (p : ParamSpec) : option exn :=
  if required p then None
  else
    match default p with
    | None => None
    | Some d =>
        match python_cast_value (type p)
                (if String.eqb (type p) "bool" then default_or_false (Some d)
                 else d) with
        | Raise e => Some e
        | Ok _ => None
        end
    end.

(** The default of the parameter cannot be coerced to its type. *)
Definition invalid_default (p : ParamSpec) : Prop :=
  exists e, default_error p = Some e.

(** What a surface shows of a parameter: the flag name, the declared type
    ([None] for a boolean flag, which is declared by [is_flag=True]), whether
    it is required, and the default literal. *)
Record surface_tuple : Type := mkTuple {
  flag_name : string;
  declared_type : option string;
  is_required : bool;
  default_literal : option string
}.

(** The tuple an option block shows. *)
Definition block_tuple (b : option_block) : surface_tuple :=
  match b with
  | FlagOption n d => mkTuple n None false (Some d)
  | RequiredOption n t => mkTuple n (Some t) true None
  | DefaultOption n t d _ => mkTuple n (Some t) false (Some d)
  end.

(** The image of a result. *)
Definition map_result {A B : Type} (f : A -> B) (r : result A) : result B :=
  match r with
  | Ok a => Ok (f a)
  | Raise e => Raise e
  end.

(** The tuples of the subcommand surface, and those of the script surface. *)
Definition cli_tuples (params : list ParamSpec) : result (list surface_tuple) :=
  map_result (map block_tuple) (mapM cli_option params).

Definition script_tuples (params : list ParamSpec) : result (list surface_tuple) :=
  map_result (map block_tuple) (mapM script_option params).

(** The type expression of the script surface for the one of the subcommand
    surface. *)
Definition script_type (t : string) : string :=
  if mem t ["int"; "float"] then "click." ++ capitalize t else t.

(** An option block with its type expression rewritten by [script_type]. *)
Definition retype_block (b : option_block) : option_block :=
  match b with
  | FlagOption n d => FlagOption n d
  | RequiredOption n t => RequiredOption n (script_type t)
  | DefaultOption n t d sd => DefaultOption n (script_type t) d sd
  end.

(** A tuple with its declared type rewritten by [script_type]. *)
Definition retype (x : surface_tuple) : surface_tuple :=
  mkTuple (flag_name x) (option_map script_type (declared_type x))
    (is_required x) (default_literal x).

(** The tuple without its declared type. *)
Definition untyped (x : surface_tuple) : string * bool * option string :=
  (flag_name x, is_required x, default_literal x).

(** The lines every script artifact opens with: the shebang and the inline
    dependency manifest. *)
Definition SCRIPT_HEADER : list string := [
  "#!/usr/bin/env python3";
  "# /// script";
  "# dependencies = [";
  "#     " ++ dq ++ "httpx" ++ dq ++ ",";
  "#     " ++ dq ++ "click" ++ dq ++ ",";
  "# ]";
  "# ///";
  EmptyString ].

(** The text holds no capital U. *)
Definition no_capital_u (s : string) : bool :=
  forallb (fun c => negb (is_char 85 c)) s.

(** The search for [Usage:] as an automaton: the state is the number of
    characters matched so far, and 6 is final. *)
Definition usage_step (st : nat) (c : ascii) : nat :=
  if st =? 6 then 6
  else if is_char 85 c then 1
  else
    match st with
    | 1 => if is_char 115 c then 2 else 0
    | 2 => if is_char 97 c then 3 else 0
    | 3 => if is_char 103 c then 4 else 0
    | 4 => if is_char 101 c then 5 else 0
    | 5 => if is_char 58 c then 6 else 0
    | _ => 0
    end.

(** The state of the automaton after the text, from state [st]. *)
Fixpoint usage_scan (st : nat) (s : string) : nat :=
  match s with
  | EmptyString => st
  | String c r => usage_scan (usage_step st c) r
  end.

(** The character is not a capital U. *)
Definition not_u (c : ascii) : bool := negb (is_char 85 c).

(** The characters of the text of a float. *)
Definition float_char (c : ascii) : bool :=
  is_digit c || is_lower c || is_char 46 c || is_char 43 c || is_char 45 c.

(** Neither the name nor the default of the parameter holds a capital U. *)
Definition param_free_of_u (p : ParamSpec) : bool :=
  no_capital_u (name p) &&
  match default p with
  | Some d => no_capital_u d
  | None => true
  end.

(** No text of the request holds a capital U. *)
Definition request_free_of_u (name binary api_base_url endpoint : string)
    (params : list ParamSpec) (description : option string) : bool :=
  no_capital_u name && no_capital_u binary && no_capital_u api_base_url &&
  no_capital_u endpoint && List.forallb param_free_of_u params &&
  match description with
  | Some d => no_capital_u d
  | None => true
  end.

(** No field of the option block holds a capital U. *)
Definition block_free_of_u (b : option_block) : bool :=
  match b with
  | FlagOption n d => no_capital_u n && no_capital_u d
  | RequiredOption n t => no_capital_u n && no_capital_u t
  | DefaultOption n t d sd =>
      no_capital_u n && no_capital_u t && no_capital_u d && no_capital_u sd
  end.

(** No component of the path, nor the path itself, is a file. *)
Fixpoint no_file_on (es : dir) (p : Path) : bool :=
  match p with
  | [] => true
  | c :: rest =>
      match find_entry c es with
      | None => true
      | Some (File _) => false
      | Some (Dir sub) => no_file_on sub rest
      end
  end.

(** The two trees hold the same files with the same contents. *)
Definition same_files (es es' : dir) : Prop :=
  forall q c, lookup es q = Some (File c) <-> lookup es' q = Some (File c).

(** Every file of the first tree is in the second with the same content. *)
Definition keeps_files (es es' : dir) : Prop :=
  forall q c, lookup es q = Some (File c) -> lookup es' q = Some (File c).

(** Every directory of the first tree is a directory of the second. *)
Definition keeps_dirs (es es' : dir) : Prop :=
  forall q, is_dir es q = true -> is_dir es' q = true.

(** Only directories were added: the files are the same and no directory is
    lost. *)
Definition adds_dirs (es es' : dir) : Prop :=
  same_files es es' /\ keeps_dirs es es'.

(** Nothing was lost: every file keeps its content and every directory
    stays. *)
Definition grows (es es' : dir) : Prop :=
  keeps_files es es' /\ keeps_dirs es es'.

(** Away from the paths [ps] the files are the same, and no directory is
    lost. *)
Definition changes_only (ps : list Path) (es es' : dir) : Prop :=
  (forall q c, ~ In q ps ->
     (lookup es q = Some (File c) <-> lookup es' q = Some (File c))) /\
  keeps_dirs es es'.

(** Every run of the computation relates the tree it starts from and the
    tree it leaves by [R]. *)
Definition fs_rel {A : Type} (R : dir -> dir -> Prop) (m : M A) : Prop :=
  forall w r w', m w = (r, w') -> R (fs w) (fs w').

(** The paths a request asks [main] to write. *)
Definition outputs (args : Args) (cap_name : string) : list Path :=
  (if wants_cli (arg_target args) then [out_cli_path args cap_name] else []) ++
  (if wants_script (arg_target args) then [out_script_path args cap_name] else []) ++
  (match arg_emit_test_plan args with Some p => [p] | None => [] end) ++
  (match arg_emit_doc_snippets args with Some p => [p] | None => [] end).

(** [write_file] can write at the path: no file stands on the way, the path
    is no directory, and it is free unless force is given. *)
Definition writable (es : dir) (path : Path) (force : bool) : bool :=
  no_file_on es (parent path) && negb (is_dir es path) &&
  negb (path_exists es path && negb force).

(** The writes [main] asks for, in the order of its [try] body: the path and
    the text, which for an artifact is what its renderer returns. *)
Definition writes (args : Args) (cap_name : string) (params : list ParamSpec)
  : list (Path * result string) :=
  (if wants_cli (arg_target args) then
     [(out_cli_path args cap_name,
       generate_cli_content cap_name (arg_binary args) (arg_api_base_url args)
         (arg_endpoint args) params (arg_description args))]
   else []) ++
  (if wants_script (arg_target args) then
     [(out_script_path args cap_name,
       generate_script_content cap_name (arg_binary args)
         (arg_api_base_url args) (arg_endpoint args) params
         (arg_description args) (negb (arg_no_simulate args)))]
   else []) ++
  (match arg_emit_test_plan args with
   | Some p => [(p, Ok (generate_test_plan_content (arg_binary args)))]
   | None => []
   end) ++
  (match arg_emit_doc_snippets args with
   | Some p => [(p, Ok generate_generator_usage_content)]
   | None => []
   end).

(** Rendering and writing one after the other, up to the first failure. *)
Fixpoint write_all (jobs : list (Path * result string)) (force dry_run : bool)
  : M unit :=
  match jobs with
  | [] => ret tt
  | (path, text) :: rest =>
      (content <~ lift text ;; write_file path content force dry_run) ;;;
      write_all rest force dry_run
  end.

(** A component that is the name of an entry: not empty, neither [.] nor
    [..], and without a slash. *)
Definition plain_name (c : string) : bool :=
  negb (String.eqb c EmptyString) && negb (String.eqb c ".")
  && negb (String.eqb c "..") && forallb (fun x => negb (is_char 47 x)) c.

(** A relative path whose components are names: it leads to its file
    directly, and no other such path leads there. *)
Definition plain_path (p : Path) : bool := List.forallb plain_name p.

(** Away from the paths [ps] the files at paths of names are the same, and
    no directory is lost. *)
Definition changes_only_plain (ps : list Path) (es es' : dir) : Prop :=
  (forall q c, plain_path q = true -> ~ In q ps ->
     (lookup es q = Some (File c) <-> lookup es' q = Some (File c))) /\
  keeps_dirs es es'.

(** The text is ASCII. *)
Definition ascii_text (s : string) : bool := forallb (fun c => code c <? 128) s.

(** The characters of a normalized name: word characters that are no capital
    letters. *)
Definition snake_char (c : ascii) : bool := is_word c && negb (is_upper c).

(** The character ends no line. *)
Definition no_break (c : ascii) : bool := negb (is_line_break c).

(** The text is one line: it holds no line boundary. *)
Definition one_line (s : string) : bool := forallb no_break s.

(** The text starts with a whitespace character. *)
Definition head_space (s : string) : bool :=
  match s with
  | String d _ => is_space d
  | EmptyString => false
  end.

(** No two whitespace characters stand side by side. *)
Fixpoint no_double_space (s : string) : bool :=
  match s with
  | String c r => negb (is_space c && head_space r) && no_double_space r
  | EmptyString => true
  end.

(** The text holds no double quote. *)
Definition no_dquote (s : string) : bool :=
  forallb (fun c => negb (is_char 34 c)) s.

(** A line that holds no line feed and does not start with a blank or a
    quote: no docstring starts on it. *)
Definition plain_line (l : string) : bool :=
  forallb (fun c => negb (is_char 10 c)) l &&
  match l with
  | String c _ => negb (is_blank c) && negb (is_char 34 c) && negb (is_char 39 c)
  | EmptyString => true
  end.

(** The lines of the module docstring of every script artifact, after its
    first line. *)
Definition SCRIPT_CONVENTIONS : list string := [
  "Self-contained script with minimal HTTP client.";
  "Conventions:";
  "- `--help` shows options";
  "- `--json` prints strict JSON on stdout (no logs)";
  "- Exit 0 on success; exit 1 on failure";
  "- Keep code ~200–300 lines when possible to reduce context" ].

(** The lines of the docstring of the root group of every subcommand artifact,
    after its first line. *)
Definition CLI_GROUP_NOTE : string :=
  "Add or import additional commands into this group.".

(** The module docstring of every script artifact, after its first line. *)
Definition SCRIPT_DOCSTRING_TAIL : string :=
  unlines [
    "Self-contained script with minimal HTTP client.";
    EmptyString;
    "Conventions:";
    "- `--help` shows options";
    "- `--json` prints strict JSON on stdout (no logs)";
    "- Exit 0 on success; exit 1 on failure";
    "- Keep code ~200–300 lines when possible to reduce context" ].

(** The lines every subcommand artifact opens with, up to the root group. *)
Definition cli_preamble (binary api_base_url : string) : list string := [
  "#!/usr/bin/env python3";
  "import json";
  "import sys";
  "import typing as t";
  EmptyString;
  "import click";
  "import httpx";
  EmptyString;
  "DEFAULT_TIMEOUT = 30.0";
  "DEFAULT_USER_AGENT = " ++ repr (binary ++ "/1.0");
  "DEFAULT_API_BASE_URL = " ++ repr api_base_url;
  EmptyString;
  "@click.group()";
  "def cli():" ].

(** The error of the first parameter whose default cannot be coerced. *)
Fixpoint first_default_error (params : list ParamSpec) : option exn :=
  match params with
  | [] => None
  | p :: rest =>
      match default_error p with
      | Some e => Some e
      | None => first_default_error rest
      end
  end.

(** A decimal literal of a positive integer: a digit from 1 to 9, then
    digits. *)
Definition positive_literal (s : string) : bool :=
  match s with
  | String d r => in_range 49 57 d && forallb is_digit r
  | EmptyString => false
  end.

(** The canonical decimal literal of an integer: [0], or a positive literal
    with an optional minus sign. *)
Definition int_literal (s : string) : bool :=
  String.eqb s "0" || positive_literal s ||
  match s with
  | String c r => is_char 45 c && positive_literal r
  | EmptyString => false
  end.

(** A descriptor as the parser leaves it: the name is a valid identifier in
    normal form, the type is supported and is its own option type, the
    parameter is required exactly when it has no default, and the default
    carries no whitespace at either end. *)
Definition well_formed (s : ParamSpec) : Prop :=
  valid_identifier (name s) = true /\
  forallb snake_char (name s) = true /\
  snake (name s) = name s /\
  mem (type s) SUPPORTED_TYPES = true /\
  click_type (type s) = type s /\
  required s = match default s with None => true | Some _ => false end /\
  match default s with
  | Some d => strip d = d
  | None => True
  end.

(** The characters of a lower-case identifier: small letters, digits and the
    underscore. *)
Definition lower_ident_char (c : ascii) : bool :=
  is_lower c || is_digit c || is_char 95 c.

(** The path is a regular file. *)
Definition is_file (es : dir) (p : Path) : bool :=
  match lookup es p with Some (File _) => true | _ => false end.

(** Every regular file of the first tree is a regular file of the second. *)
Definition keeps_file_nodes (es es' : dir) : Prop :=
  forall q, is_file es q = true -> is_file es' q = true.

(** The text holds a character that is no whitespace. *)
Definition has_visible (s : string) : bool :=
  existsb (fun c => negb (is_space c)) s.

(** [\b(uv run|python)\b] matches at the head of [s]: the command pattern
    without its third alternative. *)
Definition word_command_at (prev : option ascii) (s : string) : bool :=
  ScriptsIndex.word_boundary prev s &&
  (starts_with "uv run" s || starts_with "python" s) &&
  ScriptsIndex.word_boundary (Some "n"%char) (drop 6 s).

(** [\b(uv run|python)\b] matches somewhere in [s]. *)
Fixpoint has_word_command (prev : option ascii) (s : string) : bool :=
  word_command_at prev s ||
  match s with
  | EmptyString => false
  | String c r => has_word_command (Some c) r
  end.

(** The text holds no slash. *)
Definition no_slash (s : string) : bool :=
  forallb (fun c => negb (is_char 47 c)) s.

(** The long s, U+017F, in UTF-8: the one character outside ASCII that
    [re.IGNORECASE] lets match a letter of [Usage:]. *)
Definition long_s : string :=
  String (ascii_of_nat 197) (String (ascii_of_nat 191) EmptyString).

(** The text mentions neither [usage], in any letter case, nor [.py], and
    it has no long s. *)
Definition no_example_words (s : string) : bool :=
  negb (contains "usage" (lower s)) && negb (contains long_s s)
  && negb (contains ".py" s).

(** Neither the name nor the default of the parameter mentions them. *)
Definition param_no_example_words (p : ParamSpec) : bool :=
  no_example_words (name p) &&
  match default p with
  | Some d => no_example_words d
  | None => true
  end.

(** No text of the request mentions them, and neither does the name once
    [snake] has removed its punctuation. *)
Definition request_no_example_words (name binary api_base_url endpoint : string)
    (params : list ParamSpec) (description : option string) : bool :=
  no_example_words name && no_example_words (snake name)
  && no_example_words binary && no_example_words api_base_url
  && no_example_words endpoint
  && List.forallb param_no_example_words params
  && match description with
     | Some d => no_example_words d
     | None => true
     end.

(** The search for [.py] as an automaton: the state counts the characters
    of the pattern that were read last. *)
Definition py_step (st : nat) (c : ascii) : nat :=
  if is_char 46 c then 1
  else match st with
       | 1 => if is_char 112 c then 2 else 0
       | 2 => if is_char 121 c then 3 else 0
       | _ => 0
       end.

(** The same for [usage], read in any letter case. *)
Definition usage_word_step (st : nat) (c : ascii) : nat :=
  let l := lower_char c in
  if is_char 117 l then 1
  else match st with
       | 1 => if is_char 115 l then 2 else 0
       | 2 => if is_char 97 l then 3 else 0
       | 3 => if is_char 103 l then 4 else 0
       | 4 => if is_char 101 l then 5 else 0
       | _ => 0
       end.

(** Both searches side by side.  A state is low while neither pattern was
    read to its end; the scan stops in the first state that is not. *)
Definition low (st : nat * nat) : bool := (fst st <? 3) && (snd st <? 5).

Definition example_step (st : nat * nat) (c : ascii) : nat * nat :=
  if low st then (py_step (fst st) c, usage_word_step (snd st) c) else st.

Fixpoint example_scan (st : nat * nat) (s : string) : nat * nat :=
  match s with
  | EmptyString => st
  | String c r => example_scan (example_step st c) r
  end.

(** The scan of the text from the start state meets neither pattern. *)
Definition quiet (s : string) : bool := low (example_scan (0, 0) s).

(** A character after which both searches are where they would be had they
    started with it. *)
Definition resets (c : ascii) : bool :=
  negb (is_char 112 c) && negb (is_char 121 c)
  && negb (is_char 115 (lower_char c)) && negb (is_char 97 (lower_char c))
  && negb (is_char 103 (lower_char c)) && negb (is_char 101 (lower_char c)).

Definition head_resets (s : string) : bool :=
  match s with
  | String c _ => resets c
  | EmptyString => false
  end.

(** A state of the scan from the start is below the one of a scan that
    started earlier: each search is at its start or where the other is. *)
Definition below (s0 s1 : nat * nat) : Prop :=
  (fst s0 = 0 \/ fst s0 = fst s1) /\ (snd s0 = 0 \/ snd s0 = snd s1).

(** A text after which the scan is back at its start. *)
Definition settles (l : string) : Prop :=
  forall st, low (example_scan st l) = true -> example_scan st l = (0, 0).

(** Every line but the last one settles the scan. *)
Fixpoint closed_lines (ls : list string) : Prop :=
  match ls with
  | [] => True
  | l :: rest =>
      match rest with
      | [] => True
      | _ => settles l /\ closed_lines rest
      end
  end.

(** The characters of the literal of a number: digits, the sign, the
    point, and the letters of the exponent, of [inf] and of [nan]. *)
Definition literal_char (c : ascii) : bool :=
  is_digit c || existsb (Ascii.eqb c) ".+-einfa".

(** The texts a block or a parameter brings into a template are quiet. *)
Definition block_quiet (b : option_block) : bool :=
  match b with
  | FlagOption n d => quiet n && quiet d
  | RequiredOption n t => quiet n && quiet t
  | DefaultOption n t d sd => quiet n && quiet t && quiet d && quiet sd
  end.

Definition param_quiet (p : ParamSpec) : bool :=
  quiet (name p) &&
  match default p with
  | Some d => quiet d
  | None => true
  end.

(** * Properties *)

(** ** The model at work *)

Example snake_examples :
  map snake ["My-Name  x"; "Limit"; "--dry run--"; "a.b"]
  = ["my_name_x"; "limit"; "dry_run"; "ab"].
Proof. reflexivity. Qed.

Example valid_identifier_examples :
  map valid_identifier ["limit"; "_x1"; "9lives"; ""; "a b"]
  = [true; true; false; false; false].
Proof. reflexivity. Qed.

Example repr_examples :
  repr "open" = "'open'" /\ repr "it's" = dq ++ "it's" ++ dq /\
  repr ("tab" ++ String (ascii_of_nat 9) "here") = "'tab" ++ bs ++ "there'".
Proof. repeat split. Qed.

Example int_str_examples :
  map PyNum.int_str [" 007 "; "1_000"; "-0"; "ten"; ""]
  = [Some "7"; Some "1000"; Some "0"; None; None].
Proof. reflexivity. Qed.

Example float_str_examples :
  map PyNum.float_str
    ["0.5"; "1e16"; "25"; ".1"; "1e400"; "fast"; "1e-5"; "-0";
     "9007199254740993"]
  = [Some "0.5"; Some "1e+16"; Some "25.0"; Some "0.1"; Some "inf"; None;
     Some "1e-05"; Some "-0.0"; Some "9007199254740992.0"].
Proof. vm_compute. reflexivity. Qed.

(** [int] and [float] skip a vertical tab but no file separator. *)
Example number_space_examples :
  PyNum.int_str (String (ascii_of_nat 11) "12") = Some "12" /\
  PyNum.int_str (String (ascii_of_nat 28) "12") = None /\
  PyNum.float_str ("1.5" ++ String (ascii_of_nat 31) EmptyString) = None.
Proof. vm_compute. repeat split. Qed.

Example python_cast_value_examples :
  python_cast_value "str" "open" = Ok "'open'" /\
  python_cast_value "int" "25" = Ok "25" /\
  python_cast_value "float" "2" = Ok "2.0" /\
  python_cast_value "bool" "yes" = Ok "True" /\
  python_cast_value "int" "" =
    Raise (ValueError "invalid literal for int() with base 10: ''").
Proof. repeat split; vm_compute; reflexivity. Qed.

Example dedent_example :
  dedent (nl ++ "    a" ++ nl ++ "      b" ++ nl ++ "    " ++ nl ++ "    c")
  = nl ++ "a" ++ nl ++ "  b" ++ nl ++ nl ++ "c".
Proof. reflexivity. Qed.

Example option_text_example :
  option_text (DefaultOption "limit" "int" "25" "True")
  = nl ++ unlines [
      "@click.option(";
      "    " ++ dq ++ "--limit" ++ dq ++ ",";
      "    type=int,";
      "    default=25,";
      "    show_default=True,";
      "    help=" ++ dq ++ "Optional parameter: limit" ++ dq ++ "," ]
    ++ ")".
Proof. reflexivity. Qed.

Example parse_param_token_unsupported_type :
  parse_param_token "x:date"
  = Raise (ValueError
             "Unsupported type 'date' in 'x:date'. Supported: bool, float, int, str").
Proof. reflexivity. Qed.

Example parse_params_scenario :
  parse_params ["status:str:open"; "limit:int:25"]
  = Ok [mkParamSpec "status" "str" false (Some "open");
        mkParamSpec "limit" "int" false (Some "25")].
Proof. reflexivity. Qed.

Example main_scenario_exit_code :
  fst (main (orders_request false false) empty_world) = 0 /\
  map fst (fs (snd (main (orders_request false false) empty_world)))
  = ["cli_orders.py"; "scripts"] /\
  stdout (snd (main (orders_request false false) empty_world))
  = ["Wrote cli_orders.py"; "Wrote scripts/orders.py"; "Done."].
Proof. repeat split; vm_compute; reflexivity. Qed.

(** ** Lists, strings and results *)

Arguments mem : simpl never.

Arguments strip : simpl never.

Arguments snake : simpl never.

Arguments valid_identifier : simpl never.

Lemma mem_In (s : string) (l : list string) : mem s l = true <-> In s l.
Proof.
  unfold mem. rewrite existsb_exists. split.
  - intros [x [Hin Heq]]. apply String.eqb_eq in Heq. now subst.
  - intros Hin. exists s. split; [assumption | apply String.eqb_refl].
Qed.

Lemma mem_false_In (s : string) (l : list string) :
  mem s l = false <-> ~ In s l.
Proof.
  rewrite <- mem_In. destruct (mem s l); split; intros H; easy.
Qed.

Lemma bind_ok {A B : Type} (r : result A) (k : A -> result B) (b : B) :
  (x <- r ;; k x) = Ok b -> exists a, r = Ok a /\ k a = Ok b.
Proof. destruct r as [a | e]; simpl; [eauto | discriminate]. Qed.

(** ** The parameter grammar *)

Lemma parse_params_loop_sound (tokens : list string) :
  forall seen specs out,
    parse_params_loop tokens seen specs = Ok out ->
    exists new,
      out = (specs ++ new)%list /\ Forall2 parses_to tokens new /\
      NoDup (map name new) /\ (forall s, In s new -> ~ In (name s) seen).
Proof.
  induction tokens as [| t rest IH]; simpl; intros seen specs out H.
  - injection H as <-. exists []. rewrite app_nil_r.
    split; [reflexivity |]. split; [constructor |]. split; [constructor |].
    intros s [].
  - apply bind_ok in H as [spec [Hspec H]].
    destruct (mem (name spec) seen) eqn:Hseen; [discriminate |].
    apply IH in H as [new [-> [Hall [Hnd Hfresh]]]].
    exists (spec :: new). rewrite <- app_assoc. simpl.
    split; [reflexivity |]. split; [| split].
    + now constructor.
    + constructor; [| assumption].
      rewrite in_map_iff. intros [s [Hname Hin]].
      apply (Hfresh s Hin). left. now symmetry.
    + intros s [<- | Hin].
      * now apply mem_false_In.
      * intros Hs. apply (Hfresh s Hin). now right.
Qed.

Lemma parse_params_loop_complete (tokens : list string) :
  forall seen specs new,
    Forall2 parses_to tokens new ->
    NoDup (map name new) ->
    (forall s, In s new -> ~ In (name s) seen) ->
    parse_params_loop tokens seen specs = Ok (specs ++ new)%list.
Proof.
  induction tokens as [| t rest IH]; intros seen specs new Hall Hnd Hfresh.
  - inversion Hall; subst. simpl. now rewrite app_nil_r.
  - inversion Hall as [| ? spec ? new' Hspec Hall']; subst.
    simpl. unfold parses_to in Hspec. rewrite Hspec. simpl.
    assert (Hseen : mem (name spec) seen = false).
    { apply mem_false_In. apply Hfresh. now left. }
    rewrite Hseen. inversion Hnd as [| ? ? Hnotin Hnd']; subst.
    rewrite (IH (name spec :: seen) (specs ++ [spec])%list new' Hall' Hnd').
    + now rewrite <- app_assoc.
    + intros s Hin [Heq | Hs].
      * apply Hnotin. rewrite Heq. now apply in_map.
      * apply (Hfresh s); [now right | assumption].
Qed.

Lemma parse_params_iff (tokens : list string) (specs : list ParamSpec) :
  parse_params tokens = Ok specs <->
  Forall2 parses_to tokens specs /\ NoDup (map name specs).
Proof.
  unfold parse_params. split.
  - intros H. apply parse_params_loop_sound in H as [new [-> [Hall [Hnd _]]]].
    now split.
  - intros [Hall Hnd].
    now apply (parse_params_loop_complete tokens [] [] specs).
Qed.

Lemma parse_param_token_inv (t : string) (s : ParamSpec) :
  parse_param_token t = Ok s ->
  let parts := split_on ":" t in
  (List.length parts = 2 \/ List.length parts = 3) /\
  strip (nth 0 parts EmptyString) <> EmptyString /\
  name s = snake (strip (nth 0 parts EmptyString)) /\
  valid_identifier (name s) = true /\
  type s = strip (nth 1 parts EmptyString) /\
  mem (type s) SUPPORTED_TYPES = true /\
  default s =
    (if List.length parts =? 3 then Some (strip (nth 2 parts EmptyString))
     else None) /\
  required s = match default s with None => true | Some _ => false end.
Proof.
  intros H parts. unfold parse_param_token in H. fold parts in H.
  destruct (List.length parts <? 2) eqn:H2; [discriminate |].
  destruct (3 <? List.length parts) eqn:H3; [discriminate |].
  simpl orb in H. cbv iota in H.
  destruct (String.eqb (strip (nth 0 parts EmptyString)) EmptyString) eqn:Hn;
    [discriminate |].
  destruct (valid_identifier (snake (strip (nth 0 parts EmptyString)))) eqn:Hv;
    [| discriminate].
  destruct (mem (strip (nth 1 parts EmptyString)) SUPPORTED_TYPES) eqn:Ht;
    [| discriminate].
  simpl orb in H. simpl negb in H. cbv iota in H. injection H as <-. simpl.
  apply Nat.ltb_ge in H2, H3. apply String.eqb_neq in Hn.
  repeat split; try assumption; try reflexivity. lia.
Qed.

Lemma parse_param_token_required (t : string) (s : ParamSpec) :
  parse_param_token t = Ok s ->
  (required s = true <-> default s = None) /\
  (required s = true <-> List.length (split_on ":" t) = 2).
Proof.
  intros H. apply parse_param_token_inv in H.
  destruct H as [Hlen [_ [_ [_ [_ [_ [Hd Hr]]]]]]].
  rewrite Hr, Hd.
  destruct (List.length (split_on ":" t) =? 3) eqn:Heq.
  - apply Nat.eqb_eq in Heq. rewrite Heq. split; split; intros; discriminate.
  - apply Nat.eqb_neq in Heq. split; split; intros; try reflexivity. lia.
Qed.

(** C5: a token list is accepted exactly when every token parses and the
    names are pairwise distinct, and then [parse_params] returns the
    descriptors of the tokens, one per token and in input order;
    ["limit:int:10"] and ["query:str"] parse as the specification says, and a
    descriptor is required exactly when its token has no default field. *)
Theorem parse_params_one_per_token_in_order :
  (forall tokens specs,
      parse_params tokens = Ok specs <->
      Forall2 parses_to tokens specs /\ NoDup (map name specs)) /\
  (forall tokens specs,
      parse_params tokens = Ok specs ->
      List.length specs = List.length tokens /\
      forall i t, nth_error tokens i = Some t ->
        exists s, nth_error specs i = Some s /\ parse_param_token t = Ok s) /\
  parse_param_token "limit:int:10" = Ok (mkParamSpec "limit" "int" false (Some "10")) /\
  parse_param_token "query:str" = Ok (mkParamSpec "query" "str" true None) /\
  (forall t s,
      parse_param_token t = Ok s ->
      (required s = true <-> default s = None) /\
      (required s = true <-> List.length (split_on ":" t) = 2)).
Proof.
  split; [exact parse_params_iff |].
  split.
  - intros tokens specs H. apply parse_params_iff in H as [Hall _].
    split.
    + symmetry. eapply Forall2_length. exact Hall.
    + induction Hall as [| t s ts ss Hts Hall IH]; intros i t' Hi.
      * destruct i; discriminate.
      * destruct i as [| i]; simpl in *.
        -- injection Hi as <-. now exists s.
        -- now apply IH.
  - split; [reflexivity |]. split; [reflexivity |].
    exact parse_param_token_required.
Qed.

Lemma parse_params_loop_first_duplicate (pre : list string) :
  forall seen specs new t rest s,
    Forall2 parses_to pre new ->
    NoDup (map name new) ->
    (forall s', In s' new -> ~ In (name s') seen) ->
    parse_param_token t = Ok s ->
    In (name s) (map name new ++ seen)%list ->
    parse_params_loop (pre ++ t :: rest)%list seen specs
    = Raise (duplicate_error (name s)).
Proof.
  induction pre as [| a pre IH]; intros seen specs new t rest s Hall Hnd Hfresh Ht Hin.
  - inversion Hall; subst. simpl in *. rewrite Ht. simpl.
    apply mem_In in Hin. now rewrite Hin.
  - inversion Hall as [| ? sa ? new' Ha Hall']; subst.
    simpl. unfold parses_to in Ha. rewrite Ha. simpl.
    assert (Hseen : mem (name sa) seen = false).
    { apply mem_false_In. apply Hfresh. now left. }
    rewrite Hseen. inversion Hnd as [| ? ? Hnotin Hnd']; subst.
    apply (IH (name sa :: seen) (specs ++ [sa])%list new'); try assumption.
    + intros s' Hs' [Heq | Hs].
      * apply Hnotin. rewrite Heq. now apply in_map.
      * apply (Hfresh s'); [now right | assumption].
    + simpl in Hin. apply in_app_iff. destruct Hin as [Heq | Hin].
      * right. now left.
      * apply in_app_iff in Hin as [Hin | Hin]; [now left | right; now right].
Qed.

Lemma parse_params_loop_some_duplicate (tokens : list string) :
  forall seen specs new,
    Forall2 parses_to tokens new ->
    ~ NoDup (map name new) \/ (exists s, In s new /\ In (name s) seen) ->
    exists n, parse_params_loop tokens seen specs = Raise (duplicate_error n).
Proof.
  induction tokens as [| t rest IH]; intros seen specs new Hall Hdup.
  - inversion Hall; subst. destruct Hdup as [Hnd | [s [[] _]]].
    contradiction Hnd. constructor.
  - inversion Hall as [| ? s ? new' Hs Hall']; subst.
    simpl. unfold parses_to in Hs. rewrite Hs. simpl.
    destruct (mem (name s) seen) eqn:Hseen; [now exists (name s) |].
    apply (IH (name s :: seen) (specs ++ [s])%list new' Hall').
    destruct Hdup as [Hnd | [s' [[<- | Hin] Hs']]].
    + destruct (in_dec string_dec (name s) (map name new')) as [Hin | Hnotin].
      * right. apply in_map_iff in Hin as [s' [Hname Hin]].
        exists s'. split; [assumption | left; now symmetry].
      * left. intros Hnd'. apply Hnd. simpl. now constructor.
    + apply mem_false_In in Hseen. contradiction.
    + right. exists s'. split; [assumption | now right].
Qed.

Lemma Forall2_nth_error_parses (tokens : list string) (specs : list ParamSpec) :
  Forall2 parses_to tokens specs ->
  forall i t s,
    nth_error tokens i = Some t -> parse_param_token t = Ok s ->
    nth_error (map name specs) i = Some (name s).
Proof.
  induction 1 as [| t0 s0 ts ss H0 Hall IH]; intros i t s Hi Ht.
  - destruct i; discriminate.
  - destruct i as [| i]; simpl in *.
    + injection Hi as <-. unfold parses_to in H0. rewrite H0 in Ht.
      now injection Ht as <-.
    + now apply (IH i t s).
Qed.

(** C6: a token list in which two tokens parse to the same normalized name
    is never accepted; when the tokens before the repeating one form an
    accepted list, the error is the duplicate-name error of the first
    repeated name, whatever follows; a list of tokens that all parse and
    repeat a name fails with a duplicate-name error; and ["Limit:int:5"]
    followed by ["limit:int:10"] is rejected as a duplicate of [limit]. *)
Theorem parse_params_rejects_duplicates :
  (forall tokens i j t1 t2 s1 s2,
      i <> j ->
      nth_error tokens i = Some t1 -> nth_error tokens j = Some t2 ->
      parse_param_token t1 = Ok s1 -> parse_param_token t2 = Ok s2 ->
      name s1 = name s2 ->
      exists e, parse_params tokens = Raise e) /\
  (forall pre t rest specs s,
      parse_params pre = Ok specs ->
      parse_param_token t = Ok s ->
      In (name s) (map name specs) ->
      parse_params (pre ++ t :: rest)%list
      = Raise (ValueError ("Duplicate parameter name: '" ++ name s ++ "'"))) /\
  (forall tokens specs,
      Forall2 parses_to tokens specs ->
      ~ NoDup (map name specs) ->
      exists n,
        parse_params tokens
        = Raise (ValueError ("Duplicate parameter name: '" ++ n ++ "'"))) /\
  parse_params ["Limit:int:5"; "limit:int:10"]
  = Raise (ValueError "Duplicate parameter name: 'limit'").
Proof.
  split; [| split; [| split]].
  - intros tokens i j t1 t2 s1 s2 Hij H1 H2 Hs1 Hs2 Hname.
    destruct (parse_params tokens) as [specs | e] eqn:Hp; [| now exists e].
    exfalso. apply parse_params_iff in Hp as [Hall Hnd].
    pose proof (Forall2_nth_error_parses _ _ Hall i t1 s1 H1 Hs1) as E1.
    pose proof (Forall2_nth_error_parses _ _ Hall j t2 s2 H2 Hs2) as E2.
    rewrite NoDup_nth_error in Hnd. apply Hij, Hnd.
    + apply nth_error_Some. now rewrite E1.
    + now rewrite E1, E2, Hname.
  - intros pre t rest specs s Hp Ht Hin.
    apply parse_params_iff in Hp as [Hall Hnd].
    apply (parse_params_loop_first_duplicate pre [] [] specs); try assumption.
    + intros s' _ [].
    + now rewrite app_nil_r.
  - intros tokens specs Hall Hnd.
    apply (parse_params_loop_some_duplicate tokens [] [] specs Hall). now left.
  - reflexivity.
Qed.

(** The example of the specification, through the general statement: the
    first token is accepted alone and the second repeats its name. *)
Lemma parse_params_rejects_duplicates_witness :
  parse_params (["Limit:int:5"] ++ "limit:int:10" :: ["q:str"])%list
  = Raise (ValueError ("Duplicate parameter name: '"
                         ++ name (mkParamSpec "limit" "int" false (Some "10"))
                         ++ "'")).
Proof.
  apply (proj1 (proj2 parse_params_rejects_duplicates)
           ["Limit:int:5"] "limit:int:10" ["q:str"]
           [mkParamSpec "limit" "int" false (Some "5")]
           (mkParamSpec "limit" "int" false (Some "10"))).
  - reflexivity.
  - reflexivity.
  - simpl. now left.
Defined.

Lemma split_on_no_colon (a : string) :
  no_colon a -> split_on ":" a = [a].
Proof.
  unfold no_colon. induction a as [| c a IH]; simpl; [reflexivity |].
  intros H. apply orb_false_iff in H as [Hc Ha].
  rewrite Hc, (IH Ha). reflexivity.
Qed.

Lemma split_on_colon_app (a b : string) :
  no_colon a -> split_on ":" (a ++ String ":" b) = a :: split_on ":" b.
Proof.
  unfold no_colon. induction a as [| c a IH]; simpl; [reflexivity |].
  intros H. apply orb_false_iff in H as [Hc Ha].
  rewrite Hc, (IH Ha). reflexivity.
Qed.

(** C10: a token that ends in a colon is accepted whenever the same token
    without that colon is, for every declared type, and yields the same name
    and type with [required = false] and the empty text as default;
    ["limit:int:"] is the instance of the claim. *)
Theorem parse_param_token_accepts_empty_default :
  parse_param_token "limit:int:" = Ok (mkParamSpec "limit" "int" false (Some "")) /\
  (forall n t s,
      no_colon n -> no_colon t ->
      parse_param_token (n ++ ":" ++ t) = Ok s ->
      parse_param_token (n ++ ":" ++ t ++ ":")
      = Ok (mkParamSpec (name s) (type s) false (Some ""))) /\
  (forall n, no_colon n ->
      forall s, parse_param_token (n ++ ":int") = Ok s ->
      parse_param_token (n ++ ":int:") = Ok (mkParamSpec (name s) "int" false (Some "")) /\
      parse_param_token (n ++ ":float:") = Ok (mkParamSpec (name s) "float" false (Some "")) /\
      parse_param_token (n ++ ":bool:") = Ok (mkParamSpec (name s) "bool" false (Some "")) /\
      parse_param_token (n ++ ":str:") = Ok (mkParamSpec (name s) "str" false (Some ""))).
Proof.
  assert (General : forall n t s,
      no_colon n -> no_colon t ->
      parse_param_token (n ++ ":" ++ t) = Ok s ->
      parse_param_token (n ++ ":" ++ t ++ ":")
      = Ok (mkParamSpec (name s) (type s) false (Some ""))).
  { intros n t s Hn Ht H.
    pose proof (parse_param_token_inv _ _ H) as Hinv. simpl in Hinv.
    change (n ++ ":" ++ t) with (n ++ String ":" t) in Hinv.
    rewrite (split_on_colon_app n t Hn), (split_on_no_colon t Ht) in Hinv.
    simpl in Hinv.
    destruct Hinv as [_ [Hne [Hname [Hvalid [Htype [Hsup _]]]]]].
    unfold parse_param_token.
    change (n ++ ":" ++ t ++ ":") with (n ++ String ":" (t ++ String ":" EmptyString)).
    rewrite (split_on_colon_app n _ Hn), (split_on_colon_app t _ Ht).
    simpl split_on. simpl List.length. simpl nth.
    simpl Nat.ltb. simpl orb. cbv iota.
    apply String.eqb_neq in Hne. rewrite Hne.
    rewrite <- Hname, Hvalid, <- Htype, Hsup. reflexivity. }
  split; [reflexivity |]. split; [exact General |].
  intros n Hn s H.
  assert (Hname : forall t s', no_colon t ->
            parse_param_token (n ++ ":" ++ t) = Ok s' -> name s' = name s).
  { intros t s' Ht H'.
    pose proof (parse_param_token_inv _ _ H) as I1.
    pose proof (parse_param_token_inv _ _ H') as I2.
    simpl in I1, I2.
    change (n ++ ":int") with (n ++ String ":" "int") in I1.
    change (n ++ ":" ++ t) with (n ++ String ":" t) in I2.
    rewrite (split_on_colon_app n _ Hn) in I1.
    rewrite (split_on_colon_app n _ Hn) in I2. simpl in I1, I2.
    destruct I1 as [_ [_ [-> _]]]. destruct I2 as [_ [_ [-> _]]]. reflexivity. }
  assert (Hany : forall t, no_colon t -> mem t SUPPORTED_TYPES = true ->
            strip t = t ->
            parse_param_token (n ++ ":" ++ t ++ ":")
            = Ok (mkParamSpec (name s) t false (Some ""))).
  { intros t Ht Hsup Hstrip.
    assert (H' : parse_param_token (n ++ ":" ++ t)
                 = Ok (mkParamSpec (name s) t true None)).
    { pose proof (parse_param_token_inv _ _ H) as I1. simpl in I1.
      change (n ++ ":int") with (n ++ String ":" "int") in I1.
      rewrite (split_on_colon_app n _ Hn) in I1. simpl in I1.
      destruct I1 as [_ [Hne [Hn1 [Hv _]]]].
      unfold parse_param_token.
      change (n ++ ":" ++ t) with (n ++ String ":" t).
      rewrite (split_on_colon_app n _ Hn), (split_on_no_colon t Ht).
      simpl List.length. simpl nth. simpl Nat.ltb. simpl orb. cbv iota.
      apply String.eqb_neq in Hne. rewrite Hne.
      rewrite <- Hn1, Hv, Hstrip, Hsup. reflexivity. }
    apply (General n t _ Hn Ht) in H'. exact H'. }
  repeat split.
  - apply (Hany "int"); reflexivity.
  - apply (Hany "float"); reflexivity.
  - apply (Hany "bool"); reflexivity.
  - apply (Hany "str"); reflexivity.
Qed.

(** The general statement at ["flag:bool"]. *)
Lemma parse_param_token_accepts_empty_default_witness :
  parse_param_token ("flag" ++ ":" ++ "bool" ++ ":")
  = Ok (mkParamSpec (name (mkParamSpec "flag" "bool" true None))
          (type (mkParamSpec "flag" "bool" true None)) false (Some "")).
Proof.
  apply (proj1 (proj2 parse_param_token_accepts_empty_default)
           "flag" "bool" (mkParamSpec "flag" "bool" true None));
    reflexivity.
Defined.

(** ** The file system *)

Lemma find_entry_set_entry (c : string) (n : node) (es : dir) :
  find_entry c (set_entry c n es) = Some n.
Proof.
  induction es as [| [k m] rest IH]; simpl.
  - now rewrite String.eqb_refl.
  - destruct (String.eqb c k) eqn:E; simpl; rewrite E; [reflexivity | exact IH].
Qed.

Lemma sys_mkdir_exists (p : Path) :
  forall es n, lookup es p = Some n -> sys_mkdir es p = inl EEXIST.
Proof.
  induction p as [| c rest IH]; intros es n H; [reflexivity |].
  simpl in *. destruct (find_entry c es) as [[s | sub] |]; try discriminate.
  - destruct rest; [reflexivity | discriminate].
  - destruct rest as [| c' rest']; [reflexivity |].
    now rewrite (IH sub n H).
Qed.

Lemma lookup_parent_is_dir (p : Path) :
  forall es n, lookup es p = Some n -> is_dir es (parent p) = true.
Proof.
  unfold is_dir, parent.
  induction p as [| c rest IH]; intros es n H; [reflexivity |].
  destruct rest as [| c' rest']; [reflexivity |].
  change (removelast (c :: c' :: rest')) with (c :: removelast (c' :: rest')).
  simpl lookup in *.
  destruct (find_entry c es) as [[s | sub] |]; try discriminate.
  exact (IH sub n H).
Qed.

Lemma is_dir_lookup (es : dir) (p : Path) :
  is_dir es p = true -> exists sub, lookup es p = Some (Dir sub).
Proof.
  unfold is_dir. destruct (lookup es p) as [[s | sub] |]; try discriminate.
  now exists sub.
Qed.

Lemma mkdir_parents_existing (n : nat) (q : Path) (w : World) :
  is_dir (fs w) (firstn n q) = true -> mkdir_parents n q w = (Ok tt, w).
Proof.
  intros Hdir. destruct (is_dir_lookup _ _ Hdir) as [sub Hsub].
  destruct n; unfold mkdir_parents; fold mkdir_parents;
    unfold os_mkdir; rewrite (sys_mkdir_exists _ _ _ Hsub);
    unfold os_error; cbv beta iota; now rewrite Hdir.
Qed.

(** Making the parents of a path whose parent is a directory changes
    nothing. *)
Lemma ensure_parent_of_existing (path : Path) (w : World) :
  is_dir (fs w) (parent path) = true ->
  ensure_parent path w = (Ok tt, w).
Proof.
  intros Hdir. unfold ensure_parent. apply mkdir_parents_existing.
  now rewrite firstn_all.
Qed.

Lemma sys_write_file (p : Path) (content : string) :
  forall es old,
    lookup es p = Some (File old) ->
    exists es',
      sys_write es p content = inr es' /\ lookup es' p = Some (File content).
Proof.
  induction p as [| c rest IH]; intros es old H; [discriminate |].
  simpl in *. destruct (find_entry c es) as [[s | sub] |] eqn:Hc; try discriminate.
  - destruct rest; [| discriminate].
    eexists. split; [reflexivity |]. simpl. now rewrite find_entry_set_entry.
  - destruct rest as [| c' rest'] eqn:Hrest; [discriminate |].
    rewrite <- Hrest in *.
    destruct (IH sub old H) as [sub' [Hw Hl]]. rewrite Hw.
    eexists. split; [reflexivity |].
    rewrite Hrest. rewrite Hrest in Hl. simpl.
    rewrite find_entry_set_entry. exact Hl.
Qed.

Lemma write_file_conflict (path : Path) (content : string) (dry_run : bool)
    (w : World) :
  path_exists (fs w) path = true ->
  write_file path content false dry_run w
  = (Raise (FileExistsError (conflict_message path)), w).
Proof. intros H. unfold write_file. now rewrite H. Qed.

Lemma wants_script_of_not_cli (t : Target) :
  wants_cli t = false -> wants_script t = true.
Proof. now destruct t. Qed.

(** When the first output exists and overwriting was not asked for, [main]
    stops with code 3 and leaves the files and the output stream alone. *)
Lemma main_first_conflict (args : Args) (w : World) (params : list ParamSpec)
    (text : string) :
  valid_identifier (snake (arg_name args)) = true ->
  parse_params (arg_param args) = Ok params ->
  first_render args (snake (arg_name args)) params = Ok text ->
  path_exists (fs w) (first_output args (snake (arg_name args))) = true ->
  arg_force args = false ->
  main args w
  = (3, mkWorld (fs w) (stdout w)
          (stderr w ++ [conflict_message
                          (first_output args (snake (arg_name args)))])).
Proof.
  intros Hname Hparse Hrender Hexists Hforce.
  unfold main. rewrite Hname, Hparse. simpl negb. cbv iota.
  unfold first_render, first_output in *.
  unfold generate. rewrite Hforce.
  destruct (wants_cli (arg_target args)) eqn:Hcli.
  - unfold bindM at 1 2. unfold lift. rewrite Hrender.
    unfold bindM at 1. cbv beta iota.
    rewrite (write_file_conflict _ _ _ _ Hexists). reflexivity.
  - rewrite (wants_script_of_not_cli _ Hcli).
    unfold bindM at 1 2. unfold ret, lift. cbv beta iota. rewrite Hrender.
    unfold bindM at 1. cbv beta iota.
    rewrite (write_file_conflict _ _ _ _ Hexists). reflexivity.
Qed.

(** ** The default coercion *)

(** C7, as the code has it: the value is lower-cased before it is looked up,
    so a value whose lower-case form is in the truthy vocabulary maps to
    [True], one whose lower-case form is in the falsy vocabulary maps to
    [False], and every other value fails with an error that names it; the
    ten tokens of the vocabulary map as the claim says and ["maybe"] fails. *)
Theorem python_cast_value_bool (val : string) :
  (mem (lower val) TRUE_TOKENS = true ->
   python_cast_value "bool" val = Ok "True") /\
  (mem (lower val) TRUE_TOKENS = false ->
   mem (lower val) FALSE_TOKENS = true ->
   python_cast_value "bool" val = Ok "False") /\
  (mem (lower val) TRUE_TOKENS = false ->
   mem (lower val) FALSE_TOKENS = false ->
   python_cast_value "bool" val
   = Raise (ValueError ("Invalid boolean default: " ++ val))) /\
  map (python_cast_value "bool") TRUE_TOKENS = map (fun _ => Ok "True") TRUE_TOKENS /\
  map (python_cast_value "bool") FALSE_TOKENS = map (fun _ => Ok "False") FALSE_TOKENS /\
  python_cast_value "bool" "maybe"
  = Raise (ValueError "Invalid boolean default: maybe").
Proof.
  unfold python_cast_value, TRUE_TOKENS, FALSE_TOKENS.
  change (String.eqb "bool" "str") with false.
  change (String.eqb "bool" "int") with false.
  change (String.eqb "bool" "float") with false.
  change (String.eqb "bool" "bool") with true. cbv iota.
  repeat split.
  - intros ->. reflexivity.
  - intros -> ->. reflexivity.
  - intros -> ->. reflexivity.
Qed.

(** A value outside the vocabulary that is coerced instead of rejected. *)
Lemma python_cast_value_bool_upper_case :
  mem "TRUE" (TRUE_TOKENS ++ FALSE_TOKENS) = false /\
  python_cast_value "bool" "TRUE" = Ok "True" /\
  python_cast_value "bool" "Off" = Ok "False".
Proof. repeat split. Qed.

(** The coercion at ["YES"], ["No"] and ["maybe"]. *)
Lemma python_cast_value_bool_witness :
  python_cast_value "bool" "YES" = Ok "True" /\
  python_cast_value "bool" "No" = Ok "False" /\
  python_cast_value "bool" "maybe"
  = Raise (ValueError ("Invalid boolean default: " ++ "maybe")).
Proof.
  split; [| split].
  - apply (proj1 (python_cast_value_bool "YES")). reflexivity.
  - apply (proj1 (proj2 (python_cast_value_bool "No"))); reflexivity.
  - apply (proj1 (proj2 (proj2 (python_cast_value_bool "maybe")))); reflexivity.
Defined.

(** ** What the file operations change *)

Lemma find_entry_set_entry_other (c k : string) (n : node) (es : dir) :
  k <> c -> find_entry k (set_entry c n es) = find_entry k es.
Proof.
  intros Hne. induction es as [| [k' m] rest IH]; simpl.
  - destruct (String.eqb_spec k c); [contradiction | reflexivity].
  - destruct (String.eqb_spec c k') as [-> | Hck]; simpl.
    + destruct (String.eqb_spec k k'); [contradiction | reflexivity].
    + destruct (String.eqb k k'); [reflexivity | exact IH].
Qed.

Lemma lookup_cons (es : dir) (c : string) (rest : Path) :
  lookup es (c :: rest)
  = match find_entry c es with
    | None => None
    | Some (Dir sub) => lookup sub rest
    | Some (File s) => match rest with [] => Some (File s) | _ => None end
    end.
Proof. reflexivity. Qed.

(** A new directory is the only change [mkdir] makes. *)
Lemma sys_mkdir_frame (p : Path) :
  forall es es',
    sys_mkdir es p = inr es' ->
    same_files es es' /\
    (forall q, is_dir es' q = true <-> is_dir es q = true \/ q = p) /\
    path_exists es p = false.
Proof.
  unfold same_files, is_dir, path_exists.
  induction p as [| c rest IH]; intros es es' H; [discriminate |].
  simpl sys_mkdir in H. destruct rest as [| c' rest'].
  - destruct (find_entry c es) eqn:Hc; [discriminate |].
    injection H as <-. rewrite lookup_cons, Hc.
    split; [| split; [| reflexivity]].
    + intros [| k r] d; [simpl; split; discriminate |].
      rewrite !lookup_cons.
      destruct (String.eqb_spec k c) as [-> | Hne].
      * rewrite find_entry_set_entry, Hc. destruct r; simpl; split; discriminate.
      * now rewrite find_entry_set_entry_other.
    + intros [| k r]; [simpl; split; auto |].
      rewrite !lookup_cons.
      destruct (String.eqb_spec k c) as [-> | Hne].
      * rewrite find_entry_set_entry, Hc. destruct r; simpl.
        -- split; auto.
        -- split; [discriminate | intros [? | ?]; discriminate].
      * rewrite find_entry_set_entry_other by assumption.
        split; [auto | intros [? | E]; [assumption | congruence]].
  - destruct (find_entry c es) as [[s | sub] |] eqn:Hc; try discriminate.
    destruct (sys_mkdir sub (c' :: rest')) as [e | sub'] eqn:Hsub; [discriminate |].
    injection H as <-.
    destruct (IH sub sub' Hsub) as [Hf [Hd He]].
    rewrite lookup_cons, Hc.
    split; [| split; [| exact He]].
    + intros [| k r] d; [simpl; split; discriminate |].
      rewrite !lookup_cons.
      destruct (String.eqb_spec k c) as [-> | Hne].
      * rewrite find_entry_set_entry, Hc. apply Hf.
      * now rewrite find_entry_set_entry_other.
    + intros [| k r]; [simpl; split; auto |].
      rewrite !lookup_cons.
      destruct (String.eqb_spec k c) as [-> | Hne].
      * rewrite find_entry_set_entry, Hc. rewrite Hd.
        split; (intros [? | E]; [auto | right; congruence]).
      * rewrite find_entry_set_entry_other by assumption.
        split; [auto | intros [? | E]; [assumption | congruence]].
Qed.

Lemma sys_mkdir_cons (es : dir) (c c' : string) (rest : Path) :
  sys_mkdir es (c :: c' :: rest)
  = match find_entry c es with
    | None => inl ENOENT
    | Some (File _) => inl ENOTDIR
    | Some (Dir sub) =>
        match sys_mkdir sub (c' :: rest) with
        | inr sub' => inr (set_entry c (Dir sub') es)
        | inl e => inl e
        end
    end.
Proof. reflexivity. Qed.

Lemma sys_write_cons (es : dir) (c c' : string) (rest : Path) (content : string) :
  sys_write es (c :: c' :: rest) content
  = match find_entry c es with
    | None => inl ENOENT
    | Some (File _) => inl ENOTDIR
    | Some (Dir sub) =>
        match sys_write sub (c' :: rest) content with
        | inr sub' => inr (set_entry c (Dir sub') es)
        | inl e => inl e
        end
    end.
Proof. reflexivity. Qed.

(** [mkdir] succeeds below a directory at a name that is free. *)
Lemma sys_mkdir_succeeds (p : Path) :
  forall es,
    is_dir es (parent p) = true -> path_exists es p = false ->
    exists es', sys_mkdir es p = inr es'.
Proof.
  unfold is_dir, path_exists, parent.
  induction p as [| c rest IH]; intros es Hd He; [discriminate |].
  destruct rest as [| c' rest'].
  - simpl in *. destruct (find_entry c es) as [[s | sub] |]; try discriminate.
    eexists; reflexivity.
  - change (removelast (c :: c' :: rest')) with (c :: removelast (c' :: rest')) in Hd.
    rewrite lookup_cons in Hd, He. rewrite sys_mkdir_cons.
    destruct (find_entry c es) as [[s | sub] |]; try discriminate.
    + destruct (removelast (c' :: rest')); discriminate.
    + destruct (IH sub Hd He) as [sub' ->]. eexists; reflexivity.
Qed.

(** The written file is the only change [sys_write] makes. *)
Lemma sys_write_frame (p : Path) (content : string) :
  forall es es',
    sys_write es p content = inr es' ->
    lookup es' p = Some (File content) /\
    (forall q d, q <> p ->
       (lookup es q = Some (File d) <-> lookup es' q = Some (File d))) /\
    (forall q, is_dir es' q = is_dir es q).
Proof.
  unfold is_dir.
  induction p as [| c rest IH]; intros es es' H; [discriminate |].
  simpl sys_write in H. destruct rest as [| c' rest'].
  - assert (Hes : es' = set_entry c (File content) es /\
                  forall sub, find_entry c es <> Some (Dir sub)).
    { destruct (find_entry c es) as [[s | sub] |]; try discriminate;
        injection H as <-; split; congruence. }
    destruct Hes as [-> Hnd]. clear H.
    split; [| split].
    + rewrite lookup_cons, find_entry_set_entry. reflexivity.
    + intros [| k r] d Hne; [simpl; split; discriminate |].
      rewrite !lookup_cons.
      destruct (String.eqb_spec k c) as [-> | Hkc].
      * rewrite find_entry_set_entry.
        destruct r as [| k2 r2]; [congruence |].
        destruct (find_entry c es) as [[s | sub] |]; try (split; discriminate).
        exfalso. now apply (Hnd sub).
      * now rewrite find_entry_set_entry_other.
    + intros [| k r]; [reflexivity |].
      rewrite !lookup_cons.
      destruct (String.eqb_spec k c) as [-> | Hkc].
      * rewrite find_entry_set_entry.
        destruct (find_entry c es) as [[s | sub] |]; try (destruct r; reflexivity).
        exfalso. now apply (Hnd sub).
      * now rewrite find_entry_set_entry_other.
  - destruct (find_entry c es) as [[s | sub] |] eqn:Hc; try discriminate.
    destruct (sys_write sub (c' :: rest') content) as [e | sub'] eqn:Hsub;
      [discriminate |].
    injection H as <-.
    destruct (IH sub sub' Hsub) as [Hp [Hf Hd]].
    split; [| split].
    + rewrite lookup_cons, find_entry_set_entry. exact Hp.
    + intros [| k r] d Hne; [simpl; split; discriminate |].
      rewrite !lookup_cons.
      destruct (String.eqb_spec k c) as [-> | Hkc].
      * rewrite find_entry_set_entry, Hc. apply Hf. congruence.
      * now rewrite find_entry_set_entry_other.
    + intros [| k r]; [reflexivity |].
      rewrite !lookup_cons.
      destruct (String.eqb_spec k c) as [-> | Hkc].
      * rewrite find_entry_set_entry, Hc. apply Hd.
      * now rewrite find_entry_set_entry_other.
Qed.

(** Writing succeeds below a directory at a path that is no directory. *)
Lemma sys_write_succeeds (p : Path) (content : string) :
  forall es,
    is_dir es (parent p) = true -> is_dir es p = false ->
    exists es', sys_write es p content = inr es'.
Proof.
  unfold is_dir, parent.
  induction p as [| c rest IH]; intros es Hd He; [discriminate |].
  destruct rest as [| c' rest'].
  - simpl in *. destruct (find_entry c es) as [[s | sub] |]; try discriminate;
      eexists; reflexivity.
  - change (removelast (c :: c' :: rest')) with (c :: removelast (c' :: rest')) in Hd.
    rewrite lookup_cons in Hd, He. rewrite sys_write_cons.
    destruct (find_entry c es) as [[s | sub] |]; try discriminate.
    + destruct (removelast (c' :: rest')); discriminate.
    + destruct (IH sub Hd He) as [sub' ->]. eexists; reflexivity.
Qed.

Lemma no_file_on_lookup (p : Path) :
  forall es,
    no_file_on es p = true <->
    (forall k c, lookup es (firstn k p) <> Some (File c)).
Proof.
  induction p as [| c rest IH]; intros es.
  - split; [| reflexivity]. intros _ k d. now destruct k.
  - simpl no_file_on. split.
    + intros H [| k] d; [discriminate |].
      change (firstn (S k) (c :: rest)) with (c :: firstn k rest).
      rewrite lookup_cons.
      destruct (find_entry c es) as [[s | sub] |]; try discriminate.
      now apply IH.
    + intros H. destruct (find_entry c es) as [[s | sub] |] eqn:Hc; [| | reflexivity].
      * exfalso. apply (H 1 s). change (firstn 1 (c :: rest)) with [c].
        now rewrite lookup_cons, Hc.
      * apply IH. intros k d. specialize (H (S k) d).
        change (firstn (S k) (c :: rest)) with (c :: firstn k rest) in H.
        now rewrite lookup_cons, Hc in H.
Qed.

Lemma no_file_on_firstn (es : dir) (p : Path) (k : nat) :
  no_file_on es p = true -> no_file_on es (firstn k p) = true.
Proof.
  rewrite !no_file_on_lookup. intros H j d.
  rewrite firstn_firstn. apply H.
Qed.

Lemma no_file_on_same_files (es es' : dir) (p : Path) :
  same_files es es' -> no_file_on es p = true -> no_file_on es' p = true.
Proof.
  rewrite !no_file_on_lookup. intros Hs H k d Hl.
  apply (H k d). now apply Hs.
Qed.

Lemma no_file_not_exists (es : dir) (p : Path) :
  no_file_on es p = true -> is_dir es p = false -> path_exists es p = false.
Proof.
  rewrite no_file_on_lookup. unfold is_dir, path_exists. intros H Hd.
  specialize (H (List.length p)). rewrite firstn_all in H.
  destruct (lookup es p) as [[s | sub] |]; [| discriminate | reflexivity].
  now elim (H s).
Qed.

(** Below a missing directory that no file stands in for, [mkdir] reports a
    missing path. *)
Lemma sys_mkdir_enoent (p : Path) :
  forall es,
    no_file_on es p = true -> is_dir es (parent p) = false ->
    sys_mkdir es p = inl ENOENT.
Proof.
  unfold is_dir, parent.
  induction p as [| c rest IH]; intros es Hn Hd; [discriminate |].
  destruct rest as [| c' rest']; [discriminate |].
  change (removelast (c :: c' :: rest')) with (c :: removelast (c' :: rest')) in Hd.
  rewrite lookup_cons in Hd. rewrite sys_mkdir_cons.
  simpl no_file_on in Hn.
  destruct (find_entry c es) as [[s | sub] |]; try discriminate; [| reflexivity].
  change (no_file_on sub (c' :: rest') = true) in Hn.
  now rewrite (IH sub Hn Hd).
Qed.

Lemma same_files_refl (es : dir) : same_files es es.
Proof. intros q c; reflexivity. Qed.

Lemma same_files_trans (a b c : dir) :
  same_files a b -> same_files b c -> same_files a c.
Proof. intros H1 H2 q d. now rewrite (H1 q d). Qed.

Lemma world_eta (w : World) : mkWorld (fs w) (stdout w) (stderr w) = w.
Proof. now destruct w. Qed.

(** [mkdir(parents=True, exist_ok=True)] succeeds when no file stands on the
    path: afterwards the path is a directory, no file has changed, and the
    new directories are prefixes of the path. *)
Lemma mkdir_parents_creates (q : Path) :
  forall n w,
    n <= List.length q ->
    no_file_on (fs w) (firstn n q) = true ->
    exists es',
      mkdir_parents n q w = (Ok tt, mkWorld es' (stdout w) (stderr w)) /\
      is_dir es' (firstn n q) = true /\
      same_files (fs w) es' /\
      keeps_dirs (fs w) es' /\
      (forall r, is_dir es' r = true ->
                 is_dir (fs w) r = true \/ exists k, k <= n /\ r = firstn k q).
Proof.
  induction n as [| k IH]; intros w Hn Hnf.
  - exists (fs w). rewrite mkdir_parents_existing by reflexivity.
    rewrite world_eta. repeat split; auto using same_files_refl.
    intros r Hr; exact Hr.
  - destruct (is_dir (fs w) (firstn (S k) q)) eqn:Hself.
    + exists (fs w). rewrite mkdir_parents_existing by assumption.
      rewrite world_eta. repeat split; auto using same_files_refl.
      intros r Hr; exact Hr.
    + assert (Hex := no_file_not_exists _ _ Hnf Hself).
      assert (Hpar : parent (firstn (S k) q) = firstn k q)
        by (apply removelast_firstn; lia).
      destruct (is_dir (fs w) (firstn k q)) eqn:Hp.
      * destruct (sys_mkdir_succeeds (firstn (S k) q) (fs w)) as [es' Hmk];
          [now rewrite Hpar | assumption |].
        exists es'. unfold mkdir_parents; fold mkdir_parents.
        unfold os_mkdir. cbv zeta. rewrite Hmk.
        destruct (sys_mkdir_frame _ _ _ Hmk) as [Hf [Hd _]].
        split; [reflexivity |]. split; [apply Hd; now right |].
        split; [exact Hf |]. split; [intros r Hr; apply Hd; now left |].
        intros r Hr. apply Hd in Hr as [Hr | ->]; [now left |].
        right. exists (S k). split; [lia | reflexivity].
      * assert (Hmk : sys_mkdir (fs w) (firstn (S k) q) = inl ENOENT)
          by (apply sys_mkdir_enoent; [assumption | now rewrite Hpar]).
        assert (Hnf' : no_file_on (fs w) (firstn k q) = true).
        { rewrite <- Hpar. unfold parent.
          replace (removelast (firstn (S k) q))
            with (firstn k (firstn (S k) q))
            by (rewrite firstn_firstn; fold (parent (firstn (S k) q));
                rewrite Hpar; f_equal; lia).
          now apply no_file_on_firstn. }
        destruct (IH w ltac:(lia) Hnf') as [es1 [Hrun [Hd1 [Hf1 [Hk1 Hnew1]]]]].
        assert (Hex1 : path_exists es1 (firstn (S k) q) = false).
        { apply no_file_not_exists.
          - now apply (no_file_on_same_files (fs w)).
          - destruct (is_dir es1 (firstn (S k) q)) eqn:E; [| reflexivity].
            apply Hnew1 in E as [E | [j [Hj E]]]; [congruence |].
            apply (f_equal (@List.length string)) in E.
            rewrite !length_firstn in E. lia. }
        destruct (sys_mkdir_succeeds (firstn (S k) q) es1) as [es2 Hmk2];
          [now rewrite Hpar | assumption |].
        destruct (sys_mkdir_frame _ _ _ Hmk2) as [Hf2 [Hd2 _]].
        exists es2. unfold mkdir_parents; fold mkdir_parents.
        unfold os_mkdir at 1. cbv zeta. rewrite Hmk. unfold os_error.
        unfold bindM. rewrite Hrun.
        unfold mkdir_single, os_mkdir. simpl fs. rewrite Hmk2. simpl.
        split; [reflexivity |]. split; [apply Hd2; now right |].
        split; [exact (same_files_trans _ _ _ Hf1 Hf2) |].
        split; [intros r Hr; apply Hd2; left; now apply Hk1 |].
        intros r Hr. apply Hd2 in Hr as [Hr | ->].
        -- apply Hnew1 in Hr as [Hr | [j [Hj ->]]]; [now left |].
           right. exists j. split; [lia | reflexivity].
        -- right. exists (S k). split; [lia | reflexivity].
Qed.

(** ** What a run may change *)

Section Runs.

Variable R : dir -> dir -> Prop.
Hypothesis R_refl : forall es, R es es.
Hypothesis R_trans : forall a b c, R a b -> R b c -> R a c.

Lemma fs_rel_ret {A : Type} (a : A) : fs_rel R (ret a).
Proof. intros w r w' H. injection H as _ <-. apply R_refl. Qed.

Lemma fs_rel_raise {A : Type} (e : exn) : fs_rel R (@raise A e).
Proof. intros w r w' H. injection H as _ <-. apply R_refl. Qed.

Lemma fs_rel_lift {A : Type} (x : result A) : fs_rel R (lift x).
Proof. intros w r w' H. injection H as _ <-. apply R_refl. Qed.

Lemma fs_rel_print (line : string) : fs_rel R (print line).
Proof. intros w r w' H. injection H as _ <-. apply R_refl. Qed.

Lemma fs_rel_bindM {A B : Type} (m : M A) (k : A -> M B) :
  fs_rel R m -> (forall a, fs_rel R (k a)) -> fs_rel R (bindM m k).
Proof.
  intros Hm Hk w r w' H. unfold bindM in H.
  destruct (m w) as [[a | e] w1] eqn:Hrun.
  - apply (R_trans _ (fs w1)); [exact (Hm _ _ _ Hrun) | exact (Hk a _ _ _ H)].
  - injection H as _ <-. exact (Hm _ _ _ Hrun).
Qed.

(** [main] inherits what holds of every run of its [try] body. *)
Lemma main_fs_rel (args : Args) (w : World) :
  (forall params, fs_rel R (generate args (snake (arg_name args)) params)) ->
  R (fs w) (fs (snd (main args w))).
Proof.
  intros Hgen. unfold main.
  destruct (negb (valid_identifier (snake (arg_name args)))); [apply R_refl |].
  destruct (parse_params (arg_param args)) as [params | e]; [| apply R_refl].
  destruct (generate args (snake (arg_name args)) params w) as [[u | e] w'] eqn:Hrun.
  - exact (Hgen _ _ _ _ Hrun).
  - destruct e; exact (Hgen _ _ _ _ Hrun).
Qed.

(** The body of [main] is a sequence of calls of [write_file]. *)
Lemma generate_fs_rel (args : Args) (cap_name : string) (params : list ParamSpec) :
  (forall path content,
      In path (outputs args cap_name) ->
      fs_rel R (write_file path content (arg_force args) (arg_dry_run args))) ->
  fs_rel R (generate args cap_name params).
Proof.
  intros Hw. unfold generate. unfold outputs in Hw.
  repeat (apply fs_rel_bindM; [| intros _]).
  - destruct (wants_cli (arg_target args)); [| apply fs_rel_ret].
    apply fs_rel_bindM; [apply fs_rel_lift |]. intros text. apply Hw.
    now left.
  - destruct (wants_script (arg_target args)); [| apply fs_rel_ret].
    apply fs_rel_bindM; [apply fs_rel_lift |]. intros text. apply Hw.
    apply in_or_app. right. now left.
  - destruct (arg_emit_test_plan args) as [p |]; [| apply fs_rel_ret].
    apply Hw. apply in_or_app. right. apply in_or_app. right. now left.
  - destruct (arg_emit_doc_snippets args) as [p |]; [| apply fs_rel_ret].
    apply Hw. apply in_or_app. right. apply in_or_app. right.
    apply in_or_app. right. now left.
  - apply fs_rel_print.
Qed.

End Runs.

Lemma keeps_dirs_refl (es : dir) : keeps_dirs es es.
Proof. intros q H; exact H. Qed.

Lemma keeps_dirs_trans (a b c : dir) :
  keeps_dirs a b -> keeps_dirs b c -> keeps_dirs a c.
Proof. intros H1 H2 q H. apply H2, H1, H. Qed.

Lemma adds_dirs_refl (es : dir) : adds_dirs es es.
Proof. split; [apply same_files_refl | apply keeps_dirs_refl]. Qed.

Lemma adds_dirs_trans (a b c : dir) :
  adds_dirs a b -> adds_dirs b c -> adds_dirs a c.
Proof.
  intros [F1 D1] [F2 D2].
  split; [exact (same_files_trans _ _ _ F1 F2) | exact (keeps_dirs_trans _ _ _ D1 D2)].
Qed.

Lemma grows_refl (es : dir) : grows es es.
Proof. split; [intros q c H; exact H | apply keeps_dirs_refl]. Qed.

Lemma grows_trans (a b c : dir) : grows a b -> grows b c -> grows a c.
Proof.
  intros [F1 D1] [F2 D2].
  split; [intros q d H; apply F2, F1, H | exact (keeps_dirs_trans _ _ _ D1 D2)].
Qed.

Lemma changes_only_refl (ps : list Path) (es : dir) : changes_only ps es es.
Proof. split; [intros q c _; reflexivity | apply keeps_dirs_refl]. Qed.

Lemma changes_only_trans (ps : list Path) (a b c : dir) :
  changes_only ps a b -> changes_only ps b c -> changes_only ps a c.
Proof.
  intros [F1 D1] [F2 D2].
  split; [| exact (keeps_dirs_trans _ _ _ D1 D2)].
  intros q d Hq. rewrite (F1 q d Hq). now apply F2.
Qed.

Lemma adds_dirs_changes_only (ps : list Path) (es es' : dir) :
  adds_dirs es es' -> changes_only ps es es'.
Proof. intros [F D]. split; [intros q c _; apply F | exact D]. Qed.

Lemma adds_dirs_grows (es es' : dir) : adds_dirs es es' -> grows es es'.
Proof. intros [F D]. split; [intros q c; apply F | exact D]. Qed.

Lemma os_mkdir_adds_dirs (p : Path) : fs_rel adds_dirs (os_mkdir p).
Proof.
  intros w r w' H. unfold os_mkdir in H.
  destruct (sys_mkdir (fs w) p) as [e | es] eqn:Hmk; injection H as _ <-.
  - apply adds_dirs_refl.
  - destruct (sys_mkdir_frame _ _ _ Hmk) as [Hf [Hd _]].
    split; [exact Hf | intros q Hq; apply Hd; now left].
Qed.

Lemma mkdir_single_adds_dirs (p : Path) (exist_ok : bool) :
  fs_rel adds_dirs (mkdir_single p exist_ok).
Proof.
  intros w r w' H. unfold mkdir_single in H.
  destruct (os_mkdir p w) as [[u | e] w1] eqn:Hrun.
  - injection H as _ <-. exact (os_mkdir_adds_dirs p _ _ _ Hrun).
  - assert (Hw : w' = w1).
    { destruct e; try (destruct (exist_ok && is_dir (fs w1) p));
        now injection H as _ <-. }
    subst w'. exact (os_mkdir_adds_dirs p _ _ _ Hrun).
Qed.

Lemma mkdir_parents_adds_dirs (q : Path) (n : nat) :
  fs_rel adds_dirs (mkdir_parents n q).
Proof.
  induction n as [| k IH]; intros w r w' H;
    unfold mkdir_parents in H; fold mkdir_parents in H; cbv zeta in H;
    destruct (os_mkdir (firstn _ q) w) as [[u | e] w1] eqn:Hrun;
    pose proof (os_mkdir_adds_dirs _ _ _ _ Hrun) as Hstep.
  - now injection H as _ <-.
  - assert (Hw : w' = w1).
    { destruct e; try (destruct (is_dir (fs w1) (firstn 0 q)));
        now injection H as _ <-. }
    now subst w'.
  - now injection H as _ <-.
  - destruct e;
      try (assert (Hw : w' = w1)
             by (destruct (is_dir (fs w1) (firstn (S k) q));
                 now injection H as _ <-);
           now subst w').
    apply (adds_dirs_trans _ (fs w1)); [exact Hstep |].
    revert H. apply (fs_rel_bindM adds_dirs adds_dirs_trans).
    + exact IH.
    + intros _. apply mkdir_single_adds_dirs.
Qed.

Lemma ensure_parent_adds_dirs (path : Path) : fs_rel adds_dirs (ensure_parent path).
Proof. apply mkdir_parents_adds_dirs. Qed.

Lemma write_text_changes_only (p : Path) (content : string) :
  fs_rel (changes_only [p]) (write_text p content).
Proof.
  intros w r w' H. unfold write_text in H.
  destruct (sys_write (fs w) p content) as [e | es] eqn:Hw; injection H as _ <-.
  - apply changes_only_refl.
  - destruct (sys_write_frame _ _ _ _ Hw) as [_ [Hf Hd]]. simpl fs.
    split.
    + intros q c Hq. apply Hf. intros ->. apply Hq. now left.
    + intros q Hq. now rewrite Hd.
Qed.

(** A dry run of [write_file] adds at most directories. *)
Lemma write_file_dry_run_adds_dirs (path : Path) (content : string) (force : bool) :
  fs_rel adds_dirs (write_file path content force true).
Proof.
  intros w r w' H. unfold write_file in H.
  destruct (path_exists (fs w) path && negb force).
  - injection H as _ <-. apply adds_dirs_refl.
  - revert H. apply (fs_rel_bindM adds_dirs adds_dirs_trans).
    + apply ensure_parent_adds_dirs.
    + intros _. apply (fs_rel_print adds_dirs adds_dirs_refl).
Qed.

(** [write_file] changes no file but the one at its path. *)
Lemma write_file_changes_only (ps : list Path) (path : Path) (content : string)
    (force dry_run : bool) :
  In path ps -> fs_rel (changes_only ps) (write_file path content force dry_run).
Proof.
  intros Hin w r w' H. unfold write_file in H.
  destruct (path_exists (fs w) path && negb force).
  - injection H as _ <-. apply changes_only_refl.
  - revert H. apply (fs_rel_bindM _ (changes_only_trans ps)).
    + intros w0 r0 w0' H0. apply adds_dirs_changes_only.
      exact (ensure_parent_adds_dirs path _ _ _ H0).
    + intros _. destruct dry_run.
      * apply (fs_rel_print _ (changes_only_refl ps)).
      * apply (fs_rel_bindM _ (changes_only_trans ps)).
        -- intros w0 r0 w0' H0.
           destruct (write_text_changes_only path content _ _ _ H0) as [F D].
           split; [| exact D]. intros q c Hq. apply F.
           intros [-> | []]. now apply Hq.
        -- intros _. apply (fs_rel_print _ (changes_only_refl ps)).
Qed.

(** Without force, [write_file] loses nothing. *)
Lemma write_file_no_force_grows (path : Path) (content : string) (dry_run : bool) :
  fs_rel grows (write_file path content false dry_run).
Proof.
  intros w r w' H. unfold write_file in H.
  destruct (path_exists (fs w) path) eqn:Hex; simpl andb in H; cbv iota in H.
  - injection H as _ <-. apply grows_refl.
  - destruct (write_file_changes_only [path] path content false dry_run
                (or_introl eq_refl) w r w') as [F D].
    { unfold write_file. now rewrite Hex. }
    split; [| exact D]. intros q c Hq. apply F; [| exact Hq].
    intros [<- | []]. unfold path_exists in Hex. now rewrite Hq in Hex.
Qed.

Lemma length_parent (p : Path) : p <> [] -> S (List.length (parent p)) = List.length p.
Proof.
  intros Hp. unfold parent.
  rewrite (app_removelast_last EmptyString Hp) at 2.
  rewrite length_app. simpl. lia.
Qed.

Lemma path_exists_cases (es : dir) (p : Path) :
  path_exists es p = true <->
  is_dir es p = true \/ exists c, lookup es p = Some (File c).
Proof.
  unfold path_exists, is_dir.
  destruct (lookup es p) as [[s | sub] |]; split; auto.
  - intros _. right. now exists s.
  - intros [H | [c H]]; discriminate.
Qed.

(** Where no file stands on the way and the target is free, or is a file and
    force is given, [write_file] writes: the target then holds the text, the
    write is reported, no other file has changed, and the only new
    directories are the parents of the target. *)
Lemma write_file_succeeds (path : Path) (content : string) (force : bool)
    (w : World) :
  no_file_on (fs w) (parent path) = true ->
  is_dir (fs w) path = false ->
  path_exists (fs w) path && negb force = false ->
  exists es,
    write_file path content force false w
    = (Ok tt, mkWorld es (stdout w ++ ["Wrote " ++ path_str path]) (stderr w)) /\
    lookup es path = Some (File content) /\
    changes_only [path] (fs w) es /\
    (forall r, is_dir es r = true ->
               is_dir (fs w) r = true \/ exists k, r = firstn k (parent path)).
Proof.
  intros Hnf Hnd Hfree.
  assert (Hp : path <> []) by (intros ->; discriminate).
  destruct (mkdir_parents_creates (parent path) (List.length (parent path)) w)
    as [es1 [Hrun [Hd1 [Hf1 [Hk1 Hnew1]]]]];
    [lia | now rewrite firstn_all |].
  rewrite firstn_all in Hd1.
  assert (Hnd1 : is_dir es1 path = false).
  { destruct (is_dir es1 path) eqn:E; [| reflexivity].
    apply Hnew1 in E as [E | [k [Hk E]]]; [congruence |].
    apply (f_equal (@List.length string)) in E.
    rewrite length_firstn in E. pose proof (length_parent path Hp). lia. }
  destruct (sys_write_succeeds path content es1 Hd1 Hnd1) as [es Hw].
  destruct (sys_write_frame _ _ _ _ Hw) as [Hl [Hf Hd]].
  exists es. unfold write_file. rewrite Hfree.
  unfold bindM, ensure_parent. rewrite Hrun.
  unfold write_text. simpl fs. rewrite Hw. unfold print. simpl.
  split; [reflexivity |]. split; [exact Hl |]. split; [split |].
  - intros q c Hq. rewrite (Hf1 q c). apply Hf. intros ->. apply Hq. now left.
  - intros q Hq. rewrite Hd. now apply Hk1.
  - intros r Hr. rewrite Hd in Hr.
    apply Hnew1 in Hr as [Hr | [k [_ Hr]]]; [now left | right; now exists k].
Qed.

Lemma bindM_ok {A B : Type} (m : M A) (k : A -> M B) (w w' : World) (b : B) :
  bindM m k w = (Ok b, w') ->
  exists a w1, m w = (Ok a, w1) /\ k a w1 = (Ok b, w').
Proof.
  unfold bindM. destruct (m w) as [[a | e] w1]; [eauto | discriminate].
Qed.

Lemma if_is_dir_ok (es : dir) (p : Path) (e : exn) (w w' : World) (u : unit) :
  (if is_dir es p then (Ok tt, w) else (@Raise unit e, w)) = (Ok u, w') ->
  is_dir es p = true /\ w' = w.
Proof.
  destruct (is_dir es p); [| discriminate].
  intros H. injection H as _ <-. now split.
Qed.

Lemma mkdir_single_ok_is_dir (self : Path) (w w' : World) (u : unit) :
  mkdir_single self true w = (Ok u, w') -> is_dir (fs w') self = true.
Proof.
  intros H. unfold mkdir_single, os_mkdir in H.
  destruct (sys_mkdir (fs w) self) as [e | es] eqn:Hmk.
  - destruct e; cbv beta iota delta [os_error] in H;
      try discriminate H;
      rewrite andb_true_l in H;
      apply if_is_dir_ok in H as [Hd ->]; exact Hd.
  - injection H as _ <-. simpl fs.
    apply (proj1 (proj2 (sys_mkdir_frame _ _ _ Hmk))). now right.
Qed.

Lemma mkdir_parents_ok_is_dir (n : nat) (q : Path) (w w' : World) (u : unit) :
  mkdir_parents n q w = (Ok u, w') -> is_dir (fs w') (firstn n q) = true.
Proof.
  intros H. destruct n as [| k];
    unfold mkdir_parents in H; fold mkdir_parents in H; cbv zeta in H;
    unfold os_mkdir in H;
    destruct (sys_mkdir (fs w) (firstn _ q)) as [e | es] eqn:Hmk.
  - destruct e; cbv beta iota delta [os_error] in H;
      try discriminate H;
      apply if_is_dir_ok in H as [Hd ->]; exact Hd.
  - injection H as _ <-. simpl fs.
    apply (proj1 (proj2 (sys_mkdir_frame _ _ _ Hmk))). now right.
  - destruct e; cbv beta iota delta [os_error] in H.
    + apply if_is_dir_ok in H as [Hd ->]; exact Hd.
    + apply bindM_ok in H as [a [w1 [_ H]]].
      exact (mkdir_single_ok_is_dir _ _ _ _ H).
    + apply if_is_dir_ok in H as [Hd ->]; exact Hd.
    + apply if_is_dir_ok in H as [Hd ->]; exact Hd.
  - injection H as _ <-. simpl fs.
    apply (proj1 (proj2 (sys_mkdir_frame _ _ _ Hmk))). now right.
Qed.

(** When [write_file] returns, the parent of the target is a directory, and
    the target is a regular file unless the run was dry. *)
Lemma write_file_ok (path : Path) (content : string) (force dry_run : bool)
    (w w' : World) (u : unit) :
  write_file path content force dry_run w = (Ok u, w') ->
  is_dir (fs w') (parent path) = true /\
  (dry_run = false -> lookup (fs w') path = Some (File content)).
Proof.
  unfold write_file. destruct (path_exists (fs w) path && negb force);
    [discriminate |].
  intros H. apply bindM_ok in H as [a [w1 [Hens H]]].
  unfold ensure_parent in Hens. apply mkdir_parents_ok_is_dir in Hens.
  rewrite firstn_all in Hens.
  destruct dry_run.
  - injection H as _ <-. split; [exact Hens | discriminate].
  - apply bindM_ok in H as [a' [w2 [Hw H]]]. injection H as _ <-. simpl fs.
    unfold write_text in Hw.
    destruct (sys_write (fs w1) path content) as [e | es] eqn:Hsw; [discriminate |].
    injection Hw as _ <-. simpl fs.
    destruct (sys_write_frame _ _ _ _ Hsw) as [Hl [_ Hd]].
    split; [now rewrite Hd | intros _; exact Hl].
Qed.

(** ** The file materializer *)

Lemma writes_outputs (args : Args) (cap_name : string) (params : list ParamSpec) :
  map fst (writes args cap_name params) = outputs args cap_name.
Proof.
  unfold writes, outputs. rewrite !map_app.
  destruct (wants_cli _), (wants_script _), (arg_emit_test_plan _),
    (arg_emit_doc_snippets _); reflexivity.
Qed.

(** The body of [main] runs the writes in order and reports the end. *)
Lemma generate_writes (args : Args) (cap_name : string) (params : list ParamSpec)
    (w : World) :
  generate args cap_name params w
  = (write_all (writes args cap_name params) (arg_force args) (arg_dry_run args)
     ;;; print "Done.") w.
Proof.
  unfold generate, writes.
  destruct (wants_cli _), (wants_script _), (arg_emit_test_plan _),
    (arg_emit_doc_snippets _);
    cbn [app write_all]; unfold bindM, ret, lift;
    repeat match goal with
           | |- context [match ?x with _ => _ end] =>
               lazymatch x with
               | generate_cli_content _ _ _ _ _ _ => destruct x
               | generate_script_content _ _ _ _ _ _ _ => destruct x
               | write_file _ _ _ _ _ => destruct x as [[? | ?] ?]
               end
           end;
    reflexivity.
Qed.

Lemma write_all_cons (path : Path) (text : result string)
    (rest : list (Path * result string)) (force dry_run : bool) (w : World) :
  write_all ((path, text) :: rest) force dry_run w
  = match text with
    | Ok content =>
        match write_file path content force dry_run w with
        | (Ok _, w1) => write_all rest force dry_run w1
        | (Raise e, w1) => (Raise e, w1)
        end
    | Raise e => (Raise e, w)
    end.
Proof.
  cbn [write_all]. unfold bindM, lift. destruct text as [content | e];
    [| reflexivity].
  now destruct (write_file path content force dry_run w) as [[u | e] w1].
Qed.

(** Once the first writes are done, the run goes on with the rest. *)
Lemma write_all_reaches (force dry_run : bool)
    (before rest : list (Path * result string)) :
  forall w w1,
    write_all before force dry_run w = (Ok tt, w1) ->
    write_all (before ++ rest)%list force dry_run w = write_all rest force dry_run w1.
Proof.
  induction before as [| [path text] before IH]; intros w w1 H.
  - injection H as <-. reflexivity.
  - rewrite <- app_comm_cons, write_all_cons. rewrite write_all_cons in H.
    destruct text as [content | e]; [| discriminate].
    destruct (write_file path content force dry_run w) as [[u | e] w2];
      [| discriminate].
    now apply IH.
Qed.

(** A run of all the writes that returns has run every part of them. *)
Lemma write_all_app_ok (force dry_run : bool)
    (before rest : list (Path * result string)) :
  forall w w' u,
    write_all (before ++ rest)%list force dry_run w = (Ok u, w') ->
    exists w1,
      write_all before force dry_run w = (Ok tt, w1) /\
      write_all rest force dry_run w1 = (Ok u, w').
Proof.
  induction before as [| [path text] before IH]; intros w w' u H.
  - exists w. now split.
  - rewrite <- app_comm_cons, write_all_cons in H. rewrite write_all_cons.
    destruct text as [content | e]; [| discriminate].
    destruct (write_file path content force dry_run w) as [[u0 | e] w2];
      [| discriminate].
    now apply IH.
Qed.

Lemma write_all_no_force_grows (dry_run : bool)
    (jobs : list (Path * result string)) :
  fs_rel grows (write_all jobs false dry_run).
Proof.
  induction jobs as [| [path text] jobs IH].
  - apply (fs_rel_ret grows grows_refl).
  - cbn [write_all]. apply (fs_rel_bindM grows grows_trans); [| intros _; exact IH].
    apply (fs_rel_bindM grows grows_trans);
      [apply (fs_rel_lift grows grows_refl) |].
    intros content. apply write_file_no_force_grows.
Qed.

Lemma write_all_dry_run_adds_dirs (force : bool)
    (jobs : list (Path * result string)) :
  fs_rel adds_dirs (write_all jobs force true).
Proof.
  induction jobs as [| [path text] jobs IH].
  - apply (fs_rel_ret adds_dirs adds_dirs_refl).
  - cbn [write_all].
    apply (fs_rel_bindM adds_dirs adds_dirs_trans); [| intros _; exact IH].
    apply (fs_rel_bindM adds_dirs adds_dirs_trans);
      [apply (fs_rel_lift adds_dirs adds_dirs_refl) |].
    intros content. apply write_file_dry_run_adds_dirs.
Qed.

Lemma grows_path_exists (es es' : dir) (p : Path) :
  grows es es' -> path_exists es p = true -> path_exists es' p = true.
Proof.
  intros [Hf Hd] H. apply path_exists_cases in H. apply path_exists_cases.
  destruct H as [H | [c H]]; [left; now apply Hd | right; exists c; now apply Hf].
Qed.

(** Without force, a run over writes one of which has a target that exists
    does not return. *)
Lemma write_all_conflict_raises (dry_run : bool) (t : Path)
    (jobs : list (Path * result string)) :
  In t (map fst jobs) ->
  forall w, path_exists (fs w) t = true ->
    exists e w', write_all jobs false dry_run w = (Raise e, w').
Proof.
  induction jobs as [| [path text] jobs IH]; intros Hin w Hex; [contradiction |].
  rewrite write_all_cons. destruct text as [content | e]; [| eauto].
  destruct (write_file path content false dry_run w) as [[u | e] w1] eqn:Hw;
    [| eauto].
  pose proof (write_file_no_force_grows path content dry_run _ _ _ Hw) as Hg.
  destruct Hin as [E | Hin].
  - simpl in E. subst path.
    rewrite (write_file_conflict t content dry_run w Hex) in Hw. discriminate.
  - apply (IH Hin). exact (grows_path_exists _ _ _ Hg Hex).
Qed.

(** A target that exists stops [main] when its turn comes: the writes before
    it are done, the error names the target, and nothing that was there is
    lost. *)
Lemma main_conflict_at_target (args : Args) (w w1 : World)
    (params : list ParamSpec) (before after : list (Path * result string))
    (t : Path) (text : string) :
  valid_identifier (snake (arg_name args)) = true ->
  parse_params (arg_param args) = Ok params ->
  arg_force args = false ->
  writes args (snake (arg_name args)) params = (before ++ (t, Ok text) :: after)%list ->
  write_all before false (arg_dry_run args) w = (Ok tt, w1) ->
  path_exists (fs w) t = true ->
  main args w
  = (3, mkWorld (fs w1) (stdout w1) (stderr w1 ++ [conflict_message t])) /\
  grows (fs w) (fs w1).
Proof.
  intros Hname Hparse Hforce Hsplit Hbefore Hex.
  pose proof (write_all_no_force_grows _ _ _ _ _ Hbefore) as Hg.
  split; [| exact Hg].
  unfold main. rewrite Hname, Hparse. simpl negb. cbv iota.
  rewrite generate_writes, Hsplit, Hforce. unfold bindM at 1.
  rewrite (write_all_reaches _ _ _ _ _ _ Hbefore), write_all_cons.
  rewrite (write_file_conflict t text _ w1 (grows_path_exists _ _ _ Hg Hex)).
  reflexivity.
Qed.

(** Without force, a request one of whose targets exists never ends with
    code 0: it ends with the code of a conflict, or with code 1 when a step
    before the conflict failed. *)
Lemma main_conflict_no_success (args : Args) (w : World)
    (params : list ParamSpec) (t : Path) :
  valid_identifier (snake (arg_name args)) = true ->
  parse_params (arg_param args) = Ok params ->
  arg_force args = false ->
  In t (outputs args (snake (arg_name args))) ->
  path_exists (fs w) t = true ->
  fst (main args w) = 3 \/ fst (main args w) = 1.
Proof.
  intros Hname Hparse Hforce Hin Hex.
  rewrite <- (writes_outputs args _ params) in Hin.
  destruct (write_all_conflict_raises (arg_dry_run args) t _ Hin w Hex)
    as [e [w' Hrun]].
  assert (Hgen : generate args (snake (arg_name args)) params w
                 = (Raise e, w'))
    by (rewrite generate_writes, Hforce; unfold bindM; now rewrite Hrun).
  unfold main. rewrite Hname, Hparse, Hgen.
  destruct e; simpl; auto.
Qed.

(** A write elsewhere leaves the file at [t] alone. *)
Lemma write_all_keeps_other (force dry_run : bool) (t : Path) (c : string)
    (jobs : list (Path * result string)) :
  (forall job, In job jobs -> fst job <> t) ->
  forall w r w',
    write_all jobs force dry_run w = (r, w') ->
    lookup (fs w) t = Some (File c) -> lookup (fs w') t = Some (File c).
Proof.
  induction jobs as [| [path text] jobs IH]; intros Hne w r w' H Hl.
  - injection H as _ <-. exact Hl.
  - rewrite write_all_cons in H.
    destruct text as [content | e]; [| injection H as _ <-; exact Hl].
    destruct (write_file path content force dry_run w) as [[u | e] w1] eqn:Hw.
    + apply (IH (fun job Hj => Hne job (or_intror Hj)) w1 r w' H).
      destruct (write_file_changes_only [path] path content force dry_run
                  (or_introl eq_refl) _ _ _ Hw) as [F _].
      apply (F t c); [| exact Hl].
      intros [E | []]. exact (Hne (path, Ok content) (or_introl eq_refl) E).
    + injection H as _ <-.
      destruct (write_file_changes_only [path] path content force dry_run
                  (or_introl eq_refl) _ _ _ Hw) as [F _].
      apply (F t c); [| exact Hl].
      intros [E | []]. exact (Hne (path, Ok content) (or_introl eq_refl) E).
Qed.

(** With force, after a run of [main] that ends with code 0, a target holds
    the text of the last write that went to it. *)
Lemma main_force_replaces (args : Args) (w : World) (params : list ParamSpec)
    (before after : list (Path * result string)) (t : Path) (text : string) :
  valid_identifier (snake (arg_name args)) = true ->
  parse_params (arg_param args) = Ok params ->
  arg_force args = true ->
  arg_dry_run args = false ->
  writes args (snake (arg_name args)) params = (before ++ (t, Ok text) :: after)%list ->
  (forall job, In job after -> fst job <> t) ->
  fst (main args w) = 0 ->
  lookup (fs (snd (main args w))) t = Some (File text).
Proof.
  intros Hname Hparse Hforce Hdry Hsplit Hlast.
  unfold main. rewrite Hname, Hparse. simpl negb. cbv iota.
  destruct (generate args (snake (arg_name args)) params w)
    as [[u | e] wf] eqn:Hgen; [| destruct e; simpl; discriminate].
  intros _. simpl snd.
  rewrite generate_writes, Hsplit, Hforce, Hdry in Hgen.
  apply bindM_ok in Hgen as [a [w' [Hrun Hp]]]. injection Hp as Hp.
  subst wf. simpl fs.
  apply write_all_app_ok in Hrun as [w1 [_ Hrun]].
  rewrite write_all_cons in Hrun.
  destruct (write_file t text true false w1) as [[u1 | e] w2] eqn:Hw;
    [| discriminate].
  apply (write_all_keeps_other true false t text after Hlast w2 _ _ Hrun).
  now apply (proj2 (write_file_ok _ _ _ _ _ _ _ Hw)).
Qed.

Lemma changes_only_plain_of (ps : list Path) (es es' : dir) :
  changes_only ps es es' -> changes_only_plain ps es es'.
Proof. intros [F D]. split; [| exact D]. intros q c _ Hq. now apply F. Qed.

(** C9: in [write_file] the conflict check comes first, so a dry run on an
    existing target without force raises the same error and changes
    nothing, and [main] ends with code 3 instead of reporting the write.
    This holds for every target of the request: [writes] lists them in the
    order of [main], and when the turn of a target that exists comes, after
    the dry runs of the targets before it, [main] ends with code 3 and the
    message that names it, having reported only the targets before it and
    added at most directories (the output paths being relative and without
    [..]).  Whatever happens before, a dry run of a request one of whose
    targets exists never ends with code 0. *)
Theorem dry_run_on_existing_target_raises :
  (forall path content w,
      path_exists (fs w) path = true ->
      write_file path content false true w
      = (Raise (FileExistsError
                  ("File exists: " ++ path_str path ++ " (use --force to overwrite)")),
         w)) /\
  (forall args w params text,
      valid_identifier (snake (arg_name args)) = true ->
      parse_params (arg_param args) = Ok params ->
      first_render args (snake (arg_name args)) params = Ok text ->
      path_exists (fs w) (first_output args (snake (arg_name args))) = true ->
      arg_force args = false ->
      arg_dry_run args = true ->
      main args w
      = (3, mkWorld (fs w) (stdout w)
              (stderr w ++ ["File exists: "
                              ++ path_str (first_output args (snake (arg_name args)))
                              ++ " (use --force to overwrite)"]))) /\
  (forall args params,
      map fst (writes args (snake (arg_name args)) params)
      = outputs args (snake (arg_name args))) /\
  (forall args w w1 params before after t text,
      valid_identifier (snake (arg_name args)) = true ->
      parse_params (arg_param args) = Ok params ->
      arg_force args = false ->
      arg_dry_run args = true ->
      List.forallb plain_path (outputs args (snake (arg_name args))) = true ->
      writes args (snake (arg_name args)) params
      = (before ++ (t, Ok text) :: after)%list ->
      write_all before false true w = (Ok tt, w1) ->
      path_exists (fs w) t = true ->
      main args w
      = (3, mkWorld (fs w1) (stdout w1)
              (stderr w1 ++ ["File exists: " ++ path_str t
                               ++ " (use --force to overwrite)"])) /\
      adds_dirs (fs w) (fs w1)) /\
  (forall args w params t,
      valid_identifier (snake (arg_name args)) = true ->
      parse_params (arg_param args) = Ok params ->
      arg_force args = false ->
      arg_dry_run args = true ->
      In t (outputs args (snake (arg_name args))) ->
      path_exists (fs w) t = true ->
      fst (main args w) = 3 \/ fst (main args w) = 1).
Proof.
  split; [| split; [| split; [| split]]].
  - intros path content w H. now apply write_file_conflict.
  - intros args w params text Hname Hparse Hrender Hexists Hforce _.
    now apply (main_first_conflict args w params text).
  - intros args params. apply writes_outputs.
  - intros args w w1 params before after t text Hname Hparse Hforce Hdry _
      Hsplit Hbefore Hex.
    split.
    + apply (main_conflict_at_target args w w1 params before after t text);
        auto. now rewrite Hdry.
    + exact (write_all_dry_run_adds_dirs _ _ _ _ _ Hbefore).
  - intros args w params t Hname Hparse Hforce _.
    exact (main_conflict_no_success args w params t Hname Hparse Hforce).
Qed.

(** A dry run of the scenario where [cli_orders.py] is already there, and
    one where [scripts/orders.py], the second target, is. *)
Lemma dry_run_on_existing_target_raises_witness :
  main (orders_request false true)
    (mkWorld [("cli_orders.py", File "old")] [] [])
  = (3, mkWorld [("cli_orders.py", File "old")] []
          ["File exists: cli_orders.py (use --force to overwrite)"]) /\
  main (orders_request false true)
    (mkWorld [("scripts", Dir [("orders.py", File "old")])] [] [])
  = (3, mkWorld [("scripts", Dir [("orders.py", File "old")])]
          ["[DRY RUN] Would write: cli_orders.py"]
          ["File exists: scripts/orders.py (use --force to overwrite)"]).
Proof.
  destruct (generate_cli_content "orders" "yourcmd" "https://example.com/api"
              "/example"
              [mkParamSpec "status" "str" false (Some "open");
               mkParamSpec "limit" "int" false (Some "25")] None)
    as [text | e] eqn:Hrender; [| vm_compute in Hrender; discriminate].
  destruct (generate_script_content "orders" "yourcmd" "https://example.com/api"
              "/example"
              [mkParamSpec "status" "str" false (Some "open");
               mkParamSpec "limit" "int" false (Some "25")] None true)
    as [text2 | e] eqn:Hscript; [| vm_compute in Hscript; discriminate].
  split.
  - apply (proj1 (proj2 dry_run_on_existing_target_raises)
             (orders_request false true)
             (mkWorld [("cli_orders.py", File "old")] [] [])
             [mkParamSpec "status" "str" false (Some "open");
              mkParamSpec "limit" "int" false (Some "25")] text);
      try reflexivity.
    exact Hrender.
  - assert (Hwrites :
              writes (orders_request false true)
                (snake (arg_name (orders_request false true)))
                [mkParamSpec "status" "str" false (Some "open");
                 mkParamSpec "limit" "int" false (Some "25")]
              = ([(["cli_orders.py"], Ok text)]
                   ++ (["scripts"; "orders.py"], Ok text2) :: [])%list).
    { change (writes (orders_request false true)
                (snake (arg_name (orders_request false true)))
                [mkParamSpec "status" "str" false (Some "open");
                 mkParamSpec "limit" "int" false (Some "25")])
        with [(["cli_orders.py"],
               generate_cli_content "orders" "yourcmd" "https://example.com/api"
                 "/example"
                 [mkParamSpec "status" "str" false (Some "open");
                  mkParamSpec "limit" "int" false (Some "25")] None);
              (["scripts"; "orders.py"],
               generate_script_content "orders" "yourcmd"
                 "https://example.com/api" "/example"
                 [mkParamSpec "status" "str" false (Some "open");
                  mkParamSpec "limit" "int" false (Some "25")] None true)].
      now rewrite Hrender, Hscript. }
    exact (proj1 (proj1 (proj2 (proj2 (proj2
                    dry_run_on_existing_target_raises)))
                    (orders_request false true)
                    (mkWorld [("scripts", Dir [("orders.py", File "old")])] [] [])
                    (mkWorld [("scripts", Dir [("orders.py", File "old")])]
                       ["[DRY RUN] Would write: cli_orders.py"] [])
                    [mkParamSpec "status" "str" false (Some "open");
                     mkParamSpec "limit" "int" false (Some "25")]
                    [(["cli_orders.py"], Ok text)] [] ["scripts"; "orders.py"]
                    text2 eq_refl eq_refl eq_refl eq_refl eq_refl Hwrites
                    eq_refl eq_refl)).
Defined.

Lemma write_file_force_replaces (path : Path) (content old : string) (w : World) :
  lookup (fs w) path = Some (File old) ->
  exists es,
    write_file path content true false w
    = (Ok tt, mkWorld es (stdout w ++ ["Wrote " ++ path_str path]) (stderr w)) /\
    lookup es path = Some (File content).
Proof.
  intros Hfile. unfold write_file.
  rewrite andb_false_r.
  unfold bindM at 1.
  rewrite (ensure_parent_of_existing path w (lookup_parent_is_dir _ _ _ Hfile)).
  destruct (sys_write_file path content _ _ Hfile) as [es [Hwrite Hlook]].
  exists es. split; [| exact Hlook].
  unfold bindM, write_text. rewrite Hwrite. reflexivity.
Qed.

(** C8: writing to a path that exists, without force, raises the "File
    exists" error that names the path and leaves the world as it was, and
    [main] ends with code 3; with force, an existing file is written again
    and holds exactly the new text.  For [main] this holds of every target
    of the request, and [writes] lists them in its order: when the turn of a
    target that exists comes, after the writes before it, [main] ends with
    code 3 and the message that names it, and nothing that was there is
    lost; whatever happens before, the request never ends with code 0.
    With force, after a run that ends with code 0 every target holds the
    text of the last write that went to it.  Where the state that [main]
    leaves is told, the output paths are relative and without [..]. *)
Theorem write_file_conflict_and_force :
  (forall path content dry_run w,
      path_exists (fs w) path = true ->
      write_file path content false dry_run w
      = (Raise (FileExistsError
                  ("File exists: " ++ path_str path ++ " (use --force to overwrite)")),
         w)) /\
  (forall args w params text,
      valid_identifier (snake (arg_name args)) = true ->
      parse_params (arg_param args) = Ok params ->
      first_render args (snake (arg_name args)) params = Ok text ->
      path_exists (fs w) (first_output args (snake (arg_name args))) = true ->
      arg_force args = false ->
      fst (main args w) = 3 /\
      fs (snd (main args w)) = fs w /\
      stdout (snd (main args w)) = stdout w) /\
  (forall args w params m w',
      valid_identifier (snake (arg_name args)) = true ->
      parse_params (arg_param args) = Ok params ->
      generate args (snake (arg_name args)) params w
      = (Raise (FileExistsError m), w') ->
      fst (main args w) = 3) /\
  (forall path content old w,
      lookup (fs w) path = Some (File old) ->
      exists es,
        write_file path content true false w
        = (Ok tt, mkWorld es (stdout w ++ ["Wrote " ++ path_str path]) (stderr w)) /\
        lookup es path = Some (File content)) /\
  (forall args params,
      map fst (writes args (snake (arg_name args)) params)
      = outputs args (snake (arg_name args))) /\
  (forall args w w1 params before after t text,
      valid_identifier (snake (arg_name args)) = true ->
      parse_params (arg_param args) = Ok params ->
      arg_force args = false ->
      List.forallb plain_path (outputs args (snake (arg_name args))) = true ->
      writes args (snake (arg_name args)) params
      = (before ++ (t, Ok text) :: after)%list ->
      write_all before false (arg_dry_run args) w = (Ok tt, w1) ->
      path_exists (fs w) t = true ->
      main args w
      = (3, mkWorld (fs w1) (stdout w1)
              (stderr w1 ++ ["File exists: " ++ path_str t
                               ++ " (use --force to overwrite)"])) /\
      grows (fs w) (fs w1)) /\
  (forall args w params t,
      valid_identifier (snake (arg_name args)) = true ->
      parse_params (arg_param args) = Ok params ->
      arg_force args = false ->
      In t (outputs args (snake (arg_name args))) ->
      path_exists (fs w) t = true ->
      fst (main args w) = 3 \/ fst (main args w) = 1) /\
  (forall args w params before after t text,
      valid_identifier (snake (arg_name args)) = true ->
      parse_params (arg_param args) = Ok params ->
      arg_force args = true ->
      arg_dry_run args = false ->
      List.forallb plain_path (outputs args (snake (arg_name args))) = true ->
      writes args (snake (arg_name args)) params
      = (before ++ (t, Ok text) :: after)%list ->
      (forall job, In job after -> fst job <> t) ->
      fst (main args w) = 0 ->
      lookup (fs (snd (main args w))) t = Some (File text)).
Proof.
  split; [| split; [| split; [| split; [| split; [| split; [| split]]]]]].
  - intros path content dry_run w H. now apply write_file_conflict.
  - intros args w params text Hname Hparse Hrender Hexists Hforce.
    rewrite (main_first_conflict args w params text); auto.
  - intros args w params m w' Hname Hparse Hgen.
    unfold main. now rewrite Hname, Hparse, Hgen.
  - exact write_file_force_replaces.
  - intros args params. apply writes_outputs.
  - intros args w w1 params before after t text Hname Hparse Hforce _.
    now apply main_conflict_at_target.
  - intros args w params t. apply main_conflict_no_success.
  - intros args w params before after t text Hname Hparse Hforce Hdry _.
    now apply main_force_replaces.
Qed.

(** The scenario on a directory that holds an older [cli_orders.py]: refused
    without force, replaced with force; and on a directory that holds an
    older [scripts/orders.py]: the subcommand file is written, then [main]
    stops at the script, which keeps its content. *)
Lemma write_file_conflict_and_force_witness :
  (fst (main (orders_request false false)
          (mkWorld [("cli_orders.py", File "old")] [] [])) = 3 /\
   fs (snd (main (orders_request false false)
              (mkWorld [("cli_orders.py", File "old")] [] [])))
   = [("cli_orders.py", File "old")] /\
   stdout (snd (main (orders_request false false)
                  (mkWorld [("cli_orders.py", File "old")] [] []))) = []) /\
  (exists es,
    write_file ["cli_orders.py"] "new" true false
      (mkWorld [("cli_orders.py", File "old")] [] [])
    = (Ok tt, mkWorld es ([] ++ ["Wrote " ++ path_str ["cli_orders.py"]]) []) /\
    lookup es ["cli_orders.py"] = Some (File "new")) /\
  (fst (main (orders_request false false)
          (mkWorld [("scripts", Dir [("orders.py", File "old")])] [] [])) = 3 /\
   lookup (fs (snd (main (orders_request false false)
                      (mkWorld [("scripts", Dir [("orders.py", File "old")])]
                         [] []))))
     ["scripts"; "orders.py"] = Some (File "old") /\
   stdout (snd (main (orders_request false false)
                  (mkWorld [("scripts", Dir [("orders.py", File "old")])] [] [])))
   = ["Wrote cli_orders.py"] /\
   stderr (snd (main (orders_request false false)
                  (mkWorld [("scripts", Dir [("orders.py", File "old")])] [] [])))
   = ["File exists: scripts/orders.py (use --force to overwrite)"]).
Proof.
  destruct (generate_cli_content "orders" "yourcmd" "https://example.com/api"
              "/example"
              [mkParamSpec "status" "str" false (Some "open");
               mkParamSpec "limit" "int" false (Some "25")] None)
    as [text | e] eqn:Hrender; [| vm_compute in Hrender; discriminate].
  destruct (generate_script_content "orders" "yourcmd" "https://example.com/api"
              "/example"
              [mkParamSpec "status" "str" false (Some "open");
               mkParamSpec "limit" "int" false (Some "25")] None true)
    as [text2 | e] eqn:Hscript; [| vm_compute in Hscript; discriminate].
  split; [| split].
  - apply (proj1 (proj2 write_file_conflict_and_force)
             (orders_request false false)
             (mkWorld [("cli_orders.py", File "old")] [] [])
             [mkParamSpec "status" "str" false (Some "open");
              mkParamSpec "limit" "int" false (Some "25")] text);
      try reflexivity.
    exact Hrender.
  - apply (proj1 (proj2 (proj2 (proj2 write_file_conflict_and_force)))
             ["cli_orders.py"] "new" "old"
             (mkWorld [("cli_orders.py", File "old")] [] [])).
    reflexivity.
  - destruct (proj1 (proj2 (proj2 (proj2 (proj2 (proj2
                write_file_conflict_and_force)))))
                (orders_request false false)
                (mkWorld [("scripts", Dir [("orders.py", File "old")])] [] [])
                (mkWorld [("scripts", Dir [("orders.py", File "old")]);
                          ("cli_orders.py", File text)]
                   ["Wrote cli_orders.py"] [])
                [mkParamSpec "status" "str" false (Some "open");
                 mkParamSpec "limit" "int" false (Some "25")]
                [(["cli_orders.py"], Ok text)] [] ["scripts"; "orders.py"] text2)
      as [Hmain _]; try reflexivity.
    + change (writes (orders_request false false)
                (snake (arg_name (orders_request false false)))
                [mkParamSpec "status" "str" false (Some "open");
                 mkParamSpec "limit" "int" false (Some "25")])
        with [(["cli_orders.py"],
               generate_cli_content "orders" "yourcmd" "https://example.com/api"
                 "/example"
                 [mkParamSpec "status" "str" false (Some "open");
                  mkParamSpec "limit" "int" false (Some "25")] None);
              (["scripts"; "orders.py"],
               generate_script_content "orders" "yourcmd"
                 "https://example.com/api" "/example"
                 [mkParamSpec "status" "str" false (Some "open");
                  mkParamSpec "limit" "int" false (Some "25")] None true)].
      now rewrite Hrender, Hscript.
    + rewrite Hmain. repeat split.
Defined.

(** C1, at the input where the code departs from it: a dry run of
    [write_file] on [out/orders.py] in an empty directory creates [out], and
    a dry run of the whole scenario creates [scripts]; no file is written. *)
Theorem dry_run_creates_parent_directories :
  write_file ["out"; "orders.py"] "text" false true empty_world
  = (Ok tt,
     mkWorld [("out", Dir [])] ["[DRY RUN] Would write: out/orders.py"] []) /\
  main (orders_request false true) empty_world
  = (0,
     mkWorld [("scripts", Dir [])]
       ["[DRY RUN] Would write: cli_orders.py";
        "[DRY RUN] Would write: scripts/orders.py"; "Done."] []).
Proof. split; vm_compute; reflexivity. Qed.

(** ** Validation errors and exit codes *)

Lemma token_error_raises (t : string) :
  token_error t -> exists m, parse_param_token t = Raise (ValueError m).
Proof.
  unfold token_error, malformed_token, invalid_name_token,
    unsupported_type_token, parse_param_token.
  intros [[H | H] | [[H | H] | H]].
  - apply Nat.ltb_lt in H. rewrite H. simpl. eauto.
  - apply Nat.ltb_lt in H. rewrite H, orb_true_r. eauto.
  - destruct (_ || _); [eauto |]. rewrite H. simpl. eauto.
  - destruct (_ || _); [eauto |]. rewrite H, orb_true_r. eauto.
  - destruct (_ || _); [eauto |]. destruct (_ || _); [eauto |].
    rewrite H. simpl. eauto.
Qed.

Lemma parse_param_token_raises_value_error (t : string) (e : exn) :
  parse_param_token t = Raise e -> exists m, e = ValueError m.
Proof.
  unfold parse_param_token.
  destruct (_ || _); [intros H; injection H as <-; eauto |].
  destruct (_ || _); [intros H; injection H as <-; eauto |].
  destruct (negb _); [intros H; injection H as <-; eauto | discriminate].
Qed.

Lemma parse_params_loop_raises_value_error (tokens : list string) :
  forall seen specs e,
    parse_params_loop tokens seen specs = Raise e -> exists m, e = ValueError m.
Proof.
  induction tokens as [| t rest IH]; simpl; intros seen specs e H; [discriminate |].
  destruct (parse_param_token t) as [spec | e'] eqn:Ht; simpl in H.
  - destruct (mem (name spec) seen).
    + injection H as <-. unfold duplicate_error. eauto.
    + now apply IH in H.
  - injection H as <-. now apply parse_param_token_raises_value_error in Ht.
Qed.

Lemma Forall2_parses_no_token_error (tokens : list string)
    (specs : list ParamSpec) :
  Forall2 parses_to tokens specs -> ~ Exists token_error tokens.
Proof.
  induction 1 as [| t s ts ss Hts Hall IH]; intros Hex; inversion Hex; subst.
  - match goal with H : token_error _ |- _ =>
      apply token_error_raises in H as [m Hm] end.
    unfold parses_to in Hts. congruence.
  - contradiction.
Qed.

Lemma duplicate_names_not_accepted (tokens : list string)
    (specs : list ParamSpec) :
  duplicate_names tokens -> parse_params tokens <> Ok specs.
Proof.
  intros [i [j [t1 [t2 [s1 [s2 [Hij [H1 [H2 [Hs1 [Hs2 Hname]]]]]]]]]]] Hp.
  apply parse_params_iff in Hp as [Hall Hnd].
  pose proof (Forall2_nth_error_parses _ _ Hall i t1 s1 H1 Hs1) as E1.
  pose proof (Forall2_nth_error_parses _ _ Hall j t2 s2 H2 Hs2) as E2.
  rewrite NoDup_nth_error in Hnd. apply Hij, Hnd.
  - apply nth_error_Some. now rewrite E1.
  - now rewrite E1, E2, Hname.
Qed.

Lemma grammar_error_raises (tokens : list string) :
  grammar_error tokens -> exists m, parse_params tokens = Raise (ValueError m).
Proof.
  intros Herr. destruct (parse_params tokens) as [specs | e] eqn:Hp.
  - exfalso. destruct Herr as [Hex | Hdup].
    + apply parse_params_iff in Hp as [Hall _].
      exact (Forall2_parses_no_token_error _ _ Hall Hex).
    + exact (duplicate_names_not_accepted _ _ Hdup Hp).
  - apply parse_params_loop_raises_value_error in Hp as [m ->]. eauto.
Qed.

Lemma python_cast_value_raises_value_error (typ val : string) (e : exn) :
  python_cast_value typ val = Raise e -> exists m, e = ValueError m.
Proof.
  unfold python_cast_value.
  repeat match goal with
         | |- context [if ?b then _ else _] => destruct b
         | |- context [match ?o with Some _ => _ | None => _ end] => destruct o
         end;
    intros H; try discriminate; injection H as <-; eauto.
Qed.

Lemma cli_option_default_error (p : ParamSpec) (e : exn) :
  default_error p = Some e -> cli_option p = Raise e.
Proof.
  unfold default_error, cli_option.
  destruct (required p); [discriminate |].
  destruct (default p) as [d |]; [| discriminate].
  destruct (String.eqb (type p) "bool") eqn:E;
    [apply String.eqb_eq in E; rewrite E |];
    destruct (python_cast_value _ _); intros H; try discriminate;
    now injection H as <-.
Qed.

Lemma script_option_default_error (p : ParamSpec) (e : exn) :
  default_error p = Some e -> script_option p = Raise e.
Proof.
  unfold default_error, script_option.
  destruct (required p); [discriminate |].
  destruct (default p) as [d |]; [| discriminate].
  destruct (String.eqb (type p) "bool") eqn:E;
    [apply String.eqb_eq in E; rewrite E |];
    destruct (python_cast_value _ _); intros H; try discriminate;
    now injection H as <-.
Qed.

Lemma mapM_raises {A B : Type} (f : A -> result B) (l : list A) :
  (forall a e, f a = Raise e -> exists m, e = ValueError m) ->
  Exists (fun a => exists e, f a = Raise e) l ->
  exists m, mapM f l = Raise (ValueError m).
Proof.
  intros Hval. induction 1 as [a l [e Ha] | a l Hex IH]; simpl.
  - rewrite Ha. simpl. destruct (Hval a e Ha) as [m ->]. eauto.
  - destruct (f a) as [b | e] eqn:Ha; simpl.
    + destruct IH as [m ->]. simpl. eauto.
    + destruct (Hval a e Ha) as [m ->]. eauto.
Qed.

Lemma cli_option_raises_value_error (p : ParamSpec) (e : exn) :
  cli_option p = Raise e -> exists m, e = ValueError m.
Proof.
  unfold cli_option.
  destruct (String.eqb (type p) "bool"), (required p); try discriminate.
  - destruct (python_cast_value _ _) eqn:Hc; simpl; [discriminate |].
    intros H. injection H as <-.
    now apply python_cast_value_raises_value_error in Hc.
  - destruct (default p); [| discriminate].
    destruct (python_cast_value _ _) eqn:Hc; simpl; [discriminate |].
    intros H. injection H as <-.
    now apply python_cast_value_raises_value_error in Hc.
Qed.

Lemma script_option_raises_value_error (p : ParamSpec) (e : exn) :
  script_option p = Raise e -> exists m, e = ValueError m.
Proof.
  unfold script_option.
  destruct (String.eqb (type p) "bool"), (required p); try discriminate.
  - destruct (python_cast_value _ _) eqn:Hc; simpl; [discriminate |].
    intros H. injection H as <-.
    now apply python_cast_value_raises_value_error in Hc.
  - destruct (default p); [| discriminate].
    destruct (python_cast_value _ _) eqn:Hc; simpl; [discriminate |].
    intros H. injection H as <-.
    now apply python_cast_value_raises_value_error in Hc.
Qed.

Lemma first_render_invalid_default (args : Args) (cap_name : string)
    (params : list ParamSpec) :
  Exists invalid_default params ->
  exists m, first_render args cap_name params = Raise (ValueError m).
Proof.
  intros Hex. unfold first_render, generate_cli_content, generate_script_content.
  destruct (wants_cli (arg_target args)).
  - destruct (mapM_raises cli_option params cli_option_raises_value_error)
      as [m ->]; [| simpl; eauto].
    eapply Exists_impl; [| exact Hex].
    intros p [e He]. exists e. now apply cli_option_default_error.
  - destruct (mapM_raises script_option params script_option_raises_value_error)
      as [m ->]; [| simpl; eauto].
    eapply Exists_impl; [| exact Hex].
    intros p [e He]. exists e. now apply script_option_default_error.
Qed.

Lemma main_first_render_fails (args : Args) (w : World)
    (params : list ParamSpec) (m : string) :
  valid_identifier (snake (arg_name args)) = true ->
  parse_params (arg_param args) = Ok params ->
  first_render args (snake (arg_name args)) params = Raise (ValueError m) ->
  main args w = (1, mkWorld (fs w) (stdout w) (stderr w ++ ["Failed: " ++ m])).
Proof.
  intros Hname Hparse Hrender.
  unfold main. rewrite Hname, Hparse. simpl negb. cbv iota.
  unfold first_render in Hrender. unfold generate.
  destruct (wants_cli (arg_target args)) eqn:Hcli.
  - unfold bindM at 1 2. unfold lift. rewrite Hrender. reflexivity.
  - rewrite (wants_script_of_not_cli _ Hcli).
    unfold bindM at 1 2. unfold ret, lift. cbv beta iota. rewrite Hrender.
    reflexivity.
Qed.

(** C2, as the code has it: a malformed token, an invalid name, an
    unsupported type or a repeated name stops [main] in the parser, with
    code 2, before anything is rendered or written; an invalid boolean or
    numeric default passes the parser and is met while the first surface is
    rendered, so nothing is written either, and the exit code is 1. *)
Theorem validation_errors_exit_codes :
  (forall args w,
      grammar_error (arg_param args) ->
      fst (main args w) = 2 /\
      fs (snd (main args w)) = fs w /\
      stdout (snd (main args w)) = stdout w) /\
  (forall args w params,
      valid_identifier (snake (arg_name args)) = true ->
      parse_params (arg_param args) = Ok params ->
      Exists invalid_default params ->
      fst (main args w) = 1 /\
      fs (snd (main args w)) = fs w /\
      stdout (snd (main args w)) = stdout w).
Proof.
  split.
  - intros args w Herr. apply grammar_error_raises in Herr as [m Hm].
    unfold main. destruct (negb _); [now simpl |]. now rewrite Hm.
  - intros args w params Hname Hparse Hex.
    destruct (first_render_invalid_default args (snake (arg_name args)) params Hex)
      as [m Hm].
    now rewrite (main_first_render_fails args w params m Hname Hparse Hm).
Qed.

(** A request with an invalid boolean default, and one with an invalid
    integer default: exit code 1, not 2. *)
Lemma invalid_default_exits_with_1 :
  main (mkArgs "orders" TargetBoth "yourcmd" "/example" "https://example.com/api"
          ["flag:bool:maybe"] None None None false None None false false)
    empty_world
  = (1, mkWorld [] [] ["Failed: Invalid boolean default: maybe"]) /\
  main (mkArgs "orders" TargetBoth "yourcmd" "/example" "https://example.com/api"
          ["limit:int:ten"] None None None false None None false false)
    empty_world
  = (1, mkWorld [] [] ["Failed: invalid literal for int() with base 10: 'ten'"]).
Proof. split; vm_compute; reflexivity. Qed.

(** The four grammar errors and an invalid default, each on a request of its
    own. *)
Lemma validation_errors_exit_codes_witness :
  (fst (main (mkArgs "orders" TargetBoth "yourcmd" "/example"
                "https://example.com/api" ["x:date"; "a:b:c:d"; "9:int"]
                None None None false None None false false) empty_world) = 2 /\
   fs (snd (main (mkArgs "orders" TargetBoth "yourcmd" "/example"
                    "https://example.com/api" ["x:date"; "a:b:c:d"; "9:int"]
                    None None None false None None false false) empty_world))
   = fs empty_world /\
   stdout (snd (main (mkArgs "orders" TargetBoth "yourcmd" "/example"
                        "https://example.com/api" ["x:date"; "a:b:c:d"; "9:int"]
                        None None None false None None false false) empty_world))
   = stdout empty_world) /\
  (fst (main (mkArgs "orders" TargetScript "yourcmd" "/example"
                "https://example.com/api" ["q:str"; "rate:float:fast"]
                None None None false None None false false) empty_world) = 1 /\
   fs (snd (main (mkArgs "orders" TargetScript "yourcmd" "/example"
                    "https://example.com/api" ["q:str"; "rate:float:fast"]
                    None None None false None None false false) empty_world))
   = fs empty_world /\
   stdout (snd (main (mkArgs "orders" TargetScript "yourcmd" "/example"
                        "https://example.com/api" ["q:str"; "rate:float:fast"]
                        None None None false None None false false) empty_world))
   = stdout empty_world).
Proof.
  split.
  - apply (proj1 validation_errors_exit_codes).
    left. apply Exists_cons_hd. right. right. reflexivity.
  - apply (proj2 validation_errors_exit_codes) with
      (params := [mkParamSpec "q" "str" true None;
                  mkParamSpec "rate" "float" false (Some "fast")]).
    + reflexivity.
    + reflexivity.
    + apply Exists_cons_tl, Exists_cons_hd.
      exists (ValueError "could not convert string to float: 'fast'").
      reflexivity.
Defined.

(** ** Surface parity *)

Lemma click_type_script_type (t : string) :
  (if mem t ["int"; "float"] then "click." ++ capitalize (click_type t)
   else click_type t)
  = script_type (click_type t).
Proof.
  unfold script_type, click_type, mem. simpl List.existsb.
  destruct (String.eqb t "str") eqn:E1.
  - apply String.eqb_eq in E1. subst. reflexivity.
  - destruct (String.eqb t "int") eqn:E2.
    + apply String.eqb_eq in E2. subst. reflexivity.
    + destruct (String.eqb t "float") eqn:E3.
      * apply String.eqb_eq in E3. subst. reflexivity.
      * destruct (String.eqb t "bool"); reflexivity.
Qed.

Lemma script_option_retype (p : ParamSpec) :
  script_option p = map_result retype_block (cli_option p).
Proof.
  unfold script_option, cli_option.
  rewrite click_type_script_type.
  destruct (String.eqb (type p) "bool").
  - destruct (required p); [reflexivity |].
    now destruct (python_cast_value _ _).
  - destruct (required p); [reflexivity |].
    destruct (default p); [| reflexivity].
    now destruct (python_cast_value _ _).
Qed.

Lemma mapM_map_result {A B : Type} (f g : A -> result B) (h : B -> B)
    (l : list A) :
  (forall a, g a = map_result h (f a)) ->
  mapM g l = map_result (map h) (mapM f l).
Proof.
  intros Hfg. induction l as [| a l IH]; simpl; [reflexivity |].
  rewrite Hfg, IH. destruct (f a); simpl; [| reflexivity].
  now destruct (mapM f l).
Qed.

Lemma block_tuple_retype (b : option_block) :
  block_tuple (retype_block b) = retype (block_tuple b).
Proof. now destruct b. Qed.

Lemma script_tuples_retype (params : list ParamSpec) :
  script_tuples params = map_result (map retype) (cli_tuples params).
Proof.
  unfold script_tuples, cli_tuples.
  rewrite (mapM_map_result cli_option script_option retype_block params
             script_option_retype).
  destruct (mapM cli_option params) as [blocks | e]; simpl; [| reflexivity].
  f_equal. rewrite !map_map. apply map_ext. exact block_tuple_retype.
Qed.

Lemma cli_option_declared_type (p : ParamSpec) (b : option_block) :
  cli_option p = Ok b ->
  declared_type (block_tuple b)
  = if String.eqb (type p) "bool" then None else Some (click_type (type p)).
Proof.
  unfold cli_option.
  destruct (String.eqb (type p) "bool").
  - destruct (required p); simpl.
    + intros H. now injection H as <-.
    + destruct (python_cast_value _ _); simpl; [| discriminate].
      intros H. now injection H as <-.
  - destruct (required p); simpl.
    + intros H. now injection H as <-.
    + destruct (default p).
      * destruct (python_cast_value _ _); simpl; [| discriminate].
        intros H. now injection H as <-.
      * simpl. intros H. now injection H as <-.
Qed.

(** ** Descriptions and usage lines *)

Lemma append_nil_r (s : string) : s ++ EmptyString = s.
Proof. induction s as [| c s IH]; simpl; [reflexivity | now rewrite IH]. Qed.

Lemma append_assoc (a b c : string) : (a ++ b) ++ c = a ++ b ++ c.
Proof. induction a as [| x a IH]; simpl; [reflexivity | now rewrite IH]. Qed.

Lemma concat_empty_cons (l : string) (ls : list string) :
  String.concat EmptyString (l :: ls) = l ++ String.concat EmptyString ls.
Proof.
  destruct ls as [| l' ls]; simpl; [now rewrite append_nil_r | reflexivity].
Qed.

Lemma unlines_cons (l : string) (ls : list string) :
  unlines (l :: ls) = l ++ nl ++ unlines ls.
Proof.
  unfold unlines. rewrite map_cons, concat_empty_cons. apply append_assoc.
Qed.

Lemma unlines_app (a b : list string) :
  unlines (a ++ b) = unlines a ++ unlines b.
Proof.
  induction a as [| l a IH]; [reflexivity |].
  rewrite <- app_comm_cons, !unlines_cons, IH. now rewrite !append_assoc.
Qed.

Lemma nth_error_two_split {A : Type} (l : list A) (i : nat) (x y : A) :
  nth_error l i = Some x -> nth_error l (S i) = Some y ->
  l = (firstn i l ++ x :: y :: skipn (S (S i)) l)%list.
Proof.
  revert l. induction i as [| i IH]; intros l Hx Hy.
  - destruct l as [| a [| b l]]; try discriminate. simpl in *.
    injection Hx as <-. now injection Hy as <-.
  - destruct l as [| a l]; [discriminate |].
    simpl firstn. simpl skipn. rewrite <- app_comm_cons. f_equal.
    now apply IH.
Qed.

(** ** The templates add no usage line *)

Section Preservation.

Variable P : ascii -> bool.

Lemma forallb_app (a b : string) :
  forallb P (a ++ b) = forallb P a && forallb P b.
Proof.
  induction a as [| c a IH]; simpl; [reflexivity |].
  now rewrite IH, andb_assoc.
Qed.

Lemma forallb_lstrip_by (f : ascii -> bool) (s : string) :
  forallb P s = true -> forallb P (lstrip_by f s) = true.
Proof.
  induction s as [| c s IH]; simpl; [reflexivity |].
  intros H. destruct (f c); [| exact H].
  apply andb_true_iff in H as [_ Hs]. auto.
Qed.

Lemma forallb_rstrip_by (f : ascii -> bool) (s : string) :
  forallb P s = true -> forallb P (rstrip_by f s) = true.
Proof.
  induction s as [| c s IH]; simpl; [reflexivity |].
  intros H. apply andb_true_iff in H as [Hc Hs].
  specialize (IH Hs).
  destruct (rstrip_by f s) as [| c' r].
  - destruct (f c); simpl; [reflexivity | now rewrite Hc].
  - simpl in *. now rewrite Hc.
Qed.

Lemma forallb_strip_by (f : ascii -> bool) (s : string) :
  forallb P s = true -> forallb P (strip_by f s) = true.
Proof.
  intros H. unfold strip_by. now apply forallb_rstrip_by, forallb_lstrip_by.
Qed.

Lemma forallb_split_on (sep : ascii) (s : string) :
  forallb P s = true -> Forall (fun l => forallb P l = true) (split_on sep s).
Proof.
  induction s as [| c s IH]; simpl; intros H.
  - repeat constructor.
  - apply andb_true_iff in H as [Hc Hs]. specialize (IH Hs).
    destruct (Ascii.eqb c sep).
    + now constructor.
    + destruct (split_on sep s) as [| h t].
      * repeat constructor. simpl. now rewrite Hc.
      * inversion IH; subst. constructor; [| assumption].
        simpl. now rewrite Hc.
Qed.

Lemma forallb_join (sep : string) (parts : list string) :
  forallb P sep = true ->
  Forall (fun l => forallb P l = true) parts ->
  forallb P (join sep parts) = true.
Proof.
  intros Hsep. induction 1 as [| p ps Hp Hps IH]; [reflexivity |].
  destruct ps as [| q ps]; [exact Hp |].
  change (join sep (p :: q :: ps)) with (p ++ sep ++ join sep (q :: ps)).
  now rewrite !forallb_app, Hp, Hsep, IH.
Qed.

Lemma forallb_concat (parts : list string) :
  Forall (fun l => forallb P l = true) parts ->
  forallb P (String.concat EmptyString parts) = true.
Proof.
  induction 1 as [| p ps Hp Hps IH]; [reflexivity |].
  destruct ps as [| q ps]; [exact Hp |].
  change (String.concat EmptyString (p :: q :: ps))
    with (p ++ EmptyString ++ String.concat EmptyString (q :: ps)).
  now rewrite !forallb_app, Hp, IH.
Qed.

Lemma forallb_drop (n : nat) (s : string) :
  forallb P s = true -> forallb P (drop n s) = true.
Proof.
  revert s. induction n as [| n IH]; intros s H; [now destruct s |].
  destruct s as [| c s]; [reflexivity |]. simpl in *.
  apply andb_true_iff in H as [_ Hs]. auto.
Qed.

Lemma forallb_substring (n m : nat) (s : string) :
  forallb P s = true -> forallb P (substring n m s) = true.
Proof.
  revert n m. induction s as [| c s IH]; intros n m H.
  - now destruct n, m.
  - simpl in H. apply andb_true_iff in H as [Hc Hs].
    destruct n as [| n]; simpl.
    + destruct m as [| m]; [reflexivity |]. simpl. now rewrite Hc, IH.
    + now apply IH.
Qed.

Lemma forallb_repeat_char (c : ascii) (n : nat) :
  P c = true -> forallb P (repeat_char c n) = true.
Proof. intros Hc. induction n; simpl; [reflexivity | now rewrite Hc]. Qed.

Lemma forallb_splitlines_bounded (n : nat) :
  forall s, String.length s <= n ->
    forallb P s = true ->
    Forall (fun l => forallb P l = true) (splitlines_keepends s).
Proof.
  induction n as [| n IH]; intros s Hlen H.
  - destruct s; [constructor | simpl in Hlen; lia].
  - destruct s as [| c r]; [constructor |].
    simpl in H, Hlen. apply andb_true_iff in H as [Hc Hr].
    simpl. destruct (is_line_break c).
    + destruct r as [| d r']; [repeat constructor; simpl; now rewrite Hc |].
      simpl in Hr, Hlen. apply andb_true_iff in Hr as [Hd Hr'].
      destruct (is_char 13 c && is_char 10 d).
      * constructor; [simpl; now rewrite Hc, Hd |].
        apply IH; [lia | assumption].
      * constructor; [simpl; now rewrite Hc |].
        apply IH; [simpl; lia |]. simpl. now rewrite Hd.
    + assert (Hrec : Forall (fun l => forallb P l = true) (splitlines_keepends r))
        by (apply IH; [lia | assumption]).
      destruct (splitlines_keepends r) as [| h t].
      * repeat constructor. simpl. now rewrite Hc.
      * inversion Hrec; subst. constructor; [| assumption].
        simpl. now rewrite Hc.
Qed.

Lemma forallb_splitlines (s : string) :
  forallb P s = true ->
  Forall (fun l => forallb P l = true) (splitlines_keepends s).
Proof. apply (forallb_splitlines_bounded (String.length s)). lia. Qed.

Lemma forallb_indent (text prefix : string) :
  forallb P text = true -> forallb P prefix = true ->
  forallb P (indent text prefix) = true.
Proof.
  intros Ht Hp. unfold indent. apply forallb_concat.
  apply Forall_map. eapply Forall_impl; [| apply forallb_splitlines, Ht].
  intros l Hl. simpl. destruct (existsb _ l); [| exact Hl].
  now rewrite forallb_app, Hp, Hl.
Qed.

Lemma forallb_dedent (text : string) :
  forallb P text = true -> P (ascii_of_nat 10) = true ->
  forallb P (dedent text) = true.
Proof.
  intros Ht Hnl. unfold dedent. apply forallb_join.
  - simpl. now rewrite Hnl.
  - apply Forall_map, Forall_map.
    eapply Forall_impl; [| apply forallb_split_on, Ht].
    intros l Hl. simpl.
    destruct (forallb is_blank l); destruct (starts_with _ _);
      try reflexivity; try assumption; now apply forallb_drop.
Qed.

Lemma forallb_unlines (lines : list string) :
  P (ascii_of_nat 10) = true ->
  Forall (fun l => forallb P l = true) lines ->
  forallb P (unlines lines) = true.
Proof.
  intros Hnl Hall. unfold unlines. apply forallb_concat, Forall_map.
  eapply Forall_impl; [| exact Hall].
  intros l Hl. simpl. rewrite forallb_app, Hl. simpl. now rewrite Hnl.
Qed.

End Preservation.

Lemma forallb_impl (P Q : ascii -> bool) (s : string) :
  (forall c, P c = true -> Q c = true) ->
  forallb P s = true -> forallb Q s = true.
Proof.
  intros HPQ. induction s as [| c s IH]; simpl; [reflexivity |].
  intros H. apply andb_true_iff in H as [Hc Hs].
  now rewrite (HPQ c Hc), IH.
Qed.

Lemma lower_char_not_u (c : ascii) : not_u (lower_char c) = true.
Proof. destruct c as [[] [] [] [] [] [] [] []]; reflexivity. Qed.

Lemma no_capital_u_lower (s : string) : no_capital_u (lower s) = true.
Proof.
  unfold no_capital_u. induction s as [| c s IH]; simpl; [reflexivity |].
  fold (not_u (lower_char c)). now rewrite lower_char_not_u.
Qed.

Lemma no_capital_u_snake (s : string) : no_capital_u (snake s) = true.
Proof. unfold snake. apply no_capital_u_lower. Qed.

Lemma repr_char_not_u (c : ascii) :
  not_u c = true ->
  no_capital_u (repr_char (ascii_of_nat 34) c) = true /\
  no_capital_u (repr_char (ascii_of_nat 39) c) = true.
Proof.
  destruct c as [[] [] [] [] [] [] [] []]; intros H;
    try discriminate H; split; reflexivity.
Qed.

Lemma no_capital_u_repr_body (s : string) :
  no_capital_u s = true ->
  no_capital_u (repr_body (ascii_of_nat 34) s) = true /\
  no_capital_u (repr_body (ascii_of_nat 39) s) = true.
Proof.
  unfold no_capital_u. induction s as [| c s IH]; simpl; [now split |].
  intros H. apply andb_true_iff in H as [Hc Hs].
  destruct (IH Hs) as [I1 I2]. destruct (repr_char_not_u c Hc) as [C1 C2].
  unfold no_capital_u in C1, C2.
  rewrite !forallb_app, C1, C2, I1, I2. now split.
Qed.

Lemma no_capital_u_repr (s : string) :
  no_capital_u s = true -> no_capital_u (repr s) = true.
Proof.
  intros H. destruct (no_capital_u_repr_body s H) as [I1 I2].
  unfold repr, no_capital_u in *.
  destruct (existsb (is_char 39) s && negb (existsb (is_char 34) s)); simpl;
    rewrite forallb_app; [rewrite I1 | rewrite I2]; reflexivity.
Qed.

Lemma no_capital_u_hyphens (s : string) :
  no_capital_u s = true -> no_capital_u (underscores_to_hyphens s) = true.
Proof.
  unfold no_capital_u. induction s as [| c s IH]; simpl; [reflexivity |].
  intros H. apply andb_true_iff in H as [Hc Hs]. rewrite (IH Hs).
  destruct (is_char 95 c); [reflexivity | now rewrite Hc].
Qed.

Lemma no_capital_u_click_type (t : string) :
  no_capital_u (click_type t) = true.
Proof.
  unfold click_type.
  repeat match goal with |- context [if ?b then _ else _] => destruct b end;
    reflexivity.
Qed.

Lemma no_capital_u_script_type (t : string) :
  no_capital_u (script_type (click_type t)) = true.
Proof.
  unfold click_type.
  repeat match goal with
         | |- context [if String.eqb t ?x then _ else _] =>
             destruct (String.eqb t x)
         end;
    reflexivity.
Qed.

Lemma is_digit_not_u (c : ascii) : is_digit c = true -> not_u c = true.
Proof. destruct c as [[] [] [] [] [] [] [] []]; intros H; now try discriminate H. Qed.

Lemma forallb_filter_self (f : ascii -> bool) (s : string) :
  forallb f (filter f s) = true.
Proof.
  induction s as [| c s IH]; simpl; [reflexivity |].
  destruct (f c) eqn:E; simpl; [now rewrite E |]; exact IH.
Qed.

Lemma int_str_no_capital_u (val s : string) :
  PyNum.int_str val = Some s -> no_capital_u s = true.
Proof.
  unfold PyNum.int_str. destruct (PyNum.split_sign (PyNum.strip_number val)) as [neg body].
  destruct (PyNum.digits_ok body); [| discriminate].
  assert (Hd : forallb not_u (lstrip_by (is_char 48) (filter is_digit body)) = true).
  { apply forallb_lstrip_by. apply (forallb_impl is_digit); [apply is_digit_not_u |].
    apply forallb_filter_self. }
  destruct (lstrip_by (is_char 48) (filter is_digit body)) as [| c d].
  - intros H. now injection H as <-.
  - intros H. injection H as <-. unfold no_capital_u. fold not_u.
    destruct neg; [| exact Hd]. simpl. simpl in Hd. exact Hd.
Qed.

Lemma float_char_not_u (c : ascii) : float_char c = true -> not_u c = true.
Proof. destruct c as [[] [] [] [] [] [] [] []]; intros H; now try discriminate H. Qed.

Lemma is_digit_float_char (c : ascii) : is_digit c = true -> float_char c = true.
Proof. unfold float_char. now intros ->. Qed.

Lemma digit_char_is_digit (d : Z) :
  (d < 10)%Z -> is_digit (PyNum.digit_char d) = true.
Proof.
  intros H. unfold PyNum.digit_char.
  assert (Hn : Z.to_nat d < 10) by lia.
  destruct (Z.to_nat d) as [| [| [| [| [| [| [| [| [| [| n]]]]]]]]]];
    try reflexivity; lia.
Qed.

Lemma digits_of_fuel_digits (fuel : nat) :
  forall n acc,
    forallb is_digit acc = true ->
    forallb is_digit (PyNum.digits_of_fuel fuel n acc) = true.
Proof.
  induction fuel as [| fuel IH]; intros n acc Hacc; [exact Hacc |].
  change (PyNum.digits_of_fuel (S fuel) n acc)
    with (if (n <? 10)%Z then String (PyNum.digit_char n) acc
          else PyNum.digits_of_fuel fuel (n / 10)
                 (String (PyNum.digit_char (n mod 10)) acc)).
  destruct (n <? 10)%Z eqn:E.
  - cbn [forallb]. rewrite digit_char_is_digit; [assumption | now apply Z.ltb_lt].
  - apply IH. cbn [forallb]. rewrite digit_char_is_digit; [assumption |].
    apply Z.mod_pos_bound. lia.
Qed.

Lemma digits_of_digits (n : Z) : forallb is_digit (PyNum.digits_of n) = true.
Proof. unfold PyNum.digits_of. now apply digits_of_fuel_digits. Qed.

Lemma shortest_from_digits (fuel : nat) :
  forall n mant ex xn xd k,
    forallb is_digit (fst (PyNum.shortest_from fuel n mant ex xn xd k)) = true.
Proof.
  induction fuel as [| fuel IH]; intros n mant ex xn xd k;
    unfold PyNum.shortest_from; fold PyNum.shortest_from; cbv zeta.
  - simpl fst. apply forallb_rstrip_by, digits_of_digits.
  - repeat match goal with
           | |- context [if ?b then _ else _] => destruct b
           end;
      try (simpl fst; apply forallb_rstrip_by, digits_of_digits);
      apply IH.
Qed.

Lemma format_repr_chars (ds : string) (decpt : Z) :
  forallb is_digit ds = true ->
  forallb float_char (PyNum.format_repr ds decpt) = true.
Proof.
  intros Hds.
  assert (Hf : forallb float_char ds = true)
    by (apply (forallb_impl is_digit); [apply is_digit_float_char | assumption]).
  assert (Hdig : forall n, forallb float_char (PyNum.digits_of n) = true).
  { intros n. apply (forallb_impl is_digit);
      [apply is_digit_float_char | apply digits_of_digits]. }
  assert (Hz : forall n, forallb float_char (PyNum.zeros n) = true)
    by (intros n; now apply forallb_repeat_char).
  unfold PyNum.format_repr. cbv zeta.
  destruct ((decpt <=? -4)%Z || (16 <? decpt)%Z).
  - rewrite !forallb_app, Hdig.
    assert (Hm : forallb float_char
                   match ds with
                   | String c (String _ _ as r) => String c "." ++ r
                   | _ => ds
                   end = true).
    { destruct ds as [| c [| c' r]]; assumption. }
    rewrite Hm. now destruct (_ <? 0)%Z, (_ <? 10)%Z.
  - destruct (decpt <=? 0)%Z.
    + now rewrite !forallb_app, Hz, Hf.
    + destruct (_ <=? decpt)%Z.
      * now rewrite !forallb_app, Hz, Hf.
      * rewrite !forallb_app, !forallb_substring by assumption. reflexivity.
Qed.

Lemma float_str_no_capital_u (val s : string) :
  PyNum.float_str val = Some s -> no_capital_u s = true.
Proof.
  unfold PyNum.float_str. destruct (PyNum.parse_float val) as [f |];
    [| discriminate].
  intros H. injection H as <-.
  apply (forallb_impl float_char); [apply float_char_not_u |].
  destruct f as [| neg | neg | neg mant ex]; simpl;
    try reflexivity; try (now destruct neg).
  pose proof (shortest_from_digits 16 1 mant ex) as Hs.
  unfold PyNum.shortest_digits. cbv zeta.
  match goal with |- context [PyNum.shortest_from 16 1 mant ex ?a ?b ?c] =>
    specialize (Hs a b c); destruct (PyNum.shortest_from 16 1 mant ex a b c)
      as [ds decpt] end.
  simpl in Hs. rewrite forallb_app, (format_repr_chars ds decpt Hs).
  now destruct neg.
Qed.

Lemma python_cast_value_no_capital_u (typ val s : string) :
  no_capital_u val = true ->
  python_cast_value typ val = Ok s -> no_capital_u s = true.
Proof.
  intros Hval. unfold python_cast_value.
  destruct (String.eqb typ "str");
    [intros H; injection H as <-; now apply no_capital_u_repr |].
  destruct (String.eqb typ "int").
  { destruct (PyNum.int_str val) eqn:E; [| discriminate].
    intros H. injection H as <-. now apply (int_str_no_capital_u val). }
  destruct (String.eqb typ "float").
  { destruct (PyNum.float_str val) eqn:E; [| discriminate].
    intros H. injection H as <-. now apply (float_str_no_capital_u val). }
  destruct (String.eqb typ "bool").
  { destruct (mem (lower val) _); [intros H; now injection H as <- |].
    destruct (mem (lower val) _); [intros H; now injection H as <- | discriminate]. }
  intros H. injection H as <-. now apply no_capital_u_repr.
Qed.

Lemma usage_scan_final (s : string) : usage_scan 6 s = 6.
Proof. induction s as [| c s IH]; [reflexivity | exact IH]. Qed.

Lemma usage_scan_app (st : nat) (a b : string) :
  usage_scan st (a ++ b) = usage_scan (usage_scan st a) b.
Proof. revert st. induction a as [| c a IH]; intros st; simpl; auto. Qed.

Lemma usage_scan_free (s : string) :
  no_capital_u s = true -> usage_scan 0 s = 0.
Proof.
  unfold no_capital_u. induction s as [| c s IH]; simpl; [reflexivity |].
  intros H. apply andb_true_iff in H as [Hc Hs].
  unfold usage_step. simpl. apply negb_true_iff in Hc. rewrite Hc. auto.
Qed.

Lemma starts_with_app (p s : string) :
  starts_with p s = true -> exists t, s = p ++ t.
Proof.
  revert s. induction p as [| a p IH]; intros s H; [now exists s |].
  destruct s as [| b s]; [discriminate |]. simpl in H.
  apply andb_true_iff in H as [Hab Hps]. apply Ascii.eqb_eq in Hab. subst b.
  destruct (IH s Hps) as [t ->]. now exists t.
Qed.

(** A text that contains [Usage:] drives the automaton to its final state,
    from every state. *)
Lemma contains_usage_scan (s : string) :
  forall st, contains "Usage:" s = true -> usage_scan st s = 6.
Proof.
  assert (Hhead : forall st t, usage_scan st ("Usage:" ++ t) = 6).
  { intros st t. simpl. unfold usage_step at 6.
    change (is_char 85 "U") with true.
    destruct (st =? 6); simpl; apply usage_scan_final. }
  induction s as [| c s IH]; intros st H.
  - discriminate.
  - change (contains "Usage:" (String c s))
      with (starts_with "Usage:" (String c s) || contains "Usage:" s) in H.
    apply orb_true_iff in H as [H | H].
    + apply starts_with_app in H as [t ->]. apply Hhead.
    + simpl. now apply IH.
Qed.

Lemma no_usage_of_scan (s : string) :
  usage_scan 0 s = 0 -> contains "Usage:" s = false.
Proof.
  intros H. destruct (contains "Usage:" s) eqn:E; [| reflexivity].
  rewrite (contains_usage_scan s 0 E) in H. discriminate.
Qed.

Lemma default_or_false_free (d : option string) :
  match d with Some x => no_capital_u x | None => true end = true ->
  no_capital_u (default_or_false d) = true.
Proof. destruct d as [[| c r] |]; auto. Qed.

Lemma cli_option_free (p : ParamSpec) (b : option_block) :
  param_free_of_u p = true -> cli_option p = Ok b -> block_free_of_u b = true.
Proof.
  unfold param_free_of_u, cli_option. intros Hp.
  apply andb_true_iff in Hp as [Hn Hd].
  destruct (String.eqb (type p) "bool").
  - destruct (required p); simpl.
    + intros H. injection H as <-. simpl. now rewrite Hn.
    + destruct (python_cast_value _ _) as [s |] eqn:E; simpl; [| discriminate].
      intros H. injection H as <-. simpl. rewrite Hn.
      apply (python_cast_value_no_capital_u _ _ _ (default_or_false_free _ Hd) E).
  - destruct (required p); simpl.
    + intros H. injection H as <-. simpl.
      now rewrite Hn, no_capital_u_click_type.
    + destruct (default p) as [d |].
      * destruct (python_cast_value _ _) as [s |] eqn:E; simpl; [| discriminate].
        intros H. injection H as <-. simpl.
        rewrite Hn, no_capital_u_click_type,
          (python_cast_value_no_capital_u _ _ _ Hd E). reflexivity.
      * simpl. intros H. injection H as <-. simpl.
        now rewrite Hn, no_capital_u_click_type.
Qed.

Lemma retype_block_free (p : ParamSpec) (b : option_block) :
  cli_option p = Ok b -> block_free_of_u b = true ->
  block_free_of_u (retype_block b) = true.
Proof.
  intros Hb Hfree. pose proof (cli_option_declared_type p b Hb) as Hty.
  destruct b as [n d | n t | n t d sd]; simpl in *; [exact Hfree | |];
    destruct (String.eqb (type p) "bool"); try discriminate;
    injection Hty as ->; rewrite no_capital_u_script_type;
    repeat (apply andb_true_iff in Hfree as [Hfree ?]);
    repeat (apply andb_true_iff; split); auto.
Qed.

Lemma script_option_free (p : ParamSpec) (b : option_block) :
  param_free_of_u p = true -> script_option p = Ok b ->
  block_free_of_u b = true.
Proof.
  intros Hp. rewrite script_option_retype.
  destruct (cli_option p) as [b0 |] eqn:Hb; simpl; [| discriminate].
  intros H. injection H as <-.
  apply (retype_block_free p b0 Hb). now apply (cli_option_free p).
Qed.

Lemma mapM_Forall {A B : Type} (f : A -> result B) (P : A -> bool)
    (Q : B -> bool) (l : list A) (bs : list B) :
  (forall a b, P a = true -> f a = Ok b -> Q b = true) ->
  List.forallb P l = true -> mapM f l = Ok bs ->
  Forall (fun b => Q b = true) bs.
Proof.
  intros Hf. revert bs. induction l as [| a l IH]; simpl; intros bs Hl H.
  - injection H as <-. constructor.
  - apply andb_true_iff in Hl as [Ha Hl].
    destruct (f a) as [b |] eqn:Hb; simpl in H; [| discriminate].
    destruct (mapM f l) as [bs' |]; simpl in H; [| discriminate].
    injection H as <-. constructor; [exact (Hf a b Ha Hb) | now apply IH].
Qed.

Ltac split_free H :=
  repeat match type of H with
         | (_ && _) = true =>
             let H' := fresh "Hfree" in apply andb_true_iff in H as [H H']
         end.

Ltac free_lines :=
  repeat constructor;
  rewrite ?forallb_app;
  repeat match goal with
         | H : forallb _ ?s = true |- context [forallb _ ?s] => rewrite H
         end;
  reflexivity.

Lemma option_text_free (b : option_block) :
  block_free_of_u b = true -> no_capital_u (option_text b) = true.
Proof.
  unfold no_capital_u.
  destruct b as [n d | n t | n t d sd]; simpl block_free_of_u; intros H;
    unfold no_capital_u in H; split_free H;
    unfold option_text; (apply forallb_dedent; [| reflexivity]);
    apply forallb_rstrip_by; rewrite !forallb_app;
    (rewrite forallb_unlines; [reflexivity | reflexivity |]);
    free_lines.
Qed.

Lemma description_line_free (description : option string) (fallback : string) :
  match description with Some d => no_capital_u d | None => true end = true ->
  no_capital_u fallback = true ->
  no_capital_u (description_line description fallback) = true.
Proof.
  intros Hd Hf. destruct description as [[| c r] |]; simpl; try assumption.
  now apply forallb_strip_by.
Qed.

Lemma Forall_map_free {A : Type} (f : A -> string) (l : list A) :
  (forall a, In a l -> no_capital_u (f a) = true) ->
  Forall (fun s => forallb (fun c => negb (is_char 85 c)) s = true) (map f l).
Proof.
  intros H. apply Forall_map, Forall_forall. intros a Ha. exact (H a Ha).
Qed.

Lemma params_names_free (params : list ParamSpec) :
  List.forallb param_free_of_u params = true ->
  forall p, In p params -> no_capital_u (name p) = true.
Proof.
  intros H p Hp. rewrite forallb_forall in H. specialize (H p Hp).
  unfold param_free_of_u in H. now apply andb_true_iff in H as [H _].
Qed.

(** The search meets no [Usage:] once every piece is read from state 0 to
    state 0: the pieces of the request by hypothesis, the pieces of the
    template by evaluation. *)
Ltac scan_pieces :=
  repeat match goal with
         | |- context [usage_scan 0 ?s] =>
             first [ rewrite (usage_scan_free s) by assumption
                   | change (usage_scan 0 s) with 0 ]
         end.

Lemma usage_scan_unlines (lines : list string) :
  Forall (fun l => usage_scan 0 l = 0) lines ->
  usage_scan 0 (unlines lines) = 0.
Proof.
  induction 1 as [| l ls Hl Hls IH]; [reflexivity |].
  rewrite unlines_cons, !usage_scan_app, Hl. exact IH.
Qed.

Lemma Ok_inj {A : Type} (a b : A) : Ok a = Ok b -> a = b.
Proof. intros H. now injection H. Qed.

Lemma cli_content_has_no_usage
    (name binary api_base_url endpoint : string) (params : list ParamSpec)
    (description : option string) (text : string) :
  request_free_of_u name binary api_base_url endpoint params description = true ->
  generate_cli_content name binary api_base_url endpoint params description
  = Ok text ->
  contains "Usage:" text = false.
Proof.
  unfold request_free_of_u. intros Hreq H.
  apply andb_true_iff in Hreq as [Hreq Hdesc].
  apply andb_true_iff in Hreq as [Hreq Hparams].
  apply andb_true_iff in Hreq as [Hreq Hend].
  apply andb_true_iff in Hreq as [Hreq Hapi].
  apply andb_true_iff in Hreq as [Hname Hbin].
  unfold generate_cli_content in H.
  destruct (mapM cli_option params) as [blocks |] eqn:Hblocks;
    cbv beta iota zeta delta [bind] in H; [| discriminate].
  apply Ok_inj in H. subst text.
  pose proof (mapM_Forall cli_option param_free_of_u block_free_of_u params
                blocks cli_option_free Hparams Hblocks) as Hb.
  pose proof (params_names_free params Hparams) as Hnames.
  assert (P1 : no_capital_u (repr (binary ++ "/1.0")) = true).
  { apply no_capital_u_repr. unfold no_capital_u in *.
    now rewrite forallb_app, Hbin. }
  assert (P2 : no_capital_u (repr api_base_url) = true)
    by now apply no_capital_u_repr.
  assert (P3 : no_capital_u (repr (underscores_to_hyphens name)) = true)
    by now apply no_capital_u_repr, no_capital_u_hyphens.
  assert (P4 : no_capital_u
                 (indent (join nl (map option_text blocks ++ [cli_json_option])%list)
                    EmptyString) = true).
  { apply forallb_indent; [| reflexivity]. apply forallb_join; [reflexivity |].
    apply Forall_app. split; [| repeat constructor].
    apply Forall_map. eapply Forall_impl; [| exact Hb].
    intros b. apply option_text_free. }
  assert (P5 : no_capital_u (snake name) = true) by apply no_capital_u_snake.
  assert (P6 : no_capital_u
                 (join ", " (map cli_signature_entry params
                               ++ ["output_json: bool"])%list) = true).
  { apply forallb_join; [reflexivity |]. apply Forall_app.
    split; [| repeat constructor]. apply Forall_map_free. intros p Hp.
    unfold cli_signature_entry, no_capital_u.
    pose proof (Hnames p Hp) as Hn. unfold no_capital_u in Hn.
    destruct (String.eqb (type p) "bool"); rewrite !forallb_app, Hn;
      [reflexivity |].
    apply (no_capital_u_click_type (type p)). }
  assert (P7 : no_capital_u
                 (description_line description (name ++ " subcommand")) = true).
  { apply description_line_free; [assumption |].
    unfold no_capital_u in *. now rewrite forallb_app, Hname. }
  assert (P8 : no_capital_u (repr endpoint) = true)
    by now apply no_capital_u_repr.
  assert (Hq : no_capital_u
                 (join ("," ++ nl ++ spaces 16) (map query_entry params)) = true).
  { apply forallb_join; [reflexivity |]. apply Forall_map_free. intros p Hp.
    unfold query_entry, no_capital_u.
    pose proof (Hnames p Hp) as Hn. unfold no_capital_u in Hn.
    now rewrite !forallb_app, Hn. }
  assert (P9 : no_capital_u
                 (indent (join ("," ++ nl ++ spaces 16) (map query_entry params))
                    (spaces 16)) = true)
    by (apply forallb_indent; [exact Hq | reflexivity]).
  assert (P10 : no_capital_u
                  (indent (join ("," ++ nl ++ spaces 16) (map query_entry params))
                     (spaces 20)) = true)
    by (apply forallb_indent; [exact Hq | reflexivity]).
  assert (Hh : no_capital_u (join ", " (map human_param params)) = true).
  { apply forallb_join; [reflexivity |]. apply Forall_map_free. intros p Hp.
    unfold human_param, no_capital_u.
    pose proof (Hnames p Hp) as Hn. unfold no_capital_u in Hn.
    now rewrite !forallb_app, Hn. }
  pose proof (no_capital_u_hyphens name Hname) as Hhyph.
  match goal with
  | |- context [join (nl ++ spaces 12) ?ls] =>
      assert (P11 : no_capital_u (join (nl ++ spaces 12) ls) = true)
  end.
  { apply forallb_join; [reflexivity |].
    unfold no_capital_u in *.
    repeat constructor; rewrite ?forallb_app.
    - now rewrite Hhyph.
    - now rewrite Hend.
    - destruct params; rewrite ?forallb_app; [reflexivity |].
      now rewrite Hh. }
  apply no_usage_of_scan, usage_scan_unlines.
  repeat constructor; rewrite ?usage_scan_app; scan_pieces; reflexivity.
Qed.

Lemma script_content_has_no_usage
    (name binary api_base_url endpoint : string) (params : list ParamSpec)
    (description : option string) (include_simulate : bool) (text : string) :
  request_free_of_u name binary api_base_url endpoint params description = true ->
  generate_script_content name binary api_base_url endpoint params description
    include_simulate = Ok text ->
  contains "Usage:" text = false.
Proof.
  unfold request_free_of_u. intros Hreq H.
  apply andb_true_iff in Hreq as [Hreq Hdesc].
  apply andb_true_iff in Hreq as [Hreq Hparams].
  apply andb_true_iff in Hreq as [Hreq Hend].
  apply andb_true_iff in Hreq as [Hreq Hapi].
  apply andb_true_iff in Hreq as [Hname Hbin].
  unfold generate_script_content in H.
  destruct (mapM script_option params) as [blocks |] eqn:Hblocks;
    destruct include_simulate;
    cbv beta iota zeta delta [bind] in H; try discriminate;
    apply Ok_inj in H; subst text.
  all: pose proof (mapM_Forall script_option param_free_of_u block_free_of_u
                     params blocks script_option_free Hparams Hblocks) as Hb.
  all: pose proof (params_names_free params Hparams) as Hnames.
  all: assert (P1 : no_capital_u (repr (binary ++ "-script/1.0")) = true)
    by (apply no_capital_u_repr; unfold no_capital_u in *;
        now rewrite forallb_app, Hbin).
  all: assert (P2 : no_capital_u (repr api_base_url) = true)
    by now apply no_capital_u_repr.
  all: assert (P5 : no_capital_u (snake name) = true)
    by apply no_capital_u_snake.
  all: assert (P7 : no_capital_u
                      (description_line description (name ++ " script")) = true)
    by (apply description_line_free; [assumption |];
        unfold no_capital_u in *; now rewrite forallb_app, Hname).
  all: assert (P8 : no_capital_u (repr endpoint) = true)
    by now apply no_capital_u_repr.
  all: assert (Hq : no_capital_u
                      (join ("," ++ nl ++ spaces 20) (map query_entry params))
                    = true)
    by (apply forallb_join; [reflexivity |]; apply Forall_map_free;
        intros p Hp; unfold query_entry, no_capital_u;
        pose proof (Hnames p Hp) as Hn; unfold no_capital_u in Hn;
        now rewrite !forallb_app, Hn).
  all: assert (P9 : no_capital_u
                      (indent (join ("," ++ nl ++ spaces 20)
                                 (map query_entry params)) (spaces 16)) = true)
    by (apply forallb_indent; [exact Hq | reflexivity]).
  all: assert (P10 : no_capital_u
                       (indent (join ("," ++ nl ++ spaces 20)
                                  (map query_entry params)) (spaces 24)) = true)
    by (apply forallb_indent; [exact Hq | reflexivity]).
  all: assert (P11 : no_capital_u (join ", " (names params)) = true)
    by (apply forallb_join; [reflexivity |]; apply Forall_map_free;
        exact Hnames).
  all: assert (Hsig : Forall (fun s => forallb (fun c => negb (is_char 85 c)) s
                                       = true)
                        (map script_signature_entry params))
    by (apply Forall_map_free; intros p Hp;
        unfold script_signature_entry, no_capital_u;
        pose proof (Hnames p Hp) as Hn; unfold no_capital_u in Hn;
        destruct (String.eqb (type p) "bool"); rewrite ?forallb_app, Hn;
        reflexivity).
  all: assert (Hopts : Forall (fun s => forallb (fun c => negb (is_char 85 c)) s
                                        = true)
                         (map option_text blocks))
    by (apply Forall_map; eapply Forall_impl; [| exact Hb];
        intros b; apply option_text_free).
  all: match goal with
       | |- context [join nl ?ls] =>
           assert (P4 : no_capital_u (join nl ls) = true)
             by (apply forallb_join; [reflexivity |];
                 repeat (apply Forall_app; split); try exact Hopts;
                 repeat constructor)
       end.
  all: match goal with
       | |- context [join ", " (map script_signature_entry ?ps ++ ?ls)%list] =>
           assert (P6 : no_capital_u
                          (join ", " (map script_signature_entry ps ++ ls)%list)
                        = true)
             by (apply forallb_join; [reflexivity |];
                 repeat (apply Forall_app; split); try exact Hsig;
                 repeat constructor)
       end.
  - match goal with
    | |- context [strip (dedent ?t)] =>
        assert (P12 : no_capital_u (strip (dedent t)) = true)
    end.
    { unfold no_capital_u in *. apply forallb_strip_by.
      apply forallb_dedent; [| reflexivity].
      rewrite !forallb_app.
      rewrite forallb_unlines; [reflexivity | reflexivity |].
      free_lines. }
    match goal with
    | P : no_capital_u (strip (dedent ?t)) = true |- _ =>
        set (stub := strip (dedent t)) in *; clearbody stub
    end.
    apply no_usage_of_scan, usage_scan_unlines.
    repeat constructor; rewrite ?usage_scan_app; scan_pieces; reflexivity.
  - apply no_usage_of_scan, usage_scan_unlines.
    repeat constructor; rewrite ?usage_scan_app; scan_pieces; reflexivity.
Qed.

Lemma nth_error_split {A : Type} (l : list A) (i : nat) (x : A) :
  nth_error l i = Some x -> l = (firstn i l ++ x :: skipn (S i) l)%list.
Proof.
  revert l. induction i as [| i IH]; intros l Hx.
  - destruct l as [| a l]; [discriminate |]. simpl in *. now injection Hx as <-.
  - destruct l as [| a l]; [discriminate |].
    simpl firstn. simpl skipn. rewrite <- app_comm_cons. f_equal.
    now apply IH.
Qed.

Lemma splitlines_concat_bounded (n : nat) :
  forall s, String.length s <= n ->
    String.concat EmptyString (splitlines_keepends s) = s.
Proof.
  induction n as [| n IH]; intros s Hlen.
  - destruct s; [reflexivity | simpl in Hlen; lia].
  - destruct s as [| c r]; [reflexivity |].
    simpl in Hlen.
    change (splitlines_keepends (String c r))
      with (if is_line_break c then
              match r with
              | String d r' =>
                  if is_char 13 c && is_char 10 d
                  then String c (String d EmptyString) :: splitlines_keepends r'
                  else String c EmptyString :: splitlines_keepends r
              | EmptyString => [String c EmptyString]
              end
            else
              match splitlines_keepends r with
              | h :: t => String c h :: t
              | [] => [String c EmptyString]
              end).
    destruct (is_line_break c).
    + destruct r as [| d r']; [reflexivity |].
      destruct (is_char 13 c && is_char 10 d).
      * rewrite concat_empty_cons, IH; [reflexivity | simpl in Hlen; lia].
      * rewrite concat_empty_cons, IH; [reflexivity | simpl in *; lia].
    + pose proof (IH r ltac:(lia)) as Hr.
      destruct (splitlines_keepends r) as [| h t].
      * simpl in Hr. now rewrite <- Hr.
      * rewrite concat_empty_cons in *. simpl. now rewrite Hr.
Qed.

Lemma indent_empty_prefix (s : string) : indent s EmptyString = s.
Proof.
  unfold indent.
  rewrite (map_ext _ (fun line => line)).
  - rewrite map_id. apply (splitlines_concat_bounded (String.length s)). lia.
  - intros line. now destruct (existsb _ line).
Qed.

(** The option blocks of a surface stand in its text, in order, one after
    the other and before the options of the surface itself. *)
Lemma cli_content_blocks (name binary api_base_url endpoint : string)
    (params : list ParamSpec) (description : option string) (text : string) :
  generate_cli_content name binary api_base_url endpoint params description
  = Ok text ->
  exists blocks before after,
    mapM cli_option params = Ok blocks /\
    text = unlines before
             ++ join nl (map option_text blocks ++ [cli_json_option])%list
             ++ nl ++ unlines after.
Proof.
  intros H. unfold generate_cli_content in H.
  destruct (mapM cli_option params) as [blocks |];
    cbv beta iota zeta delta [bind] in H; [| discriminate].
  apply Ok_inj in H. subst text. exists blocks.
  match goal with |- exists _ _, _ /\ unlines ?ls = _ =>
    rewrite (nth_error_split ls 20 _ eq_refl) end.
  rewrite unlines_app, unlines_cons, indent_empty_prefix.
  eexists. eexists. split; reflexivity.
Qed.

Lemma script_content_blocks (name binary api_base_url endpoint : string)
    (params : list ParamSpec) (description : option string)
    (include_simulate : bool) (text : string) :
  generate_script_content name binary api_base_url endpoint params description
    include_simulate = Ok text ->
  exists blocks before after,
    mapM script_option params = Ok blocks /\
    text = unlines before
             ++ join nl (map option_text blocks ++ [script_json_option]
                           ++ (if include_simulate then [script_simulate_option]
                               else []))%list
             ++ nl ++ unlines after.
Proof.
  intros H. unfold generate_script_content in H.
  destruct (mapM script_option params) as [blocks |];
    cbv beta iota zeta delta [bind] in H; [| discriminate].
  apply Ok_inj in H. subst text. exists blocks.
  match goal with |- exists _ _, _ /\ unlines ?ls = _ =>
    rewrite (nth_error_split ls 70 _ eq_refl) end.
  rewrite unlines_app.
  match goal with |- context [unlines (?x :: skipn 71 ?ls)] =>
    rewrite (unlines_cons x (skipn 71 ls)) end.
  eexists. eexists. split; reflexivity.
Qed.

(** How far the two surfaces agree: the script surface shows, in the same
    order, the tuples of the subcommand surface with the type expression
    rewritten by [script_type] (and fails on the same parameter lists with
    the same error); so flag names, required-or-optional and default literals
    are identical across the surfaces, the declared type is identical for
    string and boolean parameters, and the one difference is the type
    expression of an [int] or [float] parameter.  The tuples are those of
    the option blocks that stand, in order, in the rendered text of each
    surface. *)
Theorem surface_parity_up_to_type_expression (params : list ParamSpec) :
  script_tuples params = map_result (map retype) (cli_tuples params) /\
  map_result (map untyped) (script_tuples params)
  = map_result (map untyped) (cli_tuples params) /\
  (forall t, script_type t = t \/
             (t = "int" /\ script_type t = "click.Int") \/
             (t = "float" /\ script_type t = "click.Float")) /\
  (Forall (fun p => type p <> "int" /\ type p <> "float") params ->
   script_tuples params = cli_tuples params) /\
  (forall name binary api_base_url endpoint description text,
      generate_cli_content name binary api_base_url endpoint params description
      = Ok text ->
      exists blocks before after,
        cli_tuples params = Ok (map block_tuple blocks) /\
        text = unlines before
                 ++ join nl (map option_text blocks ++ [cli_json_option])%list
                 ++ nl ++ unlines after) /\
  (forall name binary api_base_url endpoint description include_simulate text,
      generate_script_content name binary api_base_url endpoint params
        description include_simulate = Ok text ->
      exists blocks before after,
        script_tuples params = Ok (map block_tuple blocks) /\
        text = unlines before
                 ++ join nl (map option_text blocks ++ [script_json_option]
                               ++ (if include_simulate
                                   then [script_simulate_option] else []))%list
                 ++ nl ++ unlines after).
Proof.
  split; [apply script_tuples_retype |].
  split; [| split; [| split; [| split]]].
  - rewrite script_tuples_retype.
    destruct (cli_tuples params) as [ts | e]; simpl; [| reflexivity].
    f_equal. rewrite map_map. now apply map_ext.
  - intros t. unfold script_type, mem. simpl List.existsb.
    destruct (String.eqb t "int") eqn:E1.
    + apply String.eqb_eq in E1. subst. right. left. now split.
    + destruct (String.eqb t "float") eqn:E2.
      * apply String.eqb_eq in E2. subst. right. right. now split.
      * now left.
  - intros Hall. unfold script_tuples, cli_tuples.
    rewrite (mapM_map_result cli_option script_option retype_block params
               script_option_retype).
    assert (Hsame : forall bs, mapM cli_option params = Ok bs ->
                               map retype_block bs = bs).
    { induction Hall as [| p ps [Hint Hfloat] Hall IH]; simpl; intros bs H.
      - now injection H as <-.
      - destruct (cli_option p) as [b |] eqn:Hb; simpl in H; [| discriminate].
        destruct (mapM cli_option ps) as [bs' |]; simpl in H; [| discriminate].
        injection H as <-. simpl. rewrite (IH bs' eq_refl). f_equal.
        pose proof (cli_option_declared_type p b Hb) as Hty.
        assert (Hct : script_type (click_type (type p)) = click_type (type p)).
        { unfold script_type, click_type, mem. simpl List.existsb.
          destruct (String.eqb (type p) "str"); [reflexivity |].
          destruct (String.eqb (type p) "int") eqn:E1;
            [apply String.eqb_eq in E1; contradiction |].
          destruct (String.eqb (type p) "float") eqn:E2;
            [apply String.eqb_eq in E2; contradiction |].
          now destruct (String.eqb (type p) "bool"). }
        destruct b as [n d | n t | n t d sd]; simpl in *; [reflexivity | |];
          destruct (String.eqb (type p) "bool"); try discriminate;
          injection Hty as ->; now rewrite Hct. }
    destruct (mapM cli_option params) as [bs |]; simpl; [| reflexivity].
    now rewrite (Hsame bs eq_refl).
  - intros name binary api_base_url endpoint description text H.
    destruct (cli_content_blocks _ _ _ _ _ _ _ H)
      as [blocks [before [after [Hblocks Htext]]]].
    exists blocks, before, after. split; [| exact Htext].
    unfold cli_tuples. now rewrite Hblocks.
  - intros name binary api_base_url endpoint description include_simulate text H.
    destruct (script_content_blocks _ _ _ _ _ _ _ _ H)
      as [blocks [before [after [Hblocks Htext]]]].
    exists blocks, before, after. split; [| exact Htext].
    unfold script_tuples. now rewrite Hblocks.
Qed.

(** C3, at the input where the code departs from it: for the descriptor of
    [limit:int:10] the subcommand surface declares [type=int] and the script
    surface [type=click.Int], in the tuples and in the rendered text, so the
    tuples of the two surfaces differ.  The renderer of the script
    capitalizes the type name of an [int] or [float] parameter behind
    [click.]; the renderer of the subcommand writes the type name as it
    is. *)
Lemma declared_type_differs_for_int :
  parse_params ["limit:int:10"] = Ok [mkParamSpec "limit" "int" false (Some "10")] /\
  cli_tuples [mkParamSpec "limit" "int" false (Some "10")]
  = Ok [mkTuple "limit" (Some "int") false (Some "10")] /\
  script_tuples [mkParamSpec "limit" "int" false (Some "10")]
  = Ok [mkTuple "limit" (Some "click.Int") false (Some "10")] /\
  script_tuples [mkParamSpec "limit" "int" false (Some "10")]
  <> cli_tuples [mkParamSpec "limit" "int" false (Some "10")] /\
  map_result (fun text => (contains "    type=int," text,
                           contains "type=click.Int," text))
    (generate_cli_content "orders" "yourcmd" "https://example.com/api" "/example"
       [mkParamSpec "limit" "int" false (Some "10")] None)
  = Ok (true, false) /\
  map_result (fun text => (contains "type=int," text,
                           contains "    type=click.Int," text))
    (generate_script_content "orders" "yourcmd" "https://example.com/api"
       "/example" [mkParamSpec "limit" "int" false (Some "10")] None true)
  = Ok (false, true).
Proof.
  split; [reflexivity |]. split; [reflexivity |]. split; [reflexivity |].
  split; [discriminate |]. split; vm_compute; reflexivity.
Qed.

(** The parity statement on a list without numeric parameters. *)
Lemma surface_parity_up_to_type_expression_witness :
  script_tuples [mkParamSpec "status" "str" false (Some "open");
                 mkParamSpec "verbose" "bool" true None]
  = cli_tuples [mkParamSpec "status" "str" false (Some "open");
                mkParamSpec "verbose" "bool" true None].
Proof.
  apply (proj1 (proj2 (proj2 (proj2 (surface_parity_up_to_type_expression
           [mkParamSpec "status" "str" false (Some "open");
            mkParamSpec "verbose" "bool" true None]))))).
  repeat constructor; discriminate.
Defined.

(** C4, as the code has it: every script artifact opens with the shebang
    and the dependency comment, followed at once by the module docstring
    whose first line is the description and a period; every subcommand
    artifact opens with the shebang and the imports and carries the
    description as the first docstring line of the command function; and the
    templates add no [Usage:] line: a request written without a capital U
    renders two artifacts in which [Usage:] does not occur. *)
Theorem rendered_surfaces_carry_description
    (name binary api_base_url endpoint : string) (params : list ParamSpec)
    (description : option string) :
  (forall include_simulate text,
      generate_script_content name binary api_base_url endpoint params
        description include_simulate = Ok text ->
      exists rest,
        text = unlines SCRIPT_HEADER
                 ++ (tq ++ description_line description (name ++ " script") ++ ".")
                 ++ nl ++ rest) /\
  (forall text,
      generate_cli_content name binary api_base_url endpoint params description
      = Ok text ->
      exists before signature rest,
        text = unlines ("#!/usr/bin/env python3" :: "import json" :: before)
                 ++ ("def " ++ (snake name ++ "_cmd") ++ "(" ++ signature
                       ++ ") -> None:")
                 ++ nl
                 ++ ("    " ++ tq
                       ++ description_line description (name ++ " subcommand")
                       ++ ".")
                 ++ nl ++ rest) /\
  (request_free_of_u name binary api_base_url endpoint params description = true ->
   (forall text,
       generate_cli_content name binary api_base_url endpoint params description
       = Ok text ->
       contains "Usage:" text = false) /\
   (forall include_simulate text,
       generate_script_content name binary api_base_url endpoint params
         description include_simulate = Ok text ->
       contains "Usage:" text = false)).
Proof.
  split; [| split].
  - intros include_simulate text H. unfold generate_script_content in H.
    destruct (mapM script_option params) as [blocks |];
      cbv beta iota zeta delta [bind] in H; [| discriminate].
    apply Ok_inj in H. subst text.
    match goal with |- exists _, unlines ?ls = _ =>
      change ls with (SCRIPT_HEADER ++ skipn 8 ls)%list end.
    rewrite unlines_app. cbv beta iota delta [skipn].
    rewrite unlines_cons. eexists. reflexivity.
  - intros text H. unfold generate_cli_content in H.
    destruct (mapM cli_option params) as [blocks |];
      cbv beta iota zeta delta [bind] in H; [| discriminate].
    apply Ok_inj in H. subst text.
    match goal with |- exists _ _ _, unlines ?ls = _ =>
      rewrite (nth_error_two_split ls 21 _ _ eq_refl eq_refl) end.
    rewrite unlines_app, !unlines_cons.
    cbv beta iota delta [firstn skipn].
    eexists. eexists. eexists. reflexivity.
  - intros Hfree. split.
    + intros text. now apply cli_content_has_no_usage.
    + intros include_simulate text. now apply script_content_has_no_usage.
Qed.

(** The scenario request renders two artifacts without any [Usage:] line,
    in whatever letter case. *)
Lemma rendered_surfaces_have_no_usage_line :
  parse_params (arg_param (orders_request false false))
  = Ok [mkParamSpec "status" "str" false (Some "open");
        mkParamSpec "limit" "int" false (Some "25")] /\
  map_result (fun text => (contains "Usage:" text, contains "usage:" (lower text)))
    (generate_cli_content "orders" "yourcmd" "https://example.com/api" "/example"
       [mkParamSpec "status" "str" false (Some "open");
        mkParamSpec "limit" "int" false (Some "25")] None)
  = Ok (false, false) /\
  map_result (fun text => (contains "Usage:" text, contains "usage:" (lower text)))
    (generate_script_content "orders" "yourcmd" "https://example.com/api"
       "/example"
       [mkParamSpec "status" "str" false (Some "open");
        mkParamSpec "limit" "int" false (Some "25")] None true)
  = Ok (false, false).
Proof. repeat split; vm_compute; reflexivity. Qed.

(** The scenario request, through the general statement. *)
Lemma rendered_surfaces_carry_description_witness :
  (exists rest,
      generate_script_content "orders" "yourcmd" "https://example.com/api"
        "/example"
        [mkParamSpec "status" "str" false (Some "open");
         mkParamSpec "limit" "int" false (Some "25")] None true
      = Ok (unlines SCRIPT_HEADER
              ++ (tq ++ description_line None ("orders" ++ " script") ++ ".")
              ++ nl ++ rest)) /\
  map_result (contains "Usage:")
    (generate_cli_content "orders" "yourcmd" "https://example.com/api" "/example"
       [mkParamSpec "status" "str" false (Some "open");
        mkParamSpec "limit" "int" false (Some "25")] None)
  = Ok false.
Proof.
  pose proof (rendered_surfaces_carry_description "orders" "yourcmd"
                "https://example.com/api" "/example"
                [mkParamSpec "status" "str" false (Some "open");
                 mkParamSpec "limit" "int" false (Some "25")] None)
    as [Hscript [_ Husage]].
  split.
  - destruct (generate_script_content "orders" "yourcmd"
                "https://example.com/api" "/example"
                [mkParamSpec "status" "str" false (Some "open");
                 mkParamSpec "limit" "int" false (Some "25")] None true)
      as [text | e] eqn:Hrender; [| vm_compute in Hrender; discriminate].
    destruct (Hscript true text Hrender) as [rest Hrest].
    exists rest. now rewrite Hrest.
  - destruct (Husage eq_refl) as [Hcli _].
    destruct (generate_cli_content "orders" "yourcmd"
                "https://example.com/api" "/example"
                [mkParamSpec "status" "str" false (Some "open");
                 mkParamSpec "limit" "int" false (Some "25")] None)
      as [text | e] eqn:Hrender; [| vm_compute in Hrender; discriminate].
    simpl. f_equal. apply Hcli. first [exact Hrender | reflexivity].
Defined.

(** * Further properties of the code *)

(** ** The files [main] leaves *)

(** X7: [write_file], total: at a free target with no file on the way (or on a
    file, with force) it creates the missing parents, writes the text and
    reports it, and no other file changes.  The target is a relative path
    without [..], and so are the paths it is told apart from. *)
Theorem write_file_writes (path : Path) (content : string) (force : bool)
    (w : World) :
  plain_path path = true ->
  no_file_on (fs w) (parent path) = true ->
  is_dir (fs w) path = false ->
  path_exists (fs w) path && negb force = false ->
  exists es,
    write_file path content force false w
    = (Ok tt, mkWorld es (stdout w ++ ["Wrote " ++ path_str path]) (stderr w)) /\
    lookup es path = Some (File content) /\
    is_dir es (parent path) = true /\
    changes_only_plain [path] (fs w) es.
Proof.
  intros _ Hnf Hnd Hfree.
  destruct (write_file_succeeds path content force w Hnf Hnd Hfree)
    as [es [Hrun [Hl [Hc _]]]].
  exists es. split; [exact Hrun |]. split; [exact Hl |].
  split; [exact (lookup_parent_is_dir _ _ _ Hl) |].
  now apply changes_only_plain_of.
Qed.

(** Writing [a/b/orders.py] in a directory that holds only a file [keep]. *)
Lemma write_file_writes_witness :
  exists es,
    write_file ["a"; "b"; "orders.py"] "text" false false
      (mkWorld [("keep", File "kept")] [] [])
    = (Ok tt, mkWorld es ([] ++ ["Wrote " ++ path_str ["a"; "b"; "orders.py"]]) []) /\
    lookup es ["a"; "b"; "orders.py"] = Some (File "text") /\
    is_dir es (parent ["a"; "b"; "orders.py"]) = true /\
    changes_only_plain [["a"; "b"; "orders.py"]] [("keep", File "kept")] es.
Proof.
  apply (write_file_writes ["a"; "b"; "orders.py"] "text" false
           (mkWorld [("keep", File "kept")] [] [])); reflexivity.
Defined.

(** X9: A dry run of [main] creates, changes and removes no file, whatever the
    request: the tree it leaves holds the same files with the same contents,
    and at most more directories. *)
Theorem dry_run_changes_no_file (args : Args) (w : World) :
  arg_dry_run args = true ->
  adds_dirs (fs w) (fs (snd (main args w))).
Proof.
  intros Hdry.
  apply (main_fs_rel adds_dirs adds_dirs_refl). intros params.
  apply (generate_fs_rel adds_dirs adds_dirs_refl adds_dirs_trans).
  intros path content _. rewrite Hdry. apply write_file_dry_run_adds_dirs.
Qed.

(** A forced dry run of the scenario beside a file [keep]. *)
Lemma dry_run_changes_no_file_witness :
  adds_dirs [("keep", File "kept")]
    (fs (snd (main (orders_request true true)
                (mkWorld [("keep", File "kept")] [] [])))).
Proof.
  apply (dry_run_changes_no_file (orders_request true true)
           (mkWorld [("keep", File "kept")] [] [])).
  reflexivity.
Defined.

(** X10: Without force [main] loses nothing, whatever the request and however
    it ends, when the output paths are relative and without [..]: every file
    that was there is there with the same content, and every directory is
    still a directory. *)
Theorem main_without_force_loses_nothing (args : Args) (w : World) :
  List.forallb plain_path (outputs args (snake (arg_name args))) = true ->
  arg_force args = false ->
  grows (fs w) (fs (snd (main args w))).
Proof.
  intros _ Hforce.
  apply (main_fs_rel grows grows_refl). intros params.
  apply (generate_fs_rel grows grows_refl grows_trans).
  intros path content _. rewrite Hforce. apply write_file_no_force_grows.
Qed.

(** The scenario in a directory that holds an older [scripts/orders.py]. *)
Lemma main_without_force_loses_nothing_witness :
  grows [("scripts", Dir [("orders.py", File "old")])]
    (fs (snd (main (orders_request false false)
                (mkWorld [("scripts", Dir [("orders.py", File "old")])] [] [])))).
Proof.
  apply (main_without_force_loses_nothing (orders_request false false)
           (mkWorld [("scripts", Dir [("orders.py", File "old")])] [] []));
    reflexivity.
Defined.

(** X11: Whatever the request and however [main] ends, when the output paths
    are relative and without [..], a file at such a path that is none of the
    output paths is neither created, changed nor removed, and no directory is
    lost. *)
Theorem main_changes_only_outputs (args : Args) (w : World) :
  List.forallb plain_path (outputs args (snake (arg_name args))) = true ->
  changes_only_plain (outputs args (snake (arg_name args)))
    (fs w) (fs (snd (main args w))).
Proof.
  intros _. apply changes_only_plain_of.
  apply (main_fs_rel _ (changes_only_refl _)). intros params.
  apply (generate_fs_rel _ (changes_only_refl _) (changes_only_trans _)).
  intros path content Hin. now apply write_file_changes_only.
Qed.

(** A forced run of the scenario beside a file [keep]. *)
Lemma main_changes_only_outputs_witness :
  changes_only_plain [["cli_orders.py"]; ["scripts"; "orders.py"]]
    [("keep", File "kept")]
    (fs (snd (main (orders_request true false)
                (mkWorld [("keep", File "kept")] [] [])))).
Proof.
  apply (main_changes_only_outputs (orders_request true false)
           (mkWorld [("keep", File "kept")] [] [])).
  reflexivity.
Defined.

Lemma writable_inv (es : dir) (path : Path) (force : bool) :
  writable es path force = true ->
  no_file_on es (parent path) = true /\
  is_dir es path = false /\
  path_exists es path && negb force = false.
Proof.
  unfold writable. intros H.
  apply andb_true_iff in H as [H H3]. apply andb_true_iff in H as [H1 H2].
  apply negb_true_iff in H2, H3. auto.
Qed.

(** X12: A request for both surfaces in the default layout, with valid name and
    parameters, in a directory where both targets can be written: [main] ends
    with code 0, the two files hold exactly the rendered texts, the three lines
    are reported, and no other file has changed. *)
Theorem main_writes_both_artifacts (args : Args) (w : World)
    (params : list ParamSpec) (cli_text script_text : string) :
  arg_target args = TargetBoth ->
  arg_out_cli args = None ->
  arg_out_script args = None ->
  arg_emit_test_plan args = None ->
  arg_emit_doc_snippets args = None ->
  arg_dry_run args = false ->
  valid_identifier (snake (arg_name args)) = true ->
  parse_params (arg_param args) = Ok params ->
  generate_cli_content (snake (arg_name args)) (arg_binary args)
    (arg_api_base_url args) (arg_endpoint args) params (arg_description args)
  = Ok cli_text ->
  generate_script_content (snake (arg_name args)) (arg_binary args)
    (arg_api_base_url args) (arg_endpoint args) params (arg_description args)
    (negb (arg_no_simulate args))
  = Ok script_text ->
  writable (fs w) ["cli_" ++ snake (arg_name args) ++ ".py"] (arg_force args) = true ->
  writable (fs w) ["scripts"; snake (arg_name args) ++ ".py"] (arg_force args) = true ->
  exists es,
    main args w
    = (0, mkWorld es
            (stdout w ++ ["Wrote cli_" ++ snake (arg_name args) ++ ".py";
                          "Wrote scripts/" ++ snake (arg_name args) ++ ".py";
                          "Done."])
            (stderr w)) /\
    lookup es ["cli_" ++ snake (arg_name args) ++ ".py"] = Some (File cli_text) /\
    lookup es ["scripts"; snake (arg_name args) ++ ".py"] = Some (File script_text) /\
    changes_only [["cli_" ++ snake (arg_name args) ++ ".py"];
                  ["scripts"; snake (arg_name args) ++ ".py"]] (fs w) es.
Proof.
  intros Htarget Hoc Hos Hplan Hdoc Hdry Hname Hparse Hcli Hscript W1 W2.
  set (cap := snake (arg_name args)) in *.
  apply writable_inv in W1 as [N1 [D1 F1]].
  apply writable_inv in W2 as [N2 [D2 F2]].
  destruct (write_file_succeeds ["cli_" ++ cap ++ ".py"] cli_text
              (arg_force args) w N1 D1 F1) as [es1 [Hrun1 [Hl1 [Hc1 Hnew1]]]].
  set (w1 := mkWorld es1 (stdout w ++ ["Wrote " ++ path_str ["cli_" ++ cap ++ ".py"]])
               (stderr w)) in *.
  assert (Hnew : forall r, is_dir es1 r = true -> is_dir (fs w) r = true).
  { intros r Hr. apply Hnew1 in Hr as [Hr | [k Hr]]; [exact Hr |].
    subst r. now destruct k. }
  assert (Hfile : forall r c, r <> ["cli_" ++ cap ++ ".py"] ->
                    lookup es1 r = Some (File c) -> lookup (fs w) r = Some (File c)).
  { intros r c Hr Hlr. apply (proj1 Hc1 r c); [| exact Hlr].
    intros [E | []]. now apply Hr. }
  assert (N2' : no_file_on (fs w1) (parent ["scripts"; cap ++ ".py"]) = true).
  { apply no_file_on_lookup. intros k c Hk.
    apply (proj1 (no_file_on_lookup _ _) N2 k c).
    apply Hfile; [| exact Hk].
    destruct k as [| [| k]]; discriminate. }
  assert (D2' : is_dir (fs w1) ["scripts"; cap ++ ".py"] = false).
  { destruct (is_dir (fs w1) ["scripts"; cap ++ ".py"]) eqn:E; [| reflexivity].
    apply Hnew in E. congruence. }
  assert (F2' : path_exists (fs w1) ["scripts"; cap ++ ".py"]
                && negb (arg_force args) = false).
  { destruct (arg_force args); [apply andb_false_r |].
    rewrite andb_true_r in *.
    destruct (path_exists (fs w1) ["scripts"; cap ++ ".py"]) eqn:E; [| reflexivity].
    apply path_exists_cases in E as [E | [c E]]; [congruence |].
    apply Hfile in E; [| discriminate].
    unfold path_exists in F2. now rewrite E in F2. }
  destruct (write_file_succeeds ["scripts"; cap ++ ".py"] script_text
              (arg_force args) w1 N2' D2' F2') as [es2 [Hrun2 [Hl2 [Hc2 _]]]].
  exists es2.
  split; [| split; [| split; [exact Hl2 |]]].
  - unfold main. fold cap. rewrite Hname, Hparse. simpl negb. cbv iota.
    unfold generate, out_cli_path, out_script_path.
    rewrite Htarget, Hoc, Hos, Hplan, Hdoc, Hdry.
    simpl wants_cli. simpl wants_script. cbv iota.
    unfold bindM at 1 2 3 4 5. unfold lift at 1. rewrite Hcli.
    rewrite Hrun1.
    unfold bindM at 1. unfold lift. rewrite Hscript. rewrite Hrun2.
    unfold ret, print. simpl fs. simpl stdout. simpl stderr.
    rewrite <- !app_assoc. reflexivity.
  - apply (proj1 Hc2); [| exact Hl1].
    intros [E | []]. discriminate.
  - apply (changes_only_trans _ _ es1).
    + split; [| apply Hc1]. intros q c Hq. apply (proj1 Hc1).
      intros [E | []]. apply Hq. now left.
    + split; [| apply Hc2]. intros q c Hq. apply (proj1 Hc2).
      intros [E | []]. apply Hq. right. now left.
Qed.

(** The scenario in an empty directory. *)
Lemma main_writes_both_artifacts_witness :
  exists cli_text script_text es,
    main (orders_request false false) empty_world
    = (0, mkWorld es
            ["Wrote cli_orders.py"; "Wrote scripts/orders.py"; "Done."] []) /\
    lookup es ["cli_orders.py"] = Some (File cli_text) /\
    lookup es ["scripts"; "orders.py"] = Some (File script_text) /\
    changes_only [["cli_orders.py"]; ["scripts"; "orders.py"]] [] es.
Proof.
  destruct (generate_cli_content "orders" "yourcmd" "https://example.com/api"
              "/example"
              [mkParamSpec "status" "str" false (Some "open");
               mkParamSpec "limit" "int" false (Some "25")] None)
    as [cli_text | e] eqn:Hcli; [| vm_compute in Hcli; discriminate].
  destruct (generate_script_content "orders" "yourcmd" "https://example.com/api"
              "/example"
              [mkParamSpec "status" "str" false (Some "open");
               mkParamSpec "limit" "int" false (Some "25")] None true)
    as [script_text | e] eqn:Hscript; [| vm_compute in Hscript; discriminate].
  exists cli_text, script_text.
  apply (main_writes_both_artifacts (orders_request false false) empty_world
           [mkParamSpec "status" "str" false (Some "open");
            mkParamSpec "limit" "int" false (Some "25")] cli_text script_text);
    first [exact Hcli | exact Hscript | reflexivity].
Defined.

(** ** Stripping *)

Lemma lstrip_by_idem (f : ascii -> bool) (s : string) :
  lstrip_by f (lstrip_by f s) = lstrip_by f s.
Proof.
  induction s as [| c s IH]; [reflexivity |]. simpl.
  destruct (f c) eqn:Hc; [exact IH |]. simpl. now rewrite Hc.
Qed.

Lemma rstrip_by_cons (f : ascii -> bool) (c : ascii) (r : string) :
  rstrip_by f (String c r)
  = match rstrip_by f r with
    | EmptyString => if f c then EmptyString else String c EmptyString
    | r' => String c r'
    end.
Proof. reflexivity. Qed.

Lemma rstrip_by_idem (f : ascii -> bool) (s : string) :
  rstrip_by f (rstrip_by f s) = rstrip_by f s.
Proof.
  induction s as [| c s IH]; [reflexivity |].
  rewrite rstrip_by_cons.
  destruct (rstrip_by f s) as [| d r'] eqn:Hr.
  - destruct (f c) eqn:Hc; [reflexivity |]. simpl. now rewrite Hc.
  - rewrite rstrip_by_cons, IH. reflexivity.
Qed.

Lemma lstrip_rstrip_comm (f : ascii -> bool) (s : string) :
  lstrip_by f (rstrip_by f s) = rstrip_by f (lstrip_by f s).
Proof.
  induction s as [| c s IH]; [reflexivity |].
  rewrite rstrip_by_cons. simpl lstrip_by at 2.
  destruct (f c) eqn:Hc.
  - rewrite <- IH. destruct (rstrip_by f s) as [| d r']; [reflexivity |].
    simpl. now rewrite Hc.
  - rewrite rstrip_by_cons.
    destruct (rstrip_by f s) as [| d r']; simpl; now rewrite Hc.
Qed.

Lemma strip_by_idem (f : ascii -> bool) (s : string) :
  strip_by f (strip_by f s) = strip_by f s.
Proof.
  unfold strip_by.
  now rewrite <- lstrip_rstrip_comm, rstrip_by_idem, lstrip_rstrip_comm,
    lstrip_by_idem.
Qed.

Lemma strip_idem (s : string) : strip (strip s) = strip s.
Proof. apply strip_by_idem. Qed.

(** A text that neither starts nor ends with a character of the class is
    left alone. *)
Lemma lstrip_by_none (f : ascii -> bool) (s : string) :
  forallb (fun c => negb (f c)) s = true -> lstrip_by f s = s.
Proof.
  destruct s as [| c s]; [reflexivity |]. simpl.
  intros H. apply andb_true_iff in H as [Hc _].
  now destruct (f c).
Qed.

Lemma rstrip_by_none (f : ascii -> bool) (s : string) :
  forallb (fun c => negb (f c)) s = true -> rstrip_by f s = s.
Proof.
  induction s as [| c s IH]; [reflexivity |]. simpl forallb.
  intros H. apply andb_true_iff in H as [Hc Hs].
  rewrite rstrip_by_cons, (IH Hs).
  destruct s; [| reflexivity]. now destruct (f c).
Qed.

Lemma length_lstrip_by (f : ascii -> bool) (s : string) :
  String.length (lstrip_by f s) <= String.length s.
Proof.
  induction s as [| c s IH]; simpl; [lia |].
  destruct (f c); simpl; lia.
Qed.

Lemma length_rstrip_by (f : ascii -> bool) (s : string) :
  String.length (rstrip_by f s) <= String.length s.
Proof.
  induction s as [| c s IH]; [simpl; lia |].
  rewrite rstrip_by_cons.
  destruct (rstrip_by f s); [destruct (f c) |]; simpl in *; lia.
Qed.

Lemma length_strip_by (f : ascii -> bool) (s : string) :
  String.length (strip_by f s) <= String.length s.
Proof.
  unfold strip_by.
  pose proof (length_rstrip_by f (lstrip_by f s)).
  pose proof (length_lstrip_by f s). lia.
Qed.

(** ** Name normalization *)

Lemma filter_id (f : ascii -> bool) (s : string) :
  forallb f s = true -> filter f s = s.
Proof.
  induction s as [| c s IH]; simpl; [reflexivity |].
  intros H. apply andb_true_iff in H as [Hc Hs].
  now rewrite Hc, IH.
Qed.

Lemma collapse_separators_id (b : bool) (s : string) :
  forallb (fun c => negb (is_separator c)) s = true ->
  collapse_separators b s = s.
Proof.
  revert b. induction s as [| c s IH]; intros b; simpl; [reflexivity |].
  intros H. apply andb_true_iff in H as [Hc Hs].
  apply negb_true_iff in Hc. now rewrite Hc, IH.
Qed.

Lemma collapse_separators_word (b : bool) (s : string) :
  forallb (fun c => is_word c || is_space c || is_char 45 c) s = true ->
  forallb is_word (collapse_separators b s) = true.
Proof.
  revert b. induction s as [| c s IH]; intros b; simpl; [reflexivity |].
  intros H. apply andb_true_iff in H as [Hc Hs].
  destruct (is_separator c) eqn:Hsep.
  - destruct b; simpl; auto.
  - simpl. rewrite (IH false Hs), andb_true_r.
    unfold is_separator in Hsep. apply orb_false_iff in Hsep as [H45 Hsp].
    now rewrite Hsp, H45, !orb_false_r in Hc.
Qed.

Lemma lower_snake_char (s : string) :
  forallb is_word s = true -> forallb snake_char (lower s) = true.
Proof.
  induction s as [| c s IH]; simpl; [reflexivity |].
  intros H. apply andb_true_iff in H as [Hc Hs].
  rewrite (IH Hs), andb_true_r. revert Hc.
  destruct c as [[] [] [] [] [] [] [] []]; intros Hc;
    first [reflexivity | discriminate Hc].
Qed.

Lemma lower_idem (s : string) : lower (lower s) = lower s.
Proof.
  induction s as [| c s IH]; simpl; [reflexivity |].
  rewrite IH. f_equal.
  destruct c as [[] [] [] [] [] [] [] []]; reflexivity.
Qed.

Lemma lstrip_underscores_lower (s : string) :
  lstrip_by (is_char 95) (lower s) = lower (lstrip_by (is_char 95) s).
Proof.
  induction s as [| c s IH]; simpl; [reflexivity |].
  replace (is_char 95 (lower_char c)) with (is_char 95 c)
    by (destruct c as [[] [] [] [] [] [] [] []]; reflexivity).
  destruct (is_char 95 c); [exact IH | reflexivity].
Qed.

Lemma rstrip_underscores_lower (s : string) :
  rstrip_by (is_char 95) (lower s) = lower (rstrip_by (is_char 95) s).
Proof.
  induction s as [| c s IH]; [reflexivity |].
  change (lower (String c s)) with (String (lower_char c) (lower s)).
  rewrite !rstrip_by_cons, IH.
  replace (is_char 95 (lower_char c)) with (is_char 95 c)
    by (destruct c as [[] [] [] [] [] [] [] []]; reflexivity).
  destruct (rstrip_by (is_char 95) s); simpl; [| reflexivity].
  now destruct (is_char 95 c).
Qed.

Lemma strip_underscores_lower (s : string) :
  strip_underscores (lower s) = lower (strip_underscores s).
Proof.
  unfold strip_underscores, strip_by.
  now rewrite lstrip_underscores_lower, rstrip_underscores_lower.
Qed.

Lemma snake_chars (s : string) : forallb snake_char (snake s) = true.
Proof.
  unfold snake. apply lower_snake_char.
  unfold strip_underscores. apply forallb_strip_by.
  apply collapse_separators_word, forallb_filter_self.
Qed.

Lemma snake_char_kept (c : ascii) :
  snake_char c = true ->
  (is_word c || is_space c || is_char 45 c) = true /\
  negb (is_separator c) = true.
Proof.
  destruct c as [[] [] [] [] [] [] [] []]; intros H;
    first [split; reflexivity | discriminate H].
Qed.

Lemma snake_strip_underscores (s : string) :
  strip_underscores (snake s) = snake s.
Proof.
  unfold snake. rewrite strip_underscores_lower. f_equal. apply strip_by_idem.
Qed.

Lemma snake_idem (s : string) : snake (snake s) = snake s.
Proof.
  pose proof (snake_chars s) as Hc.
  unfold snake at 1.
  rewrite filter_id
    by (eapply forallb_impl; [| exact Hc]; intros c H; apply snake_char_kept, H).
  rewrite collapse_separators_id
    by (eapply forallb_impl; [| exact Hc]; intros c H; apply snake_char_kept, H).
  rewrite snake_strip_underscores. unfold snake. apply lower_idem.
Qed.

(** X1: [snake] is a normalization of ASCII text: its result is made of word
    characters that are no capital letters, neither starts nor ends with an
    underscore, and is left alone by [snake]. *)
Theorem snake_normal_form (s : string) :
  ascii_text s = true ->
  forallb snake_char (snake s) = true /\
  strip_underscores (snake s) = snake s /\
  snake (snake s) = snake s.
Proof.
  intros _. split; [apply snake_chars |].
  split; [apply snake_strip_underscores | apply snake_idem].
Qed.

(** A name with blanks, capitals, a hyphen and punctuation. *)
Lemma snake_normal_form_witness :
  forallb snake_char (snake "  List Open-Orders! ") = true /\
  strip_underscores (snake "  List Open-Orders! ")
  = snake "  List Open-Orders! " /\
  snake (snake "  List Open-Orders! ") = snake "  List Open-Orders! ".
Proof.
  apply (snake_normal_form "  List Open-Orders! "). reflexivity.
Defined.

(** ** The one-line summary *)

Lemma splitlines_one_line_bounded (n : nat) :
  forall s, String.length s <= n ->
    Forall (fun l => one_line (rstrip_by is_line_break l) = true)
      (splitlines_keepends s).
Proof.
  unfold one_line.
  induction n as [| n IH]; intros s Hlen.
  - destruct s; [constructor | simpl in Hlen; lia].
  - destruct s as [| c r]; [constructor |].
    simpl in Hlen. simpl splitlines_keepends.
    destruct (is_line_break c) eqn:Hc.
    + destruct r as [| d r']; [repeat constructor; simpl; now rewrite Hc |].
      simpl in Hlen.
      destruct (is_char 13 c && is_char 10 d) eqn:Hcrlf.
      * constructor; [| apply IH; lia].
        apply andb_true_iff in Hcrlf as [_ Hd].
        assert (Hbd : is_line_break d = true)
          by (revert Hd; destruct d as [[] [] [] [] [] [] [] []];
              intros Hd; first [reflexivity | discriminate Hd]).
        simpl. now rewrite Hbd, Hc.
      * constructor; [simpl; now rewrite Hc | apply IH; simpl; lia].
    + assert (Hrec := IH r ltac:(lia)).
      destruct (splitlines_keepends r) as [| h t].
      * repeat constructor. simpl. rewrite Hc. simpl. unfold no_break. now rewrite Hc.
      * inversion Hrec; subst. constructor; [| assumption].
        rewrite rstrip_by_cons.
        destruct (rstrip_by is_line_break h) eqn:Hh; rewrite ?Hc; simpl;
          unfold no_break at 1; rewrite Hc; simpl; [reflexivity | assumption].
Qed.

Lemma splitlines_one_line (s : string) :
  Forall (fun l => one_line l = true) (ScriptsIndex.splitlines s).
Proof.
  unfold ScriptsIndex.splitlines. apply Forall_map.
  apply (splitlines_one_line_bounded (String.length s)). lia.
Qed.

Lemma stripped_lines_spec (text : string) :
  Forall (fun l => l <> EmptyString /\ strip l = l /\ one_line l = true)
    (ScriptsIndex.stripped_lines text).
Proof.
  unfold ScriptsIndex.stripped_lines.
  apply Forall_forall. intros l Hl.
  apply filter_In in Hl as [Hin Hne].
  apply negb_true_iff, String.eqb_neq in Hne.
  apply in_map_iff in Hin as [l0 [<- Hin]].
  split; [exact Hne |]. split; [apply strip_idem |].
  apply forallb_strip_by.
  exact (proj1 (Forall_forall _ _) (splitlines_one_line text) l0 Hin).
Qed.

Lemma splitlines_keepends_one_line (s : string) :
  one_line s = true -> s <> EmptyString -> splitlines_keepends s = [s].
Proof.
  unfold one_line.
  induction s as [| c s IH]; [congruence |]. intros H _.
  simpl in H. apply andb_true_iff in H as [Hc Hs].
  unfold no_break in Hc. apply negb_true_iff in Hc.
  simpl. rewrite Hc.
  destruct s as [| d s']; [reflexivity |].
  rewrite IH; [reflexivity | assumption | discriminate].
Qed.

Lemma stripped_lines_one_line (s : string) :
  one_line s = true -> s <> EmptyString -> strip s = s ->
  ScriptsIndex.stripped_lines s = [s].
Proof.
  intros Hone Hne Hstrip.
  unfold ScriptsIndex.stripped_lines, ScriptsIndex.splitlines.
  rewrite (splitlines_keepends_one_line s Hone Hne). simpl map.
  rewrite (rstrip_by_none is_line_break s Hone), Hstrip. simpl.
  destruct (String.eqb_spec s EmptyString); [contradiction | reflexivity].
Qed.

Lemma squeeze_forallb (P : ascii -> bool) (st : ScriptsIndex.run) (s : string) :
  P " "%char = true ->
  match st with ScriptsIndex.OneSpace p => P p = true | _ => True end ->
  forallb P s = true -> forallb P (ScriptsIndex.squeeze st s) = true.
Proof.
  intros Hsp. revert st. induction s as [| c s IH]; intros st Hst H.
  - destruct st; simpl; try reflexivity. now rewrite Hst.
  - simpl in H. apply andb_true_iff in H as [Hc Hs]. simpl.
    destruct (is_space c).
    + destruct st; simpl; rewrite ?Hsp; apply IH; auto.
    + destruct st; simpl; rewrite ?Hst, Hc; apply IH; auto.
Qed.

Lemma squeeze_long_run_head (s : string) :
  head_space (ScriptsIndex.squeeze ScriptsIndex.LongRun s) = false.
Proof.
  induction s as [| c s IH]; [reflexivity |]. simpl.
  destruct (is_space c) eqn:Hc; [exact IH | simpl; exact Hc].
Qed.

Lemma squeeze_no_double_space (st : ScriptsIndex.run) (s : string) :
  no_double_space (ScriptsIndex.squeeze st s) = true.
Proof.
  revert st. induction s as [| c s IH]; intros st.
  - destruct st; simpl; try reflexivity. now rewrite andb_false_r.
  - simpl. destruct (is_space c) eqn:Hc.
    + destruct st; try apply IH.
      simpl. now rewrite squeeze_long_run_head, IH.
    + destruct st; simpl; rewrite Hc, ?andb_false_r, ?andb_false_l; simpl; apply IH.
Qed.

Lemma squeeze_id (s : string) :
  no_double_space s = true ->
  ScriptsIndex.squeeze ScriptsIndex.NoRun s = s /\
  (forall p, head_space s = false ->
             ScriptsIndex.squeeze (ScriptsIndex.OneSpace p) s = String p s).
Proof.
  induction s as [| c s IH]; intros H; [split; reflexivity |].
  simpl in H. apply andb_true_iff in H as [Hc Hs].
  destruct (IH Hs) as [IH1 IH2]. split.
  - simpl. destruct (is_space c) eqn:Hsp.
    + simpl in Hc. apply negb_true_iff in Hc. now apply IH2.
    + now rewrite IH1.
  - intros p Hp. simpl in Hp. simpl. now rewrite Hp, IH1.
Qed.

Lemma no_double_space_app_l (a b : string) :
  no_double_space (a ++ b) = true -> no_double_space a = true.
Proof.
  induction a as [| c a IH]; [reflexivity |]. simpl.
  intros H. apply andb_true_iff in H as [Hc Ha].
  rewrite (IH Ha), andb_true_r.
  destruct a as [| d a']; [now rewrite andb_false_r | exact Hc].
Qed.

Lemma no_double_space_lstrip (f : ascii -> bool) (s : string) :
  no_double_space s = true -> no_double_space (lstrip_by f s) = true.
Proof.
  induction s as [| c s IH]; [reflexivity |]. intros H. simpl.
  destruct (f c); [| exact H].
  simpl in H. apply andb_true_iff in H as [_ Hs]. auto.
Qed.

Lemma rstrip_by_prefix (f : ascii -> bool) (s : string) :
  exists b, s = rstrip_by f s ++ b.
Proof.
  induction s as [| c s [b IH]]; [now exists EmptyString |].
  rewrite rstrip_by_cons. destruct (rstrip_by f s) as [| d r'].
  - destruct (f c); [now exists (String c s) |].
    exists s. reflexivity.
  - exists b. simpl. now rewrite IH at 1.
Qed.

Lemma substring_prefix (n : nat) (s : string) :
  exists b, s = substring 0 n s ++ b.
Proof.
  revert n. induction s as [| c s IH]; intros n.
  - exists EmptyString. now destruct n.
  - destruct n as [| n]; [now exists (String c s) |].
    destruct (IH n) as [b Hb]. exists b. simpl. now rewrite Hb at 1.
Qed.

Lemma length_substring_le (n : nat) (s : string) :
  String.length (substring 0 n s) <= n.
Proof.
  revert n. induction s as [| c s IH]; intros [| n]; simpl; try lia.
  specialize (IH n). lia.
Qed.

Lemma substring_all (n : nat) (s : string) :
  String.length s <= n -> substring 0 n s = s.
Proof.
  revert n. induction s as [| c s IH]; intros [| n] H; simpl in *;
    try reflexivity; try lia.
  rewrite IH; [reflexivity | lia].
Qed.

Lemma single_line_facts (text : string) :
  String.length (ScriptsIndex.single_line text) <= 300 /\
  one_line (ScriptsIndex.single_line text) = true /\
  strip (ScriptsIndex.single_line text) = ScriptsIndex.single_line text /\
  no_double_space (ScriptsIndex.single_line text) = true.
Proof.
  unfold ScriptsIndex.single_line.
  pose proof (stripped_lines_spec text) as Hlines.
  destruct (ScriptsIndex.stripped_lines text) as [| l ls] eqn:Hsl;
    [repeat split; simpl; lia |].
  set (J := join " " (l :: ls)). split; [| split; [| split]].
  - pose proof (length_strip_by is_space
                  (substring 0 300 (ScriptsIndex.squeeze ScriptsIndex.NoRun J))).
    pose proof (length_substring_le 300
                  (ScriptsIndex.squeeze ScriptsIndex.NoRun J)).
    unfold strip. lia.
  - unfold one_line, strip. apply forallb_strip_by, forallb_substring.
    apply squeeze_forallb; [reflexivity | exact I |].
    apply forallb_join; [reflexivity |].
    eapply Forall_impl; [| exact Hlines]. intros x Hx. apply Hx.
  - apply strip_idem.
  - unfold strip, strip_by.
    destruct (rstrip_by_prefix is_space
                (lstrip_by is_space
                   (substring 0 300 (ScriptsIndex.squeeze ScriptsIndex.NoRun J))))
      as [b Hb].
    apply (no_double_space_app_l _ b). rewrite <- Hb.
    apply no_double_space_lstrip.
    destruct (substring_prefix 300 (ScriptsIndex.squeeze ScriptsIndex.NoRun J))
      as [b' Hb'].
    apply (no_double_space_app_l _ b'). rewrite <- Hb'.
    apply squeeze_no_double_space.
Qed.

(** X14: [single_line] yields a normal form: at most 300 characters on one
    line, with no whitespace at either end and no two whitespace characters
    side by side; a text of that form is left alone, so the summary of a
    summary is the summary. *)
Theorem single_line_normal_form (text : string) :
  String.length (ScriptsIndex.single_line text) <= 300 /\
  one_line (ScriptsIndex.single_line text) = true /\
  strip (ScriptsIndex.single_line text) = ScriptsIndex.single_line text /\
  no_double_space (ScriptsIndex.single_line text) = true /\
  ScriptsIndex.single_line (ScriptsIndex.single_line text)
  = ScriptsIndex.single_line text.
Proof.
  destruct (single_line_facts text) as [Hlen [Hone [Hstrip Hnds]]].
  repeat (split; [assumption |]).
  set (R := ScriptsIndex.single_line text) in *.
  destruct (String.eqb_spec R EmptyString) as [-> | Hne]; [reflexivity |].
  unfold ScriptsIndex.single_line at 1.
  rewrite (stripped_lines_one_line R Hone Hne Hstrip).
  simpl join. rewrite (proj1 (squeeze_id R Hnds)).
  rewrite (substring_all 300 R Hlen). exact Hstrip.
Qed.

(** ** The description the index derives *)

Lemma Forall_firstn {A : Type} (P : A -> Prop) (n : nat) (l : list A) :
  Forall P l -> Forall P (firstn n l).
Proof.
  intros H. revert n. induction H as [| x l Hx Hl IH]; intros [| n]; simpl;
    constructor; auto.
Qed.

Lemma comment_text_one_line (s : string) :
  one_line s = true -> one_line (ScriptsIndex.comment_text s) = true.
Proof.
  unfold one_line. destruct s as [| h r]; [reflexivity |]. simpl.
  intros H. destruct (is_char 35 h); [| exact H].
  apply andb_true_iff in H as [_ Hr].
  destruct r as [| c r']; [reflexivity |].
  destruct (is_space c); [| exact Hr].
  simpl in Hr. now apply andb_true_iff in Hr as [_ Hr'].
Qed.

Lemma header_comments_cons (l : string) (ls : list string) :
  ScriptsIndex.header_comments (l :: ls)
  = if starts_with "#" (strip l)
    then ScriptsIndex.comment_text (strip l) :: ScriptsIndex.header_comments ls
    else if String.eqb (strip l) EmptyString then ScriptsIndex.header_comments ls
         else [].
Proof. reflexivity. Qed.

Lemma header_comments_one_line (lines : list string) :
  Forall (fun l => one_line l = true) lines ->
  Forall (fun l => one_line l = true) (ScriptsIndex.header_comments lines).
Proof.
  induction 1 as [| l ls Hl Hls IH]; [constructor |].
  rewrite header_comments_cons.
  destruct (starts_with "#" (strip l)).
  - constructor; [| exact IH].
    apply comment_text_one_line. now apply forallb_strip_by.
  - destruct (String.eqb (strip l) EmptyString); [exact IH | constructor].
Qed.

(** X15: The description is never empty: it is made of one to eight lines, none
    of them empty. *)
Theorem extract_docstring_or_header_lines (content : string) :
  exists ls,
    ScriptsIndex.extract_docstring_or_header content = join nl ls /\
    1 <= List.length ls <= 8 /\
    Forall (fun l => l <> EmptyString /\ one_line l = true) ls /\
    ScriptsIndex.extract_docstring_or_header content <> EmptyString.
Proof.
  unfold ScriptsIndex.extract_docstring_or_header.
  set (lines := match ScriptsIndex.docstring_search true content with
                | Some body => ScriptsIndex.stripped_lines (strip body)
                | None => ScriptsIndex.header_comments
                            (ScriptsIndex.splitlines content)
                end).
  assert (Hlines : Forall (fun l => one_line l = true) lines).
  { subst lines. destruct (ScriptsIndex.docstring_search true content).
    - eapply Forall_impl; [| apply stripped_lines_spec]. intros l Hl. apply Hl.
    - apply header_comments_one_line, splitlines_one_line. }
  assert (Hclean : Forall (fun l => l <> EmptyString /\ one_line l = true)
                     (List.filter (fun l => negb (String.eqb l EmptyString)) lines)).
  { apply Forall_forall. intros l Hl. apply filter_In in Hl as [Hin Hne].
    apply negb_true_iff, String.eqb_neq in Hne. split; [exact Hne |].
    exact (proj1 (Forall_forall _ _) Hlines l Hin). }
  destruct (List.filter _ lines) as [| l ls] eqn:Hf.
  - exists ["No description available."]. simpl.
    repeat split; try lia; try discriminate.
    repeat constructor. discriminate.
  - exists (firstn ScriptsIndex.MAX_DESCRIPTION_LINES (l :: ls)).
    split; [reflexivity |]. split; [| split].
    + rewrite length_firstn. unfold ScriptsIndex.MAX_DESCRIPTION_LINES.
      simpl List.length. lia.
    + now apply Forall_firstn.
    + inversion Hclean as [| ? ? [Hne _] _]; subst.
      unfold ScriptsIndex.MAX_DESCRIPTION_LINES.
      change (firstn 8 (l :: ls)) with (l :: firstn 7 ls).
      destruct l as [| c l']; [congruence |].
      destruct (firstn 7 ls); simpl; discriminate.
Qed.

(** ** The description of a generated artifact *)

Lemma find_sub_tq (B Y : string) :
  no_dquote B = true ->
  ScriptsIndex.find_sub tq (B ++ tq ++ Y) = Some (B, Y).
Proof.
  unfold no_dquote. induction B as [| c B IH]; intros H; [reflexivity |].
  simpl in H. apply andb_true_iff in H as [Hc HB].
  change ((String c B) ++ tq ++ Y) with (String c (B ++ tq ++ Y)).
  unfold ScriptsIndex.find_sub; fold ScriptsIndex.find_sub.
  rewrite (IH HB).
  replace (starts_with tq (String c (B ++ tq ++ Y))) with false; [reflexivity |].
  revert Hc. destruct c as [[] [] [] [] [] [] [] []]; intros Hc;
    first [reflexivity | discriminate Hc].
Qed.

Lemma docstring_search_cons (b : bool) (c : ascii) (r : string) :
  ScriptsIndex.docstring_search b (String c r)
  = match (if b then ScriptsIndex.docstring_at (String c r) else None) with
    | Some body => Some body
    | None => ScriptsIndex.docstring_search (is_char 10 c) r
    end.
Proof. reflexivity. Qed.

Lemma docstring_at_plain (c : ascii) (r : string) :
  is_blank c = false -> is_char 34 c = false -> is_char 39 c = false ->
  ScriptsIndex.docstring_at (String c r) = None.
Proof.
  intros Hb H34 H39. unfold ScriptsIndex.docstring_at.
  simpl lstrip_by. rewrite Hb. cbv zeta.
  replace (starts_with tq (String c r)) with false.
  - replace (starts_with ScriptsIndex.tsq (String c r)) with false; [reflexivity |].
    revert H39. destruct c as [[] [] [] [] [] [] [] []]; intros H39;
      first [reflexivity | discriminate H39].
  - revert H34. destruct c as [[] [] [] [] [] [] [] []]; intros H34;
      first [reflexivity | discriminate H34].
Qed.

Lemma docstring_search_rest_of_line (a X : string) :
  forallb (fun c => negb (is_char 10 c)) a = true ->
  ScriptsIndex.docstring_search false (a ++ nl ++ X)
  = ScriptsIndex.docstring_search true X.
Proof.
  induction a as [| c a IH]; intros H.
  - change (EmptyString ++ nl ++ X) with (String (ascii_of_nat 10) X).
    now rewrite docstring_search_cons.
  - simpl in H. apply andb_true_iff in H as [Hc Ha].
    apply negb_true_iff in Hc.
    change ((String c a) ++ nl ++ X) with (String c (a ++ nl ++ X)).
    rewrite docstring_search_cons, Hc. now apply IH.
Qed.

Lemma docstring_search_skip_line (l X : string) :
  plain_line l = true ->
  ScriptsIndex.docstring_search true (l ++ nl ++ X)
  = ScriptsIndex.docstring_search true X.
Proof.
  unfold plain_line. intros H. apply andb_true_iff in H as [Hlf Hhead].
  destruct l as [| c a].
  - change (EmptyString ++ nl ++ X) with (String (ascii_of_nat 10) X).
    rewrite docstring_search_cons, docstring_at_plain; reflexivity.
  - apply andb_true_iff in Hhead as [Hhead H39].
    apply andb_true_iff in Hhead as [Hb H34].
    apply negb_true_iff in Hb, H34, H39.
    simpl in Hlf. apply andb_true_iff in Hlf as [Hc Ha].
    apply negb_true_iff in Hc.
    change ((String c a) ++ nl ++ X) with (String c (a ++ nl ++ X)).
    rewrite docstring_search_cons, (docstring_at_plain c _ Hb H34 H39), Hc.
    now apply docstring_search_rest_of_line.
Qed.

Lemma docstring_search_skip_lines (ls : list string) (X : string) :
  Forall (fun l => plain_line l = true) ls ->
  ScriptsIndex.docstring_search true (unlines ls ++ X)
  = ScriptsIndex.docstring_search true X.
Proof.
  induction 1 as [| l ls Hl Hls IH]; [reflexivity |].
  rewrite unlines_cons, !append_assoc.
  now rewrite docstring_search_skip_line.
Qed.

(** A docstring that opens a line after blanks: the search returns its text
    up to the closing quotes. *)
Lemma docstring_search_here (blanks B Y : string) :
  forallb is_blank blanks = true ->
  no_dquote B = true ->
  ScriptsIndex.docstring_search true (blanks ++ tq ++ B ++ tq ++ Y) = Some B.
Proof.
  intros Hbl HB.
  assert (Hat : ScriptsIndex.docstring_at (blanks ++ tq ++ B ++ tq ++ Y) = Some B).
  { unfold ScriptsIndex.docstring_at.
    replace (lstrip_by is_blank (blanks ++ tq ++ B ++ tq ++ Y))
      with (tq ++ B ++ tq ++ Y).
    - cbv zeta. change (starts_with tq (tq ++ B ++ tq ++ Y)) with true.
      cbv iota. change (drop 3 (tq ++ B ++ tq ++ Y)) with (B ++ tq ++ Y).
      now rewrite find_sub_tq.
    - clear HB. induction blanks as [| c bl IH]; [reflexivity |].
      simpl in Hbl. apply andb_true_iff in Hbl as [Hc Hbl].
      simpl. rewrite Hc. now apply IH. }
  destruct (blanks ++ tq ++ B ++ tq ++ Y) as [| c r] eqn:E.
  - destruct blanks; discriminate.
  - now rewrite docstring_search_cons, Hat.
Qed.

Lemma lstrip_by_app_stop (f : ascii -> bool) (a t : string) :
  existsb (fun c => negb (f c)) a = true ->
  lstrip_by f (a ++ t) = lstrip_by f a ++ t.
Proof.
  induction a as [| c a IH]; [discriminate |]. simpl.
  destruct (f c); simpl; [exact IH | reflexivity].
Qed.

Lemma rstrip_by_app_stop (f : ascii -> bool) (a t : string) :
  rstrip_by f t <> EmptyString ->
  rstrip_by f (a ++ t) = a ++ rstrip_by f t.
Proof.
  intros Ht. induction a as [| c a IH]; [reflexivity |].
  change ((String c a) ++ t) with (String c (a ++ t)).
  rewrite rstrip_by_cons, IH.
  change ((String c a) ++ rstrip_by f t) with (String c (a ++ rstrip_by f t)).
  destruct (a ++ rstrip_by f t) eqn:E; [| reflexivity].
  destruct a; [simpl in E; contradiction | discriminate].
Qed.

Lemma rstrip_by_app_empty (f : ascii -> bool) (a t : string) :
  rstrip_by f t = EmptyString ->
  rstrip_by f (a ++ t) = rstrip_by f a.
Proof.
  intros Ht. induction a as [| c a IH]; [exact Ht |].
  change ((String c a) ++ t) with (String c (a ++ t)).
  now rewrite !rstrip_by_cons, IH.
Qed.

Lemma splitlines_keepends_cons (c : ascii) (r : string) :
  is_line_break c = false ->
  splitlines_keepends (String c r)
  = match splitlines_keepends r with
    | h :: t => String c h :: t
    | [] => [String c EmptyString]
    end.
Proof. intros H. simpl. now rewrite H. Qed.

Lemma splitlines_keepends_first_line (a b : string) :
  one_line a = true ->
  splitlines_keepends (a ++ nl ++ b) = (a ++ nl) :: splitlines_keepends b.
Proof.
  unfold one_line. induction a as [| c a IH]; intros H.
  - change (EmptyString ++ nl ++ b) with (String (ascii_of_nat 10) b).
    destruct b; reflexivity.
  - simpl in H. apply andb_true_iff in H as [Hc Ha].
    unfold no_break in Hc. apply negb_true_iff in Hc.
    change ((String c a) ++ nl ++ b) with (String c (a ++ nl ++ b)).
    now rewrite (splitlines_keepends_cons c _ Hc), (IH Ha).
Qed.

(** The first line of a text, stripped, leads its stripped lines. *)
Lemma stripped_lines_first_line (a b : string) :
  one_line a = true -> strip a <> EmptyString ->
  ScriptsIndex.stripped_lines (a ++ nl ++ b)
  = strip a :: ScriptsIndex.stripped_lines b.
Proof.
  intros Hone Hne.
  unfold ScriptsIndex.stripped_lines, ScriptsIndex.splitlines.
  rewrite (splitlines_keepends_first_line a b Hone). simpl map.
  rewrite (rstrip_by_app_empty is_line_break a nl eq_refl).
  rewrite (rstrip_by_none is_line_break a Hone). simpl List.filter.
  destruct (String.eqb_spec (strip a) EmptyString); [contradiction | reflexivity].
Qed.

Lemma existsb_app (P : ascii -> bool) (a b : string) :
  existsb P (a ++ b) = existsb P a || existsb P b.
Proof.
  induction a as [| c a IH]; simpl; [reflexivity |].
  now rewrite IH, orb_assoc.
Qed.

Lemma lstrip_by_app_char (f : ascii -> bool) (a : string) (c : ascii) (t : string) :
  f c = false ->
  lstrip_by f (a ++ String c t) = lstrip_by f a ++ String c t.
Proof.
  intros Hc. induction a as [| x a IH]; simpl; [now rewrite Hc |].
  destruct (f x); [exact IH | reflexivity].
Qed.

Lemma existsb_lstrip_by (f : ascii -> bool) (s : string) :
  existsb (fun c => negb (f c)) s = true ->
  existsb (fun c => negb (f c)) (lstrip_by f s) = true.
Proof.
  induction s as [| c s IH]; simpl; [discriminate |].
  destruct (f c) eqn:Hc; simpl; [exact IH | now rewrite Hc].
Qed.

Lemma rstrip_by_nonempty (f : ascii -> bool) (s : string) :
  existsb (fun c => negb (f c)) s = true -> rstrip_by f s <> EmptyString.
Proof.
  induction s as [| c s IH]; [discriminate |].
  simpl existsb. rewrite rstrip_by_cons. intros H.
  destruct (rstrip_by f s) eqn:E; [| discriminate].
  destruct (f c); [| discriminate].
  simpl in H. now apply IH in H.
Qed.

Lemma strip_nonempty (s : string) :
  existsb (fun c => negb (is_space c)) s = true -> strip s <> EmptyString.
Proof.
  intros H. unfold strip, strip_by.
  now apply rstrip_by_nonempty, existsb_lstrip_by.
Qed.

Lemma strip_lstrip (s : string) : strip (lstrip_by is_space s) = strip s.
Proof. unfold strip, strip_by. now rewrite lstrip_by_idem. Qed.

(** What [strip] and the line split make of a docstring body whose first
    line holds a character that is no whitespace. *)
Lemma stripped_lines_of_body (a tail : string) :
  one_line a = true ->
  existsb (fun c => negb (is_space c)) a = true ->
  rstrip_by is_space (nl ++ tail) <> EmptyString ->
  ScriptsIndex.stripped_lines (strip (a ++ nl ++ tail))
  = strip a :: ScriptsIndex.stripped_lines (drop 1 (rstrip_by is_space (nl ++ tail))).
Proof.
  intros Hone Hex Htail.
  assert (Hstrip : strip (a ++ nl ++ tail)
                   = lstrip_by is_space a ++ nl
                       ++ drop 1 (rstrip_by is_space (nl ++ tail))).
  { unfold strip, strip_by.
    rewrite (lstrip_by_app_stop is_space a (nl ++ tail) Hex).
    rewrite (rstrip_by_app_stop is_space _ _ Htail). f_equal.
    change (nl ++ tail) with (String (ascii_of_nat 10) tail) in *.
    rewrite rstrip_by_cons in *.
    destruct (rstrip_by is_space tail); [contradiction | reflexivity]. }
  rewrite Hstrip.
  rewrite stripped_lines_first_line.
  - now rewrite strip_lstrip.
  - now apply forallb_lstrip_by.
  - rewrite strip_lstrip. now apply strip_nonempty.
Qed.

Lemma repr_char_one_line (q c : ascii) :
  is_line_break q = false -> one_line (repr_char q c) = true.
Proof.
  intros Hq. unfold repr_char, one_line.
  destruct (Ascii.eqb c q || is_char 92 c) eqn:E1.
  - simpl. rewrite andb_true_r. unfold no_break.
    destruct (is_line_break c) eqn:Ec; [| reflexivity].
    exfalso. apply orb_true_iff in E1 as [E1 | E1].
    + apply Ascii.eqb_eq in E1. subst q. congruence.
    + revert E1 Ec. destruct c as [[] [] [] [] [] [] [] []]; discriminate.
  - clear E1. destruct c as [[] [] [] [] [] [] [] []]; reflexivity.
Qed.

(** [repr] of a text is one line. *)
Lemma repr_one_line (s : string) : one_line (repr s) = true.
Proof.
  assert (Hbody : forall q, is_line_break q = false ->
                    one_line (repr_body q s) = true).
  { intros q Hq. unfold one_line.
    induction s as [| c s IH]; simpl; [reflexivity |].
    rewrite forallb_app, IH, andb_true_r. now apply repr_char_one_line. }
  unfold repr, one_line.
  destruct (existsb (is_char 39) s && negb (existsb (is_char 34) s)); simpl;
    rewrite forallb_app; unfold one_line in Hbody; now rewrite Hbody.
Qed.

Lemma one_line_no_line_feed (s : string) :
  one_line s = true -> forallb (fun x => negb (is_char 10 x)) s = true.
Proof.
  apply forallb_impl. intros c.
  destruct c as [[] [] [] [] [] [] [] []]; intros H;
    first [reflexivity | discriminate H].
Qed.

Lemma repr_no_line_feed (s : string) :
  forallb (fun x => negb (is_char 10 x)) (repr s) = true.
Proof. apply one_line_no_line_feed, repr_one_line. Qed.

(** Where the module docstring of a script artifact stands. *)
Lemma script_content_docstring (name binary api_base_url endpoint : string)
    (params : list ParamSpec) (description : option string)
    (include_simulate : bool) (text : string) :
  generate_script_content name binary api_base_url endpoint params description
    include_simulate = Ok text ->
  exists Y,
    text = unlines SCRIPT_HEADER
             ++ (EmptyString ++ tq
                   ++ (description_line description (name ++ " script") ++ "."
                         ++ nl ++ SCRIPT_DOCSTRING_TAIL)
                   ++ tq ++ Y).
Proof.
  intros H. unfold generate_script_content in H.
  destruct (mapM script_option params) as [blocks |];
    cbv beta iota zeta delta [bind] in H; [| discriminate].
  apply Ok_inj in H. subst text.
  match goal with |- exists _, unlines ?ls = _ =>
    change ls with (SCRIPT_HEADER ++ skipn 8 ls)%list end.
  rewrite unlines_app. cbv beta iota delta [skipn].
  do 9 rewrite unlines_cons.
  match goal with |- context [unlines (?x :: ?r)] =>
    generalize (unlines (x :: r)) end.
  intros Y. exists (nl ++ Y). f_equal.
  generalize (description_line description (name ++ " script")). intros d.
  rewrite !append_assoc. reflexivity.
Qed.

(** A text that opens like a script artifact, whatever follows the module
    docstring. *)
Lemma script_docstring_description (d Y : string) :
  no_dquote d = true ->
  one_line d = true ->
  ScriptsIndex.extract_docstring_or_header
    (unlines SCRIPT_HEADER
       ++ (EmptyString ++ tq ++ (d ++ "." ++ nl ++ SCRIPT_DOCSTRING_TAIL)
             ++ tq ++ Y))
  = join nl (strip (d ++ ".") :: SCRIPT_CONVENTIONS).
Proof.
  intros Hdq Hone.
  unfold ScriptsIndex.extract_docstring_or_header.
  rewrite docstring_search_skip_lines by (repeat constructor).
  rewrite docstring_search_here;
    [| reflexivity
     | unfold no_dquote in *; rewrite forallb_app, Hdq; reflexivity].
  rewrite <- (append_assoc d "." (nl ++ SCRIPT_DOCSTRING_TAIL)).
  assert (Hex : existsb (fun c => negb (is_space c)) (d ++ ".") = true)
    by (rewrite existsb_app; apply orb_true_r).
  rewrite stripped_lines_of_body;
    [| unfold one_line in *; rewrite forallb_app, Hone; reflexivity
     | exact Hex
     | vm_compute; discriminate].
  replace (ScriptsIndex.stripped_lines
             (drop 1 (rstrip_by is_space (nl ++ SCRIPT_DOCSTRING_TAIL))))
    with SCRIPT_CONVENTIONS by (vm_compute; reflexivity).
  pose proof (strip_nonempty _ Hex) as Hne.
  cbn [List.filter].
  destruct (String.eqb_spec (strip (d ++ ".")) EmptyString); [contradiction |].
  cbn [negb].
  replace (List.filter (fun l => negb (String.eqb l EmptyString)) SCRIPT_CONVENTIONS)
    with SCRIPT_CONVENTIONS by (vm_compute; reflexivity).
  reflexivity.
Qed.

(** X20: The index describes a generated script by its module docstring: the
    description with its period, then the six fixed lines of the template. This
    holds for every request whose description line holds no double quote and no
    line boundary. *)
Theorem script_description_in_index (name binary api_base_url endpoint : string)
    (params : list ParamSpec) (description : option string)
    (include_simulate : bool) (text : string) :
  generate_script_content name binary api_base_url endpoint params description
    include_simulate = Ok text ->
  no_dquote (description_line description (name ++ " script")) = true ->
  one_line (description_line description (name ++ " script")) = true ->
  ScriptsIndex.extract_docstring_or_header text
  = join nl (strip (description_line description (name ++ " script") ++ ".")
               :: SCRIPT_CONVENTIONS).
Proof.
  intros H Hdq Hone.
  destruct (script_content_docstring _ _ _ _ _ _ _ _ H) as [Y ->].
  now apply script_docstring_description.
Qed.

Lemma plain_line_prefix (c : ascii) (a b : string) :
  plain_line (String c a) = true ->
  forallb (fun x => negb (is_char 10 x)) b = true ->
  plain_line (String c a ++ b) = true.
Proof.
  unfold plain_line. intros H Hb.
  apply andb_true_iff in H as [Hlf Hhead].
  apply andb_true_iff. split; [| exact Hhead].
  now rewrite forallb_app, Hlf, Hb.
Qed.

Lemma cli_preamble_plain (binary api_base_url : string) :
  Forall (fun l => plain_line l = true) (cli_preamble binary api_base_url).
Proof.
  unfold cli_preamble.
  repeat (constructor;
          [first [reflexivity
                 | apply plain_line_prefix;
                   [reflexivity | apply repr_no_line_feed]] |]).
  constructor.
Qed.

(** Where the docstring of the root group of a subcommand artifact stands. *)
Lemma cli_content_docstring (name binary api_base_url endpoint : string)
    (params : list ParamSpec) (description : option string) (text : string) :
  generate_cli_content name binary api_base_url endpoint params description
  = Ok text ->
  exists Y,
    text = unlines (cli_preamble binary api_base_url)
             ++ ("    " ++ tq
                   ++ (binary ++ " root CLI group." ++ nl
                         ++ "    " ++ CLI_GROUP_NOTE ++ nl ++ "    ")
                   ++ tq ++ Y).
Proof.
  intros H. unfold generate_cli_content in H.
  destruct (mapM cli_option params) as [blocks |];
    cbv beta iota zeta delta [bind] in H; [| discriminate].
  apply Ok_inj in H. subst text.
  match goal with |- exists _, unlines ?ls = _ =>
    change ls with (cli_preamble binary api_base_url ++ skipn 14 ls)%list end.
  rewrite unlines_app. cbv beta iota delta [skipn].
  do 3 rewrite unlines_cons.
  match goal with |- context [unlines (?x :: ?r)] =>
    generalize (unlines (x :: r)) end.
  intros Y. exists (nl ++ Y). f_equal.
  rewrite !append_assoc. reflexivity.
Qed.

(** X21: The index describes every generated subcommand by the docstring of the
    root group, which names the binary only: neither the capability name nor
    its description reaches the index. This holds for every request whose
    binary name holds no double quote and no line boundary. *)
Theorem cli_description_in_index (name binary api_base_url endpoint : string)
    (params : list ParamSpec) (description : option string) (text : string) :
  generate_cli_content name binary api_base_url endpoint params description
  = Ok text ->
  no_dquote binary = true ->
  one_line binary = true ->
  ScriptsIndex.extract_docstring_or_header text
  = join nl [strip (binary ++ " root CLI group."); CLI_GROUP_NOTE].
Proof.
  intros H Hdq Hone.
  destruct (cli_content_docstring _ _ _ _ _ _ _ H) as [Y ->].
  unfold ScriptsIndex.extract_docstring_or_header.
  rewrite docstring_search_skip_lines by apply cli_preamble_plain.
  rewrite docstring_search_here;
    [| reflexivity
     | unfold no_dquote in *; rewrite forallb_app, Hdq; reflexivity].
  rewrite <- (append_assoc binary " root CLI group."
                (nl ++ "    " ++ CLI_GROUP_NOTE ++ nl ++ "    ")).
  assert (Hex : existsb (fun c => negb (is_space c))
                  (binary ++ " root CLI group.") = true)
    by (rewrite existsb_app; apply orb_true_r).
  rewrite stripped_lines_of_body;
    [| unfold one_line in *; rewrite forallb_app, Hone; reflexivity
     | exact Hex
     | vm_compute; discriminate].
  replace (ScriptsIndex.stripped_lines
             (drop 1 (rstrip_by is_space
                        (nl ++ "    " ++ CLI_GROUP_NOTE ++ nl ++ "    "))))
    with [CLI_GROUP_NOTE] by (vm_compute; reflexivity).
  pose proof (strip_nonempty _ Hex) as Hne.
  cbn [List.filter].
  destruct (String.eqb_spec (strip (binary ++ " root CLI group.")) EmptyString);
    [contradiction |].
  reflexivity.
Qed.

(** The scenario request with a description: what the index says of its
    script. *)
Lemma script_description_in_index_witness :
  map_result ScriptsIndex.extract_docstring_or_header
    (generate_script_content "orders" "yourcmd" "https://example.com/api"
       "/example"
       [mkParamSpec "status" "str" false (Some "open");
        mkParamSpec "limit" "int" false (Some "25")] (Some "List open orders") true)
  = Ok (join nl (strip (description_line (Some "List open orders")
                          ("orders" ++ " script") ++ ".")
                   :: SCRIPT_CONVENTIONS)).
Proof.
  destruct (generate_script_content "orders" "yourcmd" "https://example.com/api"
              "/example"
              [mkParamSpec "status" "str" false (Some "open");
               mkParamSpec "limit" "int" false (Some "25")]
              (Some "List open orders") true)
    as [text | e] eqn:Hrender; [| vm_compute in Hrender; discriminate].
  simpl map_result. f_equal.
  apply (script_description_in_index "orders" "yourcmd" "https://example.com/api"
           "/example"
           [mkParamSpec "status" "str" false (Some "open");
            mkParamSpec "limit" "int" false (Some "25")]
           (Some "List open orders") true text);
    first [exact Hrender | reflexivity].
Defined.

(** The same request: what the index says of its subcommand. *)
Lemma cli_description_in_index_witness :
  map_result ScriptsIndex.extract_docstring_or_header
    (generate_cli_content "orders" "yourcmd" "https://example.com/api" "/example"
       [mkParamSpec "status" "str" false (Some "open");
        mkParamSpec "limit" "int" false (Some "25")] (Some "List open orders"))
  = Ok (join nl [strip ("yourcmd" ++ " root CLI group."); CLI_GROUP_NOTE]).
Proof.
  destruct (generate_cli_content "orders" "yourcmd" "https://example.com/api"
              "/example"
              [mkParamSpec "status" "str" false (Some "open");
               mkParamSpec "limit" "int" false (Some "25")]
              (Some "List open orders"))
    as [text | e] eqn:Hrender; [| vm_compute in Hrender; discriminate].
  simpl map_result. f_equal.
  apply (cli_description_in_index "orders" "yourcmd" "https://example.com/api"
           "/example"
           [mkParamSpec "status" "str" false (Some "open");
            mkParamSpec "limit" "int" false (Some "25")]
           (Some "List open orders") text);
    first [exact Hrender | reflexivity].
Defined.

(** ** Descriptors *)

Lemma parse_param_token_well_formed (t : string) (s : ParamSpec) :
  parse_param_token t = Ok s -> well_formed s.
Proof.
  intros H. apply parse_param_token_inv in H. cbv zeta in H.
  destruct H as [_ [_ [Hname [Hvalid [Htype [Hmem [Hdef Hreq]]]]]]].
  unfold well_formed. rewrite Hname at 2 3 4.
  split; [exact Hvalid |].
  split; [apply snake_chars |].
  split; [apply snake_idem |].
  split; [exact Hmem |].
  split.
  - apply mem_In in Hmem. unfold SUPPORTED_TYPES in Hmem. simpl in Hmem.
    destruct Hmem as [<- | [<- | [<- | [<- | []]]]]; reflexivity.
  - split; [exact Hreq |]. rewrite Hdef.
    destruct (List.length (split_on ":" t) =? 3); [apply strip_idem | exact I].
Qed.

(** X3: Every descriptor [parse_params] returns is well formed, so the fallback
    of [click_type] to [str] is never taken on a parsed parameter. *)
Theorem parse_params_well_formed (tokens : list string) (specs : list ParamSpec) :
  parse_params tokens = Ok specs -> Forall well_formed specs.
Proof.
  intros H. apply parse_params_iff in H as [Hall _].
  induction Hall as [| t s ts ss Hts _ IH]; constructor; [| exact IH].
  exact (parse_param_token_well_formed t s Hts).
Qed.

(** Two tokens, the first with blanks and capitals. *)
Lemma parse_params_well_formed_witness :
  Forall well_formed
    [mkParamSpec "page_size" "int" false (Some "10");
     mkParamSpec "query" "str" true None].
Proof.
  apply (parse_params_well_formed [" Page Size : int : 10 "; "query:str"]).
  reflexivity.
Defined.

(** ** Rendering *)

Lemma cli_option_default_ok (p : ParamSpec) :
  default_error p = None -> exists b, cli_option p = Ok b.
Proof.
  unfold default_error, cli_option.
  destruct (required p).
  - intros _. destruct (String.eqb (type p) "bool"); simpl; eauto.
  - destruct (default p) as [d |].
    + destruct (String.eqb (type p) "bool") eqn:E;
        [apply String.eqb_eq in E; rewrite E |];
        destruct (python_cast_value _ _); intros H; try discriminate;
        simpl; eauto.
    + intros _. destruct (String.eqb (type p) "bool"); simpl; eauto.
Qed.

Lemma script_option_default_ok (p : ParamSpec) :
  default_error p = None -> exists b, script_option p = Ok b.
Proof.
  unfold default_error, script_option.
  destruct (required p).
  - intros _. destruct (String.eqb (type p) "bool"); simpl; eauto.
  - destruct (default p) as [d |].
    + destruct (String.eqb (type p) "bool") eqn:E;
        [apply String.eqb_eq in E; rewrite E |];
        destruct (python_cast_value _ _); intros H; try discriminate;
        simpl; eauto.
    + intros _. destruct (String.eqb (type p) "bool"); simpl; eauto.
Qed.

Lemma mapM_first_default_error {B : Type} (f : ParamSpec -> result B)
    (params : list ParamSpec) :
  (forall p e, default_error p = Some e -> f p = Raise e) ->
  (forall p, default_error p = None -> exists b, f p = Ok b) ->
  match first_default_error params with
  | Some e => mapM f params = Raise e
  | None => exists bs, mapM f params = Ok bs
  end.
Proof.
  intros Herr Hok. induction params as [| p rest IH]; simpl; [eauto |].
  destruct (default_error p) as [e |] eqn:Hp.
  - now rewrite (Herr p e Hp).
  - destruct (Hok p Hp) as [b ->]. simpl.
    destruct (first_default_error rest) as [e |].
    + now rewrite IH.
    + destruct IH as [bs ->]. simpl. eauto.
Qed.

(** X4: Rendering is total up to the defaults: both surfaces render exactly
    when no parameter has a default that cannot be coerced, and otherwise both
    raise the error of the first such parameter; a required parameter and a
    string parameter never make rendering fail. *)
Theorem rendering_fails_on_first_invalid_default
    (name binary api_base_url endpoint : string) (params : list ParamSpec)
    (description : option string) (include_simulate : bool) :
  match first_default_error params with
  | Some e =>
      generate_cli_content name binary api_base_url endpoint params description
      = Raise e /\
      generate_script_content name binary api_base_url endpoint params
        description include_simulate = Raise e
  | None =>
      (exists text,
          generate_cli_content name binary api_base_url endpoint params
            description = Ok text) /\
      (exists text,
          generate_script_content name binary api_base_url endpoint params
            description include_simulate = Ok text)
  end /\
  Forall (fun p => required p = true \/ type p = "str" ->
                   default_error p = None) params.
Proof.
  split.
  - pose proof (mapM_first_default_error cli_option params
                  cli_option_default_error cli_option_default_ok) as Hc.
    pose proof (mapM_first_default_error script_option params
                  script_option_default_error script_option_default_ok) as Hs.
    unfold generate_cli_content, generate_script_content.
    destruct (first_default_error params) as [e |].
    + rewrite Hc, Hs. split; reflexivity.
    + destruct Hc as [bc ->]. destruct Hs as [bs ->].
      cbv beta iota zeta delta [bind]. split; eexists; reflexivity.
  - apply Forall_forall. intros p _ [Hreq | Htype]; unfold default_error.
    + now rewrite Hreq.
    + rewrite Htype. destruct (required p); [reflexivity |].
      destruct (default p); reflexivity.
Qed.

(** ** Integer defaults *)

Lemma lstrip_by_head (f : ascii -> bool) (s : string) :
  match lstrip_by f s with
  | String c _ => f c = false
  | EmptyString => True
  end.
Proof.
  induction s as [| c s IH]; simpl; [exact I |].
  destruct (f c) eqn:Hc; [exact IH | exact Hc].
Qed.

Lemma digits_tail_digits (s : string) :
  forallb is_digit s = true -> PyNum.digits_tail s = true.
Proof.
  induction s as [| c s IH]; simpl; [reflexivity |].
  intros H. apply andb_true_iff in H as [Hc Hs]. now rewrite Hc, IH.
Qed.

Lemma digits_not_space (s : string) :
  forallb is_digit s = true ->
  forallb (fun c => negb (PyNum.is_number_space c)) s = true.
Proof.
  apply forallb_impl. intros c.
  destruct c as [[] [] [] [] [] [] [] []]; intros H;
    first [reflexivity | discriminate H].
Qed.

Lemma positive_literal_digits (s : string) :
  positive_literal s = true -> forallb is_digit s = true.
Proof.
  destruct s as [| d r]; [discriminate |]. simpl.
  intros H. apply andb_true_iff in H as [Hd Hr]. rewrite Hr, andb_true_r.
  revert Hd. destruct d as [[] [] [] [] [] [] [] []]; intros Hd;
    first [reflexivity | discriminate Hd].
Qed.

Lemma int_str_positive_literal (neg : bool) (s : string) :
  positive_literal s = true ->
  PyNum.int_str (if neg then String "-" s else s)
  = Some (if neg then String "-" s else s).
Proof.
  intros Hpos. pose proof (positive_literal_digits s Hpos) as Hdig.
  pose proof (digits_not_space s Hdig) as Hns.
  assert (Hstrip : PyNum.strip_number (if neg then String "-" s else s)
                   = if neg then String "-" s else s).
  { unfold PyNum.strip_number, strip_by.
    rewrite lstrip_by_none, rstrip_by_none; try reflexivity;
      destruct neg; simpl; rewrite ?Hns; reflexivity. }
  unfold PyNum.int_str. rewrite Hstrip.
  destruct s as [| d r]; [discriminate |].
  simpl in Hpos. apply andb_true_iff in Hpos as [Hd Hr].
  assert (Hsign : PyNum.split_sign
                    (if neg then String "-" (String d r) else String d r)
                  = (neg, String d r)).
  { destruct neg; [reflexivity |]. unfold PyNum.split_sign.
    revert Hd. destruct d as [[] [] [] [] [] [] [] []]; intros Hd;
      first [reflexivity | discriminate Hd]. }
  rewrite Hsign.
  assert (Hdd : is_digit d = true).
  { simpl in Hdig. now apply andb_true_iff in Hdig as [Hdd _]. }
  assert (H0 : is_char 48 d = false).
  { revert Hd. destruct d as [[] [] [] [] [] [] [] []]; intros Hd;
      first [reflexivity | discriminate Hd]. }
  unfold PyNum.digits_ok. rewrite Hdd, (digits_tail_digits r Hr).
  cbv beta iota. simpl andb. cbv iota.
  rewrite (filter_id is_digit (String d r) Hdig).
  simpl lstrip_by. rewrite H0. reflexivity.
Qed.

(** X5: The text written for an integer default is the canonical decimal
    literal of the value: no plus sign, no underscore, no whitespace and no
    leading zero are left, and coercing it again gives the same text. *)
Theorem python_cast_value_int_canonical (val s : string) :
  python_cast_value "int" val = Ok s ->
  int_literal s = true /\ python_cast_value "int" s = Ok s.
Proof.
  unfold python_cast_value.
  change (String.eqb "int" "str") with false.
  change (String.eqb "int" "int") with true. cbv iota.
  destruct (PyNum.int_str val) as [s' |] eqn:Hint; [| discriminate].
  intros H. apply Ok_inj in H. subst s'.
  unfold PyNum.int_str in Hint.
  destruct (PyNum.split_sign (PyNum.strip_number val)) as [neg body].
  destruct (PyNum.digits_ok body); [| discriminate].
  pose proof (lstrip_by_head (is_char 48) (filter is_digit body)) as Hhead.
  assert (Hdig : forallb is_digit (lstrip_by (is_char 48) (filter is_digit body)) = true)
    by apply forallb_lstrip_by, forallb_filter_self.
  destruct (lstrip_by (is_char 48) (filter is_digit body)) as [| d r] eqn:Hd.
  - injection Hint as <-. split; reflexivity.
  - assert (Hpos : positive_literal (String d r) = true).
    { simpl in Hdig. apply andb_true_iff in Hdig as [Hdd Hr].
      simpl. rewrite Hr, andb_true_r.
      revert Hdd Hhead. destruct d as [[] [] [] [] [] [] [] []]; intros Hdd Hhead;
        first [reflexivity | discriminate Hdd | discriminate Hhead]. }
    injection Hint as <-.
    rewrite (int_str_positive_literal neg (String d r) Hpos).
    split; [| reflexivity].
    unfold int_literal. destruct neg.
    + cbv beta iota. change (is_char 45 "-") with true.
      rewrite Hpos. apply orb_true_r.
    + rewrite Hpos. now rewrite orb_true_r.
Qed.

(** A default with blanks, leading zeros and an underscore. *)
Lemma python_cast_value_int_canonical_witness :
  int_literal "-1000" = true /\ python_cast_value "int" "-1000" = Ok "-1000".
Proof.
  apply (python_cast_value_int_canonical " -001_000 " "-1000"). reflexivity.
Defined.

(** ** A file in place of the parent directory *)

Lemma lookup_below_file (p : Path) :
  forall es c x, lookup es p = Some (File c) -> lookup es (p ++ [x])%list = None.
Proof.
  induction p as [| k rest IH]; intros es c x H; [discriminate |].
  simpl in H. change ((k :: rest) ++ [x])%list with (k :: (rest ++ [x]))%list.
  rewrite lookup_cons.
  destruct (find_entry k es) as [[s | sub] |]; try discriminate.
  - destruct rest; [reflexivity | discriminate].
  - now apply (IH sub c x).
Qed.

Lemma write_file_below_file (path : Path) (content c : string)
    (force dry_run : bool) (w : World) :
  lookup (fs w) (parent path) = Some (File c) ->
  write_file path content force dry_run w
  = (Raise (FileExistsError ("[Errno 17] File exists: "
                               ++ repr (path_str (parent path)))), w).
Proof.
  intros Hpar.
  assert (Hp : path <> []) by (intros ->; discriminate).
  assert (Hex : path_exists (fs w) path = false).
  { unfold path_exists. rewrite (app_removelast_last EmptyString Hp).
    fold (parent path). now rewrite (lookup_below_file _ _ c _ Hpar). }
  unfold write_file. rewrite Hex. simpl andb. cbv iota.
  unfold bindM, ensure_parent.
  assert (Hmk : mkdir_parents (List.length (parent path)) (parent path) w
                = (Raise (FileExistsError ("[Errno 17] File exists: "
                                             ++ repr (path_str (parent path)))), w)).
  { assert (Hdir : is_dir (fs w) (parent path) = false)
      by (unfold is_dir; now rewrite Hpar).
    destruct (List.length (parent path)) eqn:Hlen;
      unfold mkdir_parents; fold mkdir_parents; cbv zeta;
      rewrite <- Hlen, firstn_all; unfold os_mkdir;
      rewrite (sys_mkdir_exists _ _ _ Hpar); unfold os_error;
      cbv beta iota; now rewrite Hdir. }
  now rewrite Hmk.
Qed.

(** X8: When a file stands where the parent directory of the target should be,
    [write_file] stops with the [FileExistsError] of [mkdir], which names the
    parent: force does not help, a dry run fails the same way, and nothing
    changes; [main] reports it under code 3, the code of a conflict on the
    target, though the target does not exist. *)
Theorem parent_is_a_file :
  (forall path content c force dry_run w,
      lookup (fs w) (parent path) = Some (File c) ->
      path_exists (fs w) path = false /\
      write_file path content force dry_run w
      = (Raise (FileExistsError ("[Errno 17] File exists: "
                                   ++ repr (path_str (parent path)))), w)) /\
  (forall args w params text c,
      valid_identifier (snake (arg_name args)) = true ->
      parse_params (arg_param args) = Ok params ->
      first_render args (snake (arg_name args)) params = Ok text ->
      lookup (fs w) (parent (first_output args (snake (arg_name args))))
      = Some (File c) ->
      main args w
      = (3, mkWorld (fs w) (stdout w)
              (stderr w ++ ["[Errno 17] File exists: "
                              ++ repr (path_str
                                         (parent (first_output args
                                                    (snake (arg_name args)))))]))).
Proof.
  split.
  - intros path content c force dry_run w Hpar. split.
    + assert (Hp : path <> []) by (intros ->; discriminate).
      unfold path_exists. rewrite (app_removelast_last EmptyString Hp).
      fold (parent path). now rewrite (lookup_below_file _ _ c _ Hpar).
    + now apply (write_file_below_file path content c).
  - intros args w params text c Hname Hparse Hrender Hpar.
    unfold main. rewrite Hname, Hparse. simpl negb. cbv iota.
    unfold first_render, first_output in *. unfold generate.
    destruct (wants_cli (arg_target args)) eqn:Hcli.
    + unfold bindM at 1 2. unfold lift. rewrite Hrender.
      unfold bindM at 1. cbv beta iota.
      rewrite (write_file_below_file _ _ c _ _ _ Hpar). reflexivity.
    + rewrite (wants_script_of_not_cli _ Hcli).
      unfold bindM at 1 2. unfold ret, lift. cbv beta iota. rewrite Hrender.
      unfold bindM at 1. cbv beta iota.
      rewrite (write_file_below_file _ _ c _ _ _ Hpar). reflexivity.
Qed.

(** A script request in a directory where [scripts] is a file, with force. *)
Lemma parent_is_a_file_witness :
  main (mkArgs "orders" TargetScript "yourcmd" "/example"
          "https://example.com/api" ["limit:int:25"] None None None false
          None None true false)
    (mkWorld [("scripts", File "notes")] [] [])
  = (3, mkWorld [("scripts", File "notes")] []
          ["[Errno 17] File exists: 'scripts'"]).
Proof.
  destruct (generate_script_content "orders" "yourcmd" "https://example.com/api"
              "/example" [mkParamSpec "limit" "int" false (Some "25")] None true)
    as [text | e] eqn:Hrender; [| vm_compute in Hrender; discriminate].
  apply (proj2 parent_is_a_file
           (mkArgs "orders" TargetScript "yourcmd" "/example"
              "https://example.com/api" ["limit:int:25"] None None None false
              None None true false)
           (mkWorld [("scripts", File "notes")] [] [])
           [mkParamSpec "limit" "int" false (Some "25")] text "notes");
    first [exact Hrender | reflexivity].
Defined.

(** ** The capability name *)

Lemma identifier_tail_snake (r : string) :
  identifier_tail r = true -> forallb snake_char r = true ->
  forallb lower_ident_char r = true.
Proof.
  induction r as [| c r IH]; [reflexivity |]. simpl.
  intros Ht Hs. apply andb_true_iff in Hs as [Hc Hr].
  destruct (is_ident_char c) eqn:Hi.
  - rewrite (IH Ht Hr), andb_true_r.
    revert Hc Hi. destruct c as [[] [] [] [] [] [] [] []]; intros Hc Hi;
      first [reflexivity | discriminate Hc | discriminate Hi].
  - apply andb_true_iff in Ht as [Hlf _].
    revert Hc Hlf. destruct c as [[] [] [] [] [] [] [] []]; discriminate.
Qed.

(** X2: The name that reaches the templates and the file names is a lower-case
    identifier: when [valid_identifier] accepts a normalized name, the name
    starts with a small letter and is made of small letters, digits and
    underscores. The line feed that [valid_identifier] lets pass at the end of
    a text never stands in a normalized name, and neither does a slash or a
    dot, so the default output paths name one file each. *)
Theorem capability_name_is_lower_identifier (s : string) :
  valid_identifier (snake s) = true ->
  forallb lower_ident_char (snake s) = true /\
  match snake s with
  | String c _ => is_lower c = true
  | EmptyString => False
  end.
Proof.
  intros Hv.
  pose proof (snake_chars s) as Hc.
  pose proof (snake_strip_underscores s) as Hu.
  destruct (snake s) as [| c r]; [discriminate |].
  unfold valid_identifier in Hv.
  apply andb_true_iff in Hv as [Hhead Htail].
  simpl in Hc. apply andb_true_iff in Hc as [Hcc Hcr].
  assert (Hnot : is_char 95 c = false).
  { pose proof (lstrip_by_head (is_char 95) (String c r)) as Hh.
    destruct (rstrip_by_prefix (is_char 95)
                (lstrip_by (is_char 95) (String c r))) as [b Hb].
    unfold strip_underscores, strip_by in Hu. rewrite Hu in Hb.
    rewrite Hb in Hh. exact Hh. }
  assert (Hlow : is_lower c = true).
  { revert Hhead Hcc Hnot. destruct c as [[] [] [] [] [] [] [] []];
      intros Hhead Hcc Hnot;
      first [reflexivity | discriminate Hhead | discriminate Hcc
            | discriminate Hnot]. }
  split; [| exact Hlow].
  simpl. rewrite (identifier_tail_snake r Htail Hcr), andb_true_r.
  unfold lower_ident_char. now rewrite Hlow.
Qed.

(** The name [List Open-Orders] becomes [list_open_orders]. *)
Lemma capability_name_is_lower_identifier_witness :
  forallb lower_ident_char (snake " List Open-Orders ") = true /\
  match snake " List Open-Orders " with
  | String c _ => is_lower c = true
  | EmptyString => False
  end.
Proof.
  apply (capability_name_is_lower_identifier " List Open-Orders ").
  reflexivity.
Defined.

(** ** Usage examples *)

Lemma fallback_examples_spec (P : string -> Prop) (lines : list string) :
  (forall l, In l lines ->
             ScriptsIndex.has_script_command None (strip l) = true ->
             P (strip l)) ->
  forall acc, Forall P acc -> Forall P (ScriptsIndex.fallback_examples lines acc).
Proof.
  induction lines as [| l rest IH]; intros Hl acc Hacc; [exact Hacc |].
  unfold ScriptsIndex.fallback_examples; fold ScriptsIndex.fallback_examples.
  cbv zeta.
  assert (Hacc' : Forall P (if ScriptsIndex.has_script_command None (strip l)
                            then (acc ++ [strip l])%list else acc)).
  { destruct (ScriptsIndex.has_script_command None (strip l)) eqn:E; [| exact Hacc].
    apply Forall_app. split; [exact Hacc |].
    constructor; [| constructor]. apply Hl; [now left | exact E]. }
  destruct (ScriptsIndex.MAX_USAGE_LINES <=? _); [exact Hacc' |].
  apply IH; [| exact Hacc']. intros l' Hin. apply Hl. now right.
Qed.

(** X17: At most three usage examples are returned, and each is one line that
    is not empty and carries no whitespace at either end. *)
Theorem extract_usage_examples_lines (content : string) :
  List.length (ScriptsIndex.extract_usage_examples content) <= 3 /\
  Forall (fun e => e <> EmptyString /\ strip e = e /\ one_line e = true)
    (ScriptsIndex.extract_usage_examples content).
Proof.
  unfold ScriptsIndex.extract_usage_examples. split.
  - rewrite length_firstn. unfold ScriptsIndex.MAX_USAGE_LINES. lia.
  - apply Forall_firstn.
    set (block := match ScriptsIndex.after_usage content with
                  | Some rest =>
                      List.filter (ScriptsIndex.has_command None)
                        (ScriptsIndex.stripped_lines (ScriptsIndex.usage_block rest))
                  | None => []
                  end).
    assert (Hblock : Forall (fun e => e <> EmptyString /\ strip e = e /\
                                      one_line e = true) block).
    { subst block. destruct (ScriptsIndex.after_usage content); [| constructor].
      apply Forall_forall. intros e He. apply filter_In in He as [He _].
      exact (proj1 (Forall_forall _ _) (stripped_lines_spec _) e He). }
    destruct block as [| e es]; [| exact Hblock].
    apply fallback_examples_spec; [| constructor].
    intros l Hin Hcmd. split; [| split].
    + intros E. rewrite E in Hcmd. discriminate Hcmd.
    + apply strip_idem.
    + apply forallb_strip_by.
      exact (proj1 (Forall_forall _ _) (splitlines_one_line content) l Hin).
Qed.

(** ** Where the index looks *)

Lemma keeps_file_nodes_refl (es : dir) : keeps_file_nodes es es.
Proof. intros q H; exact H. Qed.

Lemma keeps_file_nodes_trans (a b c : dir) :
  keeps_file_nodes a b -> keeps_file_nodes b c -> keeps_file_nodes a c.
Proof. intros H1 H2 q H. apply H2, H1, H. Qed.

(** [write_file] removes no file: a regular file stays a regular file,
    whatever the outcome. *)
Lemma write_file_keeps_file_nodes (path : Path) (content : string)
    (force dry_run : bool) :
  fs_rel keeps_file_nodes (write_file path content force dry_run).
Proof.
  intros w r w' H q Hq. unfold is_file in *.
  destruct (lookup (fs w) q) as [[c |] |] eqn:Hl; try discriminate.
  destruct (list_eq_dec string_dec q path) as [-> | Hne].
  - unfold write_file in H.
    destruct (path_exists (fs w) path && negb force).
    + injection H as _ <-. simpl fs. now rewrite Hl.
    + unfold bindM in H.
      destruct (ensure_parent path w) as [[a | e] w1] eqn:Hens.
      * pose proof (ensure_parent_adds_dirs path _ _ _ Hens) as [Hf _].
        apply Hf in Hl. destruct dry_run.
        -- injection H as _ <-. simpl fs. now rewrite Hl.
        -- unfold write_text in H.
           destruct (sys_write (fs w1) path content) as [e | es] eqn:Hsw.
           ++ injection H as _ <-. simpl fs. now rewrite Hl.
           ++ injection H as _ <-. simpl fs.
              now rewrite (proj1 (sys_write_frame _ _ _ _ Hsw)).
      * injection H as _ <-.
        pose proof (ensure_parent_adds_dirs path _ _ _ Hens) as [Hf _].
        apply Hf in Hl. now rewrite Hl.
  - destruct (write_file_changes_only [path] path content force dry_run
                (or_introl eq_refl) w r w' H) as [F _].
    rewrite (proj1 (F q c ltac:(intros [E | []]; now apply Hne)) Hl).
    reflexivity.
Qed.

Lemma write_file_keeps_dirs (path : Path) (content : string)
    (force dry_run : bool) :
  fs_rel keeps_dirs (write_file path content force dry_run).
Proof.
  intros w r w' H.
  exact (proj2 (write_file_changes_only [path] path content force dry_run
                  (or_introl eq_refl) w r w' H)).
Qed.

(** The steps of [main] after the script is written keep the directories
    and the regular files. *)
Lemma after_script_keeps (args : Args) (R : dir -> dir -> Prop) :
  (forall es, R es es) -> (forall a b c, R a b -> R b c -> R a c) ->
  (forall path content force dry_run,
      fs_rel R (write_file path content force dry_run)) ->
  fs_rel R
    ((match arg_emit_test_plan args with
      | Some test_plan_path =>
          write_file test_plan_path (generate_test_plan_content (arg_binary args))
            (arg_force args) (arg_dry_run args)
      | None => ret tt
      end) ;;;
     (match arg_emit_doc_snippets args with
      | Some doc_snippet_path =>
          write_file doc_snippet_path generate_generator_usage_content
            (arg_force args) (arg_dry_run args)
      | None => ret tt
      end) ;;;
     print "Done.").
Proof.
  intros Hrefl Htrans Hw.
  repeat (apply fs_rel_bindM; [exact Htrans | | intros _]).
  - destruct (arg_emit_test_plan args); [apply Hw | now apply fs_rel_ret].
  - destruct (arg_emit_doc_snippets args); [apply Hw | now apply fs_rel_ret].
  - now apply fs_rel_print.
Qed.

(** X23: A script written to its default place is where the index looks first:
    after a run of [main] that ends with code 0, [scripts] is the directory
    [find_scripts_root] returns, also after a dry run; and unless the run was
    dry, the script is a regular file below it. *)
Theorem generated_script_is_under_index_root (args : Args) (w : World) :
  wants_script (arg_target args) = true ->
  arg_out_script args = None ->
  fst (main args w) = 0 ->
  ScriptsIndex.find_scripts_root (fs (snd (main args w))) [] = ["scripts"] /\
  (arg_dry_run args = false ->
   is_file (fs (snd (main args w)))
     ["scripts"; snake (arg_name args) ++ ".py"] = true).
Proof.
  intros Hscript Hout Hcode. unfold main in *.
  destruct (negb (valid_identifier (snake (arg_name args)))); [discriminate |].
  destruct (parse_params (arg_param args)) as [params | e]; [| discriminate].
  destruct (generate args (snake (arg_name args)) params w) as [[u | e] w'] eqn:Hgen;
    [| destruct e; discriminate].
  simpl snd. clear Hcode.
  unfold generate in Hgen. rewrite Hscript in Hgen.
  apply bindM_ok in Hgen as [a1 [w1 [_ Hgen]]].
  apply bindM_ok in Hgen as [a2 [w2 [Hstep Hrest]]].
  apply bindM_ok in Hstep as [text [w1' [Hlift Hwrite]]].
  unfold out_script_path in Hwrite. rewrite Hout in Hwrite.
  apply write_file_ok in Hwrite as [Hdir Hfile].
  change (parent ["scripts"; snake (arg_name args) ++ ".py"]) with ["scripts"] in Hdir.
  pose proof (after_script_keeps args keeps_dirs keeps_dirs_refl keeps_dirs_trans
                write_file_keeps_dirs _ _ _ Hrest) as Hkd.
  pose proof (after_script_keeps args keeps_file_nodes keeps_file_nodes_refl
                keeps_file_nodes_trans write_file_keeps_file_nodes _ _ _ Hrest)
    as Hkf.
  split.
  - unfold ScriptsIndex.find_scripts_root, ScriptsIndex.DEFAULT_SCRIPTS_DIR_NAMES.
    simpl ScriptsIndex.first_scripts_dir.
    now rewrite (Hkd _ Hdir).
  - intros Hdry. apply Hkf. unfold is_file. now rewrite (Hfile Hdry).
Qed.

(** The scenario in an empty directory, for real and as a dry run. *)
Lemma generated_script_is_under_index_root_witness :
  (ScriptsIndex.find_scripts_root
     (fs (snd (main (orders_request false false) empty_world))) [] = ["scripts"] /\
   (arg_dry_run (orders_request false false) = false ->
    is_file (fs (snd (main (orders_request false false) empty_world)))
      ["scripts"; snake (arg_name (orders_request false false)) ++ ".py"] = true)) /\
  ScriptsIndex.find_scripts_root
    (fs (snd (main (orders_request false true) empty_world))) [] = ["scripts"].
Proof.
  split.
  - apply (generated_script_is_under_index_root (orders_request false false)
             empty_world); vm_compute; reflexivity.
  - apply (generated_script_is_under_index_root (orders_request false true)
             empty_world); vm_compute; reflexivity.
Defined.

(** ** Running the same request again *)

Lemma after_cli_keeps (args : Args) (cap_name : string) (params : list ParamSpec)
    (R : dir -> dir -> Prop) :
  (forall es, R es es) -> (forall a b c, R a b -> R b c -> R a c) ->
  (forall path content force dry_run,
      fs_rel R (write_file path content force dry_run)) ->
  fs_rel R
    ((if wants_script (arg_target args) then
        script_content <~ lift (generate_script_content cap_name (arg_binary args)
                                  (arg_api_base_url args) (arg_endpoint args)
                                  params (arg_description args)
                                  (negb (arg_no_simulate args))) ;;
        write_file (out_script_path args cap_name) script_content
          (arg_force args) (arg_dry_run args)
      else ret tt) ;;;
     (match arg_emit_test_plan args with
      | Some test_plan_path =>
          write_file test_plan_path (generate_test_plan_content (arg_binary args))
            (arg_force args) (arg_dry_run args)
      | None => ret tt
      end) ;;;
     (match arg_emit_doc_snippets args with
      | Some doc_snippet_path =>
          write_file doc_snippet_path generate_generator_usage_content
            (arg_force args) (arg_dry_run args)
      | None => ret tt
      end) ;;;
     print "Done.").
Proof.
  intros Hrefl Htrans Hw.
  apply fs_rel_bindM; [exact Htrans | | intros _; now apply after_script_keeps].
  destruct (wants_script (arg_target args)); [| now apply fs_rel_ret].
  apply fs_rel_bindM; [exact Htrans | now apply fs_rel_lift | intros text; apply Hw].
Qed.

(** X13: After a run that wrote its artifacts, the same request without force
    is refused: the second run ends with code 3 on the first artifact, prints
    nothing and changes no file. *)
Theorem second_run_is_refused (args : Args) (w : World) :
  arg_force args = false ->
  arg_dry_run args = false ->
  fst (main args w) = 0 ->
  main args (snd (main args w))
  = (3, mkWorld (fs (snd (main args w))) (stdout (snd (main args w)))
          (stderr (snd (main args w))
             ++ [conflict_message (first_output args (snake (arg_name args)))])).
Proof.
  intros Hforce Hdry Hcode.
  assert (Hfirst : exists params text,
             valid_identifier (snake (arg_name args)) = true /\
             parse_params (arg_param args) = Ok params /\
             first_render args (snake (arg_name args)) params = Ok text /\
             path_exists (fs (snd (main args w)))
               (first_output args (snake (arg_name args))) = true).
  { unfold main in *.
    destruct (valid_identifier (snake (arg_name args))) eqn:Hname;
      [| discriminate].
    simpl negb in *. cbv iota in *.
    destruct (parse_params (arg_param args)) as [params | e]; [| discriminate].
    destruct (generate args (snake (arg_name args)) params w)
      as [[u | e] w'] eqn:Hgen; [| destruct e; discriminate].
    simpl snd. clear Hcode. exists params.
    unfold generate in Hgen. unfold first_render, first_output.
    destruct (wants_cli (arg_target args)) eqn:Hcli.
    - apply bindM_ok in Hgen as [a1 [w1 [Hstep Hrest]]].
      apply bindM_ok in Hstep as [text [w0 [Hlift Hwrite]]].
      unfold lift in Hlift.
      assert (Hrender : generate_cli_content (snake (arg_name args))
                          (arg_binary args) (arg_api_base_url args)
                          (arg_endpoint args) params (arg_description args)
                        = Ok text) by congruence.
      assert (Hw0 : w0 = w) by congruence. subst w0.
      exists text. repeat split; try assumption.
      apply write_file_ok in Hwrite as [_ Hfile]. rewrite Hdry in Hfile.
      specialize (Hfile eq_refl).
      pose proof (after_cli_keeps args _ params keeps_file_nodes
                    keeps_file_nodes_refl keeps_file_nodes_trans
                    write_file_keeps_file_nodes _ _ _ Hrest) as Hkf.
      specialize (Hkf (out_cli_path args (snake (arg_name args)))).
      unfold is_file in Hkf. rewrite Hfile in Hkf. specialize (Hkf eq_refl).
      unfold path_exists.
      destruct (lookup (fs w') (out_cli_path args (snake (arg_name args))))
        as [[c |] |]; first [reflexivity | discriminate].
    - rewrite (wants_script_of_not_cli _ Hcli) in Hgen.
      apply bindM_ok in Hgen as [a1 [w1 [Hret Hgen]]].
      assert (Hw1 : w1 = w) by (unfold ret in Hret; congruence). subst w1.
      apply bindM_ok in Hgen as [a2 [w2 [Hstep Hrest]]].
      apply bindM_ok in Hstep as [text [w0 [Hlift Hwrite]]].
      unfold lift in Hlift.
      assert (Hrender : generate_script_content (snake (arg_name args))
                          (arg_binary args) (arg_api_base_url args)
                          (arg_endpoint args) params (arg_description args)
                          (negb (arg_no_simulate args))
                        = Ok text) by congruence.
      assert (Hw0 : w0 = w) by congruence. subst w0.
      exists text. repeat split; try assumption.
      apply write_file_ok in Hwrite as [_ Hfile]. rewrite Hdry in Hfile.
      specialize (Hfile eq_refl).
      pose proof (after_script_keeps args keeps_file_nodes
                    keeps_file_nodes_refl keeps_file_nodes_trans
                    write_file_keeps_file_nodes _ _ _ Hrest) as Hkf.
      specialize (Hkf (out_script_path args (snake (arg_name args)))).
      unfold is_file in Hkf. rewrite Hfile in Hkf. specialize (Hkf eq_refl).
      unfold path_exists.
      destruct (lookup (fs w') (out_script_path args (snake (arg_name args))))
        as [[c |] |]; first [reflexivity | discriminate]. }
  destruct Hfirst as [params [text [Hname [Hparse [Hrender Hexists]]]]].
  exact (main_first_conflict args _ params text Hname Hparse Hrender Hexists Hforce).
Qed.

(** The scenario, run twice in an empty directory. *)
Lemma second_run_is_refused_witness :
  fst (main (orders_request false false)
         (snd (main (orders_request false false) empty_world))) = 3 /\
  fs (snd (main (orders_request false false)
             (snd (main (orders_request false false) empty_world))))
  = fs (snd (main (orders_request false false) empty_world)).
Proof.
  rewrite (second_run_is_refused (orders_request false false) empty_world);
    [split; reflexivity | reflexivity | reflexivity | vm_compute; reflexivity].
Defined.

(** ** From the written file to the index *)

Lemma universal_newlines_app (p y : string) :
  forallb (fun c => negb (is_char 13 c)) p = true ->
  ScriptsIndex.universal_newlines (p ++ y)
  = p ++ ScriptsIndex.universal_newlines y.
Proof.
  induction p as [| c p IH]; [reflexivity |]. simpl forallb.
  intros H. apply andb_true_iff in H as [Hc Hp].
  apply negb_true_iff in Hc.
  change ((String c p) ++ y) with (String c (p ++ y)).
  unfold ScriptsIndex.universal_newlines; fold ScriptsIndex.universal_newlines.
  rewrite Hc, (IH Hp). reflexivity.
Qed.

Lemma substring_app (p z : string) :
  forall n, String.length p <= n ->
    substring 0 n (p ++ z) = p ++ substring 0 (n - String.length p) z.
Proof.
  induction p as [| c p IH]; intros n Hn.
  - simpl. now rewrite Nat.sub_0_r.
  - destruct n as [| n]; [simpl in Hn; lia |].
    simpl in *. rewrite IH; [reflexivity | lia].
Qed.

Lemma length_append (a b : string) :
  String.length (a ++ b) = String.length a + String.length b.
Proof. induction a as [| c a IH]; simpl; [reflexivity | now rewrite IH]. Qed.

Lemma one_line_no_cr (s : string) :
  one_line s = true -> forallb (fun c => negb (is_char 13 c)) s = true.
Proof.
  apply forallb_impl. intros c.
  destruct c as [[] [] [] [] [] [] [] []]; intros H;
    first [reflexivity | discriminate H].
Qed.

(** X22: The index reads the head of a file and describes it by what it finds
    there. For a script artifact that was written to [path], a head that
    reaches the end of the module docstring is enough: the description is then
    the one of the artifact. The head of 4096 characters that
    [gather_script_metadata] reads is long enough when the description line has
    at most 3755 characters. *)
Theorem index_description_of_written_script
    (name binary api_base_url endpoint : string) (params : list ParamSpec)
    (description : option string) (include_simulate : bool) (text : string)
    (es : dir) (path : Path) (max_bytes : nat) :
  generate_script_content name binary api_base_url endpoint params description
    include_simulate = Ok text ->
  lookup es path = Some (File text) ->
  no_dquote (description_line description (name ++ " script")) = true ->
  one_line (description_line description (name ++ " script")) = true ->
  341 + String.length (description_line description (name ++ " script"))
  <= max_bytes ->
  ScriptsIndex.extract_docstring_or_header
    (ScriptsIndex.read_file_head es path max_bytes)
  = join nl (strip (description_line description (name ++ " script") ++ ".")
               :: SCRIPT_CONVENTIONS).
Proof.
  intros H Hfile Hdq Hone Hlen.
  destruct (script_content_docstring _ _ _ _ _ _ _ _ H) as [Y ->].
  revert Hfile Hdq Hone Hlen.
  generalize (description_line description (name ++ " script")).
  intros d Hfile Hdq Hone Hlen.
  unfold ScriptsIndex.read_file_head. rewrite Hfile.
  set (P := unlines SCRIPT_HEADER
              ++ (EmptyString ++ tq ++ (d ++ "." ++ nl ++ SCRIPT_DOCSTRING_TAIL)
                    ++ tq)).
  assert (Htext : forall Z,
             unlines SCRIPT_HEADER
               ++ (EmptyString ++ tq
                     ++ (d ++ "." ++ nl ++ SCRIPT_DOCSTRING_TAIL) ++ tq ++ Z)
             = P ++ Z).
  { intros Z. subst P. rewrite !append_assoc. reflexivity. }
  rewrite Htext.
  assert (Hcr : forallb (fun c => negb (is_char 13 c)) P = true).
  { subst P. rewrite !forallb_app, (one_line_no_cr d Hone). reflexivity. }
  assert (HlenP : String.length P = 341 + String.length d).
  { subst P. rewrite !length_append.
    change (String.length (unlines SCRIPT_HEADER)) with 96.
    change (String.length EmptyString) with 0.
    change (String.length tq) with 3.
    change (String.length ".") with 1.
    change (String.length nl) with 1.
    replace (String.length SCRIPT_DOCSTRING_TAIL) with 237
      by (vm_compute; reflexivity).
    lia. }
  rewrite (universal_newlines_app P Y Hcr).
  rewrite substring_app by lia.
  rewrite <- Htext.
  exact (script_docstring_description d _ Hdq Hone).
Qed.

(** The scenario script in [scripts/orders.py], read with the head of
    [gather_script_metadata]. *)
Lemma index_description_of_written_script_witness :
  map_result
    (fun text =>
       ScriptsIndex.extract_docstring_or_header
         (ScriptsIndex.read_file_head
            [("scripts", Dir [("orders.py", File text)])]
            ["scripts"; "orders.py"] 4096))
    (generate_script_content "orders" "yourcmd" "https://example.com/api"
       "/example"
       [mkParamSpec "status" "str" false (Some "open");
        mkParamSpec "limit" "int" false (Some "25")] None true)
  = Ok (join nl (strip (description_line None ("orders" ++ " script") ++ ".")
                   :: SCRIPT_CONVENTIONS)).
Proof.
  destruct (generate_script_content "orders" "yourcmd" "https://example.com/api"
              "/example"
              [mkParamSpec "status" "str" false (Some "open");
               mkParamSpec "limit" "int" false (Some "25")] None true)
    as [text | e] eqn:Hrender; [| vm_compute in Hrender; discriminate].
  simpl map_result. f_equal.
  apply (index_description_of_written_script "orders" "yourcmd"
           "https://example.com/api" "/example"
           [mkParamSpec "status" "str" false (Some "open");
            mkParamSpec "limit" "int" false (Some "25")] None true text);
    first [exact Hrender | reflexivity | vm_compute; lia].
Defined.

(** ** The description is never empty *)

Lemma rstrip_fixed_suffix (f : ascii -> bool) (c : ascii) (r : string) :
  rstrip_by f (String c r) = String c r -> r <> EmptyString ->
  rstrip_by f r = r.
Proof.
  rewrite rstrip_by_cons. intros H Hr.
  destruct (rstrip_by f r) as [| d r'] eqn:E.
  - destruct (f c); [discriminate |]. injection H as <-. contradiction.
  - now injection H as <-.
Qed.

Lemma rstrip_fixed_visible (f : ascii -> bool) (s : string) :
  rstrip_by f s = s -> s <> EmptyString ->
  existsb (fun c => negb (f c)) s = true.
Proof.
  induction s as [| c r IH]; [congruence |]. intros H _.
  destruct r as [| d r'].
  - simpl in H. simpl. destruct (f c); [discriminate | reflexivity].
  - assert (Hr : existsb (fun c => negb (f c)) (String d r') = true).
    { apply IH; [| discriminate].
      apply (rstrip_fixed_suffix f c); [exact H | discriminate]. }
    change (existsb (fun c => negb (f c)) (String c (String d r')))
      with (negb (f c) || existsb (fun c => negb (f c)) (String d r')).
    rewrite Hr. apply orb_true_r.
Qed.

Lemma strip_fixed_visible (s : string) :
  strip s = s -> s <> EmptyString -> has_visible s = true.
Proof.
  intros H Hne. apply rstrip_fixed_visible; [| exact Hne].
  rewrite <- H at 1 2. unfold strip, strip_by. apply rstrip_by_idem.
Qed.

Lemma comment_text_visible (s : string) :
  strip s = s -> ScriptsIndex.comment_text s <> EmptyString ->
  has_visible (ScriptsIndex.comment_text s) = true.
Proof.
  intros Hs Hne.
  assert (Hfix : rstrip_by is_space s = s).
  { rewrite <- Hs at 1 2. unfold strip, strip_by. apply rstrip_by_idem. }
  apply rstrip_fixed_visible; [| exact Hne].
  destruct s as [| h r]; [reflexivity |].
  unfold ScriptsIndex.comment_text in *.
  destruct (is_char 35 h); [| exact Hfix].
  destruct r as [| c r']; [reflexivity |].
  assert (Hr : rstrip_by is_space (String c r') = String c r')
    by (apply (rstrip_fixed_suffix is_space h); [exact Hfix | discriminate]).
  destruct (is_space c); [| exact Hr].
  destruct r' as [| c' r'']; [reflexivity |].
  apply (rstrip_fixed_suffix is_space c); [exact Hr | discriminate].
Qed.

Lemma header_comments_visible (lines : list string) :
  Forall (fun l => l = EmptyString \/ has_visible l = true)
    (ScriptsIndex.header_comments lines).
Proof.
  induction lines as [| l ls IH]; [constructor |].
  rewrite header_comments_cons.
  destruct (starts_with "#" (strip l)).
  - constructor; [| exact IH].
    destruct (String.eqb_spec (ScriptsIndex.comment_text (strip l)) EmptyString)
      as [E | E]; [now left | right].
    apply comment_text_visible; [apply strip_idem | exact E].
  - destruct (String.eqb (strip l) EmptyString); [exact IH | constructor].
Qed.

Lemma has_visible_join (l : string) (ls : list string) :
  has_visible l = true -> has_visible (join nl (l :: ls)) = true.
Proof.
  unfold has_visible. intros H. destruct ls as [| l' ls']; [exact H |].
  change (join nl (l :: l' :: ls')) with (l ++ nl ++ join nl (l' :: ls')).
  now rewrite existsb_app, H.
Qed.

(** The description holds a character that is no whitespace. *)
Lemma extract_docstring_or_header_visible (content : string) :
  has_visible (ScriptsIndex.extract_docstring_or_header content) = true.
Proof.
  unfold ScriptsIndex.extract_docstring_or_header.
  set (lines := match ScriptsIndex.docstring_search true content with
                | Some body => ScriptsIndex.stripped_lines (strip body)
                | None => ScriptsIndex.header_comments
                            (ScriptsIndex.splitlines content)
                end).
  assert (Hlines : Forall (fun l => l = EmptyString \/ has_visible l = true) lines).
  { subst lines. destruct (ScriptsIndex.docstring_search true content).
    - eapply Forall_impl; [| apply stripped_lines_spec].
      intros l [Hne [Hs _]]. right. now apply strip_fixed_visible.
    - apply header_comments_visible. }
  destruct (List.filter _ lines) as [| l ls] eqn:Hf; [reflexivity |].
  assert (Hin : In l (List.filter (fun l => negb (String.eqb l EmptyString)) lines))
    by (rewrite Hf; now left).
  apply filter_In in Hin as [Hin Hne].
  apply negb_true_iff, String.eqb_neq in Hne.
  destruct (proj1 (Forall_forall _ _) Hlines l Hin) as [E | Hv]; [contradiction |].
  unfold ScriptsIndex.MAX_DESCRIPTION_LINES.
  change (firstn 8 (l :: ls)) with (l :: firstn 7 ls).
  now apply has_visible_join.
Qed.

Lemma existsb_concat (P : ascii -> bool) (ls : list string) :
  existsb P (String.concat EmptyString ls) = true ->
  Exists (fun l => existsb P l = true) ls.
Proof.
  induction ls as [| l ls IH]; [discriminate |].
  rewrite concat_empty_cons, existsb_app. intros H.
  apply orb_true_iff in H as [H | H]; [now left | right; auto].
Qed.

Lemma existsb_rstrip_by (P f : ascii -> bool) (s : string) :
  (forall c, f c = true -> P c = false) ->
  existsb P s = true -> existsb P (rstrip_by f s) = true.
Proof.
  intros Hf. induction s as [| c s IH]; [discriminate |].
  rewrite rstrip_by_cons.
  change (existsb P (String c s)) with (P c || existsb P s). intros H.
  destruct (existsb P s) eqn:Hs.
  - specialize (IH eq_refl).
    destruct (rstrip_by f s); [discriminate |].
    simpl existsb in *. rewrite IH. apply orb_true_r.
  - rewrite orb_false_r in H.
    destruct (rstrip_by f s).
    + destruct (f c) eqn:Hc; [rewrite (Hf c Hc) in H; discriminate |].
      simpl. now rewrite H.
    + simpl. now rewrite H.
Qed.

Lemma stripped_lines_visible (text : string) :
  has_visible text = true -> ScriptsIndex.stripped_lines text <> [].
Proof.
  unfold has_visible. intros H.
  rewrite <- (splitlines_concat_bounded (String.length text) text (le_n _)) in H.
  apply existsb_concat in H. apply Exists_exists in H as [l [Hin Hl]].
  assert (Hs : strip (rstrip_by is_line_break l) <> EmptyString).
  { apply strip_nonempty. apply existsb_rstrip_by; [| exact Hl].
    intros c. destruct c as [[] [] [] [] [] [] [] []]; intros Hc;
      first [reflexivity | discriminate Hc]. }
  unfold ScriptsIndex.stripped_lines, ScriptsIndex.splitlines.
  intros E.
  assert (Hmem : In (strip (rstrip_by is_line_break l))
                   (List.filter (fun l => negb (String.eqb l EmptyString))
                      (map strip (map (rstrip_by is_line_break)
                                    (splitlines_keepends text))))).
  { apply filter_In. split.
    - apply in_map, in_map, Hin.
    - apply negb_true_iff, String.eqb_neq, Hs. }
  rewrite E in Hmem. exact Hmem.
Qed.

Lemma strip_fixed_head (s : string) :
  strip s = s -> head_space s = false.
Proof.
  intros H. destruct s as [| c r]; [reflexivity |].
  pose proof (lstrip_by_head is_space (String c r)) as Hh.
  destruct (rstrip_by_prefix is_space (lstrip_by is_space (String c r))) as [b Hb].
  unfold strip, strip_by in H. rewrite H in Hb.
  rewrite Hb in Hh. exact Hh.
Qed.

Lemma single_line_visible (text : string) :
  has_visible text = true -> 1 <= String.length (ScriptsIndex.single_line text).
Proof.
  intros H. apply stripped_lines_visible in H.
  unfold ScriptsIndex.single_line.
  pose proof (stripped_lines_spec text) as Hspec.
  destruct (ScriptsIndex.stripped_lines text) as [| l ls]; [congruence |].
  inversion Hspec as [| ? ? [Hne [Hs _]] _]; subst.
  pose proof (strip_fixed_head l Hs) as Hhead.
  destruct l as [| c l']; [congruence |]. simpl in Hhead.
  assert (Hj : exists X, join " " (String c l' :: ls) = String c X).
  { destruct ls; [now exists l' |]. eexists. reflexivity. }
  destruct Hj as [X ->].
  simpl ScriptsIndex.squeeze. rewrite Hhead.
  change (substring 0 300 (String c (ScriptsIndex.squeeze ScriptsIndex.NoRun X)))
    with (String c (substring 0 299 (ScriptsIndex.squeeze ScriptsIndex.NoRun X))).
  assert (Hne' : strip (String c (substring 0 299
                                    (ScriptsIndex.squeeze ScriptsIndex.NoRun X)))
                 <> EmptyString).
  { apply strip_nonempty. simpl. now rewrite Hhead. }
  set (R := strip (String c (substring 0 299
                                (ScriptsIndex.squeeze ScriptsIndex.NoRun X)))) in *.
  destruct R; [congruence | simpl; lia].
Qed.

(** X16: The description the index stores for a script is never empty: whatever
    the file holds, [single_line] of what [extract_docstring_or_header] finds
    has between 1 and 300 characters. *)
Theorem index_description_never_empty (content : string) :
  1 <= String.length
         (ScriptsIndex.single_line
            (ScriptsIndex.extract_docstring_or_header content)) <= 300.
Proof.
  split.
  - apply single_line_visible, extract_docstring_or_header_visible.
  - apply single_line_facts.
Qed.

(** ** Default literals *)

Lemma float_char_no_break (c : ascii) : float_char c = true -> no_break c = true.
Proof.
  destruct c as [[] [] [] [] [] [] [] []]; intros H;
    first [reflexivity | discriminate H].
Qed.

Lemma append_nonempty (a b : string) : b <> EmptyString -> a ++ b <> EmptyString.
Proof. intros Hb. destruct a; [exact Hb | discriminate]. Qed.

Lemma int_str_chars (val s : string) :
  PyNum.int_str val = Some s ->
  forallb float_char s = true /\ s <> EmptyString.
Proof.
  unfold PyNum.int_str. destruct (PyNum.split_sign (PyNum.strip_number val)) as [neg body].
  destruct (PyNum.digits_ok body); [| discriminate].
  assert (Hd : forallb float_char
                 (lstrip_by (is_char 48) (filter is_digit body)) = true).
  { apply forallb_lstrip_by.
    apply (forallb_impl is_digit); [apply is_digit_float_char |].
    apply forallb_filter_self. }
  destruct (lstrip_by (is_char 48) (filter is_digit body)) as [| c d].
  - intros H. injection H as <-. split; [reflexivity | discriminate].
  - intros H. injection H as <-.
    destruct neg; (split; [| discriminate]); [| exact Hd].
    simpl. simpl in Hd. exact Hd.
Qed.

Lemma format_repr_nonempty (ds : string) (decpt : Z) :
  PyNum.format_repr ds decpt <> EmptyString.
Proof.
  unfold PyNum.format_repr. cbv zeta.
  destruct ((decpt <=? -4)%Z || (16 <? decpt)%Z).
  - apply append_nonempty. discriminate.
  - destruct (decpt <=? 0)%Z; [discriminate |].
    destruct (_ <=? decpt)%Z.
    + apply append_nonempty, append_nonempty. discriminate.
    + apply append_nonempty. discriminate.
Qed.

Lemma float_str_chars (val s : string) :
  PyNum.float_str val = Some s ->
  forallb float_char s = true /\ s <> EmptyString.
Proof.
  unfold PyNum.float_str. destruct (PyNum.parse_float val) as [f |];
    [| discriminate].
  intros H. injection H as <-.
  destruct f as [| neg | neg | neg mant ex]; simpl;
    try (split; [reflexivity | discriminate]);
    try (destruct neg; split; first [reflexivity | discriminate]).
  pose proof (shortest_from_digits 16 1 mant ex) as Hs.
  unfold PyNum.shortest_digits. cbv zeta.
  match goal with |- context [PyNum.shortest_from 16 1 mant ex ?a ?b ?c] =>
    specialize (Hs a b c); destruct (PyNum.shortest_from 16 1 mant ex a b c)
      as [ds decpt] end.
  simpl in Hs. split.
  - rewrite forallb_app, (format_repr_chars ds decpt Hs). now destruct neg.
  - apply append_nonempty, format_repr_nonempty.
Qed.

Lemma nonempty_length (s : string) : s <> EmptyString -> 1 <= String.length s.
Proof. destruct s; [congruence | simpl; lia]. Qed.

(** X6: Whatever the text of a default, the literal written for it is one line
    that is not empty: no default can break an option block of the generated
    code into more lines, or leave [default=] without a value. *)
Theorem python_cast_value_one_line (typ val s : string) :
  python_cast_value typ val = Ok s ->
  one_line s = true /\ 1 <= String.length s.
Proof.
  assert (Hrepr : one_line (repr val) = true /\ 1 <= String.length (repr val)).
  { split; [apply repr_one_line |]. unfold repr. simpl. lia. }
  unfold python_cast_value.
  destruct (String.eqb typ "str");
    [intros H; apply Ok_inj in H; now subst s |].
  destruct (String.eqb typ "int").
  { destruct (PyNum.int_str val) eqn:E; [| discriminate].
    intros H. apply Ok_inj in H. subst s.
    destruct (int_str_chars val _ E) as [Hc Hne].
    split; [| now apply nonempty_length].
    apply (forallb_impl float_char); [apply float_char_no_break | exact Hc]. }
  destruct (String.eqb typ "float").
  { destruct (PyNum.float_str val) eqn:E; [| discriminate].
    intros H. apply Ok_inj in H. subst s.
    destruct (float_str_chars val _ E) as [Hc Hne].
    split; [| now apply nonempty_length].
    apply (forallb_impl float_char); [apply float_char_no_break | exact Hc]. }
  destruct (String.eqb typ "bool").
  { destruct (mem (lower val) _);
      [intros H; apply Ok_inj in H; subst s; split; [reflexivity | simpl; lia] |].
    destruct (mem (lower val) _); [| discriminate].
    intros H. apply Ok_inj in H. subst s. split; [reflexivity | simpl; lia]. }
  intros H. apply Ok_inj in H. now subst s.
Qed.

(** A default of three lines, quoted on one. *)
Lemma python_cast_value_one_line_witness :
  one_line (repr ("a" ++ nl ++ "b" ++ nl ++ "c")) = true /\
  1 <= String.length (repr ("a" ++ nl ++ "b" ++ nl ++ "c")).
Proof.
  apply (python_cast_value_one_line "str" ("a" ++ nl ++ "b" ++ nl ++ "c")).
  reflexivity.
Defined.

(** ** The prime prompt *)

Lemma splitlines_join (ls : list string) :
  Forall (fun l => one_line l = true) ls ->
  last ls EmptyString <> EmptyString ->
  ScriptsIndex.splitlines (join nl ls) = ls.
Proof.
  unfold ScriptsIndex.splitlines.
  induction 1 as [| l ls Hl Hls IH]; intros Hlast; [simpl in Hlast; congruence |].
  destruct ls as [| l' rest].
  - simpl in Hlast. simpl join.
    rewrite (splitlines_keepends_one_line l Hl Hlast). simpl map.
    now rewrite (rstrip_by_none is_line_break l Hl).
  - change (join nl (l :: l' :: rest)) with (l ++ nl ++ join nl (l' :: rest)).
    rewrite (splitlines_keepends_first_line _ _ Hl). rewrite map_cons.
    rewrite (rstrip_by_app_empty is_line_break l nl eq_refl).
    rewrite (rstrip_by_none is_line_break l Hl).
    f_equal. apply IH. exact Hlast.
Qed.

Lemma last_app_cons {A : Type} (a : list A) (x : A) (b : list A) (d : A) :
  last (a ++ x :: b)%list d = last (x :: b) d.
Proof.
  induction a as [| y a IH]; [reflexivity |].
  rewrite <- app_comm_cons. simpl last at 1.
  destruct (a ++ x :: b)%list eqn:E; [destruct a; discriminate | exact IH].
Qed.

Lemma prompt_lines_one_line (extended : bool) (meta : ScriptsIndex.ScriptMeta) :
  one_line (ScriptsIndex.name meta) = true ->
  one_line (ScriptsIndex.description meta) = true ->
  Forall (fun e => one_line e = true) (ScriptsIndex.usage_examples meta) ->
  Forall (fun l => one_line l = true) (ScriptsIndex.prompt_lines extended meta).
Proof.
  intros Hn Hd He. unfold ScriptsIndex.prompt_lines. cbv zeta.
  constructor.
  - unfold one_line in *. now rewrite !forallb_app, Hn, Hd.
  - apply Forall_app. split.
    + destruct (ScriptsIndex.usage_examples meta) as [| ex exs]; [constructor |].
      inversion He; subst. constructor; [| constructor].
      unfold one_line in *. rewrite forallb_app. now rewrite H1.
    + destruct (extended && _); [| constructor].
      apply Forall_map. destruct (ScriptsIndex.usage_examples meta) as [| ex exs];
        [constructor |].
      inversion He; subst. simpl tl.
      eapply Forall_impl; [| eassumption].
      intros e Hone. unfold one_line in *. rewrite forallb_app. now rewrite Hone.
Qed.

(** X19: The prompt is laid out by lines: when the names, descriptions and
    usage examples of the scripts are single lines, as the index builds them,
    splitting the prompt gives back the three lines of the heading, the lines
    of every script in order, and the three closing lines; without the extended
    flag a script takes one line, or two when it has a usage example. *)
Theorem generate_prime_prompt_lines (metas : list ScriptsIndex.ScriptMeta)
    (extended : bool) :
  Forall (fun m => one_line (ScriptsIndex.name m) = true /\
                   one_line (ScriptsIndex.description m) = true /\
                   Forall (fun e => one_line e = true)
                     (ScriptsIndex.usage_examples m)) metas ->
  ScriptsIndex.splitlines (ScriptsIndex.generate_prime_prompt metas extended)
  = (["You have access to the following capability scripts.";
      "Load only the script you need; each supports '--json' for structured output.";
      EmptyString]
     ++ flat_map (ScriptsIndex.prompt_lines extended) metas
     ++ [EmptyString;
         "Strategy: Ask for the minimal script to accomplish the next step.";
         "If chaining operations, request '--json' output for downstream automation."])%list /\
  Forall (fun m => List.length (ScriptsIndex.prompt_lines false m)
                   = if match ScriptsIndex.usage_examples m with
                        | [] => true
                        | _ => false
                        end
                     then 1 else 2) metas.
Proof.
  intros Hm. split.
  - unfold ScriptsIndex.generate_prime_prompt. apply splitlines_join.
    + apply Forall_app. split; [repeat constructor |].
      apply Forall_app. split; [| repeat constructor].
      apply Forall_flat_map. eapply Forall_impl; [| exact Hm].
      intros m [Hn [Hd He]]. now apply prompt_lines_one_line.
    + rewrite app_assoc, last_app_cons. discriminate.
  - apply Forall_forall. intros m _. unfold ScriptsIndex.prompt_lines.
    destruct (ScriptsIndex.usage_examples m); reflexivity.
Qed.

(** Two scripts, the second with two usage examples. *)
Lemma generate_prime_prompt_lines_witness :
  List.length
    (ScriptsIndex.splitlines
       (ScriptsIndex.generate_prime_prompt
          [ScriptsIndex.mkScriptMeta "orders" "scripts/orders.py" 10 "ab"
             "List orders." [] "t";
           ScriptsIndex.mkScriptMeta "trades" "scripts/trades.py" 10 "cd"
             "List trades." ["python trades.py"; "uv run trades.py"] "t"]
          true))
  = 10.
Proof.
  assert (H : Forall (fun m => one_line (ScriptsIndex.name m) = true /\
                               one_line (ScriptsIndex.description m) = true /\
                               Forall (fun e => one_line e = true)
                                 (ScriptsIndex.usage_examples m))
                [ScriptsIndex.mkScriptMeta "orders" "scripts/orders.py" 10 "ab"
                   "List orders." [] "t";
                 ScriptsIndex.mkScriptMeta "trades" "scripts/trades.py" 10 "cd"
                   "List trades." ["python trades.py"; "uv run trades.py"] "t"])
    by (repeat constructor).
  rewrite (proj1 (generate_prime_prompt_lines _ true H)). reflexivity.
Defined.

(** ** Command lines *)

Lemma command_at_no_slash (prev : option ascii) (s : string) :
  no_slash s = true ->
  ScriptsIndex.command_at prev s = word_command_at prev s.
Proof.
  unfold no_slash. intros H.
  unfold ScriptsIndex.command_at, word_command_at.
  assert (Halt : match s with
                 | String c (String d r) =>
                     negb (is_char 10 c) && is_char 47 d
                     && ScriptsIndex.word_boundary (Some d) r
                 | _ => false
                 end = false).
  { destruct s as [| c [| d r]]; try reflexivity.
    simpl in H. apply andb_true_iff in H as [_ H].
    apply andb_true_iff in H as [Hd _]. apply negb_true_iff in Hd.
    now rewrite Hd, andb_false_r. }
  rewrite Halt.
  destruct (ScriptsIndex.word_boundary prev s), (starts_with "uv run" s),
    (starts_with "python" s),
    (ScriptsIndex.word_boundary (Some "n"%char) (drop 6 s)); reflexivity.
Qed.

Lemma has_command_no_slash (s : string) :
  no_slash s = true ->
  forall prev, ScriptsIndex.has_command prev s = has_word_command prev s.
Proof.
  induction s as [| c s IH]; intros H prev.
  - unfold ScriptsIndex.has_command, has_word_command.
    now rewrite (command_at_no_slash prev EmptyString H).
  - unfold ScriptsIndex.has_command; fold ScriptsIndex.has_command.
    unfold has_word_command; fold has_word_command.
    rewrite (command_at_no_slash prev (String c s) H).
    unfold no_slash in H. simpl in H. apply andb_true_iff in H as [_ Hs].
    now rewrite (IH Hs).
Qed.

(** X18: The third alternative of the command pattern, [./], does not see a
    command that starts with [./]: the dot stands for any character and the
    pattern asks for a word boundary before it and after the slash. So a usage
    line that starts with [./] and holds no further slash is kept only if the
    word [python] or the words [uv run] stand in it. *)
Theorem leading_dot_slash_is_no_command (w : string) :
  no_slash w = true ->
  ScriptsIndex.has_command None ("./" ++ w) = has_word_command (Some "/"%char) w.
Proof.
  intros H. rewrite <- (has_command_no_slash w H). reflexivity.
Qed.

(** The usage line [./orders.py --json] is not taken for a command. *)
Lemma leading_dot_slash_is_no_command_witness :
  ScriptsIndex.has_command None ("./" ++ "orders.py --json")
  = has_word_command (Some "/"%char) "orders.py --json" /\
  has_word_command (Some "/"%char) "orders.py --json" = false.
Proof.
  split; [| reflexivity].
  apply (leading_dot_slash_is_no_command "orders.py --json"). reflexivity.
Defined.

(** ** No usage example in a generated artifact *)

Lemma example_scan_app (st : nat * nat) (a b : string) :
  example_scan st (a ++ b) = example_scan (example_scan st a) b.
Proof. revert st. induction a as [| c a IH]; intros st; simpl; auto. Qed.

Lemma example_scan_high (st : nat * nat) (s : string) :
  low st = false -> example_scan st s = st.
Proof.
  intros H. induction s as [| c s IH]; [reflexivity |].
  simpl. unfold example_step. now rewrite H.
Qed.

Lemma low_example_scan (st : nat * nat) (s : string) :
  low (example_scan st s) = true -> low st = true.
Proof.
  intros H. destruct (low st) eqn:E; [reflexivity |].
  now rewrite (example_scan_high st s E), E in H.
Qed.

Lemma py_step_below (a : nat) (c : ascii) :
  py_step 0 c = 0 \/ py_step 0 c = py_step a c.
Proof. unfold py_step. destruct (is_char 46 c); auto. Qed.

Lemma usage_word_step_below (b : nat) (c : ascii) :
  usage_word_step 0 c = 0 \/ usage_word_step 0 c = usage_word_step b c.
Proof.
  unfold usage_word_step. cbv zeta. destruct (is_char 117 (lower_char c)); auto.
Qed.

Lemma below_low (s0 s1 : nat * nat) :
  below s0 s1 -> low s1 = true -> low s0 = true.
Proof.
  destruct s0 as [a0 b0], s1 as [a1 b1]. unfold below, low. simpl.
  intros [[-> | ->] [-> | ->]] H; apply andb_true_iff in H as [H1 H2];
    now rewrite ?H1, ?H2.
Qed.

Lemma example_step_below (s0 s1 : nat * nat) (c : ascii) :
  below s0 s1 -> low s1 = true ->
  below (example_step s0 c) (example_step s1 c).
Proof.
  intros Hb Hl. pose proof (below_low s0 s1 Hb Hl) as Hl0.
  unfold example_step. rewrite Hl, Hl0.
  destruct s0 as [a0 b0], s1 as [a1 b1]. destruct Hb as [Ha Hb].
  simpl in *. split.
  - destruct Ha as [-> | ->]; [apply py_step_below | now right].
  - destruct Hb as [-> | ->]; [apply usage_word_step_below | now right].
Qed.

Lemma example_scan_below (s : string) :
  forall s0 s1, below s0 s1 ->
    low (example_scan s1 s) = true -> low (example_scan s0 s) = true.
Proof.
  induction s as [| c s IH]; intros s0 s1 Hb H.
  - exact (below_low s0 s1 Hb H).
  - simpl in *. apply (IH _ (example_step s1 c)); [| exact H].
    apply example_step_below; [exact Hb |].
    apply low_example_scan in H. unfold example_step in H.
    destruct (low s1) eqn:E; [reflexivity | now rewrite E in H].
Qed.

Lemma below_start (st : nat * nat) : below (0, 0) st.
Proof. split; now left. Qed.

Lemma quiet_app_l (a b : string) : quiet (a ++ b) = true -> quiet a = true.
Proof.
  unfold quiet. rewrite example_scan_app. apply low_example_scan.
Qed.

Lemma quiet_app_r (a b : string) : quiet (a ++ b) = true -> quiet b = true.
Proof.
  unfold quiet. rewrite example_scan_app.
  apply example_scan_below, below_start.
Qed.

Lemma example_step_resets (st : nat * nat) (c : ascii) :
  low st = true -> resets c = true ->
  example_step st c = example_step (0, 0) c.
Proof.
  intros Hl Hc. unfold example_step. rewrite Hl.
  change (low (0, 0)) with true. cbv iota.
  unfold resets in Hc.
  repeat match type of Hc with
         | (_ && _) = true =>
             let H := fresh "Hc" in apply andb_true_iff in Hc as [Hc H]
         end.
  repeat match goal with
         | H : negb _ = true |- _ => apply negb_true_iff in H
         end.
  destruct st as [a b]. unfold py_step, usage_word_step. cbv zeta. simpl fst.
  simpl snd.
  repeat match goal with H : _ = false |- _ => rewrite H; clear H end.
  f_equal.
  - destruct (is_char 46 c); [reflexivity |]. now destruct a as [| [| [| a]]].
  - destruct (is_char 117 (lower_char c)); [reflexivity |].
    now destruct b as [| [| [| [| [| b]]]]].
Qed.

Lemma after_quiet (x p : string) :
  quiet x = true -> head_resets p = true ->
  example_scan (example_scan (0, 0) x) p = example_scan (0, 0) p.
Proof.
  intros Hx Hp. destruct p as [| c r]; [discriminate |].
  simpl. now rewrite (example_step_resets _ c Hx Hp).
Qed.

Lemma quiet_app (a b : string) :
  example_scan (0, 0) a = (0, 0) -> quiet b = true -> quiet (a ++ b) = true.
Proof. unfold quiet. rewrite example_scan_app. now intros ->. Qed.

Lemma quiet_then (x p : string) :
  quiet x = true -> head_resets p = true -> quiet p = true ->
  quiet (x ++ p) = true.
Proof.
  intros Hx Hp Hq. unfold quiet. now rewrite example_scan_app, after_quiet.
Qed.

Lemma quiet_drop (n : nat) (s : string) :
  quiet s = true -> quiet (drop n s) = true.
Proof.
  revert s. induction n as [| n IH]; intros s H; [now destruct s |].
  destruct s as [| c s]; [exact H |]. simpl. apply IH.
  now apply (quiet_app_r (String c EmptyString)).
Qed.

(** What the scan tells about the patterns. *)
Lemma is_char_inv (n : nat) (c : ascii) :
  is_char n c = true -> c = ascii_of_nat n.
Proof.
  unfold is_char, code. intros H. apply Nat.eqb_eq in H. rewrite <- H.
  symmetry. apply ascii_nat_embedding.
Qed.

Lemma contains_app_r (p x y : string) :
  contains p y = true -> contains p (x ++ y) = true.
Proof.
  intros H. induction x as [| c x IH]; [exact H |].
  change (contains p (String c x ++ y))
    with (starts_with p (String c (x ++ y)) || contains p (x ++ y)).
  rewrite IH. apply orb_true_r.
Qed.

Lemma starts_with_append (p t : string) : starts_with p (p ++ t) = true.
Proof.
  induction p as [| c p IH]; [reflexivity |]. simpl.
  now rewrite Ascii.eqb_refl, IH.
Qed.

Lemma contains_head (p t : string) : contains p (p ++ t) = true.
Proof.
  destruct (p ++ t) eqn:E; simpl; rewrite <- E, starts_with_append;
    reflexivity.
Qed.

Lemma py_suffix (a : nat) (c : ascii) (r : string) :
  a < 3 ->
  exists x,
    substring 0 a ".py" ++ String c r
    = x ++ substring 0 (py_step a c) ".py" ++ r.
Proof.
  intros Ha. unfold py_step.
  destruct (is_char 46 c) eqn:E46.
  - apply is_char_inv in E46. subst c.
    exists (substring 0 a ".py"). reflexivity.
  - destruct a as [| [| [| a]]]; [| | | lia].
    + exists (String c EmptyString). reflexivity.
    + destruct (is_char 112 c) eqn:E.
      * apply is_char_inv in E. subst c. now exists EmptyString.
      * exists (String "." (String c EmptyString)). reflexivity.
    + destruct (is_char 121 c) eqn:E.
      * apply is_char_inv in E. subst c. now exists EmptyString.
      * exists (String "." (String "p" (String c EmptyString))). reflexivity.
Qed.

Lemma usage_word_suffix (b : nat) (c : ascii) (r : string) :
  b < 5 ->
  exists x,
    substring 0 b "usage" ++ String (lower_char c) r
    = x ++ substring 0 (usage_word_step b c) "usage" ++ r.
Proof.
  intros Hb. unfold usage_word_step. cbv zeta.
  generalize (lower_char c). clear c. intros c.
  destruct (is_char 117 c) eqn:E117.
  - apply is_char_inv in E117. subst c.
    exists (substring 0 b "usage"). reflexivity.
  - destruct b as [| [| [| [| [| b]]]]]; [| | | | | lia].
    + exists (String c EmptyString). reflexivity.
    + destruct (is_char 115 c) eqn:E.
      * apply is_char_inv in E. subst c. now exists EmptyString.
      * exists ("u" ++ String c EmptyString). reflexivity.
    + destruct (is_char 97 c) eqn:E.
      * apply is_char_inv in E. subst c. now exists EmptyString.
      * exists ("us" ++ String c EmptyString). reflexivity.
    + destruct (is_char 103 c) eqn:E.
      * apply is_char_inv in E. subst c. now exists EmptyString.
      * exists ("usa" ++ String c EmptyString). reflexivity.
    + destruct (is_char 101 c) eqn:E.
      * apply is_char_inv in E. subst c. now exists EmptyString.
      * exists ("usag" ++ String c EmptyString). reflexivity.
Qed.

Lemma py_step_le (a : nat) (c : ascii) : py_step a c <= 3.
Proof.
  unfold py_step. destruct (is_char 46 c); [lia |].
  destruct a as [| [| [| a]]]; try lia.
  - destruct (is_char 112 c); lia.
  - destruct (is_char 121 c); lia.
Qed.

Lemma usage_word_step_le (b : nat) (c : ascii) : usage_word_step b c <= 5.
Proof.
  unfold usage_word_step. cbv zeta.
  destruct (is_char 117 _); [lia |].
  destruct b as [| [| [| [| [| b]]]]]; try lia;
    match goal with |- context [if ?t then _ else _] => destruct t end; lia.
Qed.

(** A scan that leaves the low states has read one of the patterns. *)
Lemma high_contains (s : string) :
  forall a b,
    low (a, b) = true -> low (example_scan (a, b) s) = false ->
    contains ".py" (substring 0 a ".py" ++ s) = true
    \/ contains "usage" (substring 0 b "usage" ++ lower s) = true.
Proof.
  induction s as [| c r IH]; intros a b Hl H.
  - simpl in H. congruence.
  - pose proof Hl as Hab. unfold low in Hab. simpl in Hab.
    apply andb_true_iff in Hab as [Ha Hb].
    apply Nat.ltb_lt in Ha. apply Nat.ltb_lt in Hb.
    destruct (py_suffix a c r Ha) as [x Hx].
    destruct (usage_word_suffix b c (lower r) Hb) as [y Hy].
    change (lower (String c r)) with (String (lower_char c) (lower r)).
    rewrite Hx, Hy.
    simpl in H. unfold example_step in H. rewrite Hl in H. simpl fst in H.
    simpl snd in H.
    destruct (low (py_step a c, usage_word_step b c)) eqn:E.
    + destruct (IH _ _ E H) as [I | I]; [left | right];
        now apply contains_app_r.
    + unfold low in E. simpl in E. apply andb_false_iff in E as [E | E];
        apply Nat.ltb_ge in E.
      * left. apply contains_app_r.
        replace (py_step a c) with 3 by (pose proof (py_step_le a c); lia).
        apply (contains_head ".py").
      * right. apply contains_app_r.
        replace (usage_word_step b c) with 5
          by (pose proof (usage_word_step_le b c); lia).
        apply (contains_head "usage").
Qed.

Lemma no_example_words_quiet (s : string) :
  no_example_words s = true -> quiet s = true.
Proof.
  unfold no_example_words, quiet. intros H.
  apply andb_true_iff in H as [Hu Hp].
  apply andb_true_iff in Hu as [Hu _].
  apply negb_true_iff in Hu. apply negb_true_iff in Hp.
  destruct (low (example_scan (0, 0) s)) eqn:E; [reflexivity |].
  destruct (high_contains s 0 0 eq_refl E) as [I | I]; simpl in I; congruence.
Qed.

Lemma word_hits (w : string) :
  (forall st, low st = true -> low (example_scan st w) = false) ->
  forall st t, low (example_scan st (w ++ t)) = false.
Proof.
  intros Hw st t. rewrite example_scan_app.
  destruct (low st) eqn:E.
  - now rewrite example_scan_high; apply Hw.
  - now rewrite !example_scan_high; rewrite ?example_scan_high.
Qed.

Lemma low_states (st : nat * nat) :
  low st = true ->
  exists a b, st = (a, b) /\ In a [0; 1; 2] /\ In b [0; 1; 2; 3; 4].
Proof.
  destruct st as [a b]. unfold low. simpl. intros H.
  apply andb_true_iff in H as [Ha Hb].
  apply Nat.ltb_lt in Ha. apply Nat.ltb_lt in Hb.
  exists a, b. split; [reflexivity |]. simpl. lia.
Qed.

Ltac each_low_state st :=
  let a := fresh "a" in
  let b := fresh "b" in
  let Ha := fresh "Ha" in
  let Hb := fresh "Hb" in
  match goal with
  | H : low st = true |- _ =>
      destruct (low_states st H) as [a [b [-> [Ha Hb]]]];
      simpl in Ha, Hb;
      repeat (destruct Ha as [<- | Ha]; [| try contradiction]);
      repeat (destruct Hb as [<- | Hb]; [| try contradiction])
  end.

Lemma contains_py_high (s : string) :
  contains ".py" s = true -> forall st, low (example_scan st s) = false.
Proof.
  induction s as [| c s IH]; intros H st; [discriminate |].
  change (contains ".py" (String c s))
    with (starts_with ".py" (String c s) || contains ".py" s) in H.
  apply orb_true_iff in H as [H | H].
  - apply starts_with_app in H as [t ->]. apply word_hits.
    intros st' Hst. each_low_state st'; reflexivity.
  - simpl. now apply IH.
Qed.

Lemma letter_hits (c : ascii) (t : string) (n : nat) :
  (forall st, snd st = n -> low (example_scan st t) = false) ->
  forall st, usage_word_step (snd st) c = n ->
    low (example_scan st (String c t)) = false.
Proof.
  intros Ht st Hc. destruct (low st) eqn:E;
    [| now rewrite example_scan_high].
  simpl. apply Ht. unfold example_step. rewrite E. exact Hc.
Qed.

Lemma usage_letters_high (c1 c2 c3 c4 c5 : ascii) (t : string) :
  lower_char c1 = "u"%char -> lower_char c2 = "s"%char ->
  lower_char c3 = "a"%char -> lower_char c4 = "g"%char ->
  lower_char c5 = "e"%char ->
  forall st,
    low (example_scan st
           (String c1 (String c2 (String c3 (String c4 (String c5 t))))))
    = false.
Proof.
  intros H1 H2 H3 H4 H5 st.
  apply (letter_hits c1 _ 1);
    [| unfold usage_word_step; cbv zeta; now rewrite H1].
  intros st1 E1. apply (letter_hits c2 _ 2);
    [| unfold usage_word_step; cbv zeta; now rewrite H2, E1].
  intros st2 E2. apply (letter_hits c3 _ 3);
    [| unfold usage_word_step; cbv zeta; now rewrite H3, E2].
  intros st3 E3. apply (letter_hits c4 _ 4);
    [| unfold usage_word_step; cbv zeta; now rewrite H4, E3].
  intros st4 E4. apply (letter_hits c5 _ 5);
    [| unfold usage_word_step; cbv zeta; now rewrite H5, E4].
  intros st5 E5. rewrite example_scan_high; unfold low; rewrite E5;
    apply andb_false_r.
Qed.

Lemma after_usage_eq (s : string) :
  ScriptsIndex.after_usage s
  = if String.eqb (lower (substring 0 6 s)) "usage:" then Some (drop 6 s)
    else match s with
         | EmptyString => None
         | String _ r => ScriptsIndex.after_usage r
         end.
Proof. destruct s; reflexivity. Qed.

Lemma after_usage_high (s : string) :
  forall t, ScriptsIndex.after_usage s = Some t ->
    forall st, low (example_scan st s) = false.
Proof.
  induction s as [| c s IH]; intros t H st; rewrite after_usage_eq in H.
  - discriminate.
  - destruct (String.eqb _ "usage:") eqn:E.
    + apply String.eqb_eq in E.
      destruct s as [| c2 [| c3 [| c4 [| c5 [| c6 r]]]]];
        try discriminate E.
      simpl in E. injection E as E1 E2 E3 E4 E5 E6.
      now apply usage_letters_high.
    + simpl. now apply (IH t).
Qed.

Lemma quiet_no_usage_block (s : string) :
  quiet s = true -> ScriptsIndex.after_usage s = None.
Proof.
  unfold quiet. intros H.
  destruct (ScriptsIndex.after_usage s) as [t |] eqn:E; [| reflexivity].
  now rewrite (after_usage_high s t E) in H.
Qed.

Lemma lstrip_by_suffix (f : ascii -> bool) (s : string) :
  exists a, s = a ++ lstrip_by f s.
Proof.
  induction s as [| c s [a IH]]; [now exists EmptyString |].
  simpl. destruct (f c); [| now exists EmptyString].
  exists (String c a). simpl. now rewrite <- IH.
Qed.

Lemma quiet_lstrip_by (f : ascii -> bool) (s : string) :
  quiet s = true -> quiet (lstrip_by f s) = true.
Proof.
  destruct (lstrip_by_suffix f s) as [a Ha]. rewrite Ha at 1.
  apply quiet_app_r.
Qed.

Lemma quiet_rstrip_by (f : ascii -> bool) (s : string) :
  quiet s = true -> quiet (rstrip_by f s) = true.
Proof.
  destruct (rstrip_by_prefix f s) as [b Hb]. rewrite Hb at 1.
  apply quiet_app_l.
Qed.

Lemma quiet_strip_by (f : ascii -> bool) (s : string) :
  quiet s = true -> quiet (strip_by f s) = true.
Proof. intros H. now apply quiet_rstrip_by, quiet_lstrip_by. Qed.

Lemma quiet_substring (n : nat) (s : string) :
  quiet s = true -> quiet (substring 0 n s) = true.
Proof.
  destruct (substring_prefix n s) as [b Hb]. rewrite Hb at 1.
  apply quiet_app_l.
Qed.

Lemma quiet_concat_inv (ls : list string) :
  quiet (String.concat EmptyString ls) = true ->
  Forall (fun l => quiet l = true) ls.
Proof.
  induction ls as [| l ls IH]; [constructor |].
  rewrite concat_empty_cons. intros H. constructor.
  - now apply quiet_app_l in H.
  - now apply IH, (quiet_app_r l).
Qed.

Lemma quiet_splitlines_keepends (s : string) :
  quiet s = true -> Forall (fun l => quiet l = true) (splitlines_keepends s).
Proof.
  intros H. apply quiet_concat_inv.
  now rewrite (splitlines_concat_bounded (String.length s) s (le_n _)).
Qed.

Lemma until_line_feed_prefix (s : string) :
  exists b, s = ScriptsIndex.until_line_feed s ++ b.
Proof.
  induction s as [| c s [b IH]]; [now exists EmptyString |].
  simpl. destruct (is_char 10 c); [now exists (String c s) |].
  exists b. simpl. now rewrite <- IH.
Qed.

Lemma quiet_no_script_command (s : string) :
  forall prev, quiet s = true -> ScriptsIndex.has_script_command prev s = false.
Proof.
  assert (Hat : forall s prev, quiet s = true ->
                  ScriptsIndex.script_command_at prev s = false).
  { intros t prev H. unfold ScriptsIndex.script_command_at.
    apply (quiet_drop 6) in H.
    destruct (until_line_feed_prefix (drop 6 t)) as [b Hb].
    rewrite Hb in H. apply quiet_app_l in H.
    destruct (contains ".py" _) eqn:E; [| apply andb_false_r].
    unfold quiet in H. now rewrite (contains_py_high _ E) in H. }
  induction s as [| c s IH]; intros prev H.
  - unfold ScriptsIndex.has_script_command. now rewrite Hat.
  - change (ScriptsIndex.has_script_command prev (String c s))
      with (ScriptsIndex.script_command_at prev (String c s)
            || ScriptsIndex.has_script_command (Some c) s).
    rewrite (Hat _ _ H). apply IH.
    now apply (quiet_app_r (String c EmptyString)).
Qed.

Lemma fallback_examples_none (lines : list string) :
  Forall (fun l => ScriptsIndex.has_script_command None (strip l) = false)
    lines ->
  ScriptsIndex.fallback_examples lines [] = [].
Proof.
  induction 1 as [| l ls Hl Hls IH]; [reflexivity |].
  unfold ScriptsIndex.fallback_examples; fold ScriptsIndex.fallback_examples.
  cbv zeta. rewrite Hl. exact IH.
Qed.

(** A text that mentions neither pattern gives the index no example. *)
Lemma quiet_no_usage_examples (content : string) :
  quiet content = true -> ScriptsIndex.extract_usage_examples content = [].
Proof.
  intros H. unfold ScriptsIndex.extract_usage_examples.
  rewrite (quiet_no_usage_block content H).
  rewrite fallback_examples_none; [reflexivity |].
  unfold ScriptsIndex.splitlines. apply Forall_map.
  eapply Forall_impl; [| apply quiet_splitlines_keepends, H].
  intros l Hl. simpl. apply quiet_no_script_command.
  now apply quiet_strip_by, quiet_rstrip_by.
Qed.

Lemma example_scan_universal_newlines (s : string) :
  forall st,
    example_scan st (ScriptsIndex.universal_newlines s) = example_scan st s.
Proof.
  assert (Hbreak : forall st c,
             is_char 13 c = true ->
             example_step st (ascii_of_nat 10) = example_step st c).
  { intros st c Hc. apply is_char_inv in Hc. subst c.
    destruct (low st) eqn:E; unfold example_step; rewrite E; [| reflexivity].
    each_low_state st; reflexivity. }
  assert (Htwo : forall st,
             example_step (example_step st (ascii_of_nat 13)) (ascii_of_nat 10)
             = example_step st (ascii_of_nat 10)).
  { intros st. destruct (low st) eqn:E.
    - each_low_state st; reflexivity.
    - unfold example_step. now rewrite !E. }
  induction s as [| c s IH]; intros st; [reflexivity |].
  unfold ScriptsIndex.universal_newlines;
    fold ScriptsIndex.universal_newlines.
  destruct (is_char 13 c) eqn:Ec.
  - destruct s as [| d r].
    + simpl. now apply Hbreak.
    + destruct (is_char 10 d) eqn:Ed.
      * apply is_char_inv in Ec, Ed. subst c d.
        specialize (IH (example_step st (ascii_of_nat 13))).
        unfold ScriptsIndex.universal_newlines in IH;
          fold ScriptsIndex.universal_newlines in IH.
        change (is_char 13 (ascii_of_nat 10)) with false in IH.
        cbv iota in IH. simpl in IH. simpl. rewrite <- IH.
        now rewrite Htwo.
      * simpl. rewrite (Hbreak st c Ec). apply IH.
  - simpl. apply IH.
Qed.

Lemma quiet_read_file_head (es : dir) (path : Path) (max_bytes : nat)
    (text : string) :
  quiet text = true -> lookup es path = Some (File text) ->
  quiet (ScriptsIndex.read_file_head es path max_bytes) = true.
Proof.
  intros H Hf. unfold ScriptsIndex.read_file_head. rewrite Hf.
  apply quiet_substring. unfold quiet.
  now rewrite example_scan_universal_newlines.
Qed.

(** The string operations of the templates keep a text quiet. *)
Lemma example_scan_resets (st : nat * nat) (p : string) :
  low st = true -> head_resets p = true ->
  example_scan st p = example_scan (0, 0) p.
Proof.
  intros Hl Hp. destruct p as [| c r]; [discriminate |].
  simpl. now rewrite (example_step_resets st c Hl Hp).
Qed.

Lemma quiet_join (sep : string) (ls : list string) :
  head_resets sep = true -> example_scan (0, 0) sep = (0, 0) ->
  Forall (fun l => quiet l = true) ls -> quiet (join sep ls) = true.
Proof.
  intros Hh Hs. induction 1 as [| p ps Hp Hps IH]; [reflexivity |].
  destruct ps as [| q ps]; [exact Hp |].
  change (join sep (p :: q :: ps)) with (p ++ sep ++ join sep (q :: ps)).
  unfold quiet. rewrite !example_scan_app, (after_quiet p sep Hp Hh), Hs.
  exact IH.
Qed.

Lemma quiet_unlines (lines : list string) :
  Forall (fun l => quiet l = true) lines ->
  example_scan (0, 0) (unlines lines) = (0, 0).
Proof.
  induction 1 as [| l ls Hl Hls IH]; [reflexivity |].
  rewrite unlines_cons, !example_scan_app.
  now rewrite (after_quiet l nl Hl eq_refl).
Qed.

Lemma split_on_head (sep : ascii) (s : string) :
  exists h t b, split_on sep s = h :: t /\ s = h ++ b.
Proof.
  induction s as [| c s [h [t [b [E Hb]]]]].
  - now exists EmptyString, [], EmptyString.
  - simpl. destruct (Ascii.eqb c sep).
    + exists EmptyString, (split_on sep s), (String c s). now split.
    + rewrite E. exists (String c h), t, b. split; [reflexivity |].
      simpl. now rewrite <- Hb.
Qed.

Lemma quiet_split_on (sep : ascii) (s : string) :
  quiet s = true -> Forall (fun l => quiet l = true) (split_on sep s).
Proof.
  induction s as [| c s IH]; intros H.
  - repeat constructor.
  - destruct (split_on_head sep (String c s)) as [h [t [b [E Hb]]]].
    rewrite E. constructor.
    + rewrite Hb in H. now apply quiet_app_l in H.
    + assert (Hs : quiet s = true)
        by now apply (quiet_app_r (String c EmptyString)).
      specialize (IH Hs). simpl in E. destruct (Ascii.eqb c sep).
      * injection E as _ <-. exact IH.
      * destruct (split_on sep s) as [| h' t']; injection E as _ <-;
          [constructor | now inversion IH].
Qed.

Lemma quiet_dedent (text : string) :
  quiet text = true -> quiet (dedent text) = true.
Proof.
  intros H. unfold dedent. apply quiet_join; [reflexivity | reflexivity |].
  apply Forall_map, Forall_map.
  eapply Forall_impl; [| apply quiet_split_on, H].
  intros l Hl. simpl.
  destruct (forallb is_blank l); destruct (starts_with _ _);
    try reflexivity; try assumption; now apply quiet_drop.
Qed.

Lemma line_break_resets (c : ascii) :
  is_line_break c = true ->
  resets c = true /\ example_step (0, 0) c = (0, 0).
Proof.
  destruct c as [[] [] [] [] [] [] [] []]; intros H; try discriminate H;
    split; reflexivity.
Qed.

Lemma settles_break (c : ascii) :
  is_line_break c = true -> settles (String c EmptyString).
Proof.
  intros Hc st H. destruct (line_break_resets c Hc) as [Hr H0].
  simpl in *. pose proof H as Hl. unfold example_step in Hl.
  destruct (low st) eqn:E; [| congruence].
  now rewrite (example_step_resets st c E Hr).
Qed.

Lemma settles_cons (c : ascii) (h : string) :
  settles h -> settles (String c h).
Proof. intros H st. simpl. apply H. Qed.

Lemma closed_lines_cons (c : ascii) (h : string) (t : list string) :
  closed_lines (h :: t) -> closed_lines (String c h :: t).
Proof.
  destruct t as [| l t]; [trivial |]. intros [Hh Ht].
  split; [now apply settles_cons | exact Ht].
Qed.

Lemma closed_lines_settled (l : string) (ls : list string) :
  settles l -> closed_lines ls -> closed_lines (l :: ls).
Proof. intros Hl Hls. destruct ls; [exact I | now split]. Qed.

Lemma closed_lines_splitlines_bounded (n : nat) :
  forall s, String.length s <= n -> closed_lines (splitlines_keepends s).
Proof.
  induction n as [| n IH]; intros s Hlen.
  - destruct s; [exact I | simpl in Hlen; lia].
  - destruct s as [| c r]; [exact I |].
    simpl in Hlen. simpl splitlines_keepends.
    destruct (is_line_break c) eqn:Ec.
    + destruct r as [| d r']; [exact I |].
      simpl in Hlen.
      destruct (is_char 13 c && is_char 10 d) eqn:E.
      * apply closed_lines_settled; [| apply IH; lia].
        apply settles_cons, settles_break.
        apply andb_true_iff in E as [_ E]. apply is_char_inv in E. now subst d.
      * apply closed_lines_settled; [now apply settles_break |].
        apply IH. simpl. lia.
    + pose proof (IH r ltac:(lia)) as Hr.
      destruct (splitlines_keepends r) as [| h t]; [exact I |].
      now apply closed_lines_cons.
Qed.

Lemma quiet_closed_concat (g : string -> string) (ls : list string) :
  (forall l, quiet l = true -> quiet (g l) = true) ->
  (forall l, quiet l = true -> settles l -> settles (g l)) ->
  closed_lines ls -> Forall (fun l => quiet l = true) ls ->
  quiet (String.concat EmptyString (map g ls)) = true.
Proof.
  intros Hq Hs Hc Hall. induction Hall as [| l rest Hl Hrest IH];
    [reflexivity |].
  rewrite map_cons, concat_empty_cons.
  destruct rest as [| l' rest'].
  - simpl. rewrite append_nil_r. now apply Hq.
  - destruct Hc as [Hsl Hc]. unfold quiet. rewrite example_scan_app.
    rewrite (Hs l Hl Hsl (0, 0) (Hq l Hl)). now apply IH.
Qed.

Lemma quiet_indent (text prefix : string) :
  quiet text = true -> example_scan (0, 0) prefix = (0, 0) ->
  quiet (indent text prefix) = true.
Proof.
  intros Ht Hp. unfold indent. apply quiet_closed_concat.
  - intros l Hl. destruct (existsb _ l); [| exact Hl]. now apply quiet_app.
  - intros l Hl Hs. destruct (existsb _ l); [| exact Hs].
    intros st H. rewrite example_scan_app in *.
    now apply Hs.
  - apply (closed_lines_splitlines_bounded (String.length text)). lia.
  - now apply quiet_splitlines_keepends.
Qed.

Lemma repr_char_cases (q c : ascii) :
  q = ascii_of_nat 34 \/ q = ascii_of_nat 39 ->
  repr_char q c = String c EmptyString
  \/ (head_resets (repr_char q c) = true
      /\ example_scan (0, 0) (repr_char q c) = (0, 0)).
Proof.
  intros [-> | ->]; destruct c as [[] [] [] [] [] [] [] []];
    first [left; reflexivity | right; split; reflexivity].
Qed.

Lemma quiet_repr_body (q : ascii) (s : string) :
  q = ascii_of_nat 34 \/ q = ascii_of_nat 39 ->
  forall s0 s1, below s0 s1 ->
    low (example_scan s1 s) = true ->
    low (example_scan s0 (repr_body q s)) = true.
Proof.
  intros Hq. induction s as [| c r IH]; intros s0 s1 Hb H.
  - exact (below_low s0 s1 Hb H).
  - assert (Hl1 : low s1 = true) by exact (low_example_scan _ _ H).
    pose proof (below_low s0 s1 Hb Hl1) as Hl0.
    change (repr_body q (String c r)) with (repr_char q c ++ repr_body q r).
    rewrite example_scan_app. simpl in H.
    destruct (repr_char_cases q c Hq) as [-> | [Hh Hc]].
    + apply (IH _ (example_step s1 c)); [| exact H].
      now apply example_step_below.
    + rewrite (example_scan_resets s0 _ Hl0 Hh), Hc.
      apply (IH _ (example_step s1 c)); [apply below_start | exact H].
Qed.

Lemma repr_settled (s : string) :
  quiet s = true -> example_scan (0, 0) (repr s) = (0, 0).
Proof.
  intros H. unfold repr.
  set (q := if existsb (is_char 39) s && negb (existsb (is_char 34) s)
            then ascii_of_nat 34 else ascii_of_nat 39).
  assert (Hq : q = ascii_of_nat 34 \/ q = ascii_of_nat 39)
    by (unfold q; destruct (_ && _); auto).
  pose proof (quiet_repr_body q s Hq (0, 0) (0, 0) (below_start _) H) as Hb.
  assert (H0 : example_step (0, 0) q = (0, 0))
    by (destruct Hq as [-> | ->]; reflexivity).
  assert (Hr : head_resets (String q EmptyString) = true)
    by (destruct Hq as [-> | ->]; reflexivity).
  change (example_scan (0, 0) (String q (repr_body q s ++ String q EmptyString)))
    with (example_scan (example_step (0, 0) q)
            (repr_body q s ++ String q EmptyString)).
  rewrite H0, example_scan_app, (example_scan_resets _ _ Hb Hr).
  simpl. exact H0.
Qed.

Lemma quiet_repr (s : string) : quiet s = true -> quiet (repr s) = true.
Proof. intros H. unfold quiet. now rewrite repr_settled. Qed.

Lemma example_scan_hyphens (s : string) :
  forall st,
    example_scan st (underscores_to_hyphens s) = example_scan st s.
Proof.
  induction s as [| c s IH]; intros st; [reflexivity |].
  simpl. rewrite IH. f_equal.
  destruct (is_char 95 c) eqn:E; [| reflexivity].
  apply is_char_inv in E. subst c.
  destruct (low st) eqn:El.
  - each_low_state st; reflexivity.
  - unfold example_step. now rewrite El.
Qed.

Lemma quiet_hyphens (s : string) :
  quiet s = true -> quiet (underscores_to_hyphens s) = true.
Proof. unfold quiet. now rewrite example_scan_hyphens. Qed.

(** The literal of a number is quiet. *)
Lemma is_digit_literal_char (c : ascii) :
  is_digit c = true -> literal_char c = true.
Proof. unfold literal_char. now intros ->. Qed.

Lemma int_str_literal (val s : string) :
  PyNum.int_str val = Some s -> forallb literal_char s = true.
Proof.
  unfold PyNum.int_str. destruct (PyNum.split_sign (PyNum.strip_number val)) as [neg body].
  destruct (PyNum.digits_ok body); [| discriminate].
  assert (Hd : forallb literal_char
                 (lstrip_by (is_char 48) (filter is_digit body)) = true).
  { apply forallb_lstrip_by.
    apply (forallb_impl is_digit); [apply is_digit_literal_char |].
    apply forallb_filter_self. }
  destruct (lstrip_by (is_char 48) (filter is_digit body)) as [| c d].
  - intros H. now injection H as <-.
  - intros H. injection H as <-.
    destruct neg; [| exact Hd]. simpl. simpl in Hd. exact Hd.
Qed.

Lemma format_repr_literal (ds : string) (decpt : Z) :
  forallb is_digit ds = true ->
  forallb literal_char (PyNum.format_repr ds decpt) = true.
Proof.
  intros Hds.
  assert (Hf : forallb literal_char ds = true)
    by (apply (forallb_impl is_digit); [apply is_digit_literal_char | assumption]).
  assert (Hdig : forall n, forallb literal_char (PyNum.digits_of n) = true).
  { intros n. apply (forallb_impl is_digit);
      [apply is_digit_literal_char | apply digits_of_digits]. }
  assert (Hz : forall n, forallb literal_char (PyNum.zeros n) = true)
    by (intros n; now apply forallb_repeat_char).
  unfold PyNum.format_repr. cbv zeta.
  destruct ((decpt <=? -4)%Z || (16 <? decpt)%Z).
  - rewrite !forallb_app, Hdig.
    assert (Hm : forallb literal_char
                   match ds with
                   | String c (String _ _ as r) => String c "." ++ r
                   | _ => ds
                   end = true).
    { destruct ds as [| c [| c' r]]; assumption. }
    rewrite Hm. now destruct (_ <? 0)%Z, (_ <? 10)%Z.
  - destruct (decpt <=? 0)%Z.
    + now rewrite !forallb_app, Hz, Hf.
    + destruct (_ <=? decpt)%Z.
      * now rewrite !forallb_app, Hz, Hf.
      * rewrite !forallb_app, !forallb_substring by assumption. reflexivity.
Qed.

Lemma float_str_literal (val s : string) :
  PyNum.float_str val = Some s -> forallb literal_char s = true.
Proof.
  unfold PyNum.float_str. destruct (PyNum.parse_float val) as [f |];
    [| discriminate].
  intros H. injection H as <-.
  destruct f as [| neg | neg | neg mant ex]; simpl;
    try reflexivity; try (now destruct neg).
  pose proof (shortest_from_digits 16 1 mant ex) as Hs.
  unfold PyNum.shortest_digits. cbv zeta.
  match goal with |- context [PyNum.shortest_from 16 1 mant ex ?a ?b ?c] =>
    specialize (Hs a b c); destruct (PyNum.shortest_from 16 1 mant ex a b c)
      as [ds decpt] end.
  simpl in Hs. rewrite forallb_app, (format_repr_literal ds decpt Hs).
  now destruct neg.
Qed.

Lemma literal_char_step (c : ascii) :
  literal_char c = true ->
  is_char 112 c = false /\ is_char 117 (lower_char c) = false.
Proof.
  destruct c as [[] [] [] [] [] [] [] []]; intros H; try discriminate H;
    split; reflexivity.
Qed.

Lemma literal_scan (s : string) :
  forallb literal_char s = true ->
  forall a, a <= 1 ->
    exists a', a' <= 1 /\ example_scan (a, 0) s = (a', 0).
Proof.
  induction s as [| c s IH]; intros H a Ha; [now exists a |].
  simpl in H. apply andb_true_iff in H as [Hc Hs].
  destruct (literal_char_step c Hc) as [Hp Hu].
  assert (Hstep : exists a', a' <= 1 /\ example_step (a, 0) c = (a', 0)).
  { unfold example_step, py_step, usage_word_step. cbv zeta. simpl fst.
    simpl snd. rewrite Hu.
    destruct a as [| [| a]]; [| | lia]; simpl low; cbv iota;
      destruct (is_char 46 c); rewrite ?Hp; eauto. }
  destruct Hstep as [a' [Ha' E]]. simpl. rewrite E. now apply IH.
Qed.

Lemma literal_quiet (s : string) :
  forallb literal_char s = true -> quiet s = true.
Proof.
  intros H. destruct (literal_scan s H 0 (le_S _ _ (le_n 0))) as [a [Ha E]].
  unfold quiet. rewrite E. now destruct a as [| [| a]]; [| | lia].
Qed.

Lemma python_cast_value_quiet (typ val s : string) :
  quiet val = true -> python_cast_value typ val = Ok s -> quiet s = true.
Proof.
  intros Hval. unfold python_cast_value.
  destruct (String.eqb typ "str");
    [intros H; injection H as <-; now apply quiet_repr |].
  destruct (String.eqb typ "int").
  { destruct (PyNum.int_str val) eqn:E; [| discriminate].
    intros H. injection H as <-.
    now apply literal_quiet, (int_str_literal val). }
  destruct (String.eqb typ "float").
  { destruct (PyNum.float_str val) eqn:E; [| discriminate].
    intros H. injection H as <-.
    now apply literal_quiet, (float_str_literal val). }
  destruct (String.eqb typ "bool").
  { destruct (mem (lower val) _); [intros H; now injection H as <- |].
    destruct (mem (lower val) _); [intros H; now injection H as <- | discriminate]. }
  intros H. injection H as <-. now apply quiet_repr.
Qed.

(** The scan of a line of a template: a piece of the template is read by
    evaluation, a text of the request is quiet by hypothesis, and the piece
    that follows it starts the scan again. *)
Ltac is_piece s :=
  lazymatch s with
  | String _ _ => idtac
  | EmptyString => idtac
  | dq => idtac
  | tq => idtac
  | bs => idtac
  | nl => idtac
  | spaces _ => idtac
  end.

Ltac scan_step :=
  match goal with
  | H : quiet ?x = true
    |- context [example_scan (example_scan (0, 0) ?x) ?p] =>
      rewrite (after_quiet x p H eq_refl)
  | |- context [example_scan (?a, ?b) ?s] =>
      is_piece s;
      let v := eval vm_compute in (example_scan (a, b) s) in
      change (example_scan (a, b) s) with v
  end.

Ltac quiet_line :=
  unfold quiet; rewrite ?example_scan_app; repeat scan_step;
  first [ reflexivity
        | match goal with H : quiet ?x = true |- _ => exact H end ].

Ltac quiet_lines :=
  repeat (apply Forall_cons; [quiet_line |]); apply Forall_nil.

Ltac split_quiet H :=
  repeat match type of H with
         | (_ && _) = true =>
             let H' := fresh "Hquiet" in apply andb_true_iff in H as [H H']
         end.

Lemma option_text_quiet (b : option_block) :
  block_quiet b = true -> quiet (option_text b) = true.
Proof.
  destruct b as [n d | n t | n t d sd]; simpl block_quiet; intros H;
    split_quiet H; unfold option_text;
    apply quiet_dedent, quiet_rstrip_by;
    (apply quiet_app; [reflexivity |]);
    (apply quiet_app; [| reflexivity]);
    apply quiet_unlines; quiet_lines.
Qed.

Lemma quiet_click_type (t : string) : quiet (click_type t) = true.
Proof.
  unfold click_type.
  repeat match goal with |- context [if ?b then _ else _] => destruct b end;
    reflexivity.
Qed.

Lemma quiet_script_type (t : string) :
  quiet (script_type (click_type t)) = true.
Proof.
  unfold click_type.
  repeat match goal with
         | |- context [if String.eqb t ?x then _ else _] =>
             destruct (String.eqb t x)
         end;
    reflexivity.
Qed.

Lemma default_or_false_quiet (d : option string) :
  match d with Some x => quiet x | None => true end = true ->
  quiet (default_or_false d) = true.
Proof. destruct d as [[| c r] |]; auto. Qed.

Lemma cli_option_quiet (p : ParamSpec) (b : option_block) :
  param_quiet p = true -> cli_option p = Ok b -> block_quiet b = true.
Proof.
  unfold param_quiet, cli_option. intros Hp.
  apply andb_true_iff in Hp as [Hn Hd].
  destruct (String.eqb (type p) "bool").
  - destruct (required p); simpl.
    + intros H. injection H as <-. simpl. now rewrite Hn.
    + destruct (python_cast_value _ _) as [s |] eqn:E; simpl; [| discriminate].
      intros H. injection H as <-. simpl. rewrite Hn.
      apply (python_cast_value_quiet _ _ _ (default_or_false_quiet _ Hd) E).
  - destruct (required p); simpl.
    + intros H. injection H as <-. simpl.
      now rewrite Hn, quiet_click_type.
    + destruct (default p) as [d |].
      * destruct (python_cast_value _ _) as [s |] eqn:E; simpl; [| discriminate].
        intros H. injection H as <-. simpl.
        rewrite Hn, quiet_click_type, (python_cast_value_quiet _ _ _ Hd E).
        reflexivity.
      * simpl. intros H. injection H as <-. simpl.
        now rewrite Hn, quiet_click_type.
Qed.

Lemma retype_block_quiet (p : ParamSpec) (b : option_block) :
  cli_option p = Ok b -> block_quiet b = true ->
  block_quiet (retype_block b) = true.
Proof.
  intros Hb Hq. pose proof (cli_option_declared_type p b Hb) as Hty.
  destruct b as [n d | n t | n t d sd]; simpl in Hty;
    cbn [block_quiet retype_block] in *; [exact Hq | |];
    destruct (String.eqb (type p) "bool"); try discriminate;
    injection Hty as ->; split_quiet Hq;
    rewrite quiet_script_type, Hq;
    repeat match goal with H : quiet _ = true |- _ => rewrite H; clear H end;
    reflexivity.
Qed.

Lemma script_option_quiet (p : ParamSpec) (b : option_block) :
  param_quiet p = true -> script_option p = Ok b -> block_quiet b = true.
Proof.
  intros Hp. rewrite script_option_retype.
  destruct (cli_option p) as [b0 |] eqn:Hb; simpl; [| discriminate].
  intros H. injection H as <-.
  apply (retype_block_quiet p b0 Hb). now apply (cli_option_quiet p).
Qed.

Lemma param_no_example_words_quiet (p : ParamSpec) :
  param_no_example_words p = true -> param_quiet p = true.
Proof.
  unfold param_no_example_words, param_quiet. intros H.
  apply andb_true_iff in H as [Hn Hd].
  rewrite (no_example_words_quiet _ Hn).
  destruct (default p); [now apply no_example_words_quiet | reflexivity].
Qed.

Lemma params_quiet (params : list ParamSpec) :
  List.forallb param_no_example_words params = true ->
  List.forallb param_quiet params = true
  /\ forall p, In p params -> quiet (name p) = true.
Proof.
  intros H. rewrite forallb_forall in H. split.
  - apply forallb_forall. intros p Hp.
    now apply param_no_example_words_quiet, H.
  - intros p Hp. specialize (H p Hp).
    apply param_no_example_words_quiet in H.
    now apply andb_true_iff in H as [H _].
Qed.

Lemma description_line_quiet (description : option string) (fallback : string) :
  match description with Some d => quiet d | None => true end = true ->
  quiet fallback = true ->
  quiet (description_line description fallback) = true.
Proof.
  intros Hd Hf. destruct description as [[| c r] |]; simpl; try assumption.
  now apply quiet_strip_by.
Qed.

Lemma Forall_map_quiet {A : Type} (f : A -> string) (l : list A) :
  (forall a, In a l -> quiet (f a) = true) ->
  Forall (fun s => quiet s = true) (map f l).
Proof.
  intros H. apply Forall_map, Forall_forall. intros a Ha. exact (H a Ha).
Qed.

Ltac request_quiet Hreq :=
  unfold request_no_example_words in Hreq;
  let Hdesc := fresh "Hdesc" in
  let Hparams := fresh "Hparams" in
  let Hend := fresh "Hend" in
  let Hapi := fresh "Hapi" in
  let Hbin := fresh "Hbin" in
  let Hsnake := fresh "Hsnake" in
  apply andb_true_iff in Hreq as [Hreq Hdesc];
  apply andb_true_iff in Hreq as [Hreq Hparams];
  apply andb_true_iff in Hreq as [Hreq Hend];
  apply andb_true_iff in Hreq as [Hreq Hapi];
  apply andb_true_iff in Hreq as [Hreq Hbin];
  apply andb_true_iff in Hreq as [Hreq Hsnake];
  apply no_example_words_quiet in Hreq, Hsnake, Hbin, Hapi, Hend.

Lemma description_quiet (description : option string) :
  match description with Some d => no_example_words d | None => true end
  = true ->
  match description with Some d => quiet d | None => true end = true.
Proof. destruct description; [apply no_example_words_quiet | trivial]. Qed.

Lemma cli_content_quiet
    (name binary api_base_url endpoint : string) (params : list ParamSpec)
    (description : option string) (text : string) :
  request_no_example_words name binary api_base_url endpoint params description
  = true ->
  generate_cli_content name binary api_base_url endpoint params description
  = Ok text ->
  quiet text = true.
Proof.
  intros Hname H. request_quiet Hname.
  apply description_quiet in Hdesc.
  destruct (params_quiet params Hparams) as [Hpq Hnames].
  unfold generate_cli_content in H.
  destruct (mapM cli_option params) as [blocks |] eqn:Hblocks;
    cbv beta iota zeta delta [bind] in H; [| discriminate].
  apply Ok_inj in H. subst text.
  pose proof (mapM_Forall cli_option param_quiet block_quiet params
                blocks cli_option_quiet Hpq Hblocks) as Hb.
  assert (P1 : quiet (repr (binary ++ "/1.0")) = true)
    by (apply quiet_repr; quiet_line).
  assert (P2 : quiet (repr api_base_url) = true) by now apply quiet_repr.
  assert (P3 : quiet (repr (underscores_to_hyphens name)) = true)
    by now apply quiet_repr, quiet_hyphens.
  assert (P4 : quiet
                 (indent (join nl (map option_text blocks ++ [cli_json_option])%list)
                    EmptyString) = true).
  { apply quiet_indent; [| reflexivity].
    apply quiet_join; [reflexivity | reflexivity |].
    apply Forall_app. split; [| repeat constructor].
    apply Forall_map. eapply Forall_impl; [| exact Hb].
    intros b. apply option_text_quiet. }
  assert (P6 : quiet
                 (join ", " (map cli_signature_entry params
                               ++ ["output_json: bool"])%list) = true).
  { apply quiet_join; [reflexivity | reflexivity |]. apply Forall_app.
    split; [| repeat constructor]. apply Forall_map_quiet. intros p Hp.
    unfold cli_signature_entry. pose proof (Hnames p Hp) as Hn.
    destruct (String.eqb (type p) "bool"); [quiet_line |].
    pose proof (quiet_click_type (type p)) as Ht.
    unfold quiet. rewrite !example_scan_app, (after_quiet _ ": " Hn eq_refl).
    exact Ht. }
  assert (P7 : quiet
                 (description_line description (name ++ " subcommand")) = true)
    by (apply description_line_quiet; [assumption | quiet_line]).
  assert (P8 : quiet (repr endpoint) = true) by now apply quiet_repr.
  assert (Hq : quiet
                 (join ("," ++ nl ++ spaces 16) (map query_entry params)) = true).
  { apply quiet_join; [reflexivity | reflexivity |].
    apply Forall_map_quiet. intros p Hp.
    unfold query_entry. pose proof (Hnames p Hp) as Hn. quiet_line. }
  assert (P9 : quiet
                 (indent (join ("," ++ nl ++ spaces 16) (map query_entry params))
                    (spaces 16)) = true)
    by (apply quiet_indent; [exact Hq | reflexivity]).
  assert (P10 : quiet
                  (indent (join ("," ++ nl ++ spaces 16) (map query_entry params))
                     (spaces 20)) = true)
    by (apply quiet_indent; [exact Hq | reflexivity]).
  assert (Hh : quiet (join ", " (map human_param params)) = true).
  { apply quiet_join; [reflexivity | reflexivity |].
    apply Forall_map_quiet. intros p Hp.
    unfold human_param. pose proof (Hnames p Hp) as Hn. quiet_line. }
  pose proof (quiet_hyphens name Hname) as Hhyph.
  match goal with
  | |- context [join (nl ++ spaces 12) ?ls] =>
      assert (P11 : quiet (join (nl ++ spaces 12) ls) = true)
  end.
  { apply quiet_join; [reflexivity | reflexivity |].
    destruct params; repeat constructor; cbv beta; quiet_line. }
  unfold quiet. rewrite quiet_unlines; [reflexivity |].
  quiet_lines.
Qed.

Lemma script_content_quiet
    (name binary api_base_url endpoint : string) (params : list ParamSpec)
    (description : option string) (include_simulate : bool) (text : string) :
  request_no_example_words name binary api_base_url endpoint params description
  = true ->
  generate_script_content name binary api_base_url endpoint params description
    include_simulate = Ok text ->
  quiet text = true.
Proof.
  intros Hname H. request_quiet Hname.
  apply description_quiet in Hdesc.
  destruct (params_quiet params Hparams) as [Hpq Hnames].
  unfold generate_script_content in H.
  destruct (mapM script_option params) as [blocks |] eqn:Hblocks;
    destruct include_simulate;
    cbv beta iota zeta delta [bind] in H; try discriminate;
    apply Ok_inj in H; subst text.
  all: pose proof (mapM_Forall script_option param_quiet block_quiet
                     params blocks script_option_quiet Hpq Hblocks) as Hb.
  all: assert (P1 : quiet (repr (binary ++ "-script/1.0")) = true)
    by (apply quiet_repr; quiet_line).
  all: assert (P2 : quiet (repr api_base_url) = true) by now apply quiet_repr.
  all: assert (P7 : quiet
                      (description_line description (name ++ " script")) = true)
    by (apply description_line_quiet; [assumption | quiet_line]).
  all: assert (P8 : quiet (repr endpoint) = true) by now apply quiet_repr.
  all: assert (Hq : quiet
                      (join ("," ++ nl ++ spaces 20) (map query_entry params))
                    = true)
    by (apply quiet_join; [reflexivity | reflexivity |];
        apply Forall_map_quiet; intros p Hp; unfold query_entry;
        pose proof (Hnames p Hp) as Hn; quiet_line).
  all: assert (P9 : quiet
                      (indent (join ("," ++ nl ++ spaces 20)
                                 (map query_entry params)) (spaces 16)) = true)
    by (apply quiet_indent; [exact Hq | reflexivity]).
  all: assert (P10 : quiet
                       (indent (join ("," ++ nl ++ spaces 20)
                                  (map query_entry params)) (spaces 24)) = true)
    by (apply quiet_indent; [exact Hq | reflexivity]).
  all: assert (P11 : quiet (join ", " (names params)) = true)
    by (apply quiet_join; [reflexivity | reflexivity |];
        apply Forall_map_quiet; exact Hnames).
  all: assert (Hsig : Forall (fun s => quiet s = true)
                        (map script_signature_entry params))
    by (apply Forall_map_quiet; intros p Hp; unfold script_signature_entry;
        pose proof (Hnames p Hp) as Hn;
        destruct (String.eqb (type p) "bool"); [quiet_line | exact Hn]).
  all: assert (Hopts : Forall (fun s => quiet s = true)
                         (map option_text blocks))
    by (apply Forall_map; eapply Forall_impl; [| exact Hb];
        intros b; apply option_text_quiet).
  all: match goal with
       | |- context [join nl ?ls] =>
           assert (P4 : quiet (join nl ls) = true)
             by (apply quiet_join; [reflexivity | reflexivity |];
                 repeat (apply Forall_app; split); try exact Hopts;
                 repeat constructor)
       end.
  all: match goal with
       | |- context [join ", " (map script_signature_entry ?ps ++ ?ls)%list] =>
           assert (P6 : quiet
                          (join ", " (map script_signature_entry ps ++ ls)%list)
                        = true)
             by (apply quiet_join; [reflexivity | reflexivity |];
                 repeat (apply Forall_app; split); try exact Hsig;
                 repeat constructor)
       end.
  - match goal with
    | |- context [strip (dedent ?t)] =>
        assert (P12 : quiet (strip (dedent t)) = true)
    end.
    { apply quiet_strip_by, quiet_dedent.
      apply quiet_app; [reflexivity |].
      apply quiet_app; [| reflexivity].
      apply quiet_unlines. quiet_lines. }
    match goal with
    | P : quiet (strip (dedent ?t)) = true |- _ =>
        set (stub := strip (dedent t)) in *; clearbody stub
    end.
    unfold quiet. rewrite quiet_unlines; [reflexivity |].
    quiet_lines.
  - unfold quiet. rewrite quiet_unlines; [reflexivity |].
    quiet_lines.
Qed.

Lemma quiet_gives_no_example (text : string) :
  quiet text = true ->
  ScriptsIndex.extract_usage_examples text = []
  /\ forall (es : dir) (path : Path) (max_bytes : nat),
       lookup es path = Some (File text) ->
       ScriptsIndex.extract_usage_examples
         (ScriptsIndex.read_file_head es path max_bytes) = [].
Proof.
  intros H. split; [now apply quiet_no_usage_examples |].
  intros es path max_bytes Hf.
  now apply quiet_no_usage_examples, (quiet_read_file_head es path _ text).
Qed.

(** X24: The index finds no usage example in a generated script. The template
    has no [Usage:] block and no line that names a [.py] file after the word
    [python] or the words [uv run], so an example could only come from the
    request. When no text of the request mentions [usage], in any letter case,
    or [.py], and none has a long s, [extract_usage_examples] returns the empty
    list for the rendered script, and also for every head of a file that holds
    it, whatever the number of characters [read_file_head] is asked for. *)
Theorem script_gives_index_no_example
    (name binary api_base_url endpoint : string) (params : list ParamSpec)
    (description : option string) (include_simulate : bool) (text : string) :
  request_no_example_words name binary api_base_url endpoint params description
  = true ->
  generate_script_content name binary api_base_url endpoint params description
    include_simulate = Ok text ->
  ScriptsIndex.extract_usage_examples text = []
  /\ forall (es : dir) (path : Path) (max_bytes : nat),
       lookup es path = Some (File text) ->
       ScriptsIndex.extract_usage_examples
         (ScriptsIndex.read_file_head es path max_bytes) = [].
Proof.
  intros Hreq H. apply quiet_gives_no_example.
  exact (script_content_quiet _ _ _ _ _ _ _ _ Hreq H).
Qed.

(** X25: The same holds for a generated subcommand file: under the same
    condition on the request, the index finds no usage example in it. *)
Theorem cli_gives_index_no_example
    (name binary api_base_url endpoint : string) (params : list ParamSpec)
    (description : option string) (text : string) :
  request_no_example_words name binary api_base_url endpoint params description
  = true ->
  generate_cli_content name binary api_base_url endpoint params description
  = Ok text ->
  ScriptsIndex.extract_usage_examples text = []
  /\ forall (es : dir) (path : Path) (max_bytes : nat),
       lookup es path = Some (File text) ->
       ScriptsIndex.extract_usage_examples
         (ScriptsIndex.read_file_head es path max_bytes) = [].
Proof.
  intros Hreq H. apply quiet_gives_no_example.
  exact (cli_content_quiet _ _ _ _ _ _ _ Hreq H).
Qed.

Lemma script_gives_index_no_example_witness :
  map_result
    (fun text =>
       (ScriptsIndex.extract_usage_examples text,
        ScriptsIndex.extract_usage_examples
          (ScriptsIndex.read_file_head
             [("scripts", Dir [("orders.py", File text)])]
             ["scripts"; "orders.py"] 4096)))
    (generate_script_content "orders" "yourcmd" "https://example.com/api"
       "/orders.json"
       [mkParamSpec "status" "str" false (Some "open");
        mkParamSpec "limit" "int" false (Some "25")]
       (Some "List the open orders of a python shop.") true)
  = Ok ([], []).
Proof.
  destruct (generate_script_content "orders" "yourcmd" "https://example.com/api"
              "/orders.json"
              [mkParamSpec "status" "str" false (Some "open");
               mkParamSpec "limit" "int" false (Some "25")]
              (Some "List the open orders of a python shop.") true)
    as [text | e] eqn:Hrender; [| vm_compute in Hrender; discriminate].
  simpl map_result. f_equal.
  destruct (script_gives_index_no_example "orders" "yourcmd"
              "https://example.com/api" "/orders.json"
              [mkParamSpec "status" "str" false (Some "open");
               mkParamSpec "limit" "int" false (Some "25")]
              (Some "List the open orders of a python shop.") true text
              eq_refl Hrender) as [H1 H2].
  rewrite H1.
  now rewrite (H2 [("scripts", Dir [("orders.py", File text)])]
                 ["scripts"; "orders.py"] 4096 eq_refl).
Defined.

Lemma cli_gives_index_no_example_witness :
  map_result
    (fun text =>
       (ScriptsIndex.extract_usage_examples text,
        ScriptsIndex.extract_usage_examples
          (ScriptsIndex.read_file_head [("cli_orders.py", File text)]
             ["cli_orders.py"] 4096)))
    (generate_cli_content "orders" "yourcmd" "https://example.com/api"
       "/orders.json"
       [mkParamSpec "status" "str" false (Some "open");
        mkParamSpec "limit" "int" false (Some "25")]
       (Some "List the open orders of a python shop."))
  = Ok ([], []).
Proof.
  destruct (generate_cli_content "orders" "yourcmd" "https://example.com/api"
              "/orders.json"
              [mkParamSpec "status" "str" false (Some "open");
               mkParamSpec "limit" "int" false (Some "25")]
              (Some "List the open orders of a python shop."))
    as [text | e] eqn:Hrender; [| vm_compute in Hrender; discriminate].
  simpl map_result. f_equal.
  destruct (cli_gives_index_no_example "orders" "yourcmd"
              "https://example.com/api" "/orders.json"
              [mkParamSpec "status" "str" false (Some "open");
               mkParamSpec "limit" "int" false (Some "25")]
              (Some "List the open orders of a python shop.") text
              eq_refl Hrender) as [H1 H2].
  rewrite H1.
  now rewrite (H2 [("cli_orders.py", File text)] ["cli_orders.py"] 4096
                 eq_refl).
Defined.
